(** * GitOps webhook pipeline (server/webhook.go)

    A shallow embedding of the push-event and SQL-review pipeline of
    [server/webhook.go], followed by the properties its natural-language
    specification states about it.

    Conventions.
    - Go [string]s are Rocq [string]s (sequences of bytes); Go [int]s that
      only serve as identifiers, codes or line numbers are [Z].
    - A Go function returning [(T, error)] returns [result T].
    - The persistence layer, the VCS provider, the SQL-review engine and the
      parsers of package [db] are collaborators: they are fields of the
      records [Store], [Provider], [DBPlugin] and [Codec] and are called as
      oracles.
    - Go maps are stdpp [gmap]s.
    - The functions of the Go standard library the pipeline relies on are
      modelled in the first part ([strings], [path], [path/filepath],
      [unicode/utf8], [encoding/hex], [crypto/sha256], [crypto/hmac],
      [sort]); [sort.Slice], [strings.EqualFold], the goroutine scheduler
      and the outcome of unlocked map writes made at once are fields of
      [GoRuntime], so that a property can be stated for every runtime that
      keeps a contract, and run on the sort of Go 1.19 ([GoSort.Slice]).

    The file has two parts: the embedding (definitions only), then the
    lemmas and theorems. *)

From Stdlib Require Import ZArith NArith List String Ascii Bool Lia.
From Stdlib Require Import Numbers.DecimalString.
From stdpp Require Import base decidable option list sorting strings gmap
  fin_maps.

Local Open Scope string_scope.
Local Open Scope Z_scope.

(** * Part I: the embedding *)

(** ** Errors and results *)

(** The errors built in [webhook.go].  Errors raised with [errors.Errorf]
    keep the arguments of their format string; [echo.NewHTTPError] keeps the
    HTTP status code. *)
Inductive error : Type :=
  | ErrOpaque (msg : string)
  | ErrWrap (cause : error) (msg : string)
  | ErrProjectNoDatabase (projectID : Z) (dbName : string)
  | ErrProjectNoDatabaseForEnv (projectID : Z) (dbName envName : string)
  | ErrProjectMultipleDatabases (projectID : Z) (dbName envName : string)
  | ErrFileNoProject
  | ErrFileManyProjects (msg : string)
  | ErrYAMLOnlyDML
  | ErrUnexpectedRef (ref expectedPrefix : string)
  | ErrBadPattern
  | ErrEmptyRepositoryList
  | ErrListDatabase (cause : error)
  | ErrReadFileContent (file : string) (cause : error)
  | ErrReviewPolicy (environmentID : Z) (cause : error)
  | ErrAdvisorDBType (engine : string) (cause : error)
  | ErrCatalog (databaseID : Z) (cause : error)
  | ErrSQLCheck (databaseID : Z) (cause : error)
  | ErrHTTP (code : Z) (msg : string)
  | ErrHTTPInternal (code : Z) (msg : string) (internal : error).

Inductive result (A : Type) : Type :=
  | Ok (a : A)
  | Err (e : error).
Arguments Ok {A} a.
Arguments Err {A} e.

Definition is_Ok {A} (r : result A) : bool :=
  match r with Ok _ => true | Err _ => false end.

Definition StatusOK : Z := 200.
Definition StatusBadRequest : Z := 400.
Definition StatusForbidden : Z := 403.
Definition StatusNotFound : Z := 404.
Definition StatusInternalServerError : Z := 500.

(** ** The Go standard library, as far as the pipeline uses it *)

Definition dquote : string := String "034"%char EmptyString.
Definition newline : string := String "010"%char EmptyString.

(** [fmt.Sprintf("%d", z)]. *)
Definition Itoa (z : Z) : string := NilEmpty.string_of_int (Z.to_int z).

(** [s[n:]] for [n <= len(s)]. *)
Fixpoint dropString (n : nat) (s : string) : string :=
  match n, s with
  | O, _ => s
  | S n', String _ s' => dropString n' s'
  | S _, EmptyString => EmptyString
  end.

(** [strings.HasPrefix(s, prefix)]. *)
Definition HasPrefix (s prefix : string) : bool := String.prefix prefix s.

(** [strings.TrimPrefix(s, prefix)]. *)
Definition TrimPrefix (s prefix : string) : string :=
  if HasPrefix s prefix then dropString (String.length prefix) s else s.

(** [strings.Join(elems, sep)]. *)
Definition Join (elems : list string) (sep : string) : string :=
  String.concat sep elems.

(** [strings.Contains(s, string(c))]. *)
Fixpoint ContainsByte (s : string) (c : ascii) : bool :=
  match s with
  | EmptyString => false
  | String a s' => Ascii.eqb a c || ContainsByte s' c
  end.

(** [strings.Replace(s, old, new, 1)]: the first occurrence of [old], if
    any, is replaced. *)
Fixpoint ReplaceFirst (s old new : string) : string :=
  if String.prefix old s then new ++ dropString (String.length old) s
  else match s with
       | EmptyString => EmptyString
       | String c s' => String c (ReplaceFirst s' old new)
       end.

(** [strings.ReplaceAll(s, "\n", "%0A")]. *)
Fixpoint ReplaceNewlines (s : string) : string :=
  match s with
  | EmptyString => EmptyString
  | String c s' =>
      if Ascii.eqb c "010" then "%0A" ++ ReplaceNewlines s'
      else String c (ReplaceNewlines s')
  end.

(** *** package path *)

(** The elements of a path between its slashes. *)
Fixpoint splitSlash (cur : string) (s : string) : list string :=
  match s with
  | EmptyString => [String.rev cur]
  | String c s' =>
      if Ascii.eqb c "/" then String.rev cur :: splitSlash "" s'
      else splitSlash (String c cur) s'
  end.

(** The main loop of [path.Clean], element by element; [out] is the
    output so far, last element first. *)
Fixpoint cleanElems (rooted : bool) (out : list string) (elems : list string)
  : list string :=
  match elems with
  | [] => List.rev out
  | e :: es =>
      if String.eqb e "" || String.eqb e "." then cleanElems rooted out es
      else if String.eqb e ".." then
        match out with
        | top :: out' =>
            if String.eqb top ".." then cleanElems rooted (".." :: out) es
            else cleanElems rooted out' es
        | [] =>
            if rooted then cleanElems rooted [] es
            else cleanElems rooted [".."] es
        end
      else cleanElems rooted (e :: out) es
  end.

(** [path.Clean]. *)
Definition Clean (p : string) : string :=
  match p with
  | EmptyString => "."
  | String c _ =>
      let rooted := Ascii.eqb c "/" in
      let body := String.concat "/" (cleanElems rooted [] (splitSlash "" p)) in
      if rooted then "/" ++ body
      else if String.eqb body "" then "." else body
  end.

(** The buffer [path.Join] builds before cleaning it. *)
Fixpoint joinBuf (started : bool) (buf : string) (elem : list string)
  : string :=
  match elem with
  | [] => buf
  | e :: es =>
      if started then joinBuf true (buf ++ "/" ++ e) es
      else if String.eqb e "" then joinBuf false buf es
      else joinBuf true e es
  end.

(** [path.Join(elem...)]. *)
Definition pathJoin (elem : list string) : string :=
  if forallb (fun e => String.eqb e "") elem then ""
  else Clean (joinBuf false "" elem).

(** *** package unicode/utf8 *)

Definition RuneError : N := 65533%N.

Definition byteIn (lo hi : N) (c : ascii) : bool :=
  ((lo <=? N_of_ascii c) && (N_of_ascii c <=? hi))%N.

Definition lowBits (mask : N) (c : ascii) : N := N.land (N_of_ascii c) mask.

(** [utf8.DecodeRuneInString]: the first rune of [s] and its width. *)
Definition DecodeRuneInString (s : string) : N * nat :=
  match s with
  | EmptyString => (RuneError, 0%nat)
  | String c0 r0 =>
      let b0 := N_of_ascii c0 in
      if (b0 <? 128)%N then (b0, 1%nat)
      else if ((b0 <? 194) || (244 <? b0))%N then (RuneError, 1%nat)
      else
        let sz : nat :=
          if (b0 <? 224)%N then 2%nat
          else if (b0 <? 240)%N then 3%nat else 4%nat in
        let lo := if (b0 =? 224)%N then 160%N
                  else if (b0 =? 240)%N then 144%N else 128%N in
        let hi := if (b0 =? 237)%N then 159%N
                  else if (b0 =? 244)%N then 143%N else 191%N in
        if (String.length s <? sz)%nat then (RuneError, 1%nat)
        else
          match r0 with
          | EmptyString => (RuneError, 1%nat)
          | String c1 r1 =>
              if negb (byteIn lo hi c1) then (RuneError, 1%nat)
              else if (sz <=? 2)%nat then
                (N.lor (N.shiftl (lowBits 31 c0) 6) (lowBits 63 c1), 2%nat)
              else
                match r1 with
                | EmptyString => (RuneError, 1%nat)
                | String c2 r2 =>
                    if negb (byteIn 128 191 c2) then (RuneError, 1%nat)
                    else if (sz <=? 3)%nat then
                      (N.lor (N.shiftl (lowBits 15 c0) 12)
                         (N.lor (N.shiftl (lowBits 63 c1) 6)
                            (lowBits 63 c2)), 3%nat)
                    else
                      match r2 with
                      | EmptyString => (RuneError, 1%nat)
                      | String c3 _ =>
                          if negb (byteIn 128 191 c3) then (RuneError, 1%nat)
                          else
                            (N.lor (N.shiftl (lowBits 7 c0) 18)
                               (N.lor (N.shiftl (lowBits 63 c1) 12)
                                  (N.lor (N.shiftl (lowBits 63 c2) 6)
                                     (lowBits 63 c3))), 4%nat)
                      end
                end
          end
  end.

(** *** package path/filepath: Match (Go 1.16 and later, Unix separator) *)

Definition Separator : ascii := "/"%char.

(** The leading stars of [scanChunk]. *)
Fixpoint skipStars (pattern : string) : bool * string :=
  match pattern with
  | String c p =>
      if Ascii.eqb c "*" then (true, snd (skipStars p)) else (false, pattern)
  | EmptyString => (false, pattern)
  end.

(** The [Scan] loop of [scanChunk]: splits the pattern before the first
    star that is outside a character class. *)
Fixpoint scanLoop (inrange : bool) (pattern : string) : string * string :=
  match pattern with
  | EmptyString => (EmptyString, EmptyString)
  | String c p =>
      if Ascii.eqb c "\" then
        match p with
        | String d p' =>
            let '(chunk, rest) := scanLoop inrange p' in
            (String c (String d chunk), rest)
        | EmptyString => (String c EmptyString, EmptyString)
        end
      else if Ascii.eqb c "[" then
        let '(chunk, rest) := scanLoop true p in (String c chunk, rest)
      else if Ascii.eqb c "]" then
        let '(chunk, rest) := scanLoop false p in (String c chunk, rest)
      else if Ascii.eqb c "*" && negb inrange then (EmptyString, pattern)
      else
        let '(chunk, rest) := scanLoop inrange p in (String c chunk, rest)
  end.

(** [scanChunk]: the next segment of the pattern, a star-free chunk
    possibly preceded by stars. *)
Definition scanChunk (pattern : string) : bool * string * string :=
  let '(star, p) := skipStars pattern in
  let '(chunk, rest) := scanLoop false p in
  (star, chunk, rest).

(** [getEsc]: a possibly escaped character of a character class. *)
Definition getEsc (chunk : string) : result (N * string) :=
  match chunk with
  | EmptyString => Err ErrBadPattern
  | String c chunk' =>
      if Ascii.eqb c "-" || Ascii.eqb c "]" then Err ErrBadPattern
      else
        let chunk1 := if Ascii.eqb c "\" then chunk' else chunk in
        match chunk1 with
        | EmptyString => Err ErrBadPattern
        | String _ _ =>
            let '(r, n) := DecodeRuneInString chunk1 in
            let nchunk := dropString n chunk1 in
            if ((r =? RuneError)%N && (n =? 1)%nat)
               || (String.length nchunk =? 0)%nat
            then Err ErrBadPattern
            else Ok (r, nchunk)
        end
  end.

(** The "parse all ranges" loop of a character class: the pattern after
    the class and whether rune [r] lies in one of its ranges. *)
Fixpoint classRanges (fuel : nat) (chunk : string) (r : N) (matched : bool)
    (nrange : nat) : option (result (string * bool)) :=
  match fuel with
  | O => None
  | S fuel' =>
      let closing :=
        match chunk with
        | String c chunk' =>
            if Ascii.eqb c "]" && (0 <? nrange)%nat then Some chunk' else None
        | EmptyString => None
        end in
      match closing with
      | Some chunk' => Some (Ok (chunk', matched))
      | None =>
          match getEsc chunk with
          | Err e => Some (Err e)
          | Ok (lo, chunk1) =>
              match chunk1 with
              | String c chunk2 =>
                  if Ascii.eqb c "-" then
                    match getEsc chunk2 with
                    | Err e => Some (Err e)
                    | Ok (hi, chunk3) =>
                        classRanges fuel' chunk3 r
                          (matched || ((lo <=? r) && (r <=? hi))%N)
                          (S nrange)
                    end
                  else
                    classRanges fuel' chunk1 r
                      (matched || ((lo <=? r) && (r <=? lo))%N) (S nrange)
              | EmptyString => Some (Err ErrBadPattern)
              end
          end
      end
  end.

(** The loop of [matchChunk]; [failed] records that the match has failed
    while the rest of the chunk is still checked for being well formed. *)
Fixpoint matchChunkLoop (fuel : nat) (chunk s : string) (failed : bool)
  : option (result (string * bool)) :=
  match fuel with
  | O => None
  | S fuel' =>
      match chunk with
      | EmptyString =>
          Some (Ok (if failed then (EmptyString, false) else (s, true)))
      | String c chunk' =>
          let failed := failed || (String.length s =? 0)%nat in
          let literal (c : ascii) (rest : string) :=
            match s with
            | String a s' =>
                if failed then matchChunkLoop fuel' rest s true
                else matchChunkLoop fuel' rest s' (negb (Ascii.eqb c a))
            | EmptyString => matchChunkLoop fuel' rest s true
            end in
          if Ascii.eqb c "[" then
            let '(r, s1) :=
              if failed then (0%N, s)
              else let '(r, n) := DecodeRuneInString s in
                   (r, dropString n s) in
            let '(negated, chunk2) :=
              match chunk' with
              | String d chunk'' =>
                  if Ascii.eqb d "^" then (true, chunk'') else (false, chunk')
              | EmptyString => (false, chunk')
              end in
            match classRanges fuel' chunk2 r false 0 with
            | None => None
            | Some (Err e) => Some (Err e)
            | Some (Ok (chunk3, matched)) =>
                matchChunkLoop fuel' chunk3 s1
                  (failed || Bool.eqb matched negated)
            end
          else if Ascii.eqb c "?" then
            match s with
            | String a _ =>
                if failed then matchChunkLoop fuel' chunk' s true
                else
                  matchChunkLoop fuel' chunk'
                    (dropString (snd (DecodeRuneInString s)) s)
                    (Ascii.eqb a Separator)
            | EmptyString => matchChunkLoop fuel' chunk' s true
            end
          else if Ascii.eqb c "\" then
            match chunk' with
            | EmptyString => Some (Err ErrBadPattern)
            | String d chunk'' => literal d chunk''
            end
          else literal c chunk'
      end
  end.

(** [matchChunk(chunk, s)]: whether [chunk] matches the beginning of [s],
    and the remainder of [s] if so. *)
Definition matchChunk (chunk s : string) : option (result (string * bool)) :=
  matchChunkLoop (S (String.length chunk)) chunk s false.

(** The "look for match skipping i+1 bytes" loop of [Match]: [Some t] when
    the outer loop continues with name [t], [None] when [Match] returns
    false. *)
Fixpoint starLoop (chunk : string) (lastChunk : bool) (name : string)
  : option (result (option string)) :=
  match name with
  | EmptyString => Some (Ok None)
  | String a name' =>
      if Ascii.eqb a Separator then Some (Ok None)
      else
        match matchChunk chunk name' with
        | None => None
        | Some (Err e) => Some (Err e)
        | Some (Ok (t, true)) =>
            if lastChunk && (0 <? String.length t)%nat
            then starLoop chunk lastChunk name'
            else Some (Ok (Some t))
        | Some (Ok (_, false)) => starLoop chunk lastChunk name'
        end
  end.

(** The [Pattern] loop of [Match]. *)
Fixpoint MatchLoop (fuel : nat) (pattern name : string)
  : option (result bool) :=
  match fuel with
  | O => None
  | S fuel' =>
      if (String.length pattern =? 0)%nat
      then Some (Ok (String.length name =? 0)%nat)
      else
        let '(star, chunk, rest) := scanChunk pattern in
        if star && String.eqb chunk ""
        then Some (Ok (negb (ContainsByte name Separator)))
        else
          match matchChunk chunk name with
          | None => None
          | Some r =>
              let continue :=
                match r with
                | Ok (t, true) =>
                    if (String.length t =? 0)%nat
                       || (0 <? String.length rest)%nat
                    then Some t else None
                | _ => None
                end in
              match continue, r with
              | Some t, _ => MatchLoop fuel' rest t
              | None, Err e => Some (Err e)
              | None, Ok _ =>
                  if star then
                    match starLoop chunk (String.length rest =? 0)%nat name
                    with
                    | None => None
                    | Some (Err e) => Some (Err e)
                    | Some (Ok (Some t)) => MatchLoop fuel' rest t
                    | Some (Ok None) => Some (Ok false)
                    end
                  else Some (Ok false)
              end
          end
  end.

(** [filepath.Match(pattern, name)]; [None] would mean that the loops ran
    longer than the pattern is long, which [Match_total] excludes. *)
Definition Match (pattern name : string) : option (result bool) :=
  MatchLoop (S (String.length pattern)) pattern name.

(** *** package encoding/hex and crypto/subtle *)

Definition hexDigit (n : N) : ascii :=
  match n with
  | 0 => "0" | 1 => "1" | 2 => "2" | 3 => "3" | 4 => "4" | 5 => "5"
  | 6 => "6" | 7 => "7" | 8 => "8" | 9 => "9" | 10 => "a" | 11 => "b"
  | 12 => "c" | 13 => "d" | 14 => "e" | _ => "f"
  end%N%char.

(** [hex.EncodeToString]. *)
Fixpoint EncodeToString (src : string) : string :=
  match src with
  | EmptyString => EmptyString
  | String c s' =>
      String (hexDigit (N.shiftr (N_of_ascii c) 4))
        (String (hexDigit (N.land (N_of_ascii c) 15)) (EncodeToString s'))
  end.

(** [subtle.ConstantTimeCompare(x, y)]: 1 when the two byte slices have
    equal contents, 0 otherwise (in particular when the lengths differ). *)
Definition ConstantTimeCompare (x y : string) : Z :=
  if String.eqb x y then 1 else 0.

(** *** packages crypto/sha256 and crypto/hmac *)

Module SHA256.

Definition word : Type := N.

Definition mask32 (x : N) : word := N.land x 4294967295%N.

Definition add32 (x y : word) : word := mask32 (x + y)%N.

Definition rotr (n : N) (x : word) : word :=
  N.lor (N.shiftr x n) (mask32 (N.shiftl x (32 - n)%N)).

Definition not32 (x : word) : word := N.lxor x 4294967295%N.

Definition Ch (x y z : word) : word :=
  N.lxor (N.land x y) (N.land (not32 x) z).

Definition Maj (x y z : word) : word :=
  N.lxor (N.lxor (N.land x y) (N.land x z)) (N.land y z).

Definition bigSigma0 (x : word) : word :=
  N.lxor (N.lxor (rotr 2 x) (rotr 13 x)) (rotr 22 x).

Definition bigSigma1 (x : word) : word :=
  N.lxor (N.lxor (rotr 6 x) (rotr 11 x)) (rotr 25 x).

Definition sigma0 (x : word) : word :=
  N.lxor (N.lxor (rotr 7 x) (rotr 18 x)) (N.shiftr x 3).

Definition sigma1 (x : word) : word :=
  N.lxor (N.lxor (rotr 17 x) (rotr 19 x)) (N.shiftr x 10).

(** The round constants and the initial hash value of FIPS 180-4, in
    decimal. *)
Definition K : list word :=
  [
    1116352408; 1899447441; 3049323471; 3921009573;
    961987163; 1508970993; 2453635748; 2870763221;
    3624381080; 310598401; 607225278; 1426881987;
    1925078388; 2162078206; 2614888103; 3248222580;
    3835390401; 4022224774; 264347078; 604807628;
    770255983; 1249150122; 1555081692; 1996064986;
    2554220882; 2821834349; 2952996808; 3210313671;
    3336571891; 3584528711; 113926993; 338241895;
    666307205; 773529912; 1294757372; 1396182291;
    1695183700; 1986661051; 2177026350; 2456956037;
    2730485921; 2820302411; 3259730800; 3345764771;
    3516065817; 3600352804; 4094571909; 275423344;
    430227734; 506948616; 659060556; 883997877;
    958139571; 1322822218; 1537002063; 1747873779;
    1955562222; 2024104815; 2227730452; 2361852424;
    2428436474; 2756734187; 3204031479; 3329325298
  ]%N.

Definition H0 : list word :=
  [
    1779033703; 3144134277; 1013904242; 2773480762;
    1359893119; 2600822924; 528734635; 1541459225
  ]%N.

(** The padded message: the bytes, [0x80], zeros up to 56 modulo 64, and
    the length in bits as eight big-endian bytes. *)
Definition pad (msg : list N) : list N :=
  let len := List.length msg in
  let zeros := ((119 - len mod 64) mod 64)%nat in
  let bits := (8 * N.of_nat len)%N in
  (msg ++ [128%N] ++ List.repeat 0%N zeros
   ++ List.map (fun i => N.land (N.shiftr bits (8 * i)) 255)
        [7; 6; 5; 4; 3; 2; 1; 0]%N)%list.

(** Big-endian 32-bit words of a byte list. *)
Fixpoint toWords (bytes : list N) : list word :=
  match bytes with
  | b0 :: b1 :: b2 :: b3 :: rest =>
      (N.shiftl b0 24 + N.shiftl b1 16 + N.shiftl b2 8 + b3)%N :: toWords rest
  | _ => []
  end.

Definition nthWord (l : list word) (i : nat) : word := List.nth i l 0%N.

(** The message schedule, most recent word first: [w] holds
    [W(t-1), W(t-2), ...]. *)
Fixpoint schedule (n : nat) (w : list word) : list word :=
  match n with
  | O => w
  | S n' =>
      schedule n'
        (add32 (add32 (sigma1 (nthWord w 1)) (nthWord w 6))
           (add32 (sigma0 (nthWord w 14)) (nthWord w 15)) :: w)
  end.

Definition round (st : list word) (kw : word * word) : list word :=
  match st with
  | [a; b; c; d; e; f; g; h] =>
      let t1 :=
        add32 (add32 (add32 h (bigSigma1 e)) (add32 (Ch e f g) (fst kw)))
          (snd kw) in
      let t2 := add32 (bigSigma0 a) (Maj a b c) in
      [add32 t1 t2; a; b; c; add32 d t1; e; f; g]
  | _ => st
  end.

Definition compress (h : list word) (block : list word) : list word :=
  let w := List.rev (schedule 48 (List.rev block)) in
  let st := fold_left round (List.combine K w) h in
  List.map (fun p => add32 (fst p) (snd p)) (List.combine h st).

(** The blocks of sixteen words. *)
Fixpoint blocks (fuel : nat) (ws : list word) : list (list word) :=
  match fuel, ws with
  | S fuel', _ :: _ => List.firstn 16 ws :: blocks fuel' (List.skipn 16 ws)
  | _, _ => []
  end.

Definition wordBytes (w : word) : list N :=
  List.map (fun i => N.land (N.shiftr w (8 * i)) 255) [3; 2; 1; 0]%N.

(** [sha256.Sum256] on byte lists. *)
Definition sum (msg : list N) : list N :=
  let ws := toWords (pad msg) in
  let h := fold_left compress (blocks (List.length ws) ws) H0 in
  List.concat (List.map wordBytes h).

Definition blockSize : nat := 64.

(** [hmac.New(sha256.New, key)], [Write(body)], [Sum(nil)] on byte
    lists. *)
Definition hmac (key body : list N) : list N :=
  let key := if (blockSize <? List.length key)%nat then sum key else key in
  let key := (key ++ List.repeat 0%N (blockSize - List.length key))%list in
  let ipad := List.map (N.lxor 54) key in
  let opad := List.map (N.lxor 92) key in
  sum (opad ++ sum (ipad ++ body))%list.

Definition bytesOf (s : string) : list N :=
  List.map N_of_ascii (list_ascii_of_string s).

Definition stringOf (bytes : list N) : string :=
  string_of_list_ascii (List.map ascii_of_N bytes).

End SHA256.

(** The MAC of [body] under [key], as a Go byte string. *)
Definition HMACSHA256 (key body : string) : string :=
  SHA256.stringOf (SHA256.hmac (SHA256.bytesOf key) (SHA256.bytesOf body)).

(** *** package sort *)

Fixpoint insertString (x : string) (l : list string) : list string :=
  match l with
  | [] => [x]
  | y :: l' => if String.leb x y then x :: l else y :: insertString x l'
  end.

(** [sort.Strings]: the increasing rearrangement of a list of strings.
    Equal strings cannot be told apart, so the result does not depend on
    the sorting algorithm. *)
Fixpoint SortStrings (l : list string) : list string :=
  match l with
  | [] => []
  | x :: l' => insertString x (SortStrings l')
  end.

(** [sort.Slice], as Go 1.19 and later run it: the pattern-defeating
    quicksort [pdqsort_func] of [sort/zsortfunc.go] on the slice, with the
    [less] of the caller and the swap of two elements.  The slice is a list
    and an index an [int]; every loop takes a bound on its number of rounds,
    which the length of the slice gives.  [next] is the step of the
    generator that [breakPatterns_func] draws from; its shift amounts are
    not the same in every release. *)
Module GoSort.
Section Slice.
Context {A : Type}.
Variable less : A -> A -> bool.
Variable next : Z -> Z.

Definition elementAt (data : list A) (i : Z) : option A :=
  if i <? 0 then None else data !! Z.to_nat i.

(** [data.Less(i, j)] and [data.Swap(i, j)].  The sort keeps its indices
    inside the slice. *)
Definition Less (data : list A) (i j : Z) : bool :=
  match elementAt data i, elementAt data j with
  | Some x, Some y => less x y
  | _, _ => false
  end.

Definition Swap (data : list A) (i j : Z) : list A :=
  match elementAt data i, elementAt data j with
  | Some x, Some y => <[ Z.to_nat j := x ]> (<[ Z.to_nat i := y ]> data)
  | _, _ => data
  end.

(** [for j := i; j > a && data.Less(j, j-1); j-- { data.Swap(j, j-1) }]. *)
Fixpoint insertionShift (rounds : nat) (data : list A) (a j : Z) : list A :=
  match rounds with
  | O => data
  | S rounds' =>
      if (a <? j) && Less data j (j - 1)
      then insertionShift rounds' (Swap data j (j - 1)) a (j - 1)
      else data
  end.

Fixpoint insertionLoop (rounds : nat) (data : list A) (a b i : Z) : list A :=
  match rounds with
  | O => data
  | S rounds' =>
      if i <? b
      then insertionLoop rounds'
             (insertionShift (S (List.length data)) data a i) a b (i + 1)
      else data
  end.

Definition insertionSort_func (data : list A) (a b : Z) : list A :=
  insertionLoop (S (List.length data)) data a b (a + 1).

Fixpoint siftDownLoop (rounds : nat) (data : list A) (root hi first : Z)
  : list A :=
  match rounds with
  | O => data
  | S rounds' =>
      let child := 2 * root + 1 in
      if hi <=? child then data
      else
        let child :=
          if (child + 1 <? hi)
             && Less data (first + child) (first + child + 1)
          then child + 1 else child in
        if negb (Less data (first + root) (first + child)) then data
        else
          siftDownLoop rounds'
            (Swap data (first + root) (first + child)) child hi first
  end.

Definition siftDown_func (data : list A) (lo hi first : Z) : list A :=
  siftDownLoop (S (List.length data)) data lo hi first.

(** [for i := (hi - 1) / 2; i >= 0; i--]. *)
Fixpoint heapBuild (rounds : nat) (data : list A) (i hi first : Z) : list A :=
  match rounds with
  | O => data
  | S rounds' =>
      if 0 <=? i
      then heapBuild rounds' (siftDown_func data i hi first) (i - 1) hi first
      else data
  end.

(** [for i := hi - 1; i >= 0; i--]. *)
Fixpoint heapPop (rounds : nat) (data : list A) (i lo first : Z) : list A :=
  match rounds with
  | O => data
  | S rounds' =>
      if 0 <=? i
      then heapPop rounds'
             (siftDown_func (Swap data first (first + i)) lo i first)
             (i - 1) lo first
      else data
  end.

Definition heapSort_func (data : list A) (a b : Z) : list A :=
  let first := a in
  let lo := 0 in
  let hi := b - a in
  let data :=
    heapBuild (S (List.length data)) data (Z.quot (hi - 1) 2) hi first in
  heapPop (S (List.length data)) data (hi - 1) lo first.

(** [for i <= j && data.Less(i, a) { i++ }]. *)
Fixpoint lessUp (rounds : nat) (data : list A) (a i j : Z) : Z :=
  match rounds with
  | O => i
  | S rounds' =>
      if (i <=? j) && Less data i a then lessUp rounds' data a (i + 1) j
      else i
  end.

(** [for i <= j && !data.Less(j, a) { j-- }]. *)
Fixpoint notLessDown (rounds : nat) (data : list A) (a i j : Z) : Z :=
  match rounds with
  | O => j
  | S rounds' =>
      if (i <=? j) && negb (Less data j a)
      then notLessDown rounds' data a i (j - 1)
      else j
  end.

Fixpoint partitionLoop (rounds : nat) (data : list A) (a i j : Z)
  : list A * Z :=
  match rounds with
  | O => (data, j)
  | S rounds' =>
      let i := lessUp (S (List.length data)) data a i j in
      let j := notLessDown (S (List.length data)) data a i j in
      if j <? i then (data, j)
      else partitionLoop rounds' (Swap data i j) a (i + 1) (j - 1)
  end.

Definition partition_func (data : list A) (a b pivot : Z)
  : list A * Z * bool :=
  let data := Swap data a pivot in
  let i := a + 1 in
  let j := b - 1 in
  let i := lessUp (S (List.length data)) data a i j in
  let j := notLessDown (S (List.length data)) data a i j in
  if j <? i then (Swap data j a, j, true)
  else
    let data := Swap data i j in
    let '(data, j) :=
      partitionLoop (S (List.length data)) data a (i + 1) (j - 1) in
    (Swap data j a, j, false).

(** [for i <= j && !data.Less(a, i) { i++ }]. *)
Fixpoint notGreaterUp (rounds : nat) (data : list A) (a i j : Z) : Z :=
  match rounds with
  | O => i
  | S rounds' =>
      if (i <=? j) && negb (Less data a i)
      then notGreaterUp rounds' data a (i + 1) j
      else i
  end.

(** [for i <= j && data.Less(a, j) { j-- }]. *)
Fixpoint greaterDown (rounds : nat) (data : list A) (a i j : Z) : Z :=
  match rounds with
  | O => j
  | S rounds' =>
      if (i <=? j) && Less data a j then greaterDown rounds' data a i (j - 1)
      else j
  end.

Fixpoint partitionEqualLoop (rounds : nat) (data : list A) (a i j : Z)
  : list A * Z :=
  match rounds with
  | O => (data, i)
  | S rounds' =>
      let i := notGreaterUp (S (List.length data)) data a i j in
      let j := greaterDown (S (List.length data)) data a i j in
      if j <? i then (data, i)
      else partitionEqualLoop rounds' (Swap data i j) a (i + 1) (j - 1)
  end.

Definition partitionEqual_func (data : list A) (a b pivot : Z)
  : list A * Z :=
  let data := Swap data a pivot in
  partitionEqualLoop (S (List.length data)) data a (a + 1) (b - 1).

(** [for i < b && !data.Less(i, i-1) { i++ }]. *)
Fixpoint inOrderUp (rounds : nat) (data : list A) (i b : Z) : Z :=
  match rounds with
  | O => i
  | S rounds' =>
      if (i <? b) && negb (Less data i (i - 1))
      then inOrderUp rounds' data (i + 1) b
      else i
  end.

(** [for j := i - 1; j >= 1; j--]. *)
Fixpoint shiftLeft (rounds : nat) (data : list A) (j : Z) : list A :=
  match rounds with
  | O => data
  | S rounds' =>
      if 1 <=? j then
        if negb (Less data j (j - 1)) then data
        else shiftLeft rounds' (Swap data j (j - 1)) (j - 1)
      else data
  end.

(** [for j := i + 1; j < b; j++]. *)
Fixpoint shiftRight (rounds : nat) (data : list A) (j b : Z) : list A :=
  match rounds with
  | O => data
  | S rounds' =>
      if j <? b then
        if negb (Less data j (j - 1)) then data
        else shiftRight rounds' (Swap data j (j - 1)) (j + 1) b
      else data
  end.

Definition maxSteps : nat := 5.
Definition shortestShifting : Z := 50.

Fixpoint partialInsertionLoop (steps : nat) (data : list A) (a b i : Z)
  : list A * bool :=
  match steps with
  | O => (data, false)
  | S steps' =>
      let i := inOrderUp (S (List.length data)) data i b in
      if i =? b then (data, true)
      else if b - a <? shortestShifting then (data, false)
      else
        let data := Swap data i (i - 1) in
        let data :=
          if 2 <=? i - a then shiftLeft (S (List.length data)) data (i - 1)
          else data in
        let data :=
          if 2 <=? b - i then shiftRight (S (List.length data)) data (i + 1) b
          else data in
        partialInsertionLoop steps' data a b i
  end.

Definition partialInsertionSort_func (data : list A) (a b : Z)
  : list A * bool :=
  partialInsertionLoop maxSteps data a b (a + 1).

(** [bits.Len]. *)
Definition bitsLen (x : Z) : Z :=
  if x <=? 0 then 0 else Z.log2 x + 1.

Definition nextPowerOfTwo (len : Z) : Z :=
  Z.shiftl 1 (bitsLen len).

Fixpoint breakLoop (rounds : nat) (data : list A)
    (a len modulus idx i random : Z) : list A :=
  match rounds with
  | O => data
  | S rounds' =>
      let random := next random in
      let other := Z.land random (modulus - 1) in
      let other := if len <=? other then other - len else other in
      breakLoop rounds' (Swap data (idx - 1 + i) (a + other))
        a len modulus idx (i + 1) random
  end.

Definition breakPatterns_func (data : list A) (a b : Z) : list A :=
  let len := b - a in
  if 8 <=? len then
    let random := len in
    let modulus := nextPowerOfTwo len in
    let idx := a + Z.quot len 4 * 2 - 1 in
    breakLoop 3 data a len modulus idx 0 random
  else data.

Inductive sortedHint := unknownHint | increasingHint | decreasingHint.

Definition order2_func (data : list A) (a b swaps : Z) : Z * Z * Z :=
  if Less data b a then (b, a, swaps + 1) else (a, b, swaps).

Definition median_func (data : list A) (a b c swaps : Z) : Z * Z :=
  let '(a, b, swaps) := order2_func data a b swaps in
  let '(b, c, swaps) := order2_func data b c swaps in
  let '(a, b, swaps) := order2_func data a b swaps in
  (b, swaps).

Definition medianAdjacent_func (data : list A) (a swaps : Z) : Z * Z :=
  median_func data (a - 1) a (a + 1) swaps.

Definition shortestNinther : Z := 50.
Definition maxSwaps : Z := 4 * 3.

Definition choosePivot_func (data : list A) (a b : Z) : Z * sortedHint :=
  let l := b - a in
  let swaps := 0 in
  let i := a + Z.quot l 4 * 1 in
  let j := a + Z.quot l 4 * 2 in
  let k := a + Z.quot l 4 * 3 in
  let '(j, swaps) :=
    if 8 <=? l then
      let '(i, j, k, swaps) :=
        if shortestNinther <=? l then
          let '(i, swaps) := medianAdjacent_func data i swaps in
          let '(j, swaps) := medianAdjacent_func data j swaps in
          let '(k, swaps) := medianAdjacent_func data k swaps in
          (i, j, k, swaps)
        else (i, j, k, swaps) in
      median_func data i j k swaps
    else (j, swaps) in
  if swaps =? 0 then (j, increasingHint)
  else if swaps =? maxSwaps then (j, decreasingHint)
  else (j, unknownHint).

Fixpoint reverseLoop (rounds : nat) (data : list A) (i j : Z) : list A :=
  match rounds with
  | O => data
  | S rounds' =>
      if i <? j then reverseLoop rounds' (Swap data i j) (i + 1) (j - 1)
      else data
  end.

Definition reverseRange_func (data : list A) (a b : Z) : list A :=
  reverseLoop (S (List.length data)) data a (b - 1).

Definition isIncreasing (hint : sortedHint) : bool :=
  match hint with
  | increasingHint => true
  | _ => false
  end.

Definition maxInsertion : Z := 12.

(** [pdqsort_func(data, a, b, limit)]: one round of its loop, entered with
    the two flags [wasBalanced] and [wasPartitioned]. *)
Fixpoint pdqsort_func (rounds : nat) (data : list A) (a b limit : Z)
    (wasBalanced wasPartitioned : bool) : list A :=
  match rounds with
  | O => data
  | S rounds' =>
      let len := b - a in
      if len <=? maxInsertion then insertionSort_func data a b
      else if limit =? 0 then heapSort_func data a b
      else
        let '(data, limit) :=
          if negb wasBalanced then (breakPatterns_func data a b, limit - 1)
          else (data, limit) in
        let '(pivot, hint) := choosePivot_func data a b in
        let '(data, pivot, hint) :=
          match hint with
          | decreasingHint =>
              (reverseRange_func data a b, (b - 1) - (pivot - a),
               increasingHint)
          | _ => (data, pivot, hint)
          end in
        let '(data, sorted) :=
          if wasBalanced && wasPartitioned && isIncreasing hint
          then partialInsertionSort_func data a b
          else (data, false) in
        if sorted then data
        else if (0 <? a) && negb (Less data (a - 1) pivot) then
          let '(data, mid) := partitionEqual_func data a b pivot in
          pdqsort_func rounds' data mid b limit wasBalanced wasPartitioned
        else
          let '(data, mid, alreadyPartitioned) :=
            partition_func data a b pivot in
          let wasPartitioned := alreadyPartitioned in
          let leftLen := mid - a in
          let rightLen := b - mid in
          let balanceThreshold := Z.quot len 8 in
          if leftLen <? rightLen then
            let wasBalanced := balanceThreshold <=? leftLen in
            let data := pdqsort_func rounds' data a mid limit true true in
            pdqsort_func rounds' data (mid + 1) b limit wasBalanced
              wasPartitioned
          else
            let wasBalanced := balanceThreshold <=? rightLen in
            let data :=
              pdqsort_func rounds' data (mid + 1) b limit true true in
            pdqsort_func rounds' data a mid limit wasBalanced wasPartitioned
  end.

(** [sort.Slice(x, less)]. *)
Definition Slice (x : list A) : list A :=
  let len := Z.of_nat (List.length x) in
  let limit := bitsLen len in
  pdqsort_func (S (List.length x)) x 0 len limit true true.

End Slice.

(** The step of the generator in Go 1.19: an xorshift on a [uint64]. *)
Definition xorshiftNext (r : Z) : Z :=
  let r := Z.lxor r (Z.land (Z.shiftl r 13) (Z.ones 64)) in
  let r := Z.lxor r (Z.shiftr r 17) in
  Z.lxor r (Z.land (Z.shiftl r 5) (Z.ones 64)).

End GoSort.

(** ** Data model (packages [api], [db], [vcs], [advisor]) *)

Inductive ProjectTenantMode := TenantModeDisabled | TenantModeTenant.
Inductive ProjectSchemaChangeType :=
  ProjectSchemaChangeTypeDDL | ProjectSchemaChangeTypeSDL.
Inductive RowStatus := Normal | Archived.

#[global] Instance ProjectTenantMode_eq_dec : EqDecision ProjectTenantMode.
Proof. solve_decision. Defined.
#[global] Instance ProjectSchemaChangeType_eq_dec :
  EqDecision ProjectSchemaChangeType.
Proof. solve_decision. Defined.
#[global] Instance RowStatus_eq_dec : EqDecision RowStatus.
Proof. solve_decision. Defined.

Record Project := {
  ProjectName : string;
  ProjectRowStatus : RowStatus;
  TenantMode : ProjectTenantMode;
  DBNameTemplate : string;
  SchemaChangeType : ProjectSchemaChangeType
}.

Inductive VCSType := GitLabSelfHost | GitHubCom.
#[global] Instance VCSType_eq_dec : EqDecision VCSType.
Proof. solve_decision. Defined.

Record VCS := {
  VCSKind : VCSType;
  InstanceURL : string;
  ApplicationID : string;
  Secret : string
}.

Record Repository := {
  RepoID : Z;
  ProjectID : Z;
  RepoProject : Project;
  RepoVCS : option VCS;
  ExternalID : string;
  WebURL : string;
  BranchFilter : string;
  BaseDirectory : string;
  FilePathTemplate : string;
  SchemaPathTemplate : string;
  WebhookEndpointID : string;
  WebhookSecretToken : string;
  EnableSQLReviewCI : bool
}.

Record Environment := { EnvironmentName : string }.

Record Instance_ := {
  EnvironmentID : Z;
  InstanceEnvironment : Environment;
  Engine : string
}.

Record Database := {
  DatabaseID : Z;
  DatabaseName : string;
  DatabaseInstance : Instance_;
  CharacterSet : string;
  Collation : string
}.

(** [db.MigrationType]. *)
Inductive MigrationType := Baseline | Migrate | MigrateSDL | Branch | Data.
#[global] Instance MigrationType_eq_dec : EqDecision MigrationType.
Proof. solve_decision. Defined.

(** [db.MigrationInfo], the fields read by the pipeline. *)
Record MigrationInfo := {
  miDatabase : string;
  miEnvironment : string;
  miVersion : string;
  miType : MigrationType
}.

(** [vcs.FileItemType]; [FileItemTypeNone] is the zero value of an item
    whose type was never set. *)
Inductive FileItemType :=
  | FileItemTypeNone
  | FileItemTypeAdded
  | FileItemTypeModified
  | FileItemTypeDeleted.
#[global] Instance FileItemType_eq_dec : EqDecision FileItemType.
Proof. solve_decision. Defined.

(** [vcs.DistinctFileItem]; [CommitID] is [Commit.ID]. *)
Record DistinctFileItem := {
  FileName : string;
  CommitID : string;
  ItemType : FileItemType;
  IsYAML : bool
}.

Record Commit := {
  CommitIDOf : string;
  AuthorEmail : string
}.

(** [vcs.PushEvent]. *)
Record PushEvent := {
  PushVCSType : VCSType;
  PushBaseDirectory : string;
  PushRef : string;
  RepositoryURL : string;
  RepositoryFullPath : string;
  Before : string;
  After : string;
  CommitList : list Commit
}.

(** [vcs.PullRequestFile]. *)
Record PullRequestFile := {
  PRPath : string;
  PRLastCommitID : string;
  PRIsDeleted : bool
}.

(** [api.MigrationDetail]. *)
Record MigrationDetail := {
  mdMigrationType : MigrationType;
  mdDatabaseID : Z;
  mdDatabaseName : string;
  mdStatement : string;
  mdSchemaVersion : string
}.

(** [api.MigrationFileYAML]: the database names and the statement. *)
Record MigrationFileYAML := {
  YAMLDatabases : list string;
  YAMLStatement : string
}.

Inductive IssueType := IssueDatabaseSchemaUpdate | IssueDatabaseDataUpdate.
#[global] Instance IssueType_eq_dec : EqDecision IssueType.
Proof. solve_decision. Defined.

Definition SystemBotID : Z := 1.

(** [api.IssueCreate]; [CreateContext] is kept as the [api.MigrationContext]
    that the code marshals into it. *)
Record IssueCreate := {
  IssueCreatorID : Z;
  IssueProjectID : Z;
  IssueName : string;
  IssueKind : IssueType;
  IssueDescription : string;
  AssigneeID : Z;
  AssigneeNeedAttention : bool;
  CreateContext : PushEvent * list MigrationDetail
}.

Record Issue := {
  IssueID : Z;
  IssueNameOf : string
}.

Inductive ActivityLevel := ActivityInfo | ActivityWarn.

(** The two comments of a repository-push activity: ["Created issue %q."]
    and ["Ignored file %q, %v."]. *)
Inductive ActivityComment :=
  | CommentCreatedIssue (issueName : string)
  | CommentIgnoredFile (file : string) (err : error).

(** [api.ActivityCreate] of type [ActivityProjectRepositoryPush]; the
    payload is kept as the push event and the issue it refers to. *)
Record ActivityCreate := {
  ActivityCreatorID : Z;
  ContainerID : Z;
  Level : ActivityLevel;
  Comment : ActivityComment;
  Payload : PushEvent * option Issue
}.

Inductive TaskStatus := TaskPendingApproval | TaskFailed.
Inductive TaskType := TaskDatabaseSchemaUpdate | TaskDatabaseDataUpdate.

Record Task := {
  TaskID : Z;
  PipelineID : Z
}.

(** [api.TaskPatch] with [UpdaterID = SystemBotID]. *)
Record TaskPatch := {
  PatchTaskID : Z;
  PatchStatement : string
}.

(** [advisor.Status]. *)
Inductive Status := Success | Warn | Error.
#[global] Instance Status_eq_dec : EqDecision Status.
Proof. solve_decision. Defined.

(** The advice codes used in this file. *)
Definition AdvisorOk : Z := 0.
Definition AdvisorNotFound : Z := 2.
Definition AdvisorUnsupported : Z := 3.

(** [advisor.Advice]. *)
Record Advice := {
  AdviceStatus : Status;
  AdviceCode : Z;
  AdviceTitle : string;
  AdviceContent : string;
  AdviceLine : Z
}.

(** [api.VCSSQLReviewResult]. *)
Record VCSSQLReviewResult := {
  ResultStatus : Status;
  ResultContent : list string
}.

(** [api.VCSSQLReviewRequest]. *)
Record VCSSQLReviewRequest := {
  ReqRepositoryID : string;
  ReqPullRequestID : string;
  ReqWebURL : string
}.

(** [gitlab.WebhookPushEvent] and [github.WebhookPushEvent], the fields the
    handlers read. *)
Record GitLabWebhookPushEvent := {
  ObjectKind : string;
  GitLabRef : string;
  GitLabProjectID : Z
}.

Record GitHubWebhookPushEvent := {
  GitHubRef : string;
  RepositoryFullName : string
}.

Definition GitLabWebhookPush : string := "push".
Definition GitHubWebhookPing : string := "ping".
Definition GitHubWebhookPush : string := "push".

Inductive fileType := unknownFileType | migrationFileType | schemaFileType.
#[global] Instance fileType_eq_dec : EqDecision fileType.
Proof. solve_decision. Defined.

Record fileInfo := {
  item : DistinctFileItem;
  migrationInfo : MigrationInfo;
  fType : fileType;
  repository : Repository
}.

(** ** Collaborators *)

(** Functions of the Go runtime library that are taken by their contract:
    [strings.EqualFold] and [sort.Slice] (on the elements rather than on
    their indices), and the part of the runtime that decides how goroutines
    run.  [Schedule] takes the goroutines started in a loop and gives them in
    the order in which they reach their last statement, those that reach it
    at the same time in one inner list.  [Race] takes assignments to one map
    that are made at the same time, without a lock: it is [None] when the
    runtime notices them and ends the process, and otherwise the assignments
    that take effect, the others being lost. *)
Record GoRuntime := {
  EqualFold : string -> string -> bool;
  SortSlice : forall A : Type, (A -> A -> bool) -> list A -> list A;
  Schedule : forall A : Type, list A -> list (list A);
  Race : forall A : Type, list A -> option (list A)
}.

(** Package [plugin/db]: the two file-path parsers. *)
Record DBPlugin := {
  ParseMigrationInfo :
    string -> string -> bool -> result (option MigrationInfo);
  ParseSchemaFileInfo :
    string -> string -> string -> result (option MigrationInfo)
}.

(** Decoders of the payloads ([json.Unmarshal], [yaml.Unmarshal]) and the
    conversions of package [plugin/vcs]. *)
Record Codec := {
  UnmarshalGitLabPushEvent : string -> result GitLabWebhookPushEvent;
  UnmarshalGitHubPushEvent : string -> result GitHubWebhookPushEvent;
  UnmarshalSQLReviewRequest : string -> result VCSSQLReviewRequest;
  UnmarshalMigrationFileYAML : string -> result MigrationFileYAML;
  GitLabToVCS : GitLabWebhookPushEvent -> result PushEvent;
  GitHubToVCS : GitHubWebhookPushEvent -> PushEvent;
  GetDistinctFileList : PushEvent -> list DistinctFileItem
}.

(** The VCS capability provider, [vcs.Get(type, cfg)]; the OAuth context is
    left out. *)
Record Provider := {
  ReadFileContent : VCSType -> string -> string -> string -> result string;
  GetDiffFileList : VCSType -> string -> string -> string ->
                    result (list string);
  ListPullRequestFile : VCSType -> string -> string ->
                        result (list PullRequestFile)
}.

Inductive PolicyLookup :=
  | PolicyFound (ruleList : list string)
  | PolicyNotFound (e : error)
  | PolicyError (e : error).

(** The persistence layer, [s.store]. *)
Record Store := {
  FindRepository : string -> result (list Repository);
  FindDatabase : Z -> string -> result (list Database);
  GetPrincipalByEmail : string -> result (option Z);
  GetNormalSQLReviewPolicy : Z -> PolicyLookup;
  NewCatalog : Z -> string -> result unit;
  FindTask : Z -> string -> result (list Task);
  GetIssueByPipelineID : Z -> result (option Issue)
}.

(** The SQL-review engine: [advisorDB.ConvertToAdvisorDBType], the driver
    factory and [advisor.SQLReviewCheck].  A [nil] advice slice is [None]. *)
Record ReviewEngine := {
  ConvertToAdvisorDBType : string -> result string;
  GetReadOnlyDatabaseDriver : Database -> result unit;
  GetDBConnection : Database -> result unit;
  SQLReviewCheck :
    string -> list string -> Database -> result (option (list Advice))
}.

(** The receiver [*Server]. *)
Record Server := {
  store : Store;
  provider : Provider;
  engine : ReviewEngine;
  plugin : DBPlugin;
  codec : Codec;
  runtime : GoRuntime;
  MultiTenancyEnabled : bool;
  MultiTenancyAccessErrorMessage : string;
  workspaceID : string;
  ModeIsDev : bool;
  ExternalURL : string;
  createIssue : IssueCreate -> result Issue;
  CreateActivity : ActivityCreate -> result unit;
  patchTask : Task -> TaskPatch -> Issue -> result unit
}.

(** ** Effects

    What a request writes: the issues it created, the activities it
    recorded and the tasks it patched, oldest first. *)
Record Effects := {
  createdIssues : list IssueCreate;
  createdActivities : list ActivityCreate;
  patchedTasks : list TaskPatch
}.

Definition noEffects : Effects :=
  {| createdIssues := []; createdActivities := []; patchedTasks := [] |}.

(** A Go function either returns or does not: it panics (an index out of
    range, a nil pointer dereference), or the runtime ends the process with
    a fatal error. *)
Inductive outcome (A : Type) : Type :=
  | Returns (a : A)
  | Panics (what : string).
Arguments Returns {A} a.
Arguments Panics {A} what.

Definition M (A : Type) : Type := Effects -> outcome A * Effects.

Definition ret {A} (a : A) : M A := fun st => (Returns a, st).

Definition lift {A} (o : outcome A) : M A := fun st => (o, st).

Definition bind {A B} (m : M A) (k : A -> M B) : M B :=
  fun st =>
    match m st with
    | (Returns a, st') => k a st'
    | (Panics what, st') => (Panics what, st')
    end.

Notation "'do' x <- m ; k" := (bind m (fun x => k))
  (at level 10, x name, m at level 100, k at level 200).

Definition run {A} (m : M A) : outcome A * Effects := m noEffects.

(** [s.createIssue]: the issue is stored when the oracle accepts it. *)
Definition doCreateIssue (s : Server) (ic : IssueCreate) : M (result Issue) :=
  fun st =>
    match createIssue s ic with
    | Ok issue =>
        (Returns (Ok issue),
         {| createdIssues := (createdIssues st ++ [ic])%list;
            createdActivities := createdActivities st;
            patchedTasks := patchedTasks st |})
    | Err e => (Returns (Err e), st)
    end.

(** [s.ActivityManager.CreateActivity]. *)
Definition doCreateActivity (s : Server) (ac : ActivityCreate)
  : M (result unit) :=
  fun st =>
    match CreateActivity s ac with
    | Ok u =>
        (Returns (Ok u),
         {| createdIssues := createdIssues st;
            createdActivities := (createdActivities st ++ [ac])%list;
            patchedTasks := patchedTasks st |})
    | Err e => (Returns (Err e), st)
    end.

(** [s.patchTask]. *)
Definition doPatchTask (s : Server) (t : Task) (tp : TaskPatch) (i : Issue)
  : M (result unit) :=
  fun st =>
    match patchTask s t tp i with
    | Ok u =>
        (Returns (Ok u),
         {| createdIssues := createdIssues st;
            createdActivities := createdActivities st;
            patchedTasks := (patchedTasks st ++ [tp])%list |})
    | Err e => (Returns (Err e), st)
    end.

(** [repo.VCS.Type]; [repo.VCS] is a pointer. *)
Definition vcsTypeOf (repo : Repository) : outcome VCSType :=
  match RepoVCS repo with
  | Some v => Returns (VCSKind v)
  | None => Panics "nil pointer dereference"
  end.

(** [l[0]] and [l[len(l)-1]]. *)
Definition first {A} (l : list A) : outcome A :=
  match l with
  | x :: _ => Returns x
  | [] => Panics "index out of range"
  end.

Definition final {A} (l : list A) : outcome A :=
  match List.rev l with
  | x :: _ => Returns x
  | [] => Panics "index out of range"
  end.

(** ** server/webhook.go *)

(** *** parseBranchNameFromRefs, isWebhookEventBranch *)

Definition expectedPrefix : string := "refs/heads/".

Definition parseBranchNameFromRefs (ref : string) : result string :=
  if negb (HasPrefix ref expectedPrefix)
     || (String.length expectedPrefix =? String.length ref)%nat
  then Err (ErrUnexpectedRef ref expectedPrefix)
  else Ok (dropString (String.length expectedPrefix) ref).

(** [filepath.Match] as the pipeline calls it; [Match] always gives a
    result ([Match_total]), so that the second case does not occur. *)
Definition filepathMatch (pattern name : string) : result bool :=
  match Match pattern name with
  | Some r => r
  | None => Err ErrBadPattern
  end.

Definition isWebhookEventBranch (pushEventRef branchFilter : string)
  : result bool :=
  match parseBranchNameFromRefs pushEventRef with
  | Err e => Err (ErrHTTPInternal StatusBadRequest "Invalid ref: %s" e)
  | Ok branch =>
      match filepathMatch branchFilter branch with
      | Err e => Err (ErrWrap e "failed to match branch filter")
      | Ok false => Ok false
      | Ok true => Ok true
      end
  end.

(** *** validateGitHubWebhookSignature256 *)

Definition validateGitHubWebhookSignature256
    (signature key body : string) : result bool :=
  let signature := TrimPrefix signature "sha256=" in
  let got := EncodeToString (HMACSHA256 key body) in
  Ok (ConstantTimeCompare signature got =? 1).

(** *** filterRepository *)

Definition repositoryFilter : Type := Repository -> result bool.

Fixpoint filterRepositoryLoop (pushEventRepositoryID : string)
    (filter : repositoryFilter) (repos filteredRepos : list Repository)
  : result (list Repository) :=
  match repos with
  | [] => Ok filteredRepos
  | repo :: repos' =>
      if bool_decide (ProjectRowStatus (RepoProject repo) = Archived)
      then filterRepositoryLoop pushEventRepositoryID filter repos'
             filteredRepos
      else if negb (bool_decide (is_Some (RepoVCS repo)))
      then filterRepositoryLoop pushEventRepositoryID filter repos'
             filteredRepos
      else if negb (String.eqb pushEventRepositoryID (ExternalID repo))
      then filterRepositoryLoop pushEventRepositoryID filter repos'
             filteredRepos
      else
        match filter repo with
        | Err e => Err e
        | Ok false =>
            filterRepositoryLoop pushEventRepositoryID filter repos'
              filteredRepos
        | Ok true =>
            filterRepositoryLoop pushEventRepositoryID filter repos'
              (filteredRepos ++ [repo])%list
        end
  end.

Definition filterRepository (s : Server) (webhookEndpointID : string)
    (pushEventRepositoryID : string) (filter : repositoryFilter)
  : result (list Repository) :=
  match FindRepository (store s) webhookEndpointID with
  | Err e =>
      Err (ErrHTTPInternal StatusInternalServerError
             ("Failed to respond webhook event for endpoint: "
              ++ webhookEndpointID) e)
  | Ok [] =>
      Err (ErrHTTP StatusNotFound
             ("Repository for webhook endpoint " ++ webhookEndpointID
              ++ " not found"))
  | Ok repos => filterRepositoryLoop pushEventRepositoryID filter repos []
  end.

(** *** filterFilesByCommitsDiff *)

Definition filterFilesByCommitsDiff (s : Server) (repo : Repository)
    (distinctFileList : list DistinctFileItem)
    (beforeCommit afterCommit : string)
  : M (result (list DistinctFileItem)) :=
  do ty <- lift (vcsTypeOf repo);
  match GetDiffFileList (provider s) ty (ExternalID repo)
          beforeCommit afterCommit with
  | Err e =>
      ret (Err (ErrWrap e "failed to get file diff list for repository"))
  | Ok fileDiffList =>
      ret (Ok (List.filter
                 (fun file =>
                    existsb (fun diff => String.eqb (FileName file) diff)
                      fileDiffList)
                 distinctFileList))
  end.

(** *** getFileInfo *)

(** The template and the "allow omit database name" flag that the loop of
    [getFileInfo] hands to [db.ParseMigrationInfo] for one repository. *)
Definition migrationTemplateOf (fileItem : DistinctFileItem)
    (repository : Repository) : string * bool :=
  let filePathTemplate :=
    pathJoin [BaseDirectory repository; FilePathTemplate repository] in
  if bool_decide (TenantMode (RepoProject repository) = TenantModeTenant)
  then
    if IsYAML fileItem
    then (ReplaceFirst filePathTemplate ".sql" ".yml", true)
    else if String.eqb (DBNameTemplate (RepoProject repository)) ""
    then (filePathTemplate, true)
    else (filePathTemplate, false)
  else (filePathTemplate, false).

(** The value of [var migrationInfo *db.MigrationInfo] before its first
    assignment; [getFileInfo] returns the variable only after one. *)
Definition nilMigrationInfo : MigrationInfo :=
  {| miDatabase := ""; miEnvironment := ""; miVersion := "";
     miType := Migrate |}.

(** The state of the loop of [getFileInfo]: the variables [migrationInfo],
    [fType] and [fileRepositoryList]. *)
Definition matchState : Type :=
  MigrationInfo * fileType * list Repository.

(** The loop of [getFileInfo]; [Err] is the return from inside the loop. *)
Fixpoint getFileInfoLoop (p : DBPlugin) (fileItem : DistinctFileItem)
    (repositoryList : list Repository) (st : matchState)
  : result matchState :=
  match repositoryList with
  | [] => Ok st
  | repository :: rest =>
      let '(migrationInfo, fType, fileRepositoryList) := st in
      if negb (HasPrefix (FileName fileItem) (BaseDirectory repository))
      then getFileInfoLoop p fileItem rest st
      else
        let '(filePathTemplate, allowOmitDatabaseName) :=
          migrationTemplateOf fileItem repository in
        match ParseMigrationInfo p (FileName fileItem) filePathTemplate
                allowOmitDatabaseName with
        | Err _ => getFileInfoLoop p fileItem rest st
        | Ok (Some mi) =>
            if IsYAML fileItem && negb (bool_decide (miType mi = Data))
            then Err ErrYAMLOnlyDML
            else getFileInfoLoop p fileItem rest
                   (mi, migrationFileType,
                    (fileRepositoryList ++ [repository])%list)
        | Ok None =>
            match ParseSchemaFileInfo p (BaseDirectory repository)
                    (SchemaPathTemplate repository) (FileName fileItem) with
            | Err _ => getFileInfoLoop p fileItem rest st
            | Ok (Some si) =>
                getFileInfoLoop p fileItem rest
                  (si, schemaFileType,
                   (fileRepositoryList ++ [repository])%list)
            | Ok None => getFileInfoLoop p fileItem rest st
            end
        end
  end.

Definition getFileInfo (p : DBPlugin) (fileItem : DistinctFileItem)
    (repositoryList : list Repository)
  : result (MigrationInfo * fileType * Repository) :=
  match getFileInfoLoop p fileItem repositoryList
          (nilMigrationInfo, unknownFileType, []) with
  | Err e => Err e
  | Ok (migrationInfo, fType, fileRepositoryList) =>
      match fileRepositoryList with
      | [] => Err ErrFileNoProject
      | [repository] => Ok (migrationInfo, fType, repository)
      | _ =>
          Err (ErrFileManyProjects
                 ("file change should be associated with exactly one project but found "
                  ++ Join (List.map (fun repository =>
                                       ProjectName (RepoProject repository))
                             fileRepositoryList) ", "))
      end
  end.

(** *** groupFileInfoByRepo, groupFileInfoByDatabase *)

(** [m[k] = append(m[k], x)]. *)
Definition appendAt `{Countable K} {A} (k : K) (x : A)
    (m : gmap K (list A)) : gmap K (list A) :=
  <[ k := (default [] (m !! k) ++ [x])%list ]> m.

Fixpoint groupFileInfoByRepoLoop (p : DBPlugin)
    (distinctFileList : list DistinctFileItem)
    (repositoryList : list Repository)
    (repoID2FileItemList : gmap Z (list fileInfo))
  : gmap Z (list fileInfo) :=
  match distinctFileList with
  | [] => repoID2FileItemList
  | item :: rest =>
      match getFileInfo p item repositoryList with
      | Err _ =>
          groupFileInfoByRepoLoop p rest repositoryList repoID2FileItemList
      | Ok (migrationInfo, fType, repository) =>
          groupFileInfoByRepoLoop p rest repositoryList
            (appendAt (RepoID repository)
               {| item := item; migrationInfo := migrationInfo;
                  fType := fType; repository := repository |}
               repoID2FileItemList)
      end
  end.

Definition groupFileInfoByRepo (p : DBPlugin)
    (distinctFileList : list DistinctFileItem)
    (repositoryList : list Repository) : gmap Z (list fileInfo) :=
  groupFileInfoByRepoLoop p distinctFileList repositoryList ∅.

Definition groupFileInfoByDatabase (fileInfoList : list fileInfo)
  : gmap string (list fileInfo) :=
  fold_left
    (fun m fileInfo => appendAt (miDatabase (migrationInfo fileInfo)) fileInfo m)
    fileInfoList ∅.

(** *** sortFilesBySchemaVersion *)

(** The [less] function handed to [sort.Slice]. *)
Definition lessBySchemaVersion (fi fj : fileInfo) : bool :=
  let mi := migrationInfo fi in
  let mj := migrationInfo fj in
  String.ltb (miDatabase mi) (miDatabase mj)
  || (String.eqb (miDatabase mi) (miDatabase mj)
      && String.ltb (miVersion mi) (miVersion mj)).

Definition sortFilesBySchemaVersion (rt : GoRuntime)
    (fileInfoList : list fileInfo) : list fileInfo :=
  SortSlice rt fileInfo lessBySchemaVersion fileInfoList.

(** *** findProjectDatabases *)

Definition envNameOf (d : Database) : string :=
  EnvironmentName (InstanceEnvironment (DatabaseInstance d)).

Definition envIDOf (d : Database) : Z := EnvironmentID (DatabaseInstance d).

(** The "further filter by environment name" loop. *)
Definition filterByEnvironment (rt : GoRuntime) (envName : string)
    (foundDatabases : list Database) : list Database :=
  List.filter (fun d => EqualFold rt (envNameOf d) envName) foundDatabases.

(** The [marked] loop: [true] when an environment ID is met a second
    time. *)
Fixpoint markedTwice (marked : gset Z) (l : list Database) : bool :=
  match l with
  | [] => false
  | database :: l' =>
      if bool_decide (envIDOf database ∈ marked) then true
      else markedTwice ({[ envIDOf database ]} ∪ marked) l'
  end.

Definition findProjectDatabases (s : Server) (projectID : Z)
    (dbName envName : string) : result (list Database) :=
  match FindDatabase (store s) projectID dbName with
  | Err e => Err (ErrWrap e "find database")
  | Ok [] => Err (ErrProjectNoDatabase projectID dbName)
  | Ok foundDatabases =>
      let filtered :=
        if negb (String.eqb envName "") then
          match filterByEnvironment (runtime s) envName foundDatabases with
          | [] => Err (ErrProjectNoDatabaseForEnv projectID dbName envName)
          | filteredDatabases => Ok filteredDatabases
          end
        else Ok foundDatabases in
      match filtered with
      | Err e => Err e
      | Ok filteredDatabases =>
          if markedTwice ∅ filteredDatabases
          then Err (ErrProjectMultipleDatabases projectID dbName envName)
          else Ok filteredDatabases
      end
  end.

(** *** getIssueCreatorID, getIgnoredFileActivityCreate, readFileContent *)

Definition getIssueCreatorID (s : Server) (email : string) : Z :=
  if negb (String.eqb email "") then
    match GetPrincipalByEmail (store s) email with
    | Err _ => SystemBotID
    | Ok None => SystemBotID
    | Ok (Some committerPrincipalID) => committerPrincipalID
    end
  else SystemBotID.

Definition getIgnoredFileActivityCreate (projectID : Z)
    (pushEvent : PushEvent) (file : string) (err : error) : ActivityCreate :=
  {| ActivityCreatorID := SystemBotID;
     ContainerID := projectID;
     Level := ActivityWarn;
     Comment := CommentIgnoredFile file err;
     Payload := (pushEvent, None) |}.

(** When no repository is found the code wraps a [nil] error, which is
    [nil]: it returns the empty content and no error. *)
Definition readFileContent (s : Server) (pushEvent : PushEvent)
    (repo : Repository) (file : string) : M (result string) :=
  match FindRepository (store s) (WebhookEndpointID repo) with
  | Err e => ret (Err (ErrWrap e "get repository by webhook endpoint"))
  | Ok [] => ret (Ok "")
  | Ok (repo :: _) =>
      do ty <- lift (vcsTypeOf repo);
      do lastCommit <- lift (final (CommitList pushEvent));
      match ReadFileContent (provider s) ty (ExternalID repo) file
              (CommitIDOf lastCommit) with
      | Err e => ret (Err (ErrWrap e "read content"))
      | Ok content => ret (Ok content)
      end
  end.

(** *** prepareIssueFromSDLFile *)

Definition prepareIssueFromSDLFile (s : Server) (repo : Repository)
    (pushEvent : PushEvent) (schemaInfo : MigrationInfo) (file : string)
  : M (list MigrationDetail * list ActivityCreate) :=
  let dbName := miDatabase schemaInfo in
  if String.eqb dbName "" then ret ([], [])
  else
    do r <- readFileContent s pushEvent repo file;
    match r with
    | Err err =>
        ret ([], [getIgnoredFileActivityCreate (ProjectID repo) pushEvent file
                    (ErrWrap err "Failed to read file content")])
    | Ok sdl =>
        if bool_decide (TenantMode (RepoProject repo) = TenantModeTenant)
        then
          ret ([ {| mdMigrationType := MigrateSDL; mdDatabaseID := 0;
                    mdDatabaseName := dbName; mdStatement := sdl;
                    mdSchemaVersion := "" |} ], [])
        else
          let envName := miEnvironment schemaInfo in
          match findProjectDatabases s (ProjectID repo) dbName envName with
          | Err err =>
              ret ([], [getIgnoredFileActivityCreate (ProjectID repo)
                          pushEvent file
                          (ErrWrap err "Failed to find project databases")])
          | Ok databases =>
              ret (List.map
                     (fun database =>
                        {| mdMigrationType := MigrateSDL;
                           mdDatabaseID := DatabaseID database;
                           mdDatabaseName := ""; mdStatement := sdl;
                           mdSchemaVersion := "" |})
                     databases, [])
          end
    end.

(** *** tryUpdateTasksFromModifiedFile *)

Fixpoint tryUpdateTasksFromModifiedFile (s : Server)
    (databases : list Database) (fileName schemaVersion statement : string)
  : M (result unit) :=
  match databases with
  | [] => ret (Ok tt)
  | database :: rest =>
      match FindTask (store s) (DatabaseID database) schemaVersion with
      | Err err => ret (Err err)
      | Ok [] =>
          tryUpdateTasksFromModifiedFile s rest fileName schemaVersion
            statement
      | Ok [task] =>
          let taskPatch :=
            {| PatchTaskID := TaskID task; PatchStatement := statement |} in
          match GetIssueByPipelineID (store s) (PipelineID task) with
          | Err _ => ret (Ok tt)
          | Ok None => ret (Ok tt)
          | Ok (Some issue) =>
              do r <- doPatchTask s task taskPatch issue;
              match r with
              | Err _ => ret (Ok tt)
              | Ok _ =>
                  tryUpdateTasksFromModifiedFile s rest fileName
                    schemaVersion statement
              end
          end
      | Ok _ => ret (Ok tt)
      end
  end.

(** *** prepareIssueFromFile *)

(** The details of a YAML migration file, database by database; [Err] is
    the return from inside the loop. *)
Fixpoint yamlMigrationDetails (s : Server) (projectID : Z)
    (mi : MigrationInfo) (statement : string) (databases : list string)
    (migrationDetailList : list MigrationDetail)
  : result (list MigrationDetail) :=
  match databases with
  | [] => Ok migrationDetailList
  | databaseName :: rest =>
      match findProjectDatabases s projectID databaseName "" with
      | Err err => Err (ErrWrap err "Failed to find project database")
      | Ok dbList =>
          yamlMigrationDetails s projectID mi statement rest
            (migrationDetailList ++
             List.map
               (fun db =>
                  {| mdMigrationType := miType mi;
                     mdDatabaseID := DatabaseID db;
                     mdDatabaseName := "";
                     mdStatement := statement;
                     mdSchemaVersion := miVersion mi |})
               dbList)%list
      end
  end.

Definition prepareIssueFromFile (s : Server) (repo : Repository)
    (pushEvent : PushEvent) (fileInfo : fileInfo)
  : M (list MigrationDetail * list ActivityCreate) :=
  let fileName := FileName (item fileInfo) in
  let mi := migrationInfo fileInfo in
  let ignored err :=
    [getIgnoredFileActivityCreate (ProjectID repo) pushEvent fileName err] in
  do r <- readFileContent s pushEvent repo fileName;
  match r with
  | Err err => ret ([], ignored (ErrWrap err "Failed to read file content"))
  | Ok content =>
      if bool_decide (TenantMode (RepoProject repo) = TenantModeTenant)
      then
        if negb (IsYAML (item fileInfo)) then
          ret ([ {| mdMigrationType := miType mi; mdDatabaseID := 0;
                    mdDatabaseName := miDatabase mi;
                    mdStatement := content;
                    mdSchemaVersion := miVersion mi |} ], [])
        else
          match UnmarshalMigrationFileYAML (codec s) content with
          | Err err =>
              ret ([], ignored
                         (ErrWrap err "Failed to parse file content as YAML"))
          | Ok migrationFile =>
              match yamlMigrationDetails s (ProjectID repo) mi
                      (YAMLStatement migrationFile)
                      (YAMLDatabases migrationFile) [] with
              | Err err => ret ([], ignored err)
              | Ok migrationDetailList => ret (migrationDetailList, [])
              end
          end
      else
        match findProjectDatabases s (ProjectID repo) (miDatabase mi)
                (miEnvironment mi) with
        | Err err =>
            ret ([], ignored (ErrWrap err "Failed to find project databases"))
        | Ok databases =>
            if bool_decide (ItemType (item fileInfo) = FileItemTypeAdded)
            then
              ret (List.map
                     (fun database =>
                        {| mdMigrationType := miType mi;
                           mdDatabaseID := DatabaseID database;
                           mdDatabaseName := "";
                           mdStatement := content;
                           mdSchemaVersion := miVersion mi |})
                     databases, [])
            else
              do u <- tryUpdateTasksFromModifiedFile s databases fileName
                        (miVersion mi) content;
              match u with
              | Err err =>
                  ret ([], ignored (ErrWrap err "Failed to find project task"))
              | Ok _ => ret ([], [])
              end
        end
  end.

(** *** createIssueFromMigrationDetailList *)

(** The loop over the details that picks the issue type. *)
Fixpoint issueTypeLoop (migrationDetailList : list MigrationDetail)
    (issueType : IssueType) : IssueType :=
  match migrationDetailList with
  | [] => issueType
  | detail :: rest =>
      if bool_decide (mdMigrationType detail = Migrate)
         || bool_decide (mdMigrationType detail = Baseline)
      then issueTypeLoop rest IssueDatabaseSchemaUpdate
      else issueTypeLoop rest issueType
  end.

(** The [api.IssueCreate] that [createIssueFromMigrationDetailList]
    builds. *)
Definition issueCreateOf (issueName issueDescription : string)
    (pushEvent : PushEvent) (creatorID projectID : Z)
    (migrationDetailList : list MigrationDetail) : IssueCreate :=
  let issueType := issueTypeLoop migrationDetailList IssueDatabaseDataUpdate in
  {| IssueCreatorID := creatorID;
     IssueProjectID := projectID;
     IssueName := issueName;
     IssueKind := issueType;
     IssueDescription := issueDescription;
     AssigneeID := SystemBotID;
     AssigneeNeedAttention := true;
     CreateContext := (pushEvent, migrationDetailList) |}.

Definition createIssueFromMigrationDetailList (s : Server)
    (issueName issueDescription : string) (pushEvent : PushEvent)
    (creatorID projectID : Z) (migrationDetailList : list MigrationDetail)
  : M (result unit) :=
  let issueCreate :=
    issueCreateOf issueName issueDescription pushEvent creatorID projectID
      migrationDetailList in
  let issueType := IssueKind issueCreate in
  do r <- doCreateIssue s issueCreate;
  match r with
  | Err err =>
      let errMsg :=
        if bool_decide (issueType = IssueDatabaseDataUpdate)
        then "Failed to create data update issue"
        else "Failed to create schema update issue" in
      ret (Err (ErrHTTPInternal StatusInternalServerError errMsg err))
  | Ok issue =>
      let activityCreate :=
        {| ActivityCreatorID := creatorID;
           ContainerID := projectID;
           Level := ActivityInfo;
           Comment := CommentCreatedIssue (IssueNameOf issue);
           Payload := (pushEvent, Some issue) |} in
      do a <- doCreateActivity s activityCreate;
      match a with
      | Err err =>
          ret (Err (ErrHTTPInternal StatusInternalServerError
                      "Failed to create project activity after creating issue from repository push event"
                      err))
      | Ok _ => ret (Ok tt)
      end
  end.

(** *** processFilesInProject *)

(** [fmt.Sprintf(issueNameTemplate, databaseName, kind)] with
    [issueNameTemplate = "[%s] %s"]. *)
Definition issueNameOf (databaseName kind : string) : string :=
  "[" ++ databaseName ++ "] " ++ kind.

(** The variables of the loop over the files. *)
Record projectLoop := {
  migrationDetailList : list MigrationDetail;
  activityCreateList : list ActivityCreate;
  createdIssueList : list string;
  fileNameList : list string
}.

(** The loop over the files of [processFilesInProject]; the error is the
    return from inside the loop. *)
Fixpoint processFilesLoop (s : Server) (pushEvent : PushEvent)
    (repo : Repository) (creatorID : Z) (fileInfoList : list fileInfo)
    (st : projectLoop) : M (projectLoop * option error) :=
  match fileInfoList with
  | [] => ret (st, None)
  | fileInfo :: rest =>
      if bool_decide (fType fileInfo = schemaFileType) then
        if bool_decide (SchemaChangeType (RepoProject repo)
                        = ProjectSchemaChangeTypeSDL)
        then
          do prepared <-
            prepareIssueFromSDLFile s repo pushEvent (migrationInfo fileInfo)
              (FileName (item fileInfo));
          let '(migrationDetailListForFile, activityCreateListForFile) :=
            prepared in
          let st1 :=
            {| migrationDetailList := migrationDetailList st;
               activityCreateList :=
                 (activityCreateList st ++ activityCreateListForFile)%list;
               createdIssueList := createdIssueList st;
               fileNameList := fileNameList st |} in
          if negb (length migrationDetailListForFile =? 0)%nat then
            let databaseName := miDatabase (migrationInfo fileInfo) in
            let issueName := issueNameOf databaseName "Alter schema" in
            let issueDescription :=
              "Apply schema diff by file "
              ++ TrimPrefix (FileName (item fileInfo))
                   (BaseDirectory repo ++ "/") in
            do r <- createIssueFromMigrationDetailList s issueName
                      issueDescription pushEvent creatorID (ProjectID repo)
                      migrationDetailListForFile;
            match r with
            | Err err =>
                ret (st1,
                     Some (ErrHTTPInternal StatusInternalServerError
                             "Failed to create issue" err))
            | Ok _ =>
                processFilesLoop s pushEvent repo creatorID rest
                  {| migrationDetailList := migrationDetailList st1;
                     activityCreateList := activityCreateList st1;
                     createdIssueList :=
                       (createdIssueList st1 ++ [issueName])%list;
                     fileNameList := fileNameList st1 |}
            end
          else processFilesLoop s pushEvent repo creatorID rest st1
        else processFilesLoop s pushEvent repo creatorID rest st
      else
        do prepared <- prepareIssueFromFile s repo pushEvent fileInfo;
        let '(migrationDetailListForFile, activityCreateListForFile) :=
          prepared in
        processFilesLoop s pushEvent repo creatorID rest
          {| migrationDetailList :=
               (migrationDetailList st ++ migrationDetailListForFile)%list;
             activityCreateList :=
               (activityCreateList st ++ activityCreateListForFile)%list;
             createdIssueList := createdIssueList st;
             fileNameList :=
               if negb (length migrationDetailListForFile =? 0)%nat
               then (fileNameList st ++
                     [TrimPrefix (FileName (item fileInfo))
                        (BaseDirectory repo ++ "/")])%list
               else fileNameList st |}
  end.

(** The loop that picks the second half of the name of the merged
    issue. *)
Fixpoint migrateTypeLoop (migrationDetailList : list MigrationDetail)
  : string :=
  match migrationDetailList with
  | [] => "Change data"
  | d :: rest =>
      if bool_decide (mdMigrationType d = Migrate) then "Alter schema"
      else migrateTypeLoop rest
  end.

(** What [processFilesInProject] returns: the created issue names of the
    message ["Created issue %q from push event"], [created], the activities
    of the ignored files and the error. *)
Definition projectResult : Type :=
  list string * bool * list ActivityCreate * option error.

(** [fmt.Sprintf("By VCS files:\n\n%s\n", strings.Join(fileNameList, "\n"))]. *)
Definition mergedIssueDescription (fileNameList : list string) : string :=
  "By VCS files:" ++ newline ++ newline ++ Join fileNameList newline
  ++ newline.

(** The end of [processFilesInProject], after the loop over the files:
    one issue for the migration details that the loop has collected. *)
Definition mergeIntoIssue (s : Server) (pushEvent : PushEvent)
    (repo : Repository) (creatorID : Z) (fileInfoList : list fileInfo)
    (st : projectLoop) : M projectResult :=
  let migrateType := migrateTypeLoop (migrationDetailList st) in
  do firstFile <- lift (first fileInfoList);
  let databaseName := miDatabase (migrationInfo firstFile) in
  let issueName := issueNameOf databaseName migrateType in
  let issueDescription := mergedIssueDescription (fileNameList st) in
  do r <- createIssueFromMigrationDetailList s issueName issueDescription
            pushEvent creatorID (ProjectID repo) (migrationDetailList st);
  match r with
  | Err e =>
      ret ([], negb (length (createdIssueList st) =? 0)%nat,
           activityCreateList st,
           Some (ErrHTTPInternal StatusInternalServerError
                   ("Failed to create issue " ++ issueName) e))
  | Ok _ =>
      ret ((createdIssueList st ++ [issueName])%list, true,
           activityCreateList st, None)
  end.

Definition noFiles : projectLoop :=
  {| migrationDetailList := []; activityCreateList := [];
     createdIssueList := []; fileNameList := [] |}.

Definition processFilesInProject (s : Server) (pushEvent : PushEvent)
    (repo : Repository) (fileInfoList : list fileInfo) : M projectResult :=
  if bool_decide (TenantMode (RepoProject repo) = TenantModeTenant)
     && negb (MultiTenancyEnabled s)
  then
    ret ([], false, [],
         Some (ErrHTTP StatusForbidden (MultiTenancyAccessErrorMessage s)))
  else
    do firstCommit <- lift (first (CommitList pushEvent));
    let creatorID := getIssueCreatorID s (AuthorEmail firstCommit) in
    do looped <-
      processFilesLoop s pushEvent repo creatorID fileInfoList noFiles;
    let '(st, err) := looped in
    match err with
    | Some e => ret ([], false, activityCreateList st, Some e)
    | None =>
        if (length (migrationDetailList st) =? 0)%nat then
          ret ([], negb (length (createdIssueList st) =? 0)%nat,
               activityCreateList st, None)
        else mergeIntoIssue s pushEvent repo creatorID fileInfoList st
    end.

(** *** processPushEvent *)

Fixpoint recordIgnoredActivities (s : Server)
    (activityCreateList : list ActivityCreate) : M unit :=
  match activityCreateList with
  | [] => ret tt
  | activityCreate :: rest =>
      do r <- doCreateActivity s activityCreate;
      recordIgnoredActivities s rest
  end.

(** The groups the two nested loops of [processPushEvent] visit: for each
    repository, the files of each database.  Go leaves the iteration order
    of a map unspecified; the order of [map_to_list] stands for it. *)
Definition databaseGroups (repoID2FileItemList : gmap Z (list fileInfo))
  : list (list fileInfo) :=
  List.concat
    (List.map
       (fun kv => List.map snd (map_to_list (groupFileInfoByDatabase (snd kv))))
       (map_to_list repoID2FileItemList)).

Fixpoint processGroups (s : Server) (baseVCSPushEvent : PushEvent)
    (groups : list (list fileInfo)) (createdMessageList : list (list string))
  : M (result (list (list string))) :=
  match groups with
  | [] => ret (Ok createdMessageList)
  | fileInfoListInDB :: rest =>
      let fileInfoListSorted :=
        sortFilesBySchemaVersion (runtime s) fileInfoListInDB in
      do firstFile <- lift (first fileInfoListSorted);
      let repository := repository firstFile in
      do ty <- lift (vcsTypeOf repository);
      let pushEvent :=
        {| PushVCSType := ty;
           PushBaseDirectory := BaseDirectory repository;
           PushRef := PushRef baseVCSPushEvent;
           RepositoryURL := RepositoryURL baseVCSPushEvent;
           RepositoryFullPath := RepositoryFullPath baseVCSPushEvent;
           Before := Before baseVCSPushEvent;
           After := After baseVCSPushEvent;
           CommitList := CommitList baseVCSPushEvent |} in
      do r <- processFilesInProject s pushEvent repository fileInfoListSorted;
      let '(createdMessage, created, activityCreateList, err) := r in
      match err with
      | Some e => ret (Err e)
      | None =>
          if created then
            processGroups s baseVCSPushEvent rest
              (createdMessageList ++ [createdMessage])%list
          else
            do u <- recordIgnoredActivities s activityCreateList;
            processGroups s baseVCSPushEvent rest createdMessageList
      end
  end.

Definition processPushEvent (s : Server) (repositoryList : list Repository)
    (baseVCSPushEvent : PushEvent) : M (result (list (list string))) :=
  match repositoryList with
  | [] => ret (Err ErrEmptyRepositoryList)
  | repo :: _ =>
      let distinctFileList :=
        GetDistinctFileList (codec s) baseVCSPushEvent in
      if (length distinctFileList =? 0)%nat then ret (Ok [])
      else
        do filtered <-
          filterFilesByCommitsDiff s repo distinctFileList
            (Before baseVCSPushEvent) (After baseVCSPushEvent);
        match filtered with
        | Err err => ret (Err err)
        | Ok filteredDistinctFileList =>
            let repoID2FileItemList :=
              groupFileInfoByRepo (plugin s) filteredDistinctFileList
                repositoryList in
            processGroups s baseVCSPushEvent
              (databaseGroups repoID2FileItemList) []
        end
  end.

(** *** convertSQLAdviceToGitLabCIResult, convertSQLAdiceToGitHubActionResult *)

Definition sqlReviewDocs : string :=
  "https://www.bytebase.com/docs/reference/error-code/advisor".

(** The file paths of the advice map, sorted by [sort.Strings]. *)
Definition sortedFileList (adviceMap : gmap string (list Advice))
  : list string :=
  SortStrings (List.map fst (map_to_list adviceMap)).

Definition lineOf (advice : Advice) : Z :=
  if AdviceLine advice <=? 0 then 1 else AdviceLine advice.

Definition gitlabTestcase (filePath : string) (advice : Advice) : string :=
  let content :=
    "Error: " ++ AdviceContent advice ++ "." ++ newline
    ++ "You can check the docs at " ++ sqlReviewDocs ++ "#"
    ++ Itoa (AdviceCode advice) in
  "<testcase name=" ++ dquote ++ AdviceTitle advice ++ dquote
  ++ " classname=" ++ dquote ++ filePath ++ dquote
  ++ " file=" ++ dquote ++ filePath ++ "#L" ++ Itoa (lineOf advice) ++ dquote
  ++ ">" ++ newline ++ "<failure>" ++ newline ++ content ++ newline
  ++ "</failure>" ++ newline ++ "</testcase>".

(** The loop over the advices of one file, GitLab flavour. *)
Fixpoint gitlabAdviceLoop (filePath : string) (adviceList : list Advice)
    (status : Status) (testcaseList : list string) : Status * list string :=
  match adviceList with
  | [] => (status, testcaseList)
  | advice :: rest =>
      if AdviceCode advice =? 0
      then gitlabAdviceLoop filePath rest status testcaseList
      else
        let status :=
          if bool_decide (AdviceStatus advice = Error) then AdviceStatus advice
          else if bool_decide (AdviceStatus advice = Warn)
                  && negb (bool_decide (status = Error))
          then AdviceStatus advice
          else status in
        gitlabAdviceLoop filePath rest status
          (testcaseList ++ [gitlabTestcase filePath advice])%list
  end.

Definition gitlabTestsuite (filePath : string) (testcaseList : list string)
  : string :=
  "<testsuite name=" ++ dquote ++ filePath ++ dquote ++ ">" ++ newline
  ++ Join testcaseList newline ++ newline ++ "</testsuite>".

Definition gitlabReport (testsuiteList : list string) : string :=
  "<?xml version=" ++ dquote ++ "1.0" ++ dquote ++ " encoding=" ++ dquote
  ++ "UTF-8" ++ dquote ++ "?>" ++ newline ++ "<testsuites name=" ++ dquote
  ++ "SQL Review" ++ dquote ++ ">" ++ newline
  ++ Join testsuiteList newline ++ newline ++ "</testsuites>".

Fixpoint gitlabFileLoop (adviceMap : gmap string (list Advice))
    (fileList : list string) (status : Status) (testsuiteList : list string)
  : Status * list string :=
  match fileList with
  | [] => (status, testsuiteList)
  | filePath :: rest =>
      let adviceList := default [] (adviceMap !! filePath) in
      let '(status, testcaseList) :=
        gitlabAdviceLoop filePath adviceList status [] in
      if (0 <? length testcaseList)%nat then
        gitlabFileLoop adviceMap rest status
          (testsuiteList ++ [gitlabTestsuite filePath testcaseList])%list
      else gitlabFileLoop adviceMap rest status testsuiteList
  end.

Definition convertSQLAdviceToGitLabCIResult
    (adviceMap : gmap string (list Advice)) : VCSSQLReviewResult :=
  let fileList := sortedFileList adviceMap in
  let '(status, testsuiteList) :=
    gitlabFileLoop adviceMap fileList Success [] in
  {| ResultStatus := status;
     ResultContent := [gitlabReport testsuiteList] |}.

Definition githubMessage (prefix filePath : string) (advice : Advice)
  : string :=
  ReplaceNewlines
    ("::" ++ prefix ++ " file=" ++ filePath ++ ",line="
     ++ Itoa (lineOf advice) ++ ",col=1,endColumn=2,title="
     ++ AdviceTitle advice ++ " (" ++ Itoa (AdviceCode advice) ++ ")::"
     ++ AdviceContent advice ++ newline ++ "Doc: " ++ sqlReviewDocs ++ "#"
     ++ Itoa (AdviceCode advice)).

(** The loop over the advices of one file, GitHub flavour. *)
Fixpoint githubAdviceLoop (filePath : string) (adviceList : list Advice)
    (status : Status) (messageList : list string) : Status * list string :=
  match adviceList with
  | [] => (status, messageList)
  | advice :: rest =>
      if (AdviceCode advice =? 0)
         || bool_decide (AdviceStatus advice = Success)
      then githubAdviceLoop filePath rest status messageList
      else
        let '(prefix, status) :=
          if bool_decide (AdviceStatus advice = Error)
          then ("error", AdviceStatus advice)
          else ("warning",
                if negb (bool_decide (status = Error))
                then AdviceStatus advice else status) in
        githubAdviceLoop filePath rest status
          (messageList ++ [githubMessage prefix filePath advice])%list
  end.

Fixpoint githubFileLoop (adviceMap : gmap string (list Advice))
    (fileList : list string) (status : Status) (messageList : list string)
  : Status * list string :=
  match fileList with
  | [] => (status, messageList)
  | filePath :: rest =>
      let adviceList := default [] (adviceMap !! filePath) in
      let '(status, messageList) :=
        githubAdviceLoop filePath adviceList status messageList in
      githubFileLoop adviceMap rest status messageList
  end.

Definition convertSQLAdiceToGitHubActionResult
    (adviceMap : gmap string (list Advice)) : VCSSQLReviewResult :=
  let fileList := sortedFileList adviceMap in
  let '(status, messageList) :=
    githubFileLoop adviceMap fileList Success [] in
  {| ResultStatus := status; ResultContent := messageList |}.

(** *** sqlAdviceForFile *)

(** The loop over the candidate databases: the first one whose environment
    has a SQL-review policy is checked. *)
Fixpoint reviewLoop (s : Server) (fileContent : string)
    (databases : list Database) : result (option (list Advice)) :=
  match databases with
  | [] =>
      Ok (Some
            [ {| AdviceStatus := Warn;
                 AdviceCode := AdvisorNotFound;
                 AdviceTitle := "SQL review policy not found";
                 AdviceContent :=
                   "You can configure the SQL review policy on "
                   ++ ExternalURL s ++ "/setting/sql-review";
                 AdviceLine := 1 |} ])
  | database :: rest =>
      match GetNormalSQLReviewPolicy (store s) (envIDOf database) with
      | PolicyNotFound _ => reviewLoop s fileContent rest
      | PolicyError err => Err (ErrReviewPolicy (envIDOf database) err)
      | PolicyFound ruleList =>
          match ConvertToAdvisorDBType (engine s)
                  (Engine (DatabaseInstance database)) with
          | Err err =>
              Err (ErrAdvisorDBType (Engine (DatabaseInstance database)) err)
          | Ok _ =>
              match NewCatalog (store s) (DatabaseID database)
                      (Engine (DatabaseInstance database)) with
              | Err err => Err (ErrCatalog (DatabaseID database) err)
              | Ok _ =>
                  match GetReadOnlyDatabaseDriver (engine s) database with
                  | Err err => Err err
                  | Ok _ =>
                      match GetDBConnection (engine s) database with
                      | Err err => Err err
                      | Ok _ =>
                          match SQLReviewCheck (engine s) fileContent
                                  ruleList database with
                          | Err err =>
                              Err (ErrSQLCheck (DatabaseID database) err)
                          | Ok adviceList => Ok adviceList
                          end
                      end
                  end
              end
          end
      end
  end.

Definition sqlAdviceForFile (s : Server) (fileInfo : fileInfo)
  : outcome (result (option (list Advice))) :=
  let repo := repository fileInfo in
  match vcsTypeOf repo with
  | Panics what => Panics what
  | Returns ty =>
      if bool_decide (TenantMode (RepoProject repo) = TenantModeTenant) then
        Returns
          (Ok (Some
                 [ {| AdviceStatus := Warn;
                      AdviceCode := AdvisorUnsupported;
                      AdviceTitle := "Tenant mode is not supported";
                      AdviceContent :=
                        "Project " ++ ProjectName (RepoProject repo)
                        ++ " a tenant mode project.";
                      AdviceLine := 1 |} ]))
      else
        match findProjectDatabases s (ProjectID repo)
                (miDatabase (migrationInfo fileInfo))
                (miEnvironment (migrationInfo fileInfo)) with
        | Err err => Returns (Err (ErrListDatabase err))
        | Ok databases =>
            match ReadFileContent (provider s) ty (ExternalID repo)
                    (FileName (item fileInfo)) (CommitID (item fileInfo)) with
            | Err err =>
                Returns (Err (ErrReadFileContent (FileName (item fileInfo))
                                err))
            | Ok fileContent => Returns (reviewLoop s fileContent databases)
            end
        end
  end.

(** *** registerWebhookRoutes *)

(** What a handler sees of [echo.Context]: the outcome of reading the
    body, the request headers and the [:id] path parameter. *)
Record Request := {
  ReadBody : result string;
  Header : string -> string;
  ParamID : string
}.

Inductive ResponseBody :=
  | BodyString (text : string)
  | BodyCreated (createdMessages : list (list string))
  | BodyJSON (review : VCSSQLReviewResult).

Record Response := {
  StatusCode : Z;
  Body : ResponseBody
}.

(** The status code echo answers with when a handler returns an error. *)
Definition errorStatus (e : error) : Z :=
  match e with
  | ErrHTTP code _ => code
  | ErrHTTPInternal code _ _ => code
  | _ => StatusInternalServerError
  end.

(** The status code of the HTTP response to a request. *)
Definition httpStatus (r : result Response) : Z :=
  match r with
  | Ok resp => StatusCode resp
  | Err e => errorStatus e
  end.

(** [POST /webhook/gitlab/:id]. *)
Definition gitlabWebhook (s : Server) (c : Request) : M (result Response) :=
  match ReadBody c with
  | Err err =>
      ret (Err (ErrHTTPInternal StatusBadRequest
                  "Failed to read webhook request" err))
  | Ok body =>
      match UnmarshalGitLabPushEvent (codec s) body with
      | Err err =>
          ret (Err (ErrHTTPInternal StatusBadRequest "Malformed push event"
                      err))
      | Ok pushEvent =>
          if negb (String.eqb (ObjectKind pushEvent) GitLabWebhookPush) then
            ret (Err (ErrHTTP StatusBadRequest
                        ("Invalid webhook event type, got "
                         ++ ObjectKind pushEvent ++ ", want push")))
          else
            let repositoryID := Itoa (GitLabProjectID pushEvent) in
            let filter (repo : Repository) : result bool :=
              if negb (String.eqb (Header c "X-Gitlab-Token")
                         (WebhookSecretToken repo))
              then Ok false
              else isWebhookEventBranch (GitLabRef pushEvent)
                     (BranchFilter repo) in
            match filterRepository s (ParamID c) repositoryID filter with
            | Err err => ret (Err err)
            | Ok [] =>
                ret (Ok {| StatusCode := StatusOK; Body := BodyString "OK" |})
            | Ok repositoryList =>
                match GitLabToVCS (codec s) pushEvent with
                | Err err =>
                    ret (Err (ErrHTTPInternal StatusInternalServerError
                                "Failed to convert GitLab commits" err))
                | Ok baseVCSPushEvent =>
                    do r <- processPushEvent s repositoryList
                              baseVCSPushEvent;
                    match r with
                    | Err err => ret (Err err)
                    | Ok createdMessages =>
                        ret (Ok {| StatusCode := StatusOK;
                                   Body := BodyCreated createdMessages |})
                    end
                end
            end
      end
  end.

(** [POST /webhook/github/:id]. *)
Definition githubWebhook (s : Server) (c : Request) : M (result Response) :=
  let eventType := Header c "X-GitHub-Event" in
  if String.eqb eventType GitHubWebhookPing then
    ret (Ok {| StatusCode := StatusOK; Body := BodyString "OK" |})
  else if negb (String.eqb eventType GitHubWebhookPush) then
    ret (Err (ErrHTTP StatusBadRequest
                ("Invalid webhook event type, got " ++ eventType
                 ++ ", want " ++ GitHubWebhookPush)))
  else
    match ReadBody c with
    | Err err =>
        ret (Err (ErrHTTPInternal StatusBadRequest
                    "Failed to read webhook request" err))
    | Ok body =>
        match UnmarshalGitHubPushEvent (codec s) body with
        | Err err =>
            ret (Err (ErrHTTPInternal StatusBadRequest "Malformed push event"
                        err))
        | Ok pushEvent =>
            let repositoryID := RepositoryFullName pushEvent in
            let filter (repo : Repository) : result bool :=
              match validateGitHubWebhookSignature256
                      (Header c "X-Hub-Signature-256")
                      (WebhookSecretToken repo) body with
              | Err err =>
                  Err (ErrHTTPInternal StatusInternalServerError
                         "Failed to validate GitHub webhook signature" err)
              | Ok false => Ok false
              | Ok true =>
                  isWebhookEventBranch (GitHubRef pushEvent)
                    (BranchFilter repo)
              end in
            match filterRepository s (ParamID c) repositoryID filter with
            | Err err => ret (Err err)
            | Ok [] =>
                ret (Ok {| StatusCode := StatusOK; Body := BodyString "OK" |})
            | Ok repositoryList =>
                let baseVCSPushEvent := GitHubToVCS (codec s) pushEvent in
                do r <- processPushEvent s repositoryList baseVCSPushEvent;
                match r with
                | Err err => ret (Err err)
                | Ok createdMessages =>
                    ret (Ok {| StatusCode := StatusOK;
                               Body := BodyCreated createdMessages |})
                end
            end
        end
    end.

(** The files of a pull request that the review looks at. *)
Definition reviewFileList (prFiles : list PullRequestFile)
  : list DistinctFileItem :=
  List.map
    (fun prFile =>
       {| FileName := PRPath prFile; CommitID := PRLastCommitID prFile;
          ItemType := FileItemTypeNone; IsYAML := false |})
    (List.filter (fun prFile => negb (PRIsDeleted prFile)) prFiles).

(** The tasks the review starts, one per classified file, in the order of
    the two nested loops. *)
Definition reviewTasks (repoID2FileItemList : gmap Z (list fileInfo))
  : list fileInfo :=
  List.concat (List.map snd (map_to_list repoID2FileItemList)).

(** One goroutine up to its last statement: it reviews its file, and has
    an assignment to make to the shared map if the review gave an advice
    list. *)
Definition reviewFile (s : Server) (file : fileInfo)
  : outcome (option (string * list Advice)) :=
  match sqlAdviceForFile s file with
  | Panics what => Panics what
  | Returns (Err _) => Returns None
  | Returns (Ok None) => Returns None
  | Returns (Ok (Some adviceList)) =>
      Returns (Some (FileName (item file), adviceList))
  end.

(** The assignments that the goroutines of [files] have to make. *)
Fixpoint pendingWrites (s : Server) (files : list fileInfo)
  : outcome (list (string * list Advice)) :=
  match files with
  | [] => Returns []
  | file :: rest =>
      match reviewFile s file with
      | Panics what => Panics what
      | Returns w =>
          match pendingWrites s rest with
          | Panics what => Panics what
          | Returns ws =>
              Returns match w with
                      | Some kv => kv :: ws
                      | None => ws
                      end
          end
      end
  end.

(** [sqlCheckAdvice[file.item.FileName] = adviceList]. *)
Definition assign (sqlCheckAdvice : gmap string (list Advice))
    (kv : string * list Advice) : gmap string (list Advice) :=
  <[ fst kv := snd kv ]> sqlCheckAdvice.

(** The assignments of the goroutines that reach the shared map at the same
    time.  The code does not lock the map: an assignment made alone takes
    effect; of several made at once, the runtime either notices them and
    ends the process ([fatal error: concurrent map writes]), or some take
    effect and the others are lost. *)
Definition writeTogether (rt : GoRuntime)
    (writes : list (string * list Advice))
    (sqlCheckAdvice : gmap string (list Advice))
  : outcome (gmap string (list Advice)) :=
  match writes with
  | [] => Returns sqlCheckAdvice
  | [kv] => Returns (assign sqlCheckAdvice kv)
  | _ =>
      match Race rt (string * list Advice)%type writes with
      | None => Panics "fatal error: concurrent map writes"
      | Some kept => Returns (fold_left assign kept sqlCheckAdvice)
      end
  end.

(** The goroutines, as the scheduler runs them, up to [wg.Wait()]: each
    one reviews its file and assigns the advice list, if it got one, to the
    shared map. *)
Fixpoint reviewAll (s : Server) (batches : list (list fileInfo))
    (sqlCheckAdvice : gmap string (list Advice))
  : outcome (gmap string (list Advice)) :=
  match batches with
  | [] => Returns sqlCheckAdvice
  | batch :: rest =>
      match pendingWrites s batch with
      | Panics what => Panics what
      | Returns writes =>
          match writeTogether (runtime s) writes sqlCheckAdvice with
          | Panics what => Panics what
          | Returns sqlCheckAdvice' => reviewAll s rest sqlCheckAdvice'
          end
      end
  end.

(** The closure [filter] of the SQL-review handler. *)
Definition sqlReviewFilter (s : Server) (c : Request)
    (request : VCSSQLReviewRequest) : repositoryFilter :=
  fun repo =>
    if negb (EnableSQLReviewCI repo) then Ok false
    else if negb (HasPrefix (WebURL repo) (ReqWebURL request)) then Ok false
    else
      let token := Header c "X-SQL-Review-Token" in
      if String.eqb token (workspaceID s) && ModeIsDev s then Ok true
      else Ok (String.eqb (Header c "X-SQL-Review-Token")
                 (WebhookSecretToken repo)).

(** [POST /webhook/sql-review/:id]. *)
Definition sqlReviewWebhook (s : Server) (c : Request)
  : M (result Response) :=
  match ReadBody c with
  | Err err =>
      ret (Err (ErrHTTPInternal StatusBadRequest
                  "Failed to read SQL review request" err))
  | Ok body =>
      match UnmarshalSQLReviewRequest (codec s) body with
      | Err err =>
          ret (Err (ErrHTTPInternal StatusBadRequest
                      "Malformed SQL review request" err))
      | Ok request =>
          match filterRepository s (ParamID c) (ReqRepositoryID request)
                  (sqlReviewFilter s c request) with
          | Err err => ret (Err err)
          | Ok [] =>
              ret (Ok {| StatusCode := StatusOK;
                         Body := BodyJSON {| ResultStatus := Success;
                                             ResultContent := [] |} |})
          | Ok ((repo :: _) as repositoryList) =>
              do ty <- lift (vcsTypeOf repo);
              match ListPullRequestFile (provider s) ty
                      (ReqRepositoryID request) (ReqPullRequestID request)
              with
              | Err err =>
                  ret (Err (ErrHTTPInternal StatusInternalServerError
                              "Failed to list pull request file" err))
              | Ok prFiles =>
                  let distinctFileList := reviewFileList prFiles in
                  let repoID2FileItemList :=
                    groupFileInfoByRepo (plugin s) distinctFileList
                      repositoryList in
                  do sqlCheckAdvice <-
                    lift (reviewAll s
                            (Schedule (runtime s) fileInfo
                               (reviewTasks repoID2FileItemList)) ∅);
                  let response :=
                    match ty with
                    | GitHubCom =>
                        convertSQLAdiceToGitHubActionResult sqlCheckAdvice
                    | GitLabSelfHost =>
                        convertSQLAdviceToGitLabCIResult sqlCheckAdvice
                    end in
                  ret (Ok {| StatusCode := StatusOK;
                             Body := BodyJSON response |})
              end
          end
      end
  end.

(** ** Notions used in the statements *)

(** The characters that [filepath.Match] does not take literally. *)
Definition isMeta (c : ascii) : bool :=
  Ascii.eqb c "*" || Ascii.eqb c "?" || Ascii.eqb c "[" || Ascii.eqb c "\".

Fixpoint noMeta (s : string) : bool :=
  match s with
  | EmptyString => true
  | String c s' => negb (isMeta c) && noMeta s'
  end.

(** The candidates [findProjectDatabases] checks for a shared environment:
    all the databases found when no environment name is given, those whose
    environment name equals it up to case otherwise. *)
Definition candidates (rt : GoRuntime) (envName : string)
    (foundDatabases : list Database) : list Database :=
  if String.eqb envName "" then foundDatabases
  else filterByEnvironment rt envName foundDatabases.

(** [strings.Contains(s, substr)]. *)
Fixpoint Contains (s substr : string) : bool :=
  String.prefix substr s
  || match s with
     | EmptyString => false
     | String _ s' => Contains s' substr
     end.

(** [old] occurs in [p ++ rest] at a position that lies in [p]. *)
Fixpoint startsIn (p rest old : string) : bool :=
  match p with
  | EmptyString => false
  | String c p' => String.prefix old (p ++ rest) || startsIn p' rest old
  end.

(** How one repository link classifies a file: as a migration file, as a
    schema file, or not at all. *)
Definition classify (p : DBPlugin) (fileItem : DistinctFileItem)
    (repository : Repository) : option (MigrationInfo * fileType) :=
  if negb (HasPrefix (FileName fileItem) (BaseDirectory repository)) then None
  else
    let '(filePathTemplate, allowOmitDatabaseName) :=
      migrationTemplateOf fileItem repository in
    match ParseMigrationInfo p (FileName fileItem) filePathTemplate
            allowOmitDatabaseName with
    | Err _ => None
    | Ok (Some mi) => Some (mi, migrationFileType)
    | Ok None =>
        match ParseSchemaFileInfo p (BaseDirectory repository)
                (SchemaPathTemplate repository) (FileName fileItem) with
        | Ok (Some si) => Some (si, schemaFileType)
        | _ => None
        end
    end.

(** The file matches the link. *)
Definition matchesLink (p : DBPlugin) (fileItem : DistinctFileItem)
    (repository : Repository) : bool :=
  bool_decide (is_Some (classify p fileItem repository)).

(** The file is a YAML migration file of the link, of a kind other than
    data. *)
Definition yamlNotData (p : DBPlugin) (fileItem : DistinctFileItem)
    (repository : Repository) : bool :=
  match classify p fileItem repository with
  | Some (mi, migrationFileType) =>
      IsYAML fileItem && negb (bool_decide (miType mi = Data))
  | _ => false
  end.

Definition projectNames (l : list Repository) : list string :=
  List.map (fun r => ProjectName (RepoProject r)) l.

(** The value of the variables [migrationInfo] and [fType] after the loop
    of [getFileInfo]: those of the last link that matched. *)
Definition lastClassified (p : DBPlugin) (fileItem : DistinctFileItem)
    (repositoryList : list Repository) (init : MigrationInfo * fileType)
  : MigrationInfo * fileType :=
  fold_left
    (fun acc r => default acc (classify p fileItem r))
    repositoryList init.

Definition manyProjectsMessage (links : list Repository) : string :=
  "file change should be associated with exactly one project but found "
  ++ Join (projectNames links) ", ".

(** The order of severity of the three statuses. *)
Definition severity (s : Status) : nat :=
  match s with Success => 0 | Warn => 1 | Error => 2 end%nat.

(** The more severe of two statuses, and the most severe of a list, which
    is success for the empty list. *)
Definition worse (a b : Status) : Status :=
  if (severity a <? severity b)%nat then b else a.

Definition worst (l : list Status) : Status := fold_left worse l Success.

(** The advices the formatters count: those whose code is not zero. *)
Definition counted (advice : Advice) : bool := negb (AdviceCode advice =? 0).

(** The statuses of the counted advices of one file, and of all files. *)
Definition countedStatusesOf (adviceMap : gmap string (list Advice))
    (filePath : string) : list Status :=
  List.map AdviceStatus
    (List.filter counted (default [] (adviceMap !! filePath))).

Definition countedStatuses (adviceMap : gmap string (list Advice))
  : list Status :=
  List.concat (List.map (countedStatusesOf adviceMap) (sortedFileList adviceMap)).

(** The lines of the GitHub report for one file. *)
Definition githubLines (adviceMap : gmap string (list Advice))
    (filePath : string) : list string :=
  List.map
    (fun advice =>
       githubMessage
         (if bool_decide (AdviceStatus advice = Error)
          then "error" else "warning")
         filePath advice)
    (List.filter
       (fun advice =>
          counted advice && negb (bool_decide (AdviceStatus advice = Success)))
       (default [] (adviceMap !! filePath))).

(** The test suite of the GitLab report for one file, if it has a counted
    advice. *)
Definition gitlabSuite (adviceMap : gmap string (list Advice))
    (filePath : string) : option string :=
  match List.filter counted (default [] (adviceMap !! filePath)) with
  | [] => None
  | advices =>
      Some (gitlabTestsuite filePath
              (List.map (gitlabTestcase filePath) advices))
  end.

(** [y] is not less than [x]: [x] may come before [y]. *)
Definition notAfter {A} (less : A -> A -> bool) (x y : A) : Prop :=
  less y x = false.

(** What [sort.Slice] promises for a [less] that is a strict weak order:
    the result is a rearrangement of the slice in which no element is less
    than an earlier one.  It does not promise to keep equal elements in
    their original order. *)
Definition sortsSlices
    (sortSlice : forall A : Type, (A -> A -> bool) -> list A -> list A)
  : Prop :=
  forall (A : Type) (less : A -> A -> bool) (l : list A),
    (forall x, less x x = false) ->
    (forall x y z, less x y = true -> less y z = true -> less x z = true) ->
    (forall x y z, less x y = false -> less y z = false -> less x z = false) ->
    sortSlice A less l ≡ₚ l
    /\ StronglySorted (notAfter less) (sortSlice A less l).

(** [fi] comes before or with [fj] in the order of the pair (database
    name, schema version), both compared byte by byte. *)
Definition keyLe (fi fj : fileInfo) : Prop :=
  let di := miDatabase (migrationInfo fi) in
  let dj := miDatabase (migrationInfo fj) in
  (String.le di dj /\ di <> dj)
  \/ (di = dj
      /\ String.le (miVersion (migrationInfo fi)) (miVersion (migrationInfo fj))).

(** The files of a list that have the given database name and schema
    version, in the order of the list. *)
Definition withKey (database version : string) (l : list fileInfo)
  : list fileInfo :=
  List.filter
    (fun fi => String.eqb (miDatabase (migrationInfo fi)) database
               && String.eqb (miVersion (migrationInfo fi)) version)
    l.

(** The kinds of detail that make an issue a schema update, and the kind
    that makes its name "Alter schema". *)
Definition isSchemaKind (d : MigrationDetail) : bool :=
  bool_decide (mdMigrationType d = Migrate)
  || bool_decide (mdMigrationType d = Baseline).

Definition isMigrateKind (d : MigrationDetail) : bool :=
  bool_decide (mdMigrationType d = Migrate).

(** The store accepts every issue and every activity. *)
Definition acceptsAll (s : Server) : Prop :=
  (forall ic, exists issue, createIssue s ic = Ok issue)
  /\ (forall ac, CreateActivity s ac = Ok tt).

(** What the scheduler promises: every goroutine started runs to its end,
    once, in some order. *)
Definition schedulesAll (rt : GoRuntime) : Prop :=
  forall (A : Type) (l : list A), List.concat (Schedule rt A l) ≡ₚ l.

(** A scheduler under which no two goroutines reach their last statement
    at the same time.  Go does not promise this. *)
Definition oneAtATime (rt : GoRuntime) : Prop :=
  forall (A : Type) (l : list A),
    Forall (fun batch => (length batch <= 1)%nat) (Schedule rt A l).

(** The task of a changed file, if the file belongs to exactly one of the
    repository links. *)
Definition taskOf (s : Server) (repositoryList : list Repository)
    (file : DistinctFileItem) : option fileInfo :=
  match getFileInfo (plugin s) file repositoryList with
  | Ok (mi, ft, repo) =>
      Some {| item := file; migrationInfo := mi; fType := ft;
              repository := repo |}
  | Err _ => None
  end.

(** The advice list a task writes into the shared map, if its review
    succeeds with one. *)
Definition adviceOfTask (s : Server) (task : fileInfo)
  : option (string * list Advice) :=
  match sqlAdviceForFile s task with
  | Returns (Ok (Some adviceList)) => Some (FileName (item task), adviceList)
  | _ => None
  end.

(** The per-file review of a changed file: its name and advice list if the
    file has a task and the task's review succeeds, nothing otherwise. *)
Definition reviewOf (s : Server) (repositoryList : list Repository)
    (file : DistinctFileItem) : option (string * list Advice) :=
  taskOf s repositoryList file ≫= adviceOfTask s.

(** The changed files whose per-file review succeeds, with their advice. *)
Definition reviewed (s : Server) (repositoryList : list Repository)
    (files : list DistinctFileItem) : list (string * list Advice) :=
  omap (reviewOf s repositoryList) files.

(** The changed files whose per-file review fails. *)
Definition failed (s : Server) (repositoryList : list Repository)
    (files : list DistinctFileItem) : list DistinctFileItem :=
  List.filter (fun file => bool_decide (reviewOf s repositoryList file = None))
    files.

(** The formatter the handler picks for the kind of VCS. *)
Definition formatterOf (ty : VCSType)
  : gmap string (list Advice) -> VCSSQLReviewResult :=
  match ty with
  | GitHubCom => convertSQLAdiceToGitHubActionResult
  | GitLabSelfHost => convertSQLAdviceToGitLabCIResult
  end.

(** The repository passes the three checks that [filterRepository] makes
    before it asks the filter: its project is not archived, it has a VCS and
    its external ID is the one of the event. *)
Definition eligible (pushEventRepositoryID : string) (repo : Repository)
  : bool :=
  negb (bool_decide (ProjectRowStatus (RepoProject repo) = Archived))
  && bool_decide (is_Some (RepoVCS repo))
  && String.eqb pushEventRepositoryID (ExternalID repo).

(** The filter accepts the repository. *)
Definition accepts (filter : repositoryFilter) (repo : Repository) : bool :=
  match filter repo with
  | Ok true => true
  | _ => false
  end.

(** The effects [eff] followed by the task patches [patches]. *)
Definition withPatches (eff : Effects) (patches : list TaskPatch) : Effects :=
  {| createdIssues := createdIssues eff;
     createdActivities := createdActivities eff;
     patchedTasks := (patchedTasks eff ++ patches)%list |}.

(** The effects [eff] followed by the creation of [issues], the recording
    of [activities] and the task patches [patches]. *)
Definition written (eff : Effects) (issues : list IssueCreate)
    (activities : list ActivityCreate) (patches : list TaskPatch) : Effects :=
  {| createdIssues := (createdIssues eff ++ issues)%list;
     createdActivities := (createdActivities eff ++ activities)%list;
     patchedTasks := (patchedTasks eff ++ patches)%list |}.

(** An issue as every issue of a push is created: in the project
    [projectID], by [creatorID], assigned to the system bot with the
    attention flag, for the push event [pushEvent] and with at least one
    migration detail. *)
Definition issueOfPush (projectID creatorID : Z) (pushEvent : PushEvent)
    (ic : IssueCreate) : Prop :=
  IssueProjectID ic = projectID
  /\ IssueCreatorID ic = creatorID
  /\ AssigneeID ic = SystemBotID
  /\ AssigneeNeedAttention ic = true
  /\ fst (CreateContext ic) = pushEvent
  /\ snd (CreateContext ic) <> [].

(** The creator of the issues of a push: the principal of the author of
    its first commit, as [getIssueCreatorID] finds it. *)
Definition creatorOf (s : Server) (pushEvent : PushEvent) : Z :=
  match CommitList pushEvent with
  | firstCommit :: _ => getIssueCreatorID s (AuthorEmail firstCommit)
  | [] => SystemBotID
  end.

Definition isSchemaFile (f : fileInfo) : bool :=
  bool_decide (fType f = schemaFileType).

(** The files of a push that [processFilesInProject] prepares: the
    migration files and, in an SDL project, the schema files that name a
    database.  The other schema files are skipped without a trace. *)
Definition preparedFiles (repo : Repository) (files : list fileInfo)
  : list fileInfo :=
  List.filter
    (fun f =>
       if isSchemaFile f
       then bool_decide (SchemaChangeType (RepoProject repo)
                         = ProjectSchemaChangeTypeSDL)
            && negb (String.eqb (miDatabase (migrationInfo f)) "")
       else true)
    files.

(** [a] is the warning activity for the ignored file [f]. *)
Definition ignores (repo : Repository) (pushEvent : PushEvent)
    (f : fileInfo) (a : ActivityCreate) : Prop :=
  exists err,
    a = getIgnoredFileActivityCreate (ProjectID repo) pushEvent
          (FileName (item f)) err.

(** The push event that [processPushEvent] hands to [processFilesInProject]
    for a repository: the event received, with the VCS type and the base
    directory of the repository. *)
Definition pushEventIn (baseVCSPushEvent : PushEvent) (ty : VCSType)
    (repo : Repository) : PushEvent :=
  {| PushVCSType := ty;
     PushBaseDirectory := BaseDirectory repo;
     PushRef := PushRef baseVCSPushEvent;
     RepositoryURL := RepositoryURL baseVCSPushEvent;
     RepositoryFullPath := RepositoryFullPath baseVCSPushEvent;
     Before := Before baseVCSPushEvent;
     After := After baseVCSPushEvent;
     CommitList := CommitList baseVCSPushEvent |}.

(** An issue of the push [baseVCSPushEvent] in one of the repositories
    [repositoryList]. *)
Definition issueOfPushIn (s : Server) (baseVCSPushEvent : PushEvent)
    (repositoryList : list Repository) (ic : IssueCreate) : Prop :=
  exists repo v,
    repo ∈ repositoryList
    /\ RepoVCS repo = Some v
    /\ issueOfPush (ProjectID repo) (creatorOf s baseVCSPushEvent)
         (pushEventIn baseVCSPushEvent (VCSKind v) repo) ic.

(** A lower-case hexadecimal digit. *)
Definition isLowerHex (c : ascii) : bool :=
  let n := N_of_ascii c in
  ((48 <=? n) && (n <=? 57) || (97 <=? n) && (n <=? 102))%N.

Fixpoint allLowerHex (s : string) : bool :=
  match s with
  | EmptyString => true
  | String c s' => isLowerHex c && allLowerHex s'
  end.

(** The environment of the database has no SQL-review policy. *)
Definition withoutPolicy (s : Server) (database : Database) : Prop :=
  exists e,
    GetNormalSQLReviewPolicy (store s) (envIDOf database) = PolicyNotFound e.

(** ** Scenarios

    Concrete collaborators and inputs on which the theorems of the second
    part are run. *)

Definition asciiLower (c : ascii) : ascii :=
  let n := N_of_ascii c in
  if ((65 <=? n) && (n <=? 90))%N then ascii_of_N (n + 32) else c.

Fixpoint lowerString (s : string) : string :=
  match s with
  | EmptyString => EmptyString
  | String c s' => String (asciiLower c) (lowerString s')
  end.

(** [strings.EqualFold] on ASCII strings. *)
Definition asciiEqualFold (s t : string) : bool :=
  String.eqb (lowerString s) (lowerString t).

Fixpoint insertBy {A} (less : A -> A -> bool) (x : A) (l : list A) : list A :=
  match l with
  | [] => [x]
  | y :: l' => if less y x then y :: insertBy less x l' else x :: l
  end.

(** A sort that keeps equal elements in their original order: going from
    the back, each element is put in front of the sorted rest and moved
    past the strictly smaller ones only. *)
Definition insertionSort {A} (less : A -> A -> bool) (l : list A) : list A :=
  fold_right (insertBy less) [] l.

(** The runtime of the scenarios: ASCII case folding, a sort that keeps
    ties in place and goroutines that finish one after the other, in the
    order they were started. *)
Definition plainRuntime : GoRuntime :=
  {| EqualFold := asciiEqualFold;
     SortSlice := @insertionSort;
     Schedule := fun _ l => List.map (fun g => [g]) l;
     Race := fun _ _ => None |}.

(** A runtime under which the goroutines started in a loop all reach their
    last statement at the same time, and which notices map writes made at
    once. *)
Definition racingRuntime : GoRuntime :=
  {| EqualFold := asciiEqualFold;
     SortSlice := @insertionSort;
     Schedule := fun _ l => [l];
     Race := fun _ _ => None |}.

(** The same, with a runtime that does not notice them: the first write
    takes effect and the others are lost. *)
Definition lossyRuntime : GoRuntime :=
  {| EqualFold := asciiEqualFold;
     SortSlice := @insertionSort;
     Schedule := fun _ l => [l];
     Race := fun _ writes => Some (take 1 writes) |}.

Definition devEnvironment : Instance_ :=
  {| EnvironmentID := 101;
     InstanceEnvironment := {| EnvironmentName := "Dev" |};
     Engine := "MYSQL" |}.

Definition prodEnvironment : Instance_ :=
  {| EnvironmentID := 102;
     InstanceEnvironment := {| EnvironmentName := "Prod" |};
     Engine := "MYSQL" |}.

Definition shopDev : Database :=
  {| DatabaseID := 7; DatabaseName := "shop";
     DatabaseInstance := devEnvironment;
     CharacterSet := "utf8mb4"; Collation := "utf8mb4_general_ci" |}.

Definition shopDevCopy : Database :=
  {| DatabaseID := 8; DatabaseName := "shop";
     DatabaseInstance := devEnvironment;
     CharacterSet := "utf8mb4"; Collation := "utf8mb4_general_ci" |}.

Definition shopProd : Database :=
  {| DatabaseID := 9; DatabaseName := "shop";
     DatabaseInstance := prodEnvironment;
     CharacterSet := "utf8mb4"; Collation := "utf8mb4_general_ci" |}.

(** A store that knows the databases [databases] of project 1 and the
    repositories [repositories]; it has no principals, no review policies
    and no tasks. *)
Definition storeOf (repositories : list Repository)
    (databases : list Database) : Store :=
  {| FindRepository :=
       fun endpoint =>
         Ok (List.filter
               (fun r => String.eqb (WebhookEndpointID r) endpoint)
               repositories);
     FindDatabase :=
       fun projectID dbName =>
         if projectID =? 1
         then Ok (List.filter (fun d => String.eqb (DatabaseName d) dbName)
                    databases)
         else Ok [];
     GetPrincipalByEmail := fun _ => Ok None;
     GetNormalSQLReviewPolicy :=
       fun _ => PolicyNotFound (ErrOpaque "policy not found");
     NewCatalog := fun _ _ => Ok tt;
     FindTask := fun _ _ => Ok [];
     GetIssueByPipelineID := fun _ => Ok None |}.

(** A parser pair given by a table: a file is a migration file of the
    template it is listed with. *)
Definition tablePlugin (table : list (string * string * MigrationInfo))
    (schemaTable : list (string * string * MigrationInfo)) : DBPlugin :=
  {| ParseMigrationInfo :=
       fun filePath filePathTemplate _ =>
         Ok (snd <$>
             List.find
               (fun e => String.eqb (fst (fst e)) filePath
                         && String.eqb (snd (fst e)) filePathTemplate)
               table);
     ParseSchemaFileInfo :=
       fun baseDirectory schemaPathTemplate filePath =>
         Ok (snd <$>
             List.find
               (fun e => String.eqb (fst (fst e)) filePath
                         && String.eqb (snd (fst e))
                              (pathJoin [baseDirectory; schemaPathTemplate]))
               schemaTable) |}.

Definition noCodec : Codec :=
  {| UnmarshalGitLabPushEvent := fun _ => Err (ErrOpaque "unexpected end of JSON input");
     UnmarshalGitHubPushEvent := fun _ => Err (ErrOpaque "unexpected end of JSON input");
     UnmarshalSQLReviewRequest := fun _ => Err (ErrOpaque "unexpected end of JSON input");
     UnmarshalMigrationFileYAML := fun _ => Err (ErrOpaque "yaml: unmarshal error");
     GitLabToVCS := fun _ => Err (ErrOpaque "no commits");
     GitHubToVCS :=
       fun e =>
         {| PushVCSType := GitHubCom; PushBaseDirectory := "";
            PushRef := GitHubRef e; RepositoryURL := "";
            RepositoryFullPath := RepositoryFullName e;
            Before := ""; After := ""; CommitList := [] |};
     GetDistinctFileList := fun _ => [] |}.

(** A provider in which every file reads as [content]. *)
Definition providerOf (content : string) (prFiles : list PullRequestFile)
  : Provider :=
  {| ReadFileContent := fun _ _ _ _ => Ok content;
     GetDiffFileList := fun _ _ _ _ => Ok [];
     ListPullRequestFile := fun _ _ _ => Ok prFiles |}.

Definition noEngine : ReviewEngine :=
  {| ConvertToAdvisorDBType := fun e => Ok e;
     GetReadOnlyDatabaseDriver := fun _ => Ok tt;
     GetDBConnection := fun _ => Ok tt;
     SQLReviewCheck := fun _ _ _ => Ok (Some []) |}.

(** A server over the given store, provider, parsers and decoders in which
    every issue, activity and task patch is accepted. *)
Definition serverOf (st : Store) (pr : Provider) (pl : DBPlugin)
    (co : Codec) : Server :=
  {| store := st; provider := pr; engine := noEngine; plugin := pl;
     codec := co; runtime := plainRuntime;
     MultiTenancyEnabled := false;
     MultiTenancyAccessErrorMessage := "multi-tenancy is not enabled";
     workspaceID := "workspace"; ModeIsDev := false;
     ExternalURL := "https://bytebase.example.com";
     createIssue :=
       fun ic => Ok {| IssueID := 1; IssueNameOf := IssueName ic |};
     CreateActivity := fun _ => Ok tt;
     patchTask := fun _ _ _ => Ok tt |}.

(** A server whose project 1 has database [shop] in the Dev and in the Prod
    environment, and one whose project 1 has it twice in Dev. *)
Definition shopServer : Server :=
  serverOf (storeOf [] [shopDev; shopProd]) (providerOf "" [])
    (tablePlugin [] []) noCodec.

Definition twinShopServer : Server :=
  serverOf (storeOf [] [shopDev; shopDevCopy; shopProd]) (providerOf "" [])
    (tablePlugin [] []) noCodec.

(** A request with the given body and a single header. *)
Definition requestOf (body headerName headerValue : string) : Request :=
  {| ReadBody := Ok body;
     Header := fun h => if String.eqb h headerName then headerValue else "";
     ParamID := "endpoint-1" |}.

(** Decoders that read every GitLab body as an event of kind [kind] for
    project 5 on branch main. *)
Definition gitlabKindCodec (kind : string) : Codec :=
  {| UnmarshalGitLabPushEvent :=
       fun _ => Ok {| ObjectKind := kind; GitLabRef := "refs/heads/main";
                      GitLabProjectID := 5 |};
     UnmarshalGitHubPushEvent := UnmarshalGitHubPushEvent noCodec;
     UnmarshalSQLReviewRequest := UnmarshalSQLReviewRequest noCodec;
     UnmarshalMigrationFileYAML := UnmarshalMigrationFileYAML noCodec;
     GitLabToVCS := GitLabToVCS noCodec;
     GitHubToVCS := GitHubToVCS noCodec;
     GetDistinctFileList := GetDistinctFileList noCodec |}.

Definition tagPushServer : Server :=
  serverOf (storeOf [] []) (providerOf "" []) (tablePlugin [] [])
    (gitlabKindCodec "tag_push").

(** A tenant project whose repository lives in a directory named
    [bytebase.sql], and a YAML file pushed to it. *)
Definition tenantProject : Project :=
  {| ProjectName := "Tenants"; ProjectRowStatus := Normal;
     TenantMode := TenantModeTenant; DBNameTemplate := "{{DB_NAME}}";
     SchemaChangeType := ProjectSchemaChangeTypeDDL |}.

Definition githubVCS : VCS :=
  {| VCSKind := GitHubCom; InstanceURL := "https://github.com";
     ApplicationID := "app"; Secret := "secret" |}.

Definition repositoryAt (id : Z) (project : Project)
    (baseDirectory filePathTemplate schemaPathTemplate : string)
  : Repository :=
  {| RepoID := id; ProjectID := 1; RepoProject := project;
     RepoVCS := Some githubVCS; ExternalID := "octo/shop";
     WebURL := "https://github.com/octo/shop"; BranchFilter := "main";
     BaseDirectory := baseDirectory;
     FilePathTemplate := filePathTemplate;
     SchemaPathTemplate := schemaPathTemplate;
     WebhookEndpointID := "endpoint-1"; WebhookSecretToken := "token";
     EnableSQLReviewCI := true |}.

Definition sqlDirectoryRepository : Repository :=
  repositoryAt 1 tenantProject "bytebase.sql"
    "{{ENV_NAME}}/{{DB_NAME}}##{{VERSION}}.sql" "".

Definition fileNamed (name : string) (kind : FileItemType) (yaml : bool)
  : DistinctFileItem :=
  {| FileName := name; CommitID := "c0ffee"; ItemType := kind;
     IsYAML := yaml |}.

(** Two projects whose base directories overlap: [alphaRepository] owns
    directory [db], [betaRepository] owns [db/beta]. *)
Definition plainProject (name : string) (kind : ProjectSchemaChangeType)
  : Project :=
  {| ProjectName := name; ProjectRowStatus := Normal;
     TenantMode := TenantModeDisabled; DBNameTemplate := "";
     SchemaChangeType := kind |}.

Definition alphaRepository : Repository :=
  repositoryAt 1 (plainProject "Alpha" ProjectSchemaChangeTypeDDL) "db"
    "**/{{VERSION}}__{{DB_NAME}}.sql" "".

Definition betaRepository : Repository :=
  repositoryAt 2 (plainProject "Beta" ProjectSchemaChangeTypeDDL) "db/beta"
    "{{VERSION}}__{{DB_NAME}}.sql" "".

Definition migrationOf (database version : string) (kind : MigrationType)
  : MigrationInfo :=
  {| miDatabase := database; miEnvironment := ""; miVersion := version;
     miType := kind |}.

(** [db/beta/v1__shop.sql] lies in both directories and fits both
    templates; [db/v2__shop.sql] fits the first only; [README.md] fits
    none. *)
Definition overlapPlugin : DBPlugin :=
  tablePlugin
    [ ("db/beta/v1__shop.sql", "db/**/{{VERSION}}__{{DB_NAME}}.sql",
       migrationOf "shop" "v1" Migrate);
      ("db/beta/v1__shop.sql", "db/beta/{{VERSION}}__{{DB_NAME}}.sql",
       migrationOf "shop" "v1" Migrate);
      ("db/v2__shop.sql", "db/**/{{VERSION}}__{{DB_NAME}}.sql",
       migrationOf "shop" "v2" Migrate) ]
    [].

Definition conflictingFile : DistinctFileItem :=
  fileNamed "db/beta/v1__shop.sql" FileItemTypeAdded false.

Definition plainFile : DistinctFileItem :=
  fileNamed "db/v2__shop.sql" FileItemTypeAdded false.

Definition strayFile : DistinctFileItem :=
  fileNamed "README.md" FileItemTypeAdded false.

(** A review in which the only advice is an error whose code is zero. *)
Definition uncodedError : Advice :=
  {| AdviceStatus := Error; AdviceCode := 0; AdviceTitle := "Syntax error";
     AdviceContent := "unexpected token"; AdviceLine := 3 |}.

Definition codedWarning : Advice :=
  {| AdviceStatus := Warn; AdviceCode := 402;
     AdviceTitle := "naming.table"; AdviceContent := "bad table name";
     AdviceLine := 0 |}.

Definition codedError : Advice :=
  {| AdviceStatus := Error; AdviceCode := 201;
     AdviceTitle := "statement.where.require";
     AdviceContent := "missing WHERE"; AdviceLine := 7 |}.

Definition uncodedErrorReview : gmap string (list Advice) :=
  {[ "db/v1__shop.sql" := [uncodedError] ]}.

Definition mixedReview : gmap string (list Advice) :=
  <[ "db/v2__shop.sql" := [codedWarning] ]>
    (<[ "db/v1__shop.sql" := [uncodedError; codedError] ]> ∅).

(** A runtime with the [sort.Slice] of Go 1.19.  Later releases differ in
    the generator only, which the sorts of the scenarios do not reach. *)
Definition goRuntime : GoRuntime :=
  {| EqualFold := asciiEqualFold;
     SortSlice := fun A less l => GoSort.Slice less GoSort.xorshiftNext l;
     Schedule := fun _ l => List.map (fun g => [g]) l;
     Race := fun _ _ => None |}.

Definition fileInfoOf (name : string) (kind : FileItemType) (ft : fileType)
    (mi : MigrationInfo) (repo : Repository) : fileInfo :=
  {| item := fileNamed name kind false; migrationInfo := mi; fType := ft;
     repository := repo |}.

(** Two files of the same database and version, and one of a later
    version. *)
Definition shopV1a : fileInfo :=
  fileInfoOf "db/v1__shop.sql" FileItemTypeAdded migrationFileType
    (migrationOf "shop" "v1" Migrate) alphaRepository.

Definition shopV1b : fileInfo :=
  fileInfoOf "db/hotfix/v1__shop.sql" FileItemTypeAdded migrationFileType
    (migrationOf "shop" "v1" Data) alphaRepository.

Definition shopV2 : fileInfo :=
  fileInfoOf "db/v2__shop.sql" FileItemTypeAdded migrationFileType
    (migrationOf "shop" "v2" Migrate) alphaRepository.

(** Thirteen files of database [shop]: twelve of version v2, in the order
    in which the push lists them, then one of version v1. *)
Definition releaseFile (part : string) : fileInfo :=
  fileInfoOf ("db/" ++ part ++ "/v2__shop.sql") FileItemTypeAdded
    migrationFileType (migrationOf "shop" "v2" Migrate) alphaRepository.

Definition thirteenFiles : list fileInfo :=
  ((releaseFile
    <$> ["a"; "b"; "c"; "d"; "e"; "f"; "g"; "h"; "i"; "j"; "k"; "l"])
   ++ [shopV1a])%list.

(** A push of one commit to the repository of project Alpha, whose
    directory [db] holds the schema file of database [shop] and a migration
    file for it. *)
Definition onePush : PushEvent :=
  {| PushVCSType := GitHubCom; PushBaseDirectory := "db";
     PushRef := "refs/heads/main";
     RepositoryURL := "https://github.com/octo/shop";
     RepositoryFullPath := "octo/shop";
     Before := "A"; After := "B";
     CommitList := [ {| CommitIDOf := "B"; AuthorEmail := "" |} ] |}.

Definition shopSchema : fileInfo :=
  fileInfoOf "db/shop__LATEST.sql" FileItemTypeAdded schemaFileType
    (migrationOf "shop" "" Migrate) alphaRepository.

(** A server whose project 1 has the database [shop] in two environments,
    and a server whose project 1 has no database. *)
Definition alphaServer : Server :=
  serverOf (storeOf [alphaRepository] [shopDev; shopProd])
    (providerOf "ALTER TABLE item ADD COLUMN price INT;" [])
    overlapPlugin noCodec.

Definition emptyAlphaServer : Server :=
  serverOf (storeOf [alphaRepository] [])
    (providerOf "ALTER TABLE item ADD COLUMN price INT;" [])
    overlapPlugin noCodec.

(** The migration details of [shopV2] on [alphaServer]: one for each
    environment of database [shop]. *)
Definition shopV2Details : list MigrationDetail :=
  (fun id =>
     {| mdMigrationType := Migrate; mdDatabaseID := id; mdDatabaseName := "";
        mdStatement := "ALTER TABLE item ADD COLUMN price INT;";
        mdSchemaVersion := "v2" |})
  <$> [7; 9].

(** A baseline file for [shop]. *)
Definition shopV0 : fileInfo :=
  fileInfoOf "db/v0__shop.sql" FileItemTypeAdded migrationFileType
    (migrationOf "shop" "v0" Baseline) alphaRepository.

(** A pull request of repository [octo/shop] with four files: one whose
    content cannot be read, one that reads, one that no link knows and a
    deleted one. *)
Definition reviewCodec : Codec :=
  {| UnmarshalGitLabPushEvent := UnmarshalGitLabPushEvent noCodec;
     UnmarshalGitHubPushEvent := UnmarshalGitHubPushEvent noCodec;
     UnmarshalSQLReviewRequest :=
       fun _ => Ok {| ReqRepositoryID := "octo/shop"; ReqPullRequestID := "1";
                      ReqWebURL := "https://github.com" |};
     UnmarshalMigrationFileYAML := UnmarshalMigrationFileYAML noCodec;
     GitLabToVCS := GitLabToVCS noCodec;
     GitHubToVCS := GitHubToVCS noCodec;
     GetDistinctFileList := GetDistinctFileList noCodec |}.

Definition pullRequestFiles : list PullRequestFile :=
  [ {| PRPath := "db/beta/v1__shop.sql"; PRLastCommitID := "c1";
       PRIsDeleted := false |};
    {| PRPath := "db/v2__shop.sql"; PRLastCommitID := "c1";
       PRIsDeleted := false |};
    {| PRPath := "README.md"; PRLastCommitID := "c1"; PRIsDeleted := false |};
    {| PRPath := "db/v0__shop.sql"; PRLastCommitID := "c1";
       PRIsDeleted := true |} ].

Definition flakyProvider : Provider :=
  {| ReadFileContent :=
       fun _ _ filePath _ =>
         if String.eqb filePath "db/beta/v1__shop.sql"
         then Err (ErrOpaque "502 Bad Gateway")
         else Ok "ALTER TABLE item ADD COLUMN price INT;";
     GetDiffFileList := fun _ _ _ _ => Ok [];
     ListPullRequestFile := fun _ _ _ => Ok pullRequestFiles |}.

Definition reviewServer : Server :=
  serverOf (storeOf [alphaRepository] [shopDev; shopProd]) flakyProvider
    overlapPlugin reviewCodec.

Definition reviewRequest : Request :=
  requestOf "{}" "X-SQL-Review-Token" "token".

(** Decoders that read every body as a push to branch main of repository
    [octo/shop] (GitLab project 5) changing the files [files]. *)
Definition pushCodecOf (files : list DistinctFileItem) : Codec :=
  {| UnmarshalGitLabPushEvent :=
       fun _ => Ok {| ObjectKind := "push"; GitLabRef := "refs/heads/main";
                      GitLabProjectID := 5 |};
     UnmarshalGitHubPushEvent :=
       fun _ => Ok {| GitHubRef := "refs/heads/main";
                      RepositoryFullName := "octo/shop" |};
     UnmarshalSQLReviewRequest := UnmarshalSQLReviewRequest noCodec;
     UnmarshalMigrationFileYAML := UnmarshalMigrationFileYAML noCodec;
     GitLabToVCS := fun _ => Ok onePush;
     GitHubToVCS := fun _ => onePush;
     GetDistinctFileList := fun _ => files |}.

Definition pushServer : Server :=
  serverOf (storeOf [alphaRepository] [shopDev; shopProd])
    (providerOf "ALTER TABLE item ADD COLUMN price INT;" [])
    overlapPlugin (pushCodecOf [plainFile]).

(** A request with the given body and headers. *)
Definition requestWith (body : string) (headers : list (string * string))
  : Request :=
  {| ReadBody := Ok body;
     Header :=
       fun h =>
         match List.find (fun kv => String.eqb (fst kv) h) headers with
         | Some kv => snd kv
         | None => ""
         end;
     ParamID := "endpoint-1" |}.

(** A push to repository [octo/shop] that carries the GitLab token and the
    GitHub signature of the body [{}] under the secret token [token]. *)
Definition signedPush : Request :=
  requestWith "{}"
    [ ("X-Gitlab-Token", "token");
      ("X-GitHub-Event", "push");
      ("X-Hub-Signature-256",
       "sha256=5c88aa97c426854fb8f94deb5a1f202a537891ced9b9ae9c99bc1d3323d27d53") ].

(** Decoders that read every body as a push of the tag [v1] to repository
    [octo/shop], whose GitLab project is the one of [gitlabRepository]. *)
Definition tagCodec : Codec :=
  {| UnmarshalGitLabPushEvent :=
       fun _ => Ok {| ObjectKind := "push"; GitLabRef := "refs/tags/v1";
                      GitLabProjectID := 5 |};
     UnmarshalGitHubPushEvent :=
       fun _ => Ok {| GitHubRef := "refs/tags/v1";
                      RepositoryFullName := "octo/shop" |};
     UnmarshalSQLReviewRequest := UnmarshalSQLReviewRequest noCodec;
     UnmarshalMigrationFileYAML := UnmarshalMigrationFileYAML noCodec;
     GitLabToVCS := fun _ => Ok onePush;
     GitHubToVCS := fun _ => onePush;
     GetDistinctFileList := fun _ => [plainFile] |}.

(** The repository of GitLab project 5, with the same endpoint and secret
    token as [alphaRepository]. *)
Definition gitlabRepository : Repository :=
  {| RepoID := 3; ProjectID := 1;
     RepoProject := plainProject "Alpha" ProjectSchemaChangeTypeDDL;
     RepoVCS := Some {| VCSKind := GitLabSelfHost;
                        InstanceURL := "https://gitlab.example.com";
                        ApplicationID := "app"; Secret := "secret" |};
     ExternalID := "5";
     WebURL := "https://gitlab.example.com/octo/shop"; BranchFilter := "main";
     BaseDirectory := "db";
     FilePathTemplate := "**/{{VERSION}}__{{DB_NAME}}.sql";
     SchemaPathTemplate := "";
     WebhookEndpointID := "endpoint-1"; WebhookSecretToken := "token";
     EnableSQLReviewCI := true |}.

Definition tagServer : Server :=
  serverOf (storeOf [gitlabRepository; alphaRepository] [shopDev; shopProd])
    (providerOf "ALTER TABLE item ADD COLUMN price INT;" [])
    overlapPlugin tagCodec.

(** A project of schema change type SDL with the same repository layout,
    its schema file for database [shop] and the details of that file. *)
Definition sdlRepository : Repository :=
  repositoryAt 1 (plainProject "Alpha" ProjectSchemaChangeTypeSDL) "db"
    "**/{{VERSION}}__{{DB_NAME}}.sql" "{{DB_NAME}}__LATEST.sql".

Definition sdlServer : Server :=
  serverOf (storeOf [sdlRepository] [shopDev; shopProd])
    (providerOf "ALTER TABLE item ADD COLUMN price INT;" [])
    overlapPlugin noCodec.

Definition sdlSchema : fileInfo :=
  fileInfoOf "db/shop__LATEST.sql" FileItemTypeAdded schemaFileType
    (migrationOf "shop" "" Migrate) sdlRepository.

Definition sdlDetails : list MigrationDetail :=
  (fun id =>
     {| mdMigrationType := MigrateSDL; mdDatabaseID := id;
        mdDatabaseName := ""; mdStatement := "ALTER TABLE item ADD COLUMN price INT;";
        mdSchemaVersion := "" |})
  <$> [7; 9].

(** A tenant-mode project whose repository receives one migration file,
    on a server without the multi-tenancy feature. *)
Definition tenantFile : DistinctFileItem :=
  fileNamed "bytebase.sql/prod/shop##v1.sql" FileItemTypeAdded false.

Definition diffProvider (diff : list string) : Provider :=
  {| ReadFileContent := fun _ _ _ _ => Ok "ALTER TABLE item ADD COLUMN price INT;";
     GetDiffFileList := fun _ _ _ _ => Ok diff;
     ListPullRequestFile := fun _ _ _ => Ok [] |}.

Definition tenantServer : Server :=
  serverOf (storeOf [sqlDirectoryRepository] [shopDev; shopProd])
    (diffProvider ["bytebase.sql/prod/shop##v1.sql"])
    (tablePlugin
       [ ("bytebase.sql/prod/shop##v1.sql",
          "bytebase.sql/{{ENV_NAME}}/{{DB_NAME}}##{{VERSION}}.sql",
          migrationOf "shop" "v1" Migrate) ]
       [])
    (pushCodecOf [tenantFile]).

(** A server in which only the Prod environment has a SQL-review
    policy. *)
Definition policyServer : Server :=
  serverOf
    {| FindRepository := FindRepository (storeOf [] [shopDev; shopProd]);
       FindDatabase := FindDatabase (storeOf [] [shopDev; shopProd]);
       GetPrincipalByEmail := GetPrincipalByEmail (storeOf [] []);
       GetNormalSQLReviewPolicy :=
         fun environmentID =>
           if environmentID =? 102 then PolicyFound ["naming.table"]
           else PolicyNotFound (ErrOpaque "policy not found");
       NewCatalog := NewCatalog (storeOf [] []);
       FindTask := FindTask (storeOf [] []);
       GetIssueByPipelineID := GetIssueByPipelineID (storeOf [] []) |}
    (providerOf "" []) (tablePlugin [] []) noCodec.

(** The server [s] on another runtime. *)
Definition withRuntime (s : Server) (rt : GoRuntime) : Server :=
  {| store := store s; provider := provider s; engine := engine s;
     plugin := plugin s; codec := codec s; runtime := rt;
     MultiTenancyEnabled := MultiTenancyEnabled s;
     MultiTenancyAccessErrorMessage := MultiTenancyAccessErrorMessage s;
     workspaceID := workspaceID s; ModeIsDev := ModeIsDev s;
     ExternalURL := ExternalURL s; createIssue := createIssue s;
     CreateActivity := CreateActivity s; patchTask := patchTask s |}.

(** A pull request of repository [octo/shop] with two files, both of which
    can be read and reviewed. *)
Definition twoReviewFiles : list PullRequestFile :=
  [ {| PRPath := "db/beta/v1__shop.sql"; PRLastCommitID := "c1";
       PRIsDeleted := false |};
    {| PRPath := "db/v2__shop.sql"; PRLastCommitID := "c1";
       PRIsDeleted := false |} ].

Definition twoReviewsServer : Server :=
  serverOf (storeOf [alphaRepository] [shopDev; shopProd])
    (providerOf "ALTER TABLE item ADD COLUMN price INT;" twoReviewFiles)
    overlapPlugin reviewCodec.

(** The two goroutines of that pull request. *)
Definition twoReviewTasks : list fileInfo :=
  reviewTasks
    (groupFileInfoByRepo overlapPlugin (reviewFileList twoReviewFiles)
       [alphaRepository]).

(** The advice of a file whose databases have no review policy. *)
Definition policyNotFoundAdvice : Advice :=
  {| AdviceStatus := Warn; AdviceCode := AdvisorNotFound;
     AdviceTitle := "SQL review policy not found";
     AdviceContent :=
       "You can configure the SQL review policy on "
       ++ "https://bytebase.example.com" ++ "/setting/sql-review";
     AdviceLine := 1 |}.

(** A review engine that finds a bad table name in every file it checks
    against the rule [naming.table] on the database of ID 9, and nothing
    otherwise; and [policyServer] with that engine. *)
Definition namingEngine : ReviewEngine :=
  {| ConvertToAdvisorDBType := fun e => Ok e;
     GetReadOnlyDatabaseDriver := fun _ => Ok tt;
     GetDBConnection := fun _ => Ok tt;
     SQLReviewCheck :=
       fun _ ruleList database =>
         if existsb (String.eqb "naming.table") ruleList
            && (DatabaseID database =? 9)
         then Ok (Some [codedWarning])
         else Ok (Some []) |}.

Definition namingServer : Server :=
  {| store := store policyServer; provider := provider policyServer;
     engine := namingEngine; plugin := plugin policyServer;
     codec := codec policyServer; runtime := runtime policyServer;
     MultiTenancyEnabled := MultiTenancyEnabled policyServer;
     MultiTenancyAccessErrorMessage :=
       MultiTenancyAccessErrorMessage policyServer;
     workspaceID := workspaceID policyServer;
     ModeIsDev := ModeIsDev policyServer;
     ExternalURL := ExternalURL policyServer;
     createIssue := createIssue policyServer;
     CreateActivity := CreateActivity policyServer;
     patchTask := patchTask policyServer |}.

(** * Part II: properties *)

Local Arguments Ascii.eqb : simpl never.
Local Arguments String.eqb : simpl never.
Local Arguments Nat.eqb : simpl nomatch.

(** ** Strings *)

Lemma string_length_zero (s : string) :
  (String.length s =? 0)%nat = true <-> s = "".
Proof. destruct s; simpl; split; intros H; congruence. Qed.

Lemma dropString_length (n : nat) (s : string) :
  String.length (dropString n s) = (String.length s - n)%nat.
Proof.
  revert s. induction n as [|n IH]; intros s; simpl.
  - lia.
  - destruct s; simpl; [reflexivity | apply IH].
Qed.

Lemma prefix_cons (c a : ascii) (p s : string) :
  String.prefix (String c p) (String a s)
  = Ascii.eqb c a && String.prefix p s.
Proof.
  simpl. destruct (ascii_dec c a) as [->|Hne].
  - now rewrite Ascii.eqb_refl.
  - apply Ascii.eqb_neq in Hne. now rewrite Hne.
Qed.

Lemma prefix_nil (s : string) : String.prefix "" s = true.
Proof. now destruct s. Qed.

Lemma append_cons (c : ascii) (p s : string) :
  String c p ++ s = String c (p ++ s).
Proof. reflexivity. Qed.

Lemma append_nil_l (s : string) : "" ++ s = s.
Proof. reflexivity. Qed.

Lemma append_nil_r (s : string) : s ++ "" = s.
Proof.
  induction s as [|c s IH]; [reflexivity|].
  rewrite append_cons. now rewrite IH.
Qed.

Lemma prefix_app (p s : string) : String.prefix p (p ++ s) = true.
Proof.
  induction p as [|c p IH].
  - apply prefix_nil.
  - rewrite append_cons, prefix_cons, Ascii.eqb_refl. exact IH.
Qed.

Lemma dropString_app (p s : string) :
  dropString (String.length p) (p ++ s) = s.
Proof. induction p as [|c p IH]; [reflexivity | exact IH]. Qed.

Lemma prefix_dropString (p s : string) :
  String.prefix p s = true -> s = p ++ dropString (String.length p) s.
Proof.
  revert s. induction p as [|c p IH]; intros s H.
  - reflexivity.
  - destruct s as [|a s]; [discriminate|].
    rewrite prefix_cons in H. apply andb_true_iff in H as [Hc Hp].
    apply Ascii.eqb_eq in Hc as ->. rewrite append_cons. simpl.
    f_equal. now apply IH.
Qed.

Lemma prefix_exact (p s : string) :
  String.prefix p s && (String.length (dropString (String.length p) s) =? 0)%nat
  = String.eqb s p.
Proof.
  destruct (String.eqb_spec s p) as [->|Hne].
  - pose proof (prefix_app p "") as H1. pose proof (dropString_app p "") as H2.
    rewrite append_nil_r in H1, H2. now rewrite H1, H2.
  - destruct (String.prefix p s) eqn:Hp; [|reflexivity]. simpl.
    destruct (String.length _ =? 0)%nat eqn:Hl; [|reflexivity].
    apply string_length_zero in Hl. apply prefix_dropString in Hp.
    rewrite Hl, append_nil_r in Hp. contradiction.
Qed.

(** ** filepath.Match *)

Lemma isMeta_false (c : ascii) :
  isMeta c = false ->
  Ascii.eqb c "*" = false /\ Ascii.eqb c "?" = false /\
  Ascii.eqb c "[" = false /\ Ascii.eqb c "\" = false.
Proof.
  unfold isMeta. intros H.
  repeat (apply orb_false_iff in H as [H ?]). auto.
Qed.

Lemma noMeta_cons (c : ascii) (s : string) :
  noMeta (String c s) = true -> isMeta c = false /\ noMeta s = true.
Proof.
  simpl. intros H. apply andb_true_iff in H as [H1 H2].
  now apply negb_true_iff in H1.
Qed.

Lemma skipStars_noMeta (p : string) :
  noMeta p = true -> skipStars p = (false, p).
Proof.
  destruct p as [|c p]; [reflexivity|]. intros H.
  apply noMeta_cons in H as [H _]. apply isMeta_false in H as (H & _).
  simpl. now rewrite H.
Qed.

Lemma scanLoop_noMeta (p : string) (inrange : bool) :
  noMeta p = true -> scanLoop inrange p = (p, "").
Proof.
  revert inrange. induction p as [|c p IH]; intros inrange H.
  - reflexivity.
  - apply noMeta_cons in H as [Hc Hp].
    apply isMeta_false in Hc as (Hs & _ & Hb & He).
    simpl. rewrite He, Hb, Hs. simpl.
    destruct (Ascii.eqb c "]"); now rewrite IH.
Qed.

(** A chunk without special characters matches exactly the names it is a
    prefix of. *)
Lemma matchChunkLoop_noMeta (chunk : string) :
  noMeta chunk = true ->
  forall (fuel : nat) (s : string) (failed : bool),
    (String.length chunk < fuel)%nat ->
    matchChunkLoop fuel chunk s failed
    = Some (Ok (if failed || negb (String.prefix chunk s)
                then ("", false)
                else (dropString (String.length chunk) s, true))).
Proof.
  induction chunk as [|c chunk IH]; intros Hn fuel s failed Hf.
  - destruct fuel; [simpl in Hf; lia|]. simpl.
    rewrite prefix_nil. now destruct failed.
  - apply noMeta_cons in Hn as [Hc Hn].
    apply isMeta_false in Hc as (Hs & Hq & Hb & He).
    destruct fuel as [|fuel]; [simpl in Hf; lia|].
    simpl in Hf. simpl. rewrite Hb, Hq, He.
    destruct s as [|a s].
    + rewrite (IH Hn) by lia. now rewrite orb_true_r.
    + rewrite orb_false_r. destruct failed.
      * now rewrite (IH Hn) by lia.
      * rewrite (IH Hn) by lia. rewrite prefix_cons. simpl.
        now destruct (Ascii.eqb c a).
Qed.

Lemma Match_noMeta (pattern name : string) :
  noMeta pattern = true ->
  Match pattern name = Some (Ok (String.eqb name pattern)).
Proof.
  intros Hn. unfold Match. simpl.
  destruct (String.length pattern =? 0)%nat eqn:Hl.
  - apply string_length_zero in Hl. subst pattern.
    do 2 f_equal. now destruct name.
  - unfold scanChunk. rewrite (skipStars_noMeta _ Hn), (scanLoop_noMeta _ _ Hn).
    simpl. unfold matchChunk.
    rewrite (matchChunkLoop_noMeta _ Hn) by lia. simpl.
    rewrite <- prefix_exact.
    destruct (String.prefix pattern name); simpl; [|reflexivity].
    destruct (String.length (dropString _ name) =? 0)%nat eqn:Hd.
    + simpl. destruct (String.length pattern) as [|n] eqn:E; [discriminate|].
      apply string_length_zero in Hd. now rewrite Hd.
    + reflexivity.
Qed.

(** *** Match always gives a result *)

Lemma DecodeRuneInString_width (s : string) :
  s <> "" -> (1 <= snd (DecodeRuneInString s))%nat.
Proof.
  destruct s as [|c0 s]; [congruence|]. intros _.
  unfold DecodeRuneInString.
  repeat match goal with
         | |- context [if ?b then _ else _] => destruct b
         | |- context [match ?x with EmptyString => _ | String _ _ => _ end] =>
             destruct x
         end; simpl; lia.
Qed.

Lemma dropString_shorter (n : nat) (s : string) :
  (1 <= n)%nat -> s <> "" ->
  (String.length (dropString n s) < String.length s)%nat.
Proof.
  intros Hn Hs. rewrite dropString_length.
  destruct s; [congruence|]. simpl. lia.
Qed.

Lemma getEsc_shorter (chunk : string) (r : N) (nchunk : string) :
  getEsc chunk = Ok (r, nchunk) ->
  (String.length nchunk < String.length chunk)%nat.
Proof.
  unfold getEsc. destruct chunk as [|c chunk']; [discriminate|].
  destruct (Ascii.eqb c "-" || Ascii.eqb c "]"); [discriminate|].
  set (chunk1 := if Ascii.eqb c "\" then chunk' else String c chunk').
  assert (Hle : (String.length chunk1 <= String.length (String c chunk'))%nat).
  { subst chunk1. destruct (Ascii.eqb c "\"); simpl; lia. }
  destruct chunk1 as [|d chunk1'] eqn:E; [discriminate|].
  destruct (DecodeRuneInString (String d chunk1')) as [r' n] eqn:Hd.
  destruct (_ || _); [discriminate|]. intros [= <- <-].
  pose proof (DecodeRuneInString_width (String d chunk1')) as Hw.
  rewrite Hd in Hw. simpl in Hw.
  pose proof (dropString_shorter n (String d chunk1')) as Hs.
  assert (String d chunk1' <> "") by congruence.
  specialize (Hw H). specialize (Hs Hw H). lia.
Qed.

Lemma classRanges_total (fuel : nat) :
  forall (chunk : string) (r : N) (matched : bool) (nrange : nat),
    (String.length chunk < fuel)%nat ->
    exists res,
      classRanges fuel chunk r matched nrange = Some res /\
      forall chunk' b, res = Ok (chunk', b) ->
                       (String.length chunk' < String.length chunk)%nat.
Proof.
  induction fuel as [|fuel IH]; intros chunk r matched nrange Hf; [lia|].
  simpl.
  destruct (match chunk with
            | EmptyString => None
            | String c chunk' =>
                if Ascii.eqb c "]" && (0 <? nrange)%nat
                then Some chunk' else None
            end) as [chunk'|] eqn:Hclose.
  - eexists. split; [reflexivity|]. intros ? ? [= <- <-].
    destruct chunk as [|c chunk0]; [discriminate|].
    destruct (_ && _); [|discriminate]. injection Hclose as ->. simpl. lia.
  - destruct (getEsc chunk) as [[lo chunk1]|e] eqn:Hlo.
    2:{ eexists. split; [reflexivity|]. discriminate. }
    apply getEsc_shorter in Hlo.
    destruct chunk1 as [|c chunk2].
    { eexists. split; [reflexivity|]. discriminate. }
    destruct (Ascii.eqb c "-").
    + destruct (getEsc chunk2) as [[hi chunk3]|e] eqn:Hhi.
      2:{ eexists. split; [reflexivity|]. discriminate. }
      apply getEsc_shorter in Hhi. simpl in Hlo.
      destruct (IH chunk3 r (matched || ((lo <=? r) && (r <=? hi))%N)
                  (S nrange)) as (res & -> & Hres); [lia|].
      eexists. split; [reflexivity|]. intros c' b Hb.
      specialize (Hres c' b Hb). lia.
    + destruct (IH (String c chunk2) r
                  (matched || ((lo <=? r) && (r <=? lo))%N) (S nrange))
        as (res & -> & Hres); [lia|].
      eexists. split; [reflexivity|]. intros c' b Hb.
      specialize (Hres c' b Hb). lia.
Qed.

Lemma matchChunkLoop_total (fuel : nat) :
  forall (chunk s : string) (failed : bool),
    (String.length chunk < fuel)%nat ->
    exists res, matchChunkLoop fuel chunk s failed = Some res.
Proof.
  induction fuel as [|fuel IH]; intros chunk s failed Hf; [lia|].
  simpl. destruct chunk as [|c chunk']; [eauto|]. simpl in Hf.
  assert (Hlit : forall d rest,
             (String.length rest < fuel)%nat ->
             exists res,
               match s with
               | EmptyString => matchChunkLoop fuel rest s true
               | String a s' =>
                   if failed || (String.length s =? 0)%nat
                   then matchChunkLoop fuel rest s true
                   else matchChunkLoop fuel rest s' (negb (Ascii.eqb d a))
               end = Some res).
  { intros d rest Hr. destruct s; [apply IH; lia|].
    destruct (_ || _); apply IH; lia. }
  destruct (Ascii.eqb c "[").
  - destruct (if failed || (String.length s =? 0)%nat
              then (0%N, s)
              else let '(r, n) := DecodeRuneInString s in (r, dropString n s))
      as [r s1].
    destruct (match chunk' with
              | EmptyString => (false, chunk')
              | String d chunk'' =>
                  if Ascii.eqb d "^" then (true, chunk'') else (false, chunk')
              end) as [negated chunk2] eqn:Hneg.
    assert (Hc2 : (String.length chunk2 <= String.length chunk')%nat).
    { destruct chunk' as [|d chunk'']; [injection Hneg as _ <-; lia|].
      destruct (Ascii.eqb d "^"); injection Hneg as _ <-; simpl; lia. }
    destruct (classRanges_total fuel chunk2 r false 0) as (res & -> & Hres);
      [lia|].
    destruct res as [[chunk3 matched]|e]; [|eauto].
    specialize (Hres chunk3 matched eq_refl). apply IH. lia.
  - destruct (Ascii.eqb c "?").
    + destruct s; [apply IH; lia|]. destruct (_ || _); apply IH; lia.
    + destruct (Ascii.eqb c "\").
      * destruct chunk' as [|d chunk'']; [eauto|].
        apply Hlit. simpl in Hf. lia.
      * apply Hlit. lia.
Qed.

Lemma matchChunk_total (chunk s : string) :
  exists res, matchChunk chunk s = Some res.
Proof. apply matchChunkLoop_total. lia. Qed.

Lemma starLoop_total (chunk : string) (lastChunk : bool) (name : string) :
  exists res, starLoop chunk lastChunk name = Some res.
Proof.
  induction name as [|a name IH]; simpl; [eauto|].
  destruct (Ascii.eqb a Separator); [eauto|].
  destruct (matchChunk_total chunk name) as (res & ->).
  destruct res as [[t []]|e]; eauto.
  destruct (_ && _); eauto.
Qed.

Lemma skipStars_length (p : string) :
  (String.length (snd (skipStars p)) <= String.length p)%nat.
Proof.
  induction p as [|c p IH]; simpl; [lia|].
  destruct (Ascii.eqb c "*"); simpl; lia.
Qed.

Lemma skipStars_head (p : string) :
  match snd (skipStars p) with
  | EmptyString => True
  | String c _ => Ascii.eqb c "*" = false
  end.
Proof.
  induction p as [|c p IH]; simpl; [exact I|].
  destruct (Ascii.eqb c "*") eqn:E; simpl; [exact IH | exact E].
Qed.

Lemma skipStars_false (p q : string) : skipStars p = (false, q) -> q = p.
Proof.
  destruct p as [|c p]; simpl; [congruence|].
  destruct (Ascii.eqb c "*"); congruence.
Qed.

Lemma scanLoop_length (p : string) :
  forall (inrange : bool) (chunk rest : string),
    scanLoop inrange p = (chunk, rest) ->
    (String.length chunk + String.length rest = String.length p)%nat.
Proof.
  assert (Hstep : forall (P : string -> Prop), P "" ->
            (forall c, P (String c "")) ->
            (forall c d p, P p -> P (String d p) -> P (String c (String d p))) ->
            forall p, P p /\ forall c, P (String c p)).
  { intros P H0 H1 H2. induction p0 as [|d p0 [IHa IHb]]; split; auto. }
  apply (fun P H0 H1 H2 => proj1 (Hstep P H0 H1 H2 p)).
  - intros inrange chunk rest [= <- <-]. reflexivity.
  - intros c inrange chunk rest. simpl.
    repeat match goal with
           | |- context [if ?b then _ else _] => destruct b
           end; intros [= <- <-]; reflexivity.
  - intros c d q IHq IHdq inrange chunk rest. 
    change (scanLoop inrange (String c (String d q)))
      with (if Ascii.eqb c "\" then
              let '(chunk, rest) := scanLoop inrange q in
              (String c (String d chunk), rest)
            else if Ascii.eqb c "[" then
              let '(chunk, rest) := scanLoop true (String d q) in
              (String c chunk, rest)
            else if Ascii.eqb c "]" then
              let '(chunk, rest) := scanLoop false (String d q) in
              (String c chunk, rest)
            else if Ascii.eqb c "*" && negb inrange
            then (EmptyString, String c (String d q))
            else
              let '(chunk, rest) := scanLoop inrange (String d q) in
              (String c chunk, rest)).
    destruct (Ascii.eqb c "\").
    { destruct (scanLoop inrange q) as [ch r] eqn:E. intros [= <- <-].
      apply IHq in E. simpl in *. lia. }
    destruct (Ascii.eqb c "[").
    { destruct (scanLoop true (String d q)) as [ch r] eqn:E. intros [= <- <-].
      apply IHdq in E. simpl in *. lia. }
    destruct (Ascii.eqb c "]").
    { destruct (scanLoop false (String d q)) as [ch r] eqn:E.
      intros [= <- <-]. apply IHdq in E. simpl in *. lia. }
    destruct (_ && _).
    { intros [= <- <-]. reflexivity. }
    destruct (scanLoop inrange (String d q)) as [ch r] eqn:E.
    intros [= <- <-]. apply IHdq in E. simpl in *. lia.
Qed.

Lemma scanLoop_nonempty (c : ascii) (p : string) (inrange : bool) :
  Ascii.eqb c "*" = false -> fst (scanLoop inrange (String c p)) <> "".
Proof.
  intros Hc. simpl. rewrite Hc. simpl.
  destruct (Ascii.eqb c "\").
  { destruct p; [simpl; congruence|].
    destruct (scanLoop inrange p); simpl; congruence. }
  destruct (Ascii.eqb c "[").
  { destruct (scanLoop true p); simpl; congruence. }
  destruct (Ascii.eqb c "]").
  { destruct (scanLoop false p); simpl; congruence. }
  destruct (scanLoop inrange p); simpl; congruence.
Qed.

(** Unless [Match] returns at once, the chunk scanned off the pattern
    leaves a shorter pattern. *)
Lemma scanChunk_shorter (pattern : string) (star : bool) (chunk rest : string) :
  pattern <> "" ->
  scanChunk pattern = (star, chunk, rest) ->
  star && String.eqb chunk "" = false ->
  (String.length rest < String.length pattern)%nat.
Proof.
  intros Hne. unfold scanChunk.
  destruct (skipStars pattern) as [st p1] eqn:Hs.
  destruct (scanLoop false p1) as [ch r] eqn:Hl. intros [= <- <- <-] Hb.
  pose proof (skipStars_length pattern) as Hlen. rewrite Hs in Hlen.
  pose proof (skipStars_head pattern) as Hhd. rewrite Hs in Hhd.
  simpl in Hlen, Hhd.
  pose proof (scanLoop_length _ _ _ _ Hl) as Hsum.
  assert (Hch : ch <> "" -> (String.length r < String.length pattern)%nat).
  { intros Hc. destruct ch; [congruence|]. simpl in Hsum. lia. }
  destruct st; simpl in Hb.
  - apply Hch. intros ->. discriminate.
  - apply skipStars_false in Hs. subst p1.
    destruct pattern as [|c p]; [congruence|]. apply Hch.
    pose proof (scanLoop_nonempty c p false Hhd) as Hn.
    now rewrite Hl in Hn.
Qed.

Lemma MatchLoop_total (fuel : nat) :
  forall pattern name : string,
    (String.length pattern < fuel)%nat ->
    exists res, MatchLoop fuel pattern name = Some res.
Proof.
  induction fuel as [|fuel IH]; intros pattern name Hf; [lia|].
  simpl. destruct (String.length pattern =? 0)%nat eqn:Hl; [eauto|].
  assert (Hne : pattern <> "").
  { intros ->. discriminate. }
  destruct (scanChunk pattern) as [[star chunk] rest] eqn:Hs.
  destruct (star && String.eqb chunk "") eqn:Hb; [eauto|].
  pose proof (scanChunk_shorter _ _ _ _ Hne Hs Hb) as Hr.
  destruct (matchChunk_total chunk name) as (r & ->).
  destruct (match r with
            | Ok (t, true) =>
                if (String.length t =? 0)%nat || (0 <? String.length rest)%nat
                then Some t else None
            | _ => None
            end) as [t|].
  { apply IH. lia. }
  destruct r as [?|e]; [|eauto].
  destruct star; [|eauto].
  destruct (starLoop_total chunk (String.length rest =? 0)%nat name)
    as (res & ->).
  destruct res as [[t|]|e]; eauto. apply IH. lia.
Qed.

(** [filepath.Match] returns for every pattern and name. *)
Lemma Match_total (pattern name : string) :
  exists res, Match pattern name = Some res.
Proof. apply MatchLoop_total. lia. Qed.

(** *** Patterns that end in a star *)

Lemma scanLoop_noMeta_star (p q : string) :
  noMeta p = true ->
  scanLoop false (p ++ String "*" q) = (p, String "*" q).
Proof.
  induction p as [|c p IH]; intros H.
  - reflexivity.
  - apply noMeta_cons in H as [Hc Hp].
    apply isMeta_false in Hc as (Hs & _ & Hb & He).
    rewrite append_cons. simpl. rewrite He, Hb, Hs. simpl.
    destruct (Ascii.eqb c "]"); now rewrite IH.
Qed.

Lemma length_append (p q : string) :
  String.length (p ++ q) = (String.length p + String.length q)%nat.
Proof.
  induction p as [|c p IH]; [reflexivity|].
  rewrite append_cons. simpl. now rewrite IH.
Qed.

Lemma Match_trailing_star (p name : string) :
  noMeta p = true ->
  Match (p ++ "*") name
  = Some (Ok (String.prefix p name
              && negb (ContainsByte (dropString (String.length p) name)
                         Separator))).
Proof.
  intros Hn. destruct p as [|c p].
  - rewrite prefix_nil. reflexivity.
  - unfold Match.
    assert (Hscan : scanChunk (String c p ++ "*") = (false, String c p, "*")).
    { unfold scanChunk.
      pose proof (noMeta_cons _ _ Hn) as [Hc _].
      apply isMeta_false in Hc as (Hs & _).
      replace (skipStars (String c p ++ "*")) with (false, String c p ++ "*")
        by (rewrite append_cons; simpl; now rewrite Hs).
      now rewrite (scanLoop_noMeta_star _ "" Hn). }
    rewrite append_cons in *. cbn [String.length MatchLoop Nat.eqb].
    rewrite Hscan. cbn [andb].
    unfold matchChunk. rewrite (matchChunkLoop_noMeta _ Hn) by lia.
    cbn [orb]. destruct (String.prefix (String c p) name); cbn [negb andb].
    + change (0 <? String.length "*")%nat with true. rewrite orb_true_r.
      rewrite length_append. rewrite Nat.add_comm. reflexivity.
    + reflexivity.
Qed.

(** ** Branch filters (claim C4) *)

Lemma parseBranchNameFromRefs_heads (branch : string) :
  branch <> "" ->
  parseBranchNameFromRefs (expectedPrefix ++ branch) = Ok branch.
Proof.
  intros Hb. unfold parseBranchNameFromRefs, HasPrefix.
  rewrite prefix_app, length_append, dropString_app. cbn [negb orb].
  destruct branch; [congruence|].
  replace (String.length expectedPrefix =?
           String.length expectedPrefix + String.length (String a branch))%nat
    with false; [reflexivity|].
  symmetry. apply Nat.eqb_neq. simpl. lia.
Qed.

(** C4, as the code has it.  For a pushed ref [refs/heads/<branch>] with a
    non-empty branch: a filter without any of the pattern characters
    [*], [?], [[] and [\] accepts exactly the branch equal to it; a filter
    [p*] with [p] free of pattern characters accepts exactly the branches
    that start with [p] and go on without a slash; so [release/*] accepts
    [release/1.0] and rejects [release]. *)
Theorem isWebhookEventBranch_glob (branch filter : string) :
  branch <> "" ->
  (noMeta filter = true ->
   isWebhookEventBranch (expectedPrefix ++ branch) filter
   = Ok (String.eqb branch filter))
  /\ (forall p, noMeta p = true -> filter = p ++ "*" ->
      isWebhookEventBranch (expectedPrefix ++ branch) filter
      = Ok (String.prefix p branch
            && negb (ContainsByte (dropString (String.length p) branch) "/")))
  /\ isWebhookEventBranch "refs/heads/release/1.0" "release/*" = Ok true
  /\ isWebhookEventBranch "refs/heads/release" "release/*" = Ok false.
Proof.
  intros Hb. unfold isWebhookEventBranch at 1 2.
  rewrite (parseBranchNameFromRefs_heads _ Hb). unfold filepathMatch.
  split; [|split; [|split; vm_compute; reflexivity]].
  - intros Hn. rewrite (Match_noMeta _ _ Hn).
    now destruct (String.eqb branch filter).
  - intros p Hn ->. rewrite (Match_trailing_star _ _ Hn).
    now destruct (_ && _).
Qed.

Lemma isWebhookEventBranch_glob_witness :
  isWebhookEventBranch "refs/heads/main" "main" = Ok true
  /\ isWebhookEventBranch "refs/heads/feature/x" "feature/*" = Ok true.
Proof.
  assert (Hb : "main" <> "") by discriminate.
  assert (Hf : "feature/x" <> "") by discriminate.
  split.
  - exact (proj1 (isWebhookEventBranch_glob "main" "main" Hb) eq_refl).
  - exact (proj1 (proj2 (isWebhookEventBranch_glob "feature/x" "feature/*" Hf))
             "feature/" eq_refl eq_refl).
Defined.

(** C4 as stated fails: the filter [v?] contains no star and accepts the
    branch [v1], which differs from it. *)
Lemma isWebhookEventBranch_not_exact_without_star :
  ~ (forall branch filter : string,
        branch <> "" ->
        ContainsByte filter "*" = false ->
        (isWebhookEventBranch (expectedPrefix ++ branch) filter = Ok true
         <-> branch = filter)).
Proof.
  intros H.
  assert (Hb : "v1" <> "") by discriminate.
  destruct (H "v1" "v?" Hb eq_refl) as [H1 _].
  specialize (H1 eq_refl). discriminate.
Qed.

(** ** findProjectDatabases (claim C10) *)

Lemma markedTwice_false (l : list Database) :
  forall marked : gset Z,
    markedTwice marked l = false ->
    NoDup (envIDOf <$> l) /\ (forall d, d ∈ l -> envIDOf d ∉ marked).
Proof.
  induction l as [|d l IH]; intros marked H; simpl in *.
  - split; [constructor | intros d Hd; inversion Hd].
  - case_bool_decide as Hin; [discriminate|].
    destruct (IH _ H) as [Hnd Hout]. split.
    + constructor; [|exact Hnd].
      rewrite list_elem_of_fmap. intros (d' & Heq & Hd').
      apply (Hout d' Hd'). rewrite <- Heq.
      apply elem_of_union_l, elem_of_singleton. reflexivity.
    + intros d' Hd'. apply elem_of_cons in Hd' as [->|Hd']; [exact Hin|].
      specialize (Hout d' Hd'). intros Hm. apply Hout.
      now apply elem_of_union_r.
Qed.

Lemma markedTwice_true (l : list Database) :
  forall marked : gset Z,
    markedTwice marked l = true ->
    ~ NoDup (envIDOf <$> l) \/ (exists d, d ∈ l /\ envIDOf d ∈ marked).
Proof.
  induction l as [|d l IH]; intros marked H; simpl in *.
  - discriminate.
  - case_bool_decide as Hin.
    + right. exists d. split; [left|assumption].
    + destruct (IH _ H) as [Hnd | (d' & Hd' & Hm)].
      * left. intros Hnd'. apply Hnd. now apply NoDup_cons_1_2 in Hnd'.
      * apply elem_of_union in Hm as [Hm|Hm].
        -- left. apply elem_of_singleton in Hm.
           intros Hnd'. apply NoDup_cons_1_1 in Hnd'. apply Hnd'.
           rewrite <- Hm. apply list_elem_of_fmap. exists d'. auto.
        -- right. exists d'. split; [now right|assumption].
Qed.

Lemma markedTwice_NoDup (l : list Database) :
  markedTwice ∅ l = false <-> NoDup (envIDOf <$> l).
Proof.
  split.
  - intros H. now apply markedTwice_false in H.
  - intros Hnd. destruct (markedTwice ∅ l) eqn:E; [|reflexivity].
    apply markedTwice_true in E as [E | (d & _ & Hd)]; [contradiction|].
    now apply elem_of_empty in Hd.
Qed.

(** What [findProjectDatabases] returns, in terms of the candidates. *)
Lemma findProjectDatabases_spec (s : Server) (projectID : Z)
    (dbName envName : string) (found : list Database) :
  FindDatabase (store s) projectID dbName = Ok found ->
  findProjectDatabases s projectID dbName envName
  = let cands := candidates (runtime s) envName found in
    if bool_decide (cands = []) then
      if bool_decide (found = [])
      then Err (ErrProjectNoDatabase projectID dbName)
      else Err (ErrProjectNoDatabaseForEnv projectID dbName envName)
    else if markedTwice ∅ cands
    then Err (ErrProjectMultipleDatabases projectID dbName envName)
    else Ok cands.
Proof.
  intros Hf. unfold findProjectDatabases, candidates. rewrite Hf.
  destruct found as [|d found].
  - destruct (String.eqb envName ""); reflexivity.
  - destruct (String.eqb envName ""); cbn [negb]; [reflexivity|].
    destruct (filterByEnvironment _ _ _); reflexivity.
Qed.

(** C10.  [findProjectDatabases] never returns two databases of the same
    environment; when the databases found by name, filtered by the
    environment name up to case if one is given, contain two databases of
    one environment, or when there is none of them (no database of that
    name, or none in that environment), it returns an error, and otherwise
    it returns exactly these databases. *)
Theorem findProjectDatabases_one_per_environment (s : Server)
    (projectID : Z) (dbName envName : string) :
  (forall dbs,
      findProjectDatabases s projectID dbName envName = Ok dbs ->
      NoDup (envIDOf <$> dbs))
  /\ (forall found,
         FindDatabase (store s) projectID dbName = Ok found ->
         let cands := candidates (runtime s) envName found in
         (~ NoDup (envIDOf <$> cands) ->
          exists e, findProjectDatabases s projectID dbName envName = Err e)
         /\ (cands = [] ->
             exists e, findProjectDatabases s projectID dbName envName = Err e)
         /\ (NoDup (envIDOf <$> cands) -> cands <> [] ->
             findProjectDatabases s projectID dbName envName = Ok cands))
  /\ (forall e,
         FindDatabase (store s) projectID dbName = Err e ->
         exists e', findProjectDatabases s projectID dbName envName = Err e').
Proof.
  split; [|split].
  - intros dbs H.
    destruct (FindDatabase (store s) projectID dbName) as [found|e] eqn:Hf.
    + rewrite (findProjectDatabases_spec _ _ _ _ _ Hf) in H.
      cbv zeta in H. revert H.
      generalize (candidates (runtime s) envName found). intros c H.
      destruct (bool_decide (c = [])).
      { now destruct (bool_decide _). }
      destruct (markedTwice ∅ c) eqn:Hm; [discriminate|].
      injection H as <-. now apply markedTwice_NoDup.
    + unfold findProjectDatabases in H. now rewrite Hf in H.
  - intros found Hf cands.
    rewrite (findProjectDatabases_spec _ _ _ _ _ Hf). cbv zeta.
    fold cands. clearbody cands.
    split; [|split].
    + intros Hnd. case_bool_decide.
      { destruct (bool_decide _); eauto. }
      destruct (markedTwice ∅ cands) eqn:Hm; [eauto|].
      apply markedTwice_NoDup in Hm. contradiction.
    + intros ->. rewrite bool_decide_eq_true_2 by reflexivity.
      destruct (bool_decide _); eauto.
    + intros Hnd Hne. rewrite bool_decide_eq_false_2 by assumption.
      apply markedTwice_NoDup in Hnd. now rewrite Hnd.
  - intros e Hf. unfold findProjectDatabases. rewrite Hf. eauto.
Qed.

Lemma findProjectDatabases_one_per_environment_witness :
  findProjectDatabases shopServer 1 "shop" "" = Ok [shopDev; shopProd]
  /\ findProjectDatabases shopServer 1 "shop" "dev" = Ok [shopDev]
  /\ (exists e, findProjectDatabases twinShopServer 1 "shop" "DEV" = Err e)
  /\ (exists e, findProjectDatabases shopServer 1 "shop" "staging" = Err e)
  /\ (exists e, findProjectDatabases shopServer 1 "blog" "" = Err e).
Proof.
  pose proof (findProjectDatabases_one_per_environment shopServer 1 "shop" "")
    as (_ & H1 & _).
  pose proof (findProjectDatabases_one_per_environment shopServer 1 "shop" "dev")
    as (_ & H2 & _).
  pose proof (findProjectDatabases_one_per_environment twinShopServer 1 "shop"
                "DEV") as (_ & H3 & _).
  pose proof (findProjectDatabases_one_per_environment shopServer 1 "shop"
                "staging") as (_ & H4 & _).
  pose proof (findProjectDatabases_one_per_environment shopServer 1 "blog" "")
    as (_ & H5 & _).
  destruct (H1 _ eq_refl) as (_ & _ & G1).
  destruct (H2 _ eq_refl) as (_ & _ & G2).
  destruct (H3 _ eq_refl) as (G3 & _ & _).
  destruct (H4 _ eq_refl) as (_ & G4 & _).
  destruct (H5 _ eq_refl) as (_ & G5 & _).
  split; [|split; [|split; [|split]]].
  - apply G1; [compute_done | discriminate].
  - apply G2; [compute_done | discriminate].
  - apply G3. compute_done.
  - apply G4. reflexivity.
  - apply G5. reflexivity.
Defined.

(** ** Event kinds other than push (claim C9) *)

(** C9, as the code has it.  A GitHub ping is answered with status 200
    and nothing is processed; every other event kind that is not a push is
    rejected with status 400, again without processing anything, by the
    GitHub and by the GitLab endpoint. *)
Theorem webhook_non_push_event (s : Server) (c : Request) (st : Effects) :
  (Header c "X-GitHub-Event" = GitHubWebhookPing ->
   githubWebhook s c st
   = (Returns (Ok {| StatusCode := StatusOK; Body := BodyString "OK" |}), st))
  /\ (Header c "X-GitHub-Event" <> GitHubWebhookPing ->
      Header c "X-GitHub-Event" <> GitHubWebhookPush ->
      exists msg,
        githubWebhook s c st
        = (Returns (Err (ErrHTTP StatusBadRequest msg)), st))
  /\ (forall body pushEvent,
         ReadBody c = Ok body ->
         UnmarshalGitLabPushEvent (codec s) body = Ok pushEvent ->
         ObjectKind pushEvent <> GitLabWebhookPush ->
         exists msg,
           gitlabWebhook s c st
           = (Returns (Err (ErrHTTP StatusBadRequest msg)), st)).
Proof.
  split; [|split].
  - intros H. unfold githubWebhook. rewrite H. reflexivity.
  - intros H1 H2. unfold githubWebhook.
    apply String.eqb_neq in H1, H2. rewrite H1, H2. eauto.
  - intros body pushEvent Hb Hu Hk. unfold gitlabWebhook.
    rewrite Hb, Hu. apply String.eqb_neq in Hk. rewrite Hk. eauto.
Qed.

Lemma webhook_non_push_event_witness :
  httpStatus
    (match run (githubWebhook shopServer (requestOf "" "X-GitHub-Event" "ping"))
     with (Returns r, _) => r | _ => Err (ErrOpaque "panic") end) = 200
  /\ (exists msg,
         run (githubWebhook shopServer
                (requestOf "" "X-GitHub-Event" "pull_request"))
         = (Returns (Err (ErrHTTP 400 msg)), noEffects))
  /\ (exists msg,
         run (gitlabWebhook tagPushServer (requestOf "{}" "X-Gitlab-Token" ""))
         = (Returns (Err (ErrHTTP 400 msg)), noEffects)).
Proof.
  split; [|split].
  - unfold run.
    rewrite (proj1 (webhook_non_push_event shopServer
                      (requestOf "" "X-GitHub-Event" "ping") noEffects)
               eq_refl).
    reflexivity.
  - apply (proj1 (proj2 (webhook_non_push_event shopServer
                           (requestOf "" "X-GitHub-Event" "pull_request")
                           noEffects))); discriminate.
  - apply (proj2 (proj2 (webhook_non_push_event tagPushServer
                           (requestOf "{}" "X-Gitlab-Token" "") noEffects))
             "{}" _ eq_refl eq_refl).
    discriminate.
Defined.

(** C9 as stated fails: a GitHub event of kind [pull_request] is answered
    with status 400, not 200. *)
Lemma webhook_non_push_event_not_always_ok :
  ~ (forall (s : Server) (c : Request),
        Header c "X-GitHub-Event" <> GitHubWebhookPush ->
        exists body,
          run (githubWebhook s c)
          = (Returns (Ok {| StatusCode := StatusOK; Body := body |}),
             noEffects)).
Proof.
  intros H.
  destruct (H shopServer (requestOf "" "X-GitHub-Event" "pull_request"))
    as (body & Hb); [discriminate|].
  vm_compute in Hb. discriminate.
Qed.

(** The same on the GitLab endpoint: an event of kind [tag_push] is answered
    with status 400. *)
Lemma gitlabWebhook_tag_push :
  exists msg,
    run (gitlabWebhook tagPushServer (requestOf "{}" "X-Gitlab-Token" ""))
    = (Returns (Err (ErrHTTP StatusBadRequest msg)), noEffects).
Proof. eexists. reflexivity. Qed.

(** ** File classification (claims C5 and C2) *)

Lemma ReplaceFirst_unfold (s old new : string) :
  ReplaceFirst s old new
  = if String.prefix old s then new ++ dropString (String.length old) s
    else match s with
         | EmptyString => EmptyString
         | String c s' => String c (ReplaceFirst s' old new)
         end.
Proof. destruct s; reflexivity. Qed.

Lemma ReplaceFirst_absent (s old new : string) :
  Contains s old = false -> ReplaceFirst s old new = s.
Proof.
  induction s as [|c s IH]; intros H; rewrite ReplaceFirst_unfold;
    cbn [Contains] in H; apply orb_false_iff in H as [H1 H2].
  - now rewrite H1.
  - rewrite H1. f_equal. now apply IH.
Qed.

Lemma ReplaceFirst_first (p old rest new : string) :
  startsIn p (old ++ rest) old = false ->
  ReplaceFirst (p ++ old ++ rest) old new = p ++ new ++ rest.
Proof.
  induction p as [|c p IH]; intros H; rewrite ReplaceFirst_unfold.
  - rewrite !append_nil_l. now rewrite prefix_app, dropString_app.
  - cbn [startsIn] in H. apply orb_false_iff in H as [H1 H2].
    rewrite H1. rewrite !append_cons. f_equal. now apply IH.
Qed.

(** What the classifier hands to [db.ParseMigrationInfo]: the joined
    template, with its first [.sql] turned into [.yml] for a YAML file of a
    tenant project, and the flag that allows the database name to be
    left out, raised exactly for a tenant project when the file is YAML or
    the database-name template is empty. *)
Lemma migrationTemplateOf_spec (fileItem : DistinctFileItem)
    (repository : Repository) :
  let tenant :=
    bool_decide (TenantMode (RepoProject repository) = TenantModeTenant) in
  let joined :=
    pathJoin [BaseDirectory repository; FilePathTemplate repository] in
  migrationTemplateOf fileItem repository
  = (if tenant && IsYAML fileItem then ReplaceFirst joined ".sql" ".yml"
     else joined,
     tenant && (IsYAML fileItem
                || String.eqb (DBNameTemplate (RepoProject repository)) "")).
Proof.
  unfold migrationTemplateOf. cbv zeta.
  destruct (bool_decide _), (IsYAML fileItem), (String.eqb _ ""); reflexivity.
Qed.

(** When [.sql] occurs in the joined template as its suffix only, the
    template matched against a YAML file of a tenant project is the joined
    one with that suffix turned into [.yml]. *)
Lemma migrationTemplateOf_yaml_suffix (fileItem : DistinctFileItem)
    (repository : Repository) (stem : string) :
  TenantMode (RepoProject repository) = TenantModeTenant ->
  IsYAML fileItem = true ->
  pathJoin [BaseDirectory repository; FilePathTemplate repository]
  = stem ++ ".sql" ->
  startsIn stem ".sql" ".sql" = false ->
  migrationTemplateOf fileItem repository = (stem ++ ".yml", true).
Proof.
  intros Ht Hy Hj Hs. rewrite migrationTemplateOf_spec. cbv zeta.
  rewrite Hj, Hy, bool_decide_eq_true_2 by assumption. cbn [andb orb].
  f_equal.
  pose proof (ReplaceFirst_first stem ".sql" "" ".yml") as H.
  rewrite !append_nil_r in H. now apply H.
Qed.

(** C5 at a repository whose base directory is [bytebase.sql]: the joined
    template ends in [.sql], and yet the template matched against a YAML
    file keeps that suffix; the directory name is rewritten instead. *)
Theorem migrationTemplateOf_sql_in_directory :
  pathJoin [BaseDirectory sqlDirectoryRepository;
            FilePathTemplate sqlDirectoryRepository]
  = "bytebase.sql/{{ENV_NAME}}/{{DB_NAME}}##{{VERSION}}" ++ ".sql"
  /\ migrationTemplateOf (fileNamed "bytebase.sql/prod/shop##v1.yml"
                            FileItemTypeAdded true)
       sqlDirectoryRepository
     = ("bytebase.yml/{{ENV_NAME}}/{{DB_NAME}}##{{VERSION}}.sql", true)
  /\ fst (migrationTemplateOf (fileNamed "bytebase.sql/prod/shop##v1.yml"
                                 FileItemTypeAdded true)
            sqlDirectoryRepository)
     <> "bytebase.sql/{{ENV_NAME}}/{{DB_NAME}}##{{VERSION}}" ++ ".yml".
Proof. split; [|split]; [reflexivity | reflexivity | discriminate]. Qed.

(** One step of the loop of [getFileInfo], in terms of [classify]. *)
Lemma getFileInfoLoop_step (p : DBPlugin) (fileItem : DistinctFileItem)
    (repository : Repository) (rest : list Repository)
    (st : MigrationInfo * fileType) (matched : list Repository) :
  getFileInfoLoop p fileItem (repository :: rest) (st, matched)
  = match classify p fileItem repository with
    | None => getFileInfoLoop p fileItem rest (st, matched)
    | Some c =>
        if yamlNotData p fileItem repository then Err ErrYAMLOnlyDML
        else getFileInfoLoop p fileItem rest
               (c, (matched ++ [repository])%list)
    end.
Proof.
  destruct st as [mi0 ft0]. unfold yamlNotData, classify. cbn [getFileInfoLoop].
  destruct (negb (HasPrefix _ _)); [reflexivity|].
  destruct (migrationTemplateOf fileItem repository) as [t a].
  destruct (ParseMigrationInfo p _ t a) as [[mi|]|e]; [| |reflexivity].
  - reflexivity.
  - destruct (ParseSchemaFileInfo p _ _ _) as [[si|]|e]; reflexivity.
Qed.

Lemma getFileInfoLoop_spec (p : DBPlugin) (fileItem : DistinctFileItem)
    (repositoryList : list Repository) :
  forall (st : MigrationInfo * fileType) (matched : list Repository),
    getFileInfoLoop p fileItem repositoryList (st, matched)
    = if existsb (yamlNotData p fileItem) repositoryList
      then Err ErrYAMLOnlyDML
      else Ok (lastClassified p fileItem repositoryList st,
               (matched
                ++ List.filter (matchesLink p fileItem) repositoryList)%list).
Proof.
  induction repositoryList as [|r rest IH]; intros st matched.
  - simpl. now rewrite app_nil_r.
  - rewrite getFileInfoLoop_step. cbn [existsb List.filter].
    change (lastClassified p fileItem (r :: rest) st)
      with (lastClassified p fileItem rest
              (default st (classify p fileItem r))).
    unfold matchesLink at 1. unfold yamlNotData at 2.
    destruct (classify p fileItem r) as [c|] eqn:Hc.
    + rewrite bool_decide_eq_true_2 by eauto.
      unfold yamlNotData at 1. rewrite Hc.
      destruct c as [mi ft].
      destruct (match ft with
                | migrationFileType =>
                    IsYAML fileItem && negb (bool_decide (miType mi = Data))
                | _ => false
                end); [reflexivity|].
      cbn [orb default]. rewrite IH. now rewrite <- app_assoc.
    + rewrite bool_decide_eq_false_2 by (intros [? ?]; discriminate).
      cbn [orb default]. apply IH.
Qed.

Lemma lastClassified_cons (p : DBPlugin) (fileItem : DistinctFileItem)
    (r : Repository) (rest : list Repository) (init : MigrationInfo * fileType) :
  lastClassified p fileItem (r :: rest) init
  = lastClassified p fileItem rest (default init (classify p fileItem r)).
Proof. reflexivity. Qed.

Lemma lastClassified_matching (p : DBPlugin) (fileItem : DistinctFileItem)
    (repositoryList : list Repository) :
  forall init,
    lastClassified p fileItem repositoryList init
    = default init
        (last (omap (classify p fileItem)
                 (List.filter (matchesLink p fileItem) repositoryList))).
Proof.
  induction repositoryList as [|r rest IH]; intros init; [reflexivity|].
  rewrite lastClassified_cons, IH. cbn [List.filter]. unfold matchesLink at 2.
  destruct (classify p fileItem r) as [c|] eqn:Hc.
  - rewrite bool_decide_eq_true_2 by eauto. cbn [omap list_omap].
    rewrite Hc. cbn [default].
    destruct (omap _ _) as [|x l]; [reflexivity|].
    rewrite last_cons_cons.
    destruct (proj2 (last_is_Some (x :: l))) as [y ->]; [discriminate|].
    reflexivity.
  - rewrite bool_decide_eq_false_2 by (intros [? ?]; discriminate).
    reflexivity.
Qed.

Lemma getFileInfo_spec (p : DBPlugin) (fileItem : DistinctFileItem)
    (repositoryList : list Repository) :
  getFileInfo p fileItem repositoryList
  = if existsb (yamlNotData p fileItem) repositoryList
    then Err ErrYAMLOnlyDML
    else
      match List.filter (matchesLink p fileItem) repositoryList with
      | [] => Err ErrFileNoProject
      | [repository] =>
          let '(mi, ft) :=
            default (nilMigrationInfo, unknownFileType)
              (classify p fileItem repository) in
          Ok (mi, ft, repository)
      | links => Err (ErrFileManyProjects (manyProjectsMessage links))
      end.
Proof.
  unfold getFileInfo. rewrite getFileInfoLoop_spec.
  destruct (existsb _ _); [reflexivity|].
  rewrite lastClassified_matching. cbn [app].
  destruct (List.filter _ _) as [|r [|r' l]] eqn:Hf.
  - reflexivity.
  - cbn [omap list_omap].
    destruct (classify p fileItem r) as [[mi ft]|]; reflexivity.
  - destruct (default _ _) as [mi ft]. reflexivity.
Qed.

(** C2, as the code has it.  Unless a link reads the file as a YAML
    migration of a kind other than data, [getFileInfo] decides by the number
    of links the file matches: none is an error, one gives the
    classification under that link, two or more are an error that names the
    projects of these links.  Whatever the error, [groupFileInfoByRepo]
    ignores that file only and goes on with the files after it. *)
Theorem getFileInfo_zero_one_many (p : DBPlugin)
    (fileItem : DistinctFileItem) (repositoryList : list Repository) :
  let links := List.filter (matchesLink p fileItem) repositoryList in
  (existsb (yamlNotData p fileItem) repositoryList = false ->
   (links = [] ->
    getFileInfo p fileItem repositoryList = Err ErrFileNoProject)
   /\ (forall repository,
          links = [repository] ->
          exists mi ft,
            classify p fileItem repository = Some (mi, ft)
            /\ getFileInfo p fileItem repositoryList
               = Ok (mi, ft, repository))
   /\ ((2 <= length links)%nat ->
       getFileInfo p fileItem repositoryList
       = Err (ErrFileManyProjects (manyProjectsMessage links))))
  /\ (forall e rest grouped,
         getFileInfo p fileItem repositoryList = Err e ->
         groupFileInfoByRepoLoop p (fileItem :: rest) repositoryList grouped
         = groupFileInfoByRepoLoop p rest repositoryList grouped).
Proof.
  intros links. split.
  - intros Hy. rewrite getFileInfo_spec, Hy. fold links.
    split; [|split].
    + now intros ->.
    + intros r Hl. rewrite Hl.
      assert (Hin : In r links) by (rewrite Hl; now left).
      apply filter_In in Hin as [_ Hm]. unfold matchesLink in Hm.
      apply bool_decide_eq_true_1 in Hm as [[mi ft] Hc].
      exists mi, ft. rewrite Hc. auto.
    + intros Hlen. destruct links as [|r [|r' l]]; simpl in Hlen; try lia.
      reflexivity.
  - intros e rest grouped He. cbn [groupFileInfoByRepoLoop]. now rewrite He.
Qed.

Lemma getFileInfo_zero_one_many_witness :
  getFileInfo overlapPlugin strayFile [alphaRepository; betaRepository]
  = Err ErrFileNoProject
  /\ getFileInfo overlapPlugin plainFile [alphaRepository; betaRepository]
     = Ok (migrationOf "shop" "v2" Migrate, migrationFileType, alphaRepository)
  /\ getFileInfo overlapPlugin conflictingFile
       [alphaRepository; betaRepository]
     = Err (ErrFileManyProjects
              "file change should be associated with exactly one project but found Alpha, Beta")
  /\ groupFileInfoByRepoLoop overlapPlugin [conflictingFile; plainFile]
       [alphaRepository; betaRepository] ∅
     = groupFileInfoByRepoLoop overlapPlugin [plainFile]
         [alphaRepository; betaRepository] ∅.
Proof.
  pose proof (getFileInfo_zero_one_many overlapPlugin strayFile
                [alphaRepository; betaRepository]) as [H1 _].
  pose proof (getFileInfo_zero_one_many overlapPlugin plainFile
                [alphaRepository; betaRepository]) as [H2 _].
  pose proof (getFileInfo_zero_one_many overlapPlugin conflictingFile
                [alphaRepository; betaRepository]) as [H3 H4].
  destruct (H1 eq_refl) as (G1 & _ & _).
  destruct (H2 eq_refl) as (_ & G2 & _).
  destruct (H3 eq_refl) as (_ & _ & G3).
  split; [|split; [|split]].
  - apply G1. reflexivity.
  - destruct (G2 alphaRepository eq_refl) as (mi & ft & Hc & Hg).
    rewrite Hg. vm_compute in Hc. injection Hc as <- <-. reflexivity.
  - rewrite G3; [reflexivity | vm_compute; lia].
  - eapply H4. apply G3. vm_compute. lia.
Defined.

(** C2 as stated fails: a file that matches two links is an error of
    [getFileInfo], but not a hard one; the file after it is still grouped
    under its repository. *)
Lemma groupFileInfoByRepo_goes_on_after_conflict :
  ~ (forall (p : DBPlugin) (fileItem : DistinctFileItem)
            (rest : list DistinctFileItem) (repositoryList : list Repository)
            (msg : string),
        getFileInfo p fileItem repositoryList
        = Err (ErrFileManyProjects msg) ->
        groupFileInfoByRepo p (fileItem :: rest) repositoryList = ∅).
Proof.
  intros H.
  specialize (H overlapPlugin conflictingFile [plainFile]
                [alphaRepository; betaRepository] _ eq_refl).
  apply (f_equal (fun m => m !! 1)) in H.
  vm_compute in H. discriminate.
Qed.

(** ** The report formatters (claim C6) *)

Lemma worse_Success_r (a : Status) : worse a Success = a.
Proof. now destruct a. Qed.

Lemma fold_worse_severity (l : list Status) :
  forall st,
    (severity st <= severity (fold_left worse l st))%nat
    /\ (forall s, s ∈ l -> (severity s <= severity (fold_left worse l st))%nat)
    /\ (fold_left worse l st = st \/ fold_left worse l st ∈ l).
Proof.
  induction l as [|a l IH]; intros st; simpl.
  - split; [lia|]. split; [|now left]. intros s Hs. inversion Hs.
  - destruct (IH (worse st a)) as (H1 & H2 & H3).
    assert (Hw : (severity st <= severity (worse st a))%nat
                 /\ (severity a <= severity (worse st a))%nat
                 /\ (worse st a = st \/ worse st a = a)).
    { unfold worse. destruct (severity st <? severity a)%nat eqn:E.
      - apply Nat.ltb_lt in E. repeat split; auto; lia.
      - apply Nat.ltb_ge in E. repeat split; auto; lia. }
    destruct Hw as (Hw1 & Hw2 & Hw3). split; [lia|]. split.
    + intros s Hs. apply elem_of_cons in Hs as [->|Hs]; [lia | now apply H2].
    + destruct H3 as [H3|H3].
      * rewrite H3. destruct Hw3 as [->| ->]; [now left | right; left].
      * right. now right.
Qed.

(** [worst l] is the most severe status of [l]: it is at least as severe
    as every member, and it is a member unless it is success. *)
Lemma worst_spec (l : list Status) :
  (forall s, s ∈ l -> (severity s <= severity (worst l))%nat)
  /\ (worst l = Success \/ worst l ∈ l).
Proof.
  destruct (fold_worse_severity l Success) as (_ & H2 & H3). now split.
Qed.

Lemma gitlabAdviceLoop_spec (filePath : string) (adviceList : list Advice) :
  forall (status : Status) (testcaseList : list string),
    gitlabAdviceLoop filePath adviceList status testcaseList
    = (fold_left worse
         (List.map AdviceStatus (List.filter counted adviceList)) status,
       (testcaseList
        ++ List.map (gitlabTestcase filePath)
             (List.filter counted adviceList))%list).
Proof.
  induction adviceList as [|a l IH]; intros status acc.
  - simpl. now rewrite app_nil_r.
  - cbn [gitlabAdviceLoop List.filter].
    replace (counted a) with (negb (AdviceCode a =? 0)) by reflexivity.
    destruct (AdviceCode a =? 0); cbn [negb List.map fold_left]; [apply IH|].
    rewrite IH, <- app_assoc. f_equal. f_equal.
    unfold worse. destruct (AdviceStatus a), status; reflexivity.
Qed.

Lemma githubAdviceLoop_spec (adviceMap : gmap string (list Advice))
    (filePath : string) :
  forall (adviceList : list Advice) (status : Status)
         (messageList : list string),
    githubAdviceLoop filePath adviceList status messageList
    = (fold_left worse
         (List.map AdviceStatus (List.filter counted adviceList)) status,
       (messageList
        ++ List.map
             (fun advice =>
                githubMessage
                  (if bool_decide (AdviceStatus advice = Error)
                   then "error" else "warning")
                  filePath advice)
             (List.filter
                (fun advice =>
                   counted advice
                   && negb (bool_decide (AdviceStatus advice = Success)))
                adviceList))%list).
Proof.
  induction adviceList as [|a l IH]; intros status acc.
  - simpl. now rewrite app_nil_r.
  - cbn [githubAdviceLoop List.filter].
    replace (counted a) with (negb (AdviceCode a =? 0)) by reflexivity.
    destruct (AdviceCode a =? 0); cbn [negb orb andb List.map fold_left];
      [apply IH|].
    assert (Hs : bool_decide (AdviceStatus a = Success)
                 = match AdviceStatus a with Success => true | _ => false end)
      by now destruct (AdviceStatus a).
    assert (He : bool_decide (AdviceStatus a = Error)
                 = match AdviceStatus a with Error => true | _ => false end)
      by now destruct (AdviceStatus a).
    rewrite Hs, He. clear Hs He.
    destruct (AdviceStatus a) eqn:Ea; cbn [negb List.map].
    + rewrite worse_Success_r. apply IH.
    + rewrite IH, <- app_assoc. cbn [app]. rewrite Ea.
      f_equal. f_equal. now destruct status.
    + rewrite IH, <- app_assoc. cbn [app]. rewrite Ea.
      f_equal. f_equal. now destruct status.
Qed.

Lemma gitlabFileLoop_spec (adviceMap : gmap string (list Advice))
    (fileList : list string) :
  forall (status : Status) (testsuiteList : list string),
    gitlabFileLoop adviceMap fileList status testsuiteList
    = (fold_left worse
         (List.concat (List.map (countedStatusesOf adviceMap) fileList))
         status,
       (testsuiteList ++ omap (gitlabSuite adviceMap) fileList)%list).
Proof.
  induction fileList as [|f l IH]; intros status acc.
  - simpl. now rewrite app_nil_r.
  - cbn [gitlabFileLoop List.map List.concat omap list_omap].
    rewrite gitlabAdviceLoop_spec. cbn [app].
    rewrite fold_left_app.
    assert (Hs : countedStatusesOf adviceMap f
                 = List.map AdviceStatus
                     (List.filter counted (default [] (adviceMap !! f))))
      by reflexivity.
    assert (Hg : gitlabSuite adviceMap f
                 = match List.filter counted (default [] (adviceMap !! f)) with
                   | [] => None
                   | advices =>
                       Some (gitlabTestsuite f
                               (List.map (gitlabTestcase f) advices))
                   end) by reflexivity.
    rewrite Hs, Hg. clear Hs Hg.
    destruct (List.filter counted (default [] (adviceMap !! f))) as [|a r].
    + cbn [List.map length Nat.ltb Nat.leb fold_left]. apply IH.
    + cbn [List.map length Nat.ltb Nat.leb]. rewrite IH, <- app_assoc.
      reflexivity.
Qed.

Lemma githubFileLoop_spec (adviceMap : gmap string (list Advice))
    (fileList : list string) :
  forall (status : Status) (messageList : list string),
    githubFileLoop adviceMap fileList status messageList
    = (fold_left worse
         (List.concat (List.map (countedStatusesOf adviceMap) fileList))
         status,
       (messageList
        ++ List.concat (List.map (githubLines adviceMap) fileList))%list).
Proof.
  induction fileList as [|f l IH]; intros status acc.
  - simpl. now rewrite app_nil_r.
  - cbn [githubFileLoop List.map List.concat].
    rewrite (githubAdviceLoop_spec adviceMap), IH, fold_left_app, <- app_assoc.
    reflexivity.
Qed.

Lemma insertString_perm (x : string) (l : list string) :
  insertString x l ≡ₚ x :: l.
Proof.
  induction l as [|y l IH]; simpl; [reflexivity|].
  destruct (String.leb x y); [reflexivity|].
  rewrite IH. apply Permutation_swap.
Qed.

Lemma SortStrings_perm (l : list string) : SortStrings l ≡ₚ l.
Proof.
  induction l as [|x l IH]; simpl; [reflexivity|].
  rewrite insertString_perm. now rewrite IH.
Qed.

Lemma insertString_sorted (x : string) (l : list string) :
  Sorted String.le l -> Sorted String.le (insertString x l).
Proof.
  induction l as [|y l IH]; simpl; intros Hs.
  - repeat constructor.
  - destruct (String.leb x y) eqn:E.
    + constructor; [exact Hs|]. constructor. unfold String.le. now rewrite E.
    + apply Sorted_inv in Hs as [Hs Hhd].
      constructor; [now apply IH|].
      assert (Hyx : String.le y x).
      { destruct (String.le_total x y) as [H|H]; [|exact H].
        unfold String.le in H. rewrite E in H. contradiction. }
      destruct l as [|z l]; simpl.
      * now constructor.
      * destruct (String.leb x z); constructor; [exact Hyx|].
        now apply HdRel_inv in Hhd.
Qed.

Lemma SortStrings_sorted (l : list string) : Sorted String.le (SortStrings l).
Proof.
  induction l as [|x l IH]; simpl; [constructor|].
  now apply insertString_sorted.
Qed.

(** The sorted file list holds each file path of the advice map once, in
    increasing order. *)
Lemma sortedFileList_spec (adviceMap : gmap string (list Advice)) :
  StronglySorted String.le (sortedFileList adviceMap)
  /\ NoDup (sortedFileList adviceMap)
  /\ (forall filePath,
         filePath ∈ sortedFileList adviceMap
         <-> is_Some (adviceMap !! filePath)).
Proof.
  unfold sortedFileList. split; [|split].
  - apply Sorted_StronglySorted; [|apply SortStrings_sorted].
    intros x y z. apply (@transitivity _ String.le _).
  - rewrite SortStrings_perm. apply NoDup_fst_map_to_list.
  - intros f. rewrite SortStrings_perm.
    change (List.map fst (map_to_list adviceMap))
      with ((map_to_list adviceMap).*1).
    rewrite list_elem_of_fmap. split.
    + intros ([k v] & -> & Hkv). apply elem_of_map_to_list in Hkv. eauto.
    + intros [v Hv]. exists (f, v). split; [reflexivity|].
      now apply elem_of_map_to_list.
Qed.

Lemma countedStatuses_spec (adviceMap : gmap string (list Advice))
    (s : Status) :
  s ∈ countedStatuses adviceMap
  <-> exists filePath adviceList advice,
        adviceMap !! filePath = Some adviceList
        /\ advice ∈ adviceList
        /\ AdviceCode advice <> 0
        /\ AdviceStatus advice = s.
Proof.
  unfold countedStatuses. rewrite list_elem_of_In, in_concat. split.
  - intros (l & Hl & Hs). apply in_map_iff in Hl as (f & <- & Hf).
    apply (proj2 (list_elem_of_In _ _)) in Hf.
    apply sortedFileList_spec in Hf as [advs Hadvs].
    unfold countedStatusesOf in Hs. rewrite Hadvs in Hs. cbn [default] in Hs.
    apply in_map_iff in Hs as (a & <- & Ha).
    apply filter_In in Ha as [Ha Hc].
    exists f, advs, a. repeat split; auto.
    + now apply list_elem_of_In.
    + unfold counted in Hc. apply negb_true_iff, Z.eqb_neq in Hc. exact Hc.
  - intros (f & advs & a & Hf & Ha & Hc & <-).
    exists (countedStatusesOf adviceMap f). split.
    + apply in_map. apply list_elem_of_In, sortedFileList_spec. eauto.
    + unfold countedStatusesOf. rewrite Hf. cbn [default].
      apply in_map. apply filter_In. split; [now apply list_elem_of_In|].
      unfold counted. now apply negb_true_iff, Z.eqb_neq.
Qed.

(** C6, as the code has it.  Both formatters return the most severe
    status among the advices whose code is not zero, success when there is
    none, and both go through the files in increasing order of their
    paths: the GitLab report lists the test suites of the files that have a
    counted advice in that order, the GitHub report the lines of the files
    in that order. *)
Theorem convertSQLAdvice_status_and_order
    (adviceMap : gmap string (list Advice)) :
  let gitlab := convertSQLAdviceToGitLabCIResult adviceMap in
  let github := convertSQLAdiceToGitHubActionResult adviceMap in
  ResultStatus gitlab = worst (countedStatuses adviceMap)
  /\ ResultStatus github = worst (countedStatuses adviceMap)
  /\ (forall s, s ∈ countedStatuses adviceMap ->
                (severity s <= severity (ResultStatus gitlab))%nat)
  /\ (ResultStatus gitlab = Success
      \/ ResultStatus gitlab ∈ countedStatuses adviceMap)
  /\ (forall s,
         s ∈ countedStatuses adviceMap
         <-> exists filePath adviceList advice,
               adviceMap !! filePath = Some adviceList
               /\ advice ∈ adviceList
               /\ AdviceCode advice <> 0
               /\ AdviceStatus advice = s)
  /\ ResultContent gitlab
     = [gitlabReport
          (omap (gitlabSuite adviceMap) (sortedFileList adviceMap))]
  /\ ResultContent github
     = List.concat
         (List.map (githubLines adviceMap) (sortedFileList adviceMap))
  /\ StronglySorted String.le (sortedFileList adviceMap)
  /\ NoDup (sortedFileList adviceMap)
  /\ (forall filePath,
         filePath ∈ sortedFileList adviceMap
         <-> is_Some (adviceMap !! filePath)).
Proof.
  intros gitlab github.
  assert (Hgl : gitlab
                = {| ResultStatus := worst (countedStatuses adviceMap);
                     ResultContent :=
                       [gitlabReport
                          (omap (gitlabSuite adviceMap)
                             (sortedFileList adviceMap))] |}).
  { subst gitlab. unfold convertSQLAdviceToGitLabCIResult.
    now rewrite gitlabFileLoop_spec. }
  assert (Hgh : github
                = {| ResultStatus := worst (countedStatuses adviceMap);
                     ResultContent :=
                       List.concat
                         (List.map (githubLines adviceMap)
                            (sortedFileList adviceMap)) |}).
  { subst github. unfold convertSQLAdiceToGitHubActionResult.
    now rewrite githubFileLoop_spec. }
  rewrite Hgl, Hgh. cbn [ResultStatus ResultContent].
  destruct (worst_spec (countedStatuses adviceMap)) as [Hmax Hmem].
  destruct (sortedFileList_spec adviceMap) as (Hs & Hn & Hk).
  repeat split; auto; try apply countedStatuses_spec.
  - apply Hk.
  - apply Hk.
Qed.

(** C6 as stated fails: an error advice whose code is zero is seen by
    neither formatter, and the aggregate status stays success. *)
Lemma convertSQLAdvice_skips_code_zero :
  ~ (forall (adviceMap : gmap string (list Advice)) (filePath : string)
            (adviceList : list Advice) (advice : Advice),
        adviceMap !! filePath = Some adviceList ->
        advice ∈ adviceList ->
        (severity (AdviceStatus advice)
         <= severity (ResultStatus
                        (convertSQLAdviceToGitLabCIResult adviceMap)))%nat
        /\ (severity (AdviceStatus advice)
            <= severity (ResultStatus
                           (convertSQLAdiceToGitHubActionResult adviceMap)))%nat).
Proof.
  intros H.
  destruct (H uncodedErrorReview "db/v1__shop.sql" [uncodedError] uncodedError)
    as [H1 _].
  - reflexivity.
  - left.
  - vm_compute in H1. lia.
Qed.

Example convertSQLAdvice_mixed_review :
  ResultStatus (convertSQLAdviceToGitLabCIResult mixedReview) = Error
  /\ ResultStatus (convertSQLAdiceToGitHubActionResult mixedReview) = Error
  /\ sortedFileList mixedReview = ["db/v1__shop.sql"; "db/v2__shop.sql"]
  /\ ResultContent (convertSQLAdiceToGitHubActionResult mixedReview)
     = [ "::error file=db/v1__shop.sql,line=7,col=1,endColumn=2,title=statement.where.require (201)::missing WHERE%0ADoc: https://www.bytebase.com/docs/reference/error-code/advisor#201";
         "::warning file=db/v2__shop.sql,line=1,col=1,endColumn=2,title=naming.table (402)::bad table name%0ADoc: https://www.bytebase.com/docs/reference/error-code/advisor#402" ].
Proof. repeat split; vm_compute; reflexivity. Qed.

(** ** Ordering of the files of a database (claim C3) *)

Lemma ltb_leb (a b : string) : String.ltb a b = negb (String.leb b a).
Proof.
  unfold String.ltb, String.leb. rewrite (String.compare_antisym b a).
  now destruct (String.compare a b).
Qed.

Lemma ltb_spec (a b : string) :
  String.ltb a b = true <-> String.le a b /\ a <> b.
Proof.
  rewrite ltb_leb, negb_true_iff. split.
  - intros H. split.
    + destruct (String.le_total a b) as [Hab|Hba]; [exact Hab|].
      unfold String.le in Hba. rewrite H in Hba. contradiction.
    + intros ->. pose proof (@reflexivity _ String.le _ b) as Hr.
      unfold String.le in Hr. rewrite H in Hr. contradiction.
  - intros [Hab Hne]. destruct (String.leb b a) eqn:E; [|reflexivity].
    exfalso. apply Hne. apply (@anti_symm _ eq String.le _); [exact Hab|].
    unfold String.le. now rewrite E.
Qed.

Lemma ltb_false (a b : string) : String.ltb a b = false <-> String.le b a.
Proof.
  rewrite ltb_leb, negb_false_iff. unfold String.le.
  destruct (String.leb b a); simpl; split; intros H;
    try exact I; try reflexivity; try discriminate; contradiction.
Qed.

Lemma lessBySchemaVersion_spec (fi fj : fileInfo) :
  lessBySchemaVersion fi fj = true
  <-> let di := miDatabase (migrationInfo fi) in
      let dj := miDatabase (migrationInfo fj) in
      let vi := miVersion (migrationInfo fi) in
      let vj := miVersion (migrationInfo fj) in
      (String.le di dj /\ di <> dj)
      \/ (di = dj /\ String.le vi vj /\ vi <> vj).
Proof.
  unfold lessBySchemaVersion. cbv zeta.
  rewrite orb_true_iff, andb_true_iff, !ltb_spec, String.eqb_eq. tauto.
Qed.

Lemma keyLe_spec (fi fj : fileInfo) :
  lessBySchemaVersion fj fi = false <-> keyLe fi fj.
Proof.
  unfold lessBySchemaVersion, keyLe. cbv zeta.
  set (di := miDatabase (migrationInfo fi)).
  set (dj := miDatabase (migrationInfo fj)).
  set (vi := miVersion (migrationInfo fi)).
  set (vj := miVersion (migrationInfo fj)).
  rewrite orb_false_iff, andb_false_iff, !ltb_false, String.eqb_neq.
  split.
  - intros [Hd [Hne|Hv]].
    + left. split; [exact Hd | congruence].
    + destruct (String.eq_dec di dj) as [->|Hne].
      * right. auto.
      * left. auto.
  - intros [[Hd Hne]|[-> Hv]].
    + split; [exact Hd | left; congruence].
    + split; [apply (@reflexivity _ String.le _) | now right].
Qed.

(** The comparison of [sortFilesBySchemaVersion] is a strict weak order. *)
Lemma lessBySchemaVersion_strict_weak_order :
  (forall x, lessBySchemaVersion x x = false)
  /\ (forall x y z, lessBySchemaVersion x y = true ->
                    lessBySchemaVersion y z = true ->
                    lessBySchemaVersion x z = true)
  /\ (forall x y z, lessBySchemaVersion x y = false ->
                    lessBySchemaVersion y z = false ->
                    lessBySchemaVersion x z = false).
Proof.
  assert (Htr : forall a b c, String.le a b -> String.le b c -> String.le a c)
    by (intros a b c; apply (@transitivity _ String.le _)).
  assert (Has : forall a b, String.le a b -> String.le b a -> a = b)
    by (intros a b; apply (@anti_symm _ eq String.le _)).
  split; [|split].
  - intros x. apply keyLe_spec. right. split; [reflexivity|].
    apply (@reflexivity _ String.le _).
  - intros x y z Hxy Hyz. apply lessBySchemaVersion_spec in Hxy, Hyz.
    apply lessBySchemaVersion_spec. cbv zeta in *.
    destruct Hxy as [[H1 N1]|(E1 & H1 & N1)],
             Hyz as [[H2 N2]|(E2 & H2 & N2)].
    + left. split; [eauto|]. intros E. rewrite E in *. apply N2. eauto.
    + left. rewrite <- E2. auto.
    + left. rewrite E1. auto.
    + right. split; [congruence|]. split; [eauto|].
      intros E. rewrite E in *. apply N2. eauto.
  - intros x y z Hxy Hyz. apply keyLe_spec in Hxy, Hyz. apply keyLe_spec.
    unfold keyLe in *. cbv zeta in *.
    destruct Hxy as [[H1 N1]|(E1 & H1)], Hyz as [[H2 N2]|(E2 & H2)].
    + left. split; [eauto|]. intros E. rewrite E in *. apply N1. eauto.
    + left. rewrite E2. auto.
    + left. rewrite <- E1. auto.
    + right. split; [congruence|]. eauto.
Qed.

Lemma insertBy_perm {A} (less : A -> A -> bool) (x : A) (l : list A) :
  insertBy less x l ≡ₚ x :: l.
Proof.
  induction l as [|y l IH]; simpl; [reflexivity|].
  destruct (less y x); [|reflexivity].
  rewrite IH. apply Permutation_swap.
Qed.

Section InsertBy.

Context {A : Type} (less : A -> A -> bool).
Hypothesis less_irrefl : forall x, less x x = false.
Hypothesis less_trans :
  forall x y z, less x y = true -> less y z = true -> less x z = true.
Hypothesis less_incomparable_trans :
  forall x y z, less x y = false -> less y z = false -> less x z = false.

Lemma less_asym (x y : A) : less x y = true -> less y x = false.
Proof.
  intros Hxy. destruct (less y x) eqn:Hyx; [|reflexivity].
  rewrite <- (less_irrefl x). symmetry. eauto.
Qed.

Lemma insertBy_sorted (x : A) (l : list A) :
  StronglySorted (notAfter less) l -> StronglySorted (notAfter less) (insertBy less x l).
Proof.
  induction l as [|y l IH]; simpl; intros Hs.
  - repeat constructor.
  - apply StronglySorted_inv in Hs as [Hs Hy].
    destruct (less y x) eqn:E.
    + constructor; [now apply IH|].
      rewrite insertBy_perm. constructor; [|exact Hy].
      now apply less_asym.
    + constructor; [now constructor|].
      constructor; [exact E|].
      eapply Forall_impl; [exact Hy|]. intros z Hz. unfold notAfter in *.
      now apply (less_incomparable_trans z y x).
Qed.

Lemma insertionSort_sorted (l : list A) :
  insertionSort less l ≡ₚ l /\ StronglySorted (notAfter less) (insertionSort less l).
Proof.
  induction l as [|x l [IHp IHs]]; simpl.
  - split; [reflexivity | constructor].
  - split; [now rewrite insertBy_perm, IHp | now apply insertBy_sorted].
Qed.

End InsertBy.

Lemma insertionSort_sortsSlices : sortsSlices (@insertionSort).
Proof. intros A less l H1 H2 H3. now apply insertionSort_sorted. Qed.

Lemma StronglySorted_weaken {A} (R S : A -> A -> Prop) (l : list A) :
  (forall x y, R x y -> S x y) -> StronglySorted R l -> StronglySorted S l.
Proof.
  intros HRS. induction 1 as [|x l Hs IH Hx]; constructor; [exact IH|].
  eapply Forall_impl; [exact Hx|]. auto.
Qed.

(** C3, as the code has it.  With a [sort.Slice] that keeps its promise, the
    output of [sortFilesBySchemaVersion] is a rearrangement of the group
    that is ascending by the pair (database name, schema version) under
    byte-wise string comparison.  The order among files that agree on both
    is left to [sort.Slice]. *)
Theorem sortFilesBySchemaVersion_ascending (rt : GoRuntime)
    (fileInfoList : list fileInfo) :
  sortsSlices (SortSlice rt) ->
  sortFilesBySchemaVersion rt fileInfoList ≡ₚ fileInfoList
  /\ StronglySorted keyLe (sortFilesBySchemaVersion rt fileInfoList).
Proof.
  intros Hsort. unfold sortFilesBySchemaVersion.
  destruct lessBySchemaVersion_strict_weak_order as (H1 & H2 & H3).
  destruct (Hsort fileInfo lessBySchemaVersion fileInfoList H1 H2 H3)
    as [Hp Hs].
  split; [exact Hp|].
  eapply StronglySorted_weaken; [|exact Hs].
  intros x y. apply keyLe_spec.
Qed.

Lemma sortFilesBySchemaVersion_ascending_witness :
  sortFilesBySchemaVersion plainRuntime [shopV2; shopV1a; shopV1b]
  ≡ₚ [shopV2; shopV1a; shopV1b]
  /\ StronglySorted keyLe
       (sortFilesBySchemaVersion plainRuntime [shopV2; shopV1a; shopV1b]).
Proof.
  exact (sortFilesBySchemaVersion_ascending plainRuntime
           [shopV2; shopV1a; shopV1b] insertionSort_sortsSlices).
Defined.

Example sortFilesBySchemaVersion_plain :
  sortFilesBySchemaVersion plainRuntime [shopV2; shopV1a; shopV1b]
  = [shopV1a; shopV1b; shopV2].
Proof. reflexivity. Qed.

(** The same files under the sort of Go: a slice of at most twelve elements
    is sorted by insertion, which keeps the two files of version v1 in
    their order. *)
Example sortFilesBySchemaVersion_go_small :
  sortFilesBySchemaVersion goRuntime [shopV2; shopV1a; shopV1b]
  = [shopV1a; shopV1b; shopV2]
  /\ sortFilesBySchemaVersion goRuntime [shopV1a; shopV1b]
     = [shopV1a; shopV1b].
Proof. split; vm_compute; reflexivity. Qed.

(** The sort of the thirteen files does not call the generator of
    [breakPatterns_func]: whatever its step, the first partition takes the
    seventh file as its pivot and moves it to the front of the files of
    version v2, and the file of version v1 changes places with the second
    file. *)
Lemma Slice_thirteenFiles (next : Z -> Z) :
  GoSort.Slice lessBySchemaVersion next thirteenFiles
  = shopV1a
    :: (releaseFile
        <$> ["g"; "c"; "d"; "e"; "f"; "a"; "h"; "i"; "j"; "k"; "l"; "b"]).
Proof. vm_compute. reflexivity. Qed.

(** C3 as stated fails: the sort is not stable on ties.  Of thirteen files
    of one database, twelve of version v2 followed by one of version v1,
    [sort.Slice] returns the twelve in another order than the one in which
    they came. *)
Lemma sortFilesBySchemaVersion_reorders_ties :
  sortFilesBySchemaVersion goRuntime thirteenFiles
  = shopV1a
    :: (releaseFile
        <$> ["g"; "c"; "d"; "e"; "f"; "a"; "h"; "i"; "j"; "k"; "l"; "b"])
  /\ withKey "shop" "v2" (sortFilesBySchemaVersion goRuntime thirteenFiles)
     <> withKey "shop" "v2" thirteenFiles.
Proof.
  split; [apply Slice_thirteenFiles|].
  unfold sortFilesBySchemaVersion, goRuntime, SortSlice.
  rewrite Slice_thirteenFiles. vm_compute. discriminate.
Qed.

(** ** Issues made from the files of a database (claim C1) *)

Lemma issueTypeLoop_spec (details : list MigrationDetail) :
  forall issueType,
    issueTypeLoop details issueType
    = if existsb isSchemaKind details then IssueDatabaseSchemaUpdate
      else issueType.
Proof.
  induction details as [|d l IH]; intros t; [reflexivity|].
  cbn [issueTypeLoop existsb]. fold (isSchemaKind d).
  destruct (isSchemaKind d); rewrite IH; cbn [orb]; [|reflexivity].
  now destruct (existsb isSchemaKind l).
Qed.

Lemma migrateTypeLoop_spec (details : list MigrationDetail) :
  migrateTypeLoop details
  = if existsb isMigrateKind details then "Alter schema" else "Change data".
Proof.
  induction details as [|d l IH]; [reflexivity|].
  cbn [migrateTypeLoop existsb]. fold (isMigrateKind d).
  now destruct (isMigrateKind d).
Qed.

Lemma existsb_isSchemaKind (details : list MigrationDetail) :
  existsb isSchemaKind details = true
  <-> exists d, d ∈ details
                /\ (mdMigrationType d = Migrate
                    \/ mdMigrationType d = Baseline).
Proof.
  rewrite existsb_exists. split; intros (d & Hd & Hk); exists d.
  - split; [now apply list_elem_of_In|]. unfold isSchemaKind in Hk.
    apply orb_true_iff in Hk as [Hk|Hk];
      apply bool_decide_eq_true_1 in Hk; auto.
  - split; [now apply list_elem_of_In|]. unfold isSchemaKind.
    apply orb_true_iff.
    destruct Hk as [Hk|Hk]; [left|right]; now apply bool_decide_eq_true_2.
Qed.

Lemma existsb_isMigrateKind (details : list MigrationDetail) :
  existsb isMigrateKind details = true
  <-> exists d, d ∈ details /\ mdMigrationType d = Migrate.
Proof.
  rewrite existsb_exists. split; intros (d & Hd & Hk); exists d.
  - split; [now apply list_elem_of_In|].
    now apply bool_decide_eq_true_1 in Hk.
  - split; [now apply list_elem_of_In|]. now apply bool_decide_eq_true_2.
Qed.

Lemma existsb_kinds_without_baseline (details : list MigrationDetail) :
  (forall d, d ∈ details -> mdMigrationType d <> Baseline) ->
  existsb isMigrateKind details = existsb isSchemaKind details.
Proof.
  induction details as [|d l IH]; intros H; [reflexivity|].
  cbn [existsb]. rewrite IH by (intros d' Hd'; apply H; now right).
  f_equal. unfold isSchemaKind, isMigrateKind.
  rewrite (bool_decide_eq_false_2 (mdMigrationType d = Baseline))
    by (apply H; left).
  now rewrite orb_false_r.
Qed.

Lemma issueNameOf_inj (database kind kind' : string) :
  issueNameOf database kind = issueNameOf database kind' -> kind = kind'.
Proof.
  unfold issueNameOf. intros H.
  apply (inj (String.app "[")) in H.
  apply (inj (String.app database)) in H.
  now apply (inj (String.app "] ")) in H.
Qed.

(** What [createIssueFromMigrationDetailList] does to the effects. *)
Lemma createIssueFromMigrationDetailList_run (s : Server)
    (issueName issueDescription : string) (pushEvent : PushEvent)
    (creatorID projectID : Z) (details : list MigrationDetail)
    (eff : Effects) :
  let ic :=
    issueCreateOf issueName issueDescription pushEvent creatorID projectID
      details in
  let out :=
    createIssueFromMigrationDetailList s issueName issueDescription pushEvent
      creatorID projectID details eff in
  match createIssue s ic with
  | Err _ =>
      (exists e, fst out = Returns (Err e))
      /\ createdIssues (snd out) = createdIssues eff
  | Ok issue =>
      createdIssues (snd out) = (createdIssues eff ++ [ic])%list
      /\ ((forall ac, CreateActivity s ac = Ok tt) -> fst out = Returns (Ok tt))
  end.
Proof.
  intros ic out. subst out. unfold createIssueFromMigrationDetailList.
  fold ic. unfold bind, doCreateIssue.
  destruct (createIssue s ic) as [issue|e].
  - unfold doCreateActivity.
    destruct (CreateActivity s _) as [u|e] eqn:Ha; cbn.
    + split; [reflexivity|]. intros _. now destruct u.
    + split; [reflexivity|]. intros Hall. rewrite Hall in Ha. discriminate.
  - cbn. split; [eauto | reflexivity].
Qed.

Lemma mergeIntoIssue_run (s : Server) (pushEvent : PushEvent)
    (repo : Repository) (creatorID : Z) (firstFile : fileInfo)
    (rest : list fileInfo) (st : projectLoop) (eff : Effects) :
  let details := migrationDetailList st in
  let issueName :=
    issueNameOf (miDatabase (migrationInfo firstFile))
      (migrateTypeLoop details) in
  let ic :=
    issueCreateOf issueName (mergedIssueDescription (fileNameList st))
      pushEvent creatorID (ProjectID repo) details in
  let out :=
    mergeIntoIssue s pushEvent repo creatorID (firstFile :: rest) st eff in
  match createIssue s ic with
  | Err _ => createdIssues (snd out) = createdIssues eff
  | Ok _ =>
      createdIssues (snd out) = (createdIssues eff ++ [ic])%list
      /\ ((forall ac, CreateActivity s ac = Ok tt) ->
          fst out
          = Returns ((createdIssueList st ++ [issueName])%list, true,
                     activityCreateList st, None))
  end.
Proof.
  intros details issueName ic out.
  pose proof (createIssueFromMigrationDetailList_run s issueName
                (mergedIssueDescription (fileNameList st)) pushEvent creatorID
                (ProjectID repo) details eff) as Hrun.
  cbv zeta in Hrun. fold ic in Hrun. subst out.
  unfold mergeIntoIssue, bind at 1, lift, first. fold details issueName.
  unfold bind.
  destruct (createIssue s ic) as [issue|e].
  - destruct Hrun as [Hi Hr].
    destruct (createIssueFromMigrationDetailList _ _ _ _ _ _ _ _)
      as [[[u|e]|w] eff1] eqn:Hc; cbn in *.
    + split; [exact Hi|]. reflexivity.
    + split; [exact Hi|]. intros Hall. specialize (Hr Hall). discriminate.
    + split; [exact Hi|]. intros Hall. specialize (Hr Hall). discriminate.
  - destruct Hrun as [[e' He] Hi].
    destruct (createIssueFromMigrationDetailList _ _ _ _ _ _ _ _)
      as [[[u|e'']|w] eff1] eqn:Hc; cbn in *; try discriminate; exact Hi.
Qed.

Lemma readFileContent_effects (s : Server) (pushEvent : PushEvent)
    (repo : Repository) (file : string) (eff : Effects) :
  snd (readFileContent s pushEvent repo file eff) = eff.
Proof.
  unfold readFileContent.
  destruct (FindRepository (store s) _) as [[|r l]|e]; try reflexivity.
  unfold bind, lift, ret.
  destruct (vcsTypeOf r); [|reflexivity].
  destruct (final (CommitList pushEvent)); [|reflexivity].
  now destruct (ReadFileContent _ _ _ _ _).
Qed.

Lemma tryUpdateTasksFromModifiedFile_issues (s : Server)
    (databases : list Database) (fileName schemaVersion statement : string) :
  forall eff,
    createdIssues
      (snd (tryUpdateTasksFromModifiedFile s databases fileName schemaVersion
              statement eff))
    = createdIssues eff.
Proof.
  induction databases as [|d l IH]; intros eff; [reflexivity|].
  cbn [tryUpdateTasksFromModifiedFile].
  destruct (FindTask (store s) _ _) as [[|t [|t' ts]]|e]; try reflexivity.
  - apply IH.
  - destruct (GetIssueByPipelineID (store s) _) as [[i|]|e]; try reflexivity.
    unfold bind, doPatchTask.
    destruct (patchTask s t _ i) as [u|e]; [|reflexivity].
    rewrite IH. reflexivity.
Qed.

Lemma yamlMigrationDetails_types (s : Server) (projectID : Z)
    (mi : MigrationInfo) (statement : string) (databases : list string) :
  forall acc details,
    Forall (fun d => mdMigrationType d = miType mi) acc ->
    yamlMigrationDetails s projectID mi statement databases acc = Ok details ->
    Forall (fun d => mdMigrationType d = miType mi) details.
Proof.
  induction databases as [|n l IH]; intros acc details Hacc H.
  - injection H as <-. exact Hacc.
  - cbn [yamlMigrationDetails] in H.
    destruct (findProjectDatabases s projectID n "") as [dbs|e];
      [|discriminate].
    apply IH in H; [exact H|].
    apply Forall_app. split; [exact Hacc|].
    apply Forall_forall. intros d Hd. apply list_elem_of_In in Hd.
    apply in_map_iff in Hd as (x & <- & _). reflexivity.
Qed.

(** [prepareIssueFromFile] creates no issue, and the details it returns
    have the migration kind parsed from the file path. *)
Lemma prepareIssueFromFile_details (s : Server) (repo : Repository)
    (pushEvent : PushEvent) (f : fileInfo) (eff eff' : Effects)
    (details : list MigrationDetail) (acts : list ActivityCreate) :
  prepareIssueFromFile s repo pushEvent f eff = (Returns (details, acts), eff') ->
  createdIssues eff' = createdIssues eff
  /\ Forall (fun d => mdMigrationType d = miType (migrationInfo f)) details.
Proof.
  unfold prepareIssueFromFile, bind.
  pose proof (readFileContent_effects s pushEvent repo (FileName (item f)) eff)
    as Hread.
  destruct (readFileContent s pushEvent repo (FileName (item f)) eff)
    as [[[content|e]|w] eff1]; cbn in Hread; subst eff1; [| |discriminate].
  2:{ intros [= <- <- <-]. split; [reflexivity | constructor]. }
  destruct (bool_decide (TenantMode (RepoProject repo) = TenantModeTenant)).
  - destruct (negb (IsYAML (item f))).
    + intros [= <- <- <-]. split; [reflexivity|]. repeat constructor.
    + destruct (UnmarshalMigrationFileYAML (codec s) content) as [y|e].
      2:{ intros [= <- <- <-]. split; [reflexivity | constructor]. }
      destruct (yamlMigrationDetails _ _ _ _ _ _) as [ds|e] eqn:Hy.
      2:{ intros [= <- <- <-]. split; [reflexivity | constructor]. }
      intros [= <- <- <-]. split; [reflexivity|].
      eapply yamlMigrationDetails_types; [|exact Hy]. constructor.
  - destruct (findProjectDatabases s _ _ _) as [dbs|e].
    2:{ intros [= <- <- <-]. split; [reflexivity | constructor]. }
    destruct (bool_decide (ItemType (item f) = FileItemTypeAdded)).
    + intros [= <- <- <-]. split; [reflexivity|].
      apply Forall_forall. intros d Hd. apply list_elem_of_In in Hd.
      apply in_map_iff in Hd as (x & <- & _). reflexivity.
    + pose proof (tryUpdateTasksFromModifiedFile_issues s dbs
                    (FileName (item f)) (miVersion (migrationInfo f)) content
                    eff) as Htry.
      destruct (tryUpdateTasksFromModifiedFile _ _ _ _ _ _)
        as [[[u|e]|w] eff1]; cbn in Htry; [| |discriminate].
      * intros [= <- <- <-]. split; [exact Htry | constructor].
      * intros [= <- <- <-]. split; [exact Htry | constructor].
Qed.

Lemma processFilesLoop_schema_skip (s : Server) (pushEvent : PushEvent)
    (repo : Repository) (creatorID : Z) (pre rest : list fileInfo)
    (st : projectLoop) :
  SchemaChangeType (RepoProject repo) <> ProjectSchemaChangeTypeSDL ->
  Forall (fun f => fType f = schemaFileType) pre ->
  processFilesLoop s pushEvent repo creatorID (pre ++ rest)%list st
  = processFilesLoop s pushEvent repo creatorID rest st.
Proof.
  intros Hsdl Hpre. induction Hpre as [|f pre Hf _ IH]; [reflexivity|].
  cbn [app processFilesLoop].
  rewrite bool_decide_eq_true_2 by exact Hf.
  rewrite bool_decide_eq_false_2 by exact Hsdl. exact IH.
Qed.

Lemma processFilesLoop_migration_step (s : Server) (pushEvent : PushEvent)
    (repo : Repository) (creatorID : Z) (f : fileInfo) (rest : list fileInfo)
    (st : projectLoop) (eff eff' : Effects)
    (details : list MigrationDetail) (acts : list ActivityCreate) :
  fType f <> schemaFileType ->
  prepareIssueFromFile s repo pushEvent f eff = (Returns (details, acts), eff') ->
  processFilesLoop s pushEvent repo creatorID (f :: rest) st eff
  = processFilesLoop s pushEvent repo creatorID rest
      {| migrationDetailList := (migrationDetailList st ++ details)%list;
         activityCreateList := (activityCreateList st ++ acts)%list;
         createdIssueList := createdIssueList st;
         fileNameList :=
           if negb (length details =? 0)%nat
           then (fileNameList st
                 ++ [TrimPrefix (FileName (item f)) (BaseDirectory repo ++ "/")])%list
           else fileNameList st |}
      eff'.
Proof.
  intros Hf Hp. cbn [processFilesLoop].
  rewrite bool_decide_eq_false_2 by exact Hf.
  unfold bind at 1. rewrite Hp. reflexivity.
Qed.

(** The type and the name of the merged issue.  The issue into which the
    migration details of a group are merged is a schema update if one of the
    details is of kind migrate or baseline and a data update otherwise; it
    is named "[<database>] Alter schema" if one of the details is of kind
    migrate and "[<database>] Change data" otherwise, so when no detail is
    of kind baseline it is named "Alter schema" exactly when it is a schema
    update.  In particular, when a project that is neither SDL nor tenant
    receives schema files and one migrate file for database shop, the
    migrate file yields at least one detail and the store accepts the issue
    and its activity, exactly one issue is created, named
    "[shop] Alter schema". *)
Lemma merged_issue_type_and_name :
  (forall (s : Server) (pushEvent : PushEvent) (repo : Repository)
          (creatorID : Z) (firstFile : fileInfo) (rest : list fileInfo)
          (st : projectLoop) (eff : Effects),
      (forall ic, exists issue, createIssue s ic = Ok issue) ->
      let details := migrationDetailList st in
      let database := miDatabase (migrationInfo firstFile) in
      let out :=
        mergeIntoIssue s pushEvent repo creatorID (firstFile :: rest) st eff in
      exists ic,
        createdIssues (snd out) = (createdIssues eff ++ [ic])%list
        /\ snd (CreateContext ic) = details
        /\ (IssueKind ic = IssueDatabaseSchemaUpdate
            <-> exists d, d ∈ details
                          /\ (mdMigrationType d = Migrate
                              \/ mdMigrationType d = Baseline))
        /\ (IssueKind ic = IssueDatabaseSchemaUpdate
            \/ IssueKind ic = IssueDatabaseDataUpdate)
        /\ ((forall d, d ∈ details -> mdMigrationType d <> Baseline) ->
            (IssueName ic = issueNameOf database "Alter schema"
             <-> IssueKind ic = IssueDatabaseSchemaUpdate)
            /\ (IssueName ic = issueNameOf database "Change data"
                <-> IssueKind ic = IssueDatabaseDataUpdate))
        /\ (IssueName ic = issueNameOf database "Alter schema"
            <-> exists d, d ∈ details /\ mdMigrationType d = Migrate)
        /\ (IssueName ic = issueNameOf database "Alter schema"
            \/ IssueName ic = issueNameOf database "Change data"))
  /\ (forall (s : Server) (pushEvent : PushEvent) (repo : Repository)
             (pre post : list fileInfo) (migrateFile : fileInfo)
             (eff eff' : Effects) (details : list MigrationDetail)
             (acts : list ActivityCreate),
         acceptsAll s ->
         TenantMode (RepoProject repo) = TenantModeDisabled ->
         SchemaChangeType (RepoProject repo) <> ProjectSchemaChangeTypeSDL ->
         CommitList pushEvent <> [] ->
         Forall (fun f => fType f = schemaFileType) (pre ++ post) ->
         fType migrateFile = migrationFileType ->
         miType (migrationInfo migrateFile) = Migrate ->
         Forall (fun f => miDatabase (migrationInfo f) = "shop")
           (pre ++ migrateFile :: post) ->
         prepareIssueFromFile s repo pushEvent migrateFile eff
         = (Returns (details, acts), eff') ->
         details <> [] ->
         let out :=
           processFilesInProject s pushEvent repo
             (pre ++ migrateFile :: post)%list eff in
         exists ic,
           createdIssues (snd out) = (createdIssues eff ++ [ic])%list
           /\ IssueName ic = "[shop] Alter schema"
           /\ IssueKind ic = IssueDatabaseSchemaUpdate
           /\ fst out = Returns (["[shop] Alter schema"], true, acts, None)).
Proof.
  split.
  - intros s pushEvent repo creatorID firstFile rest st eff Hacc details
      database out.
    pose proof (mergeIntoIssue_run s pushEvent repo creatorID firstFile rest
                  st eff) as Hrun.
    cbv zeta in Hrun. fold details database out in Hrun.
    set (ic := issueCreateOf _ _ _ _ _ _) in Hrun.
    destruct (Hacc ic) as [issue Hi]. rewrite Hi in Hrun.
    destruct Hrun as [Hissues _].
    exists ic. split; [exact Hissues|]. split; [reflexivity|].
    assert (Hkind : IssueKind ic
                    = if existsb isSchemaKind details
                      then IssueDatabaseSchemaUpdate
                      else IssueDatabaseDataUpdate)
      by apply issueTypeLoop_spec.
    assert (Hname : IssueName ic
                    = issueNameOf database
                        (if existsb isMigrateKind details
                         then "Alter schema" else "Change data")).
    { cbn. now rewrite migrateTypeLoop_spec. }
    split; [|split; [|split; [|split]]].
    + rewrite Hkind, <- existsb_isSchemaKind.
      destruct (existsb isSchemaKind details); split; congruence.
    + rewrite Hkind. destruct (existsb isSchemaKind details); auto.
    + intros Hnb. rewrite Hname, Hkind.
      rewrite (existsb_kinds_without_baseline _ Hnb).
      destruct (existsb isSchemaKind details); split; split;
        try reflexivity; try discriminate;
        intros H; apply issueNameOf_inj in H; discriminate.
    + rewrite Hname, <- existsb_isMigrateKind.
      destruct (existsb isMigrateKind details); split;
        try reflexivity; try discriminate;
        intros H; apply issueNameOf_inj in H; discriminate.
    + rewrite Hname. destruct (existsb isMigrateKind details); auto.
  - intros s pushEvent repo pre post migrateFile eff eff' details acts
      [Hci Hca] Htenant Hsdl Hcommits Hschema Hft Hkind Hshop Hprep Hne out.
    apply Forall_app in Hschema as [Hpre Hpost].
    destruct (prepareIssueFromFile_details _ _ _ _ _ _ _ _ Hprep)
      as [Hsame Htypes].
    destruct details as [|d ds]; [congruence|].
    destruct (CommitList pushEvent) as [|c0 commits] eqn:Hc; [congruence|].
    set (creatorID := getIssueCreatorID s (AuthorEmail c0)).
    set (st1 :=
           {| migrationDetailList := d :: ds;
              activityCreateList := acts;
              createdIssueList := [];
              fileNameList :=
                [TrimPrefix (FileName (item migrateFile))
                   (BaseDirectory repo ++ "/")] |}).
    assert (Hloop : processFilesLoop s pushEvent repo creatorID
                      (pre ++ migrateFile :: post)%list noFiles eff
                    = (Returns (st1, None), eff')).
    { rewrite (processFilesLoop_schema_skip _ _ _ _ _ _ _ Hsdl Hpre).
      rewrite (processFilesLoop_migration_step _ _ _ _ _ _ _ _ _ _ _
                 ltac:(rewrite Hft; discriminate) Hprep).
      pose proof (processFilesLoop_schema_skip s pushEvent repo creatorID
                    post []) as Hskip.
      rewrite app_nil_r in Hskip. rewrite (Hskip _ Hsdl Hpost).
      reflexivity. }
    assert (Hall : processFilesInProject s pushEvent repo
                     (pre ++ migrateFile :: post)%list eff
                   = mergeIntoIssue s pushEvent repo creatorID
                       (pre ++ migrateFile :: post)%list st1 eff').
    { unfold processFilesInProject. rewrite Htenant, Hc.
      rewrite bool_decide_eq_false_2 by discriminate. cbn [andb].
      unfold bind at 1. cbn [lift first]. fold creatorID.
      unfold bind at 1. rewrite Hloop. reflexivity. }
    subst out. rewrite Hall. clear Hall Hloop.
    assert (Hfiles : exists f0 rest,
               (pre ++ migrateFile :: post)%list = f0 :: rest
               /\ miDatabase (migrationInfo f0) = "shop").
    { destruct pre as [|p pre'].
      - exists migrateFile, post. split; [reflexivity|].
        now apply Forall_inv in Hshop.
      - exists p, (pre' ++ migrateFile :: post)%list. split; [reflexivity|].
        now apply Forall_inv in Hshop. }
    destruct Hfiles as (f0 & rest & -> & Hdb).
    pose proof (mergeIntoIssue_run s pushEvent repo creatorID f0 rest st1 eff')
      as Hrun.
    cbv zeta in Hrun. set (ic := issueCreateOf _ _ _ _ _ _) in Hrun.
    destruct (Hci ic) as [issue Hi]. rewrite Hi in Hrun.
    destruct Hrun as [Hissues Hout]. specialize (Hout Hca).
    apply Forall_inv in Htypes. rewrite Hkind in Htypes.
    assert (Hm : migrateTypeLoop (migrationDetailList st1) = "Alter schema").
    { rewrite migrateTypeLoop_spec. cbn [st1 migrationDetailList existsb].
      unfold isMigrateKind at 1. rewrite Htypes.
      now rewrite bool_decide_eq_true_2. }
    exists ic. split; [now rewrite Hissues, Hsame|].
    split; [subst ic; cbn [IssueName issueCreateOf]; now rewrite Hdb, Hm|].
    split.
    + subst ic. cbn [IssueKind issueCreateOf]. rewrite issueTypeLoop_spec.
      subst st1. cbn [migrationDetailList existsb].
      unfold isSchemaKind at 1. rewrite Htypes.
      now rewrite bool_decide_eq_true_2.
    + rewrite Hout. rewrite Hdb, Hm. reflexivity.
Qed.


Example merged_issue_type_and_name_scenario :
  (exists ic,
      createdIssues
        (snd (mergeIntoIssue alphaServer onePush alphaRepository 1 [shopV2]
                {| migrationDetailList := shopV2Details;
                   activityCreateList := []; createdIssueList := [];
                   fileNameList := ["v2__shop.sql"] |}
                noEffects))
      = [ic]
      /\ IssueKind ic = IssueDatabaseSchemaUpdate
      /\ IssueName ic = "[shop] Alter schema")
  /\ (exists ic,
         createdIssues
           (snd (processFilesInProject alphaServer onePush alphaRepository
                   [shopSchema; shopV2] noEffects))
         = [ic]
         /\ IssueName ic = "[shop] Alter schema"
         /\ IssueKind ic = IssueDatabaseSchemaUpdate).
Proof.
  split.
  - destruct (proj1 merged_issue_type_and_name alphaServer onePush
                alphaRepository 1 shopV2 []
                {| migrationDetailList := shopV2Details;
                   activityCreateList := []; createdIssueList := [];
                   fileNameList := ["v2__shop.sql"] |}
                noEffects)
      as (ic & Hissues & _ & Hkind & _ & Hname & _).
    { intros ic; eexists; reflexivity. }
    exists ic. split; [exact Hissues|].
    assert (Hschema : IssueKind ic = IssueDatabaseSchemaUpdate).
    { apply Hkind. eexists. split; [apply list_elem_of_here|]. now left. }
    split; [exact Hschema|].
    apply Hname; [|exact Hschema].
    intros d Hd. cbn in Hd.
    repeat (apply elem_of_cons in Hd as [->|Hd]; [discriminate|]).
    now apply elem_of_nil in Hd.
  - destruct (proj2 merged_issue_type_and_name alphaServer onePush
                alphaRepository [shopSchema] [] shopV2 noEffects noEffects
                shopV2Details [])
      as (ic & Hissues & Hname & Hkind & _).
    + split; [intros ic; eexists; reflexivity | reflexivity].
    + reflexivity.
    + discriminate.
    + discriminate.
    + repeat constructor.
    + reflexivity.
    + reflexivity.
    + repeat constructor.
    + vm_compute. reflexivity.
    + vm_compute. discriminate.
    + exists ic. auto.
Qed.

(** C1.  The name and the type of the merged issue come from two loops that
    do not agree on baselines: [processFilesInProject] names the issue
    "Alter schema" when a detail is of kind migrate, and
    [createIssueFromMigrationDetailList] types it as a schema update when a
    detail is of kind migrate or baseline.  So the issue of a group that has
    a baseline detail and no migrate detail is a schema update named
    "[<database>] Change data".  That is what a push of one baseline file
    (among any schema files) gives in a project that is neither SDL nor
    tenant, when the file yields a detail and the store accepts the issue
    and its activity: exactly one issue, of type schema update, named
    "[<database>] Change data". *)
Theorem merged_issue_baseline_named_change_data :
  (forall (s : Server) (pushEvent : PushEvent) (repo : Repository)
          (creatorID : Z) (firstFile : fileInfo) (rest : list fileInfo)
          (st : projectLoop) (eff : Effects),
      (forall ic, exists issue, createIssue s ic = Ok issue) ->
      let details := migrationDetailList st in
      let database := miDatabase (migrationInfo firstFile) in
      let out :=
        mergeIntoIssue s pushEvent repo creatorID (firstFile :: rest) st eff in
      (exists d, d ∈ details /\ mdMigrationType d = Baseline) ->
      (forall d, d ∈ details -> mdMigrationType d <> Migrate) ->
      exists ic,
        createdIssues (snd out) = (createdIssues eff ++ [ic])%list
        /\ snd (CreateContext ic) = details
        /\ IssueKind ic = IssueDatabaseSchemaUpdate
        /\ IssueName ic = issueNameOf database "Change data")
  /\ (forall (s : Server) (pushEvent : PushEvent) (repo : Repository)
             (pre post : list fileInfo) (baselineFile : fileInfo)
             (database : string) (eff eff' : Effects)
             (details : list MigrationDetail) (acts : list ActivityCreate),
         acceptsAll s ->
         TenantMode (RepoProject repo) = TenantModeDisabled ->
         SchemaChangeType (RepoProject repo) <> ProjectSchemaChangeTypeSDL ->
         CommitList pushEvent <> [] ->
         Forall (fun f => fType f = schemaFileType) (pre ++ post) ->
         fType baselineFile = migrationFileType ->
         miType (migrationInfo baselineFile) = Baseline ->
         Forall (fun f => miDatabase (migrationInfo f) = database)
           (pre ++ baselineFile :: post) ->
         prepareIssueFromFile s repo pushEvent baselineFile eff
         = (Returns (details, acts), eff') ->
         details <> [] ->
         let out :=
           processFilesInProject s pushEvent repo
             (pre ++ baselineFile :: post)%list eff in
         exists ic,
           createdIssues (snd out) = (createdIssues eff ++ [ic])%list
           /\ IssueName ic = issueNameOf database "Change data"
           /\ IssueKind ic = IssueDatabaseSchemaUpdate
           /\ fst out
              = Returns ([issueNameOf database "Change data"], true, acts,
                         None)).
Proof.
  split.
  - intros s pushEvent repo creatorID firstFile rest st eff Hacc details
      database out (d & Hd & Hbase) Hnone.
    pose proof (mergeIntoIssue_run s pushEvent repo creatorID firstFile rest
                  st eff) as Hrun.
    cbv zeta in Hrun. fold details database out in Hrun.
    set (ic := issueCreateOf _ _ _ _ _ _) in Hrun.
    destruct (Hacc ic) as [issue Hi]. rewrite Hi in Hrun.
    destruct Hrun as [Hissues _].
    exists ic. split; [exact Hissues|]. split; [reflexivity|]. split.
    + subst ic. cbn [IssueKind issueCreateOf]. rewrite issueTypeLoop_spec.
      replace (existsb isSchemaKind details) with true; [reflexivity|].
      symmetry. apply existsb_isSchemaKind. eauto.
    + subst ic. cbn [IssueName issueCreateOf]. rewrite migrateTypeLoop_spec.
      replace (existsb isMigrateKind details) with false; [reflexivity|].
      symmetry. apply not_true_is_false. intros Hm.
      apply existsb_isMigrateKind in Hm as (d' & Hd' & Hm).
      exact (Hnone d' Hd' Hm).
  - intros s pushEvent repo pre post baselineFile database eff eff' details
      acts [Hci Hca] Htenant Hsdl Hcommits Hschema Hft Hkind Hdatabase Hprep
      Hne out.
    apply Forall_app in Hschema as [Hpre Hpost].
    destruct (prepareIssueFromFile_details _ _ _ _ _ _ _ _ Hprep)
      as [Hsame Htypes].
    destruct details as [|d ds]; [congruence|].
    destruct (CommitList pushEvent) as [|c0 commits] eqn:Hc; [congruence|].
    set (creatorID := getIssueCreatorID s (AuthorEmail c0)).
    set (st1 :=
           {| migrationDetailList := d :: ds;
              activityCreateList := acts;
              createdIssueList := [];
              fileNameList :=
                [TrimPrefix (FileName (item baselineFile))
                   (BaseDirectory repo ++ "/")] |}).
    assert (Hloop : processFilesLoop s pushEvent repo creatorID
                      (pre ++ baselineFile :: post)%list noFiles eff
                    = (Returns (st1, None), eff')).
    { rewrite (processFilesLoop_schema_skip _ _ _ _ _ _ _ Hsdl Hpre).
      rewrite (processFilesLoop_migration_step _ _ _ _ _ _ _ _ _ _ _
                 ltac:(rewrite Hft; discriminate) Hprep).
      pose proof (processFilesLoop_schema_skip s pushEvent repo creatorID
                    post []) as Hskip.
      rewrite app_nil_r in Hskip. rewrite (Hskip _ Hsdl Hpost).
      reflexivity. }
    assert (Hall : processFilesInProject s pushEvent repo
                     (pre ++ baselineFile :: post)%list eff
                   = mergeIntoIssue s pushEvent repo creatorID
                       (pre ++ baselineFile :: post)%list st1 eff').
    { unfold processFilesInProject. rewrite Htenant, Hc.
      rewrite bool_decide_eq_false_2 by discriminate. cbn [andb].
      unfold bind at 1. cbn [lift first]. fold creatorID.
      unfold bind at 1. rewrite Hloop. reflexivity. }
    subst out. rewrite Hall. clear Hall Hloop.
    assert (Hfiles : exists f0 rest,
               (pre ++ baselineFile :: post)%list = f0 :: rest
               /\ miDatabase (migrationInfo f0) = database).
    { destruct pre as [|p pre'].
      - exists baselineFile, post. split; [reflexivity|].
        now apply Forall_inv in Hdatabase.
      - exists p, (pre' ++ baselineFile :: post)%list. split; [reflexivity|].
        now apply Forall_inv in Hdatabase. }
    destruct Hfiles as (f0 & rest & -> & Hdb).
    pose proof (mergeIntoIssue_run s pushEvent repo creatorID f0 rest st1 eff')
      as Hrun.
    cbv zeta in Hrun. set (ic := issueCreateOf _ _ _ _ _ _) in Hrun.
    destruct (Hci ic) as [issue Hi]. rewrite Hi in Hrun.
    destruct Hrun as [Hissues Hout]. specialize (Hout Hca).
    rewrite Hkind in Htypes.
    assert (Hm : migrateTypeLoop (migrationDetailList st1) = "Change data").
    { rewrite migrateTypeLoop_spec.
      replace (existsb isMigrateKind (migrationDetailList st1)) with false;
        [reflexivity|].
      symmetry. apply not_true_is_false. intros Hex.
      apply existsb_isMigrateKind in Hex as (d' & Hd' & Hex).
      pose proof (proj1 (Forall_forall _ _) Htypes d' Hd') as Hb.
      cbn beta in Hb. congruence. }
    exists ic. split; [now rewrite Hissues, Hsame|].
    split; [subst ic; cbn [IssueName issueCreateOf]; now rewrite Hdb, Hm|].
    split.
    + subst ic. cbn [IssueKind issueCreateOf]. rewrite issueTypeLoop_spec.
      subst st1. cbn [migrationDetailList existsb].
      apply Forall_inv in Htypes.
      unfold isSchemaKind at 1. rewrite Htypes.
      rewrite (bool_decide_eq_true_2 (Baseline = Baseline)) by reflexivity.
      now rewrite orb_true_r.
    + rewrite Hout. rewrite Hdb, Hm. reflexivity.
Qed.

Lemma merged_issue_baseline_named_change_data_witness :
  exists ic,
    createdIssues
      (snd (processFilesInProject alphaServer onePush alphaRepository
              [shopSchema; shopV0] noEffects))
    = [ic]
    /\ IssueName ic = "[shop] Change data"
    /\ IssueKind ic = IssueDatabaseSchemaUpdate
    /\ fst (processFilesInProject alphaServer onePush alphaRepository
              [shopSchema; shopV0] noEffects)
       = Returns (["[shop] Change data"], true, [], None).
Proof.
  apply (proj2 merged_issue_baseline_named_change_data alphaServer onePush
           alphaRepository [shopSchema] [] shopV0 "shop" noEffects noEffects
           (List.map
              (fun id =>
                 {| mdMigrationType := Baseline; mdDatabaseID := id;
                    mdDatabaseName := "";
                    mdStatement := "ALTER TABLE item ADD COLUMN price INT;";
                    mdSchemaVersion := "v0" |})
              [7; 9])
           []).
  - split; [intros ic; eexists; reflexivity | reflexivity].
  - reflexivity.
  - discriminate.
  - discriminate.
  - repeat constructor.
  - reflexivity.
  - reflexivity.
  - repeat constructor.
  - vm_compute. reflexivity.
  - vm_compute. discriminate.
Defined.

(** The merged issue of a baseline and a migrate file is a schema update
    named "Alter schema": with a migrate detail the two loops agree. *)
Example processFilesInProject_baseline_and_migrate :
  (fun ics => (fun ic => (IssueName ic, IssueKind ic)) <$> ics)
    (createdIssues
       (snd (processFilesInProject alphaServer onePush alphaRepository
               [shopV0; shopV2] noEffects)))
  = [("[shop] Alter schema", IssueDatabaseSchemaUpdate)].
Proof. vm_compute. reflexivity. Qed.


(** ** validateGitHubWebhookSignature256 *)

Lemma ConstantTimeCompare_spec (x y : string) :
  (ConstantTimeCompare x y =? 1) = bool_decide (x = y).
Proof.
  unfold ConstantTimeCompare. destruct (String.eqb_spec x y) as [->|Hne].
  - now rewrite bool_decide_eq_true_2.
  - now rewrite bool_decide_eq_false_2.
Qed.

(** The value of a hexadecimal digit written by [hexDigit]. *)
Lemma hex_pair_inj (c c' : ascii) :
  hexDigit (N.shiftr (N_of_ascii c) 4) = hexDigit (N.shiftr (N_of_ascii c') 4) ->
  hexDigit (N.land (N_of_ascii c) 15) = hexDigit (N.land (N_of_ascii c') 15) ->
  c = c'.
Proof.
  set (unhex := fun a : ascii =>
                  let n := N_of_ascii a in
                  if (n <? 58)%N then (n - 48)%N else (n - 87)%N).
  assert (Hback : forall a,
             ascii_of_N (16 * unhex (hexDigit (N.shiftr (N_of_ascii a) 4))
                         + unhex (hexDigit (N.land (N_of_ascii a) 15))) = a).
  { intros [[] [] [] [] [] [] [] []]; vm_compute; reflexivity. }
  intros Hhi Hlo. rewrite <- (Hback c), <- (Hback c'). now rewrite Hhi, Hlo.
Qed.

Lemma EncodeToString_inj (x y : string) :
  EncodeToString x = EncodeToString y -> x = y.
Proof.
  revert y. induction x as [|c x IH]; intros [|c' y]; cbn [EncodeToString];
    try discriminate; [reflexivity|].
  intros [= Hhi Hlo Hrest]. f_equal; [now apply hex_pair_inj | now apply IH].
Qed.

(** C8, first half.  Validation never fails with an error, and it succeeds
    exactly when the header, with one leading "sha256=" taken off if it is
    there, is the lower-case hexadecimal HMAC-SHA256 of the body under the
    key. *)
Lemma validateGitHubWebhookSignature256_spec (signature key body : string) :
  validateGitHubWebhookSignature256 signature key body
  = Ok (bool_decide (TrimPrefix signature "sha256="
                     = EncodeToString (HMACSHA256 key body))).
Proof.
  unfold validateGitHubWebhookSignature256. cbv zeta.
  now rewrite ConstantTimeCompare_spec.
Qed.

(** C8, second half, as far as it goes: a signature that is valid for one
    body is valid for another body only if the two bodies have the same
    HMAC-SHA256 under the key. *)
Lemma validateGitHubWebhookSignature256_other_body
    (signature key body body' : string) :
  validateGitHubWebhookSignature256 signature key body = Ok true ->
  (validateGitHubWebhookSignature256 signature key body' = Ok true
   <-> HMACSHA256 key body' = HMACSHA256 key body).
Proof.
  rewrite !validateGitHubWebhookSignature256_spec.
  intros [= Hv]. apply bool_decide_eq_true_1 in Hv. rewrite Hv. split.
  - intros [= Hv']. apply bool_decide_eq_true_1 in Hv'.
    symmetry. now apply EncodeToString_inj.
  - intros ->. now rewrite bool_decide_eq_true_2.
Qed.

(** The example of GitHub's documentation, and the same body with one byte
    changed. *)
Example validateGitHubWebhookSignature256_documented :
  validateGitHubWebhookSignature256
    "sha256=757107ea0eb2509fc211221cce984b8a37570b6d7586c22c46f4379c8b043e17"
    "It's a Secret to Everybody" "Hello, World!"
  = Ok true
  /\ validateGitHubWebhookSignature256
       "sha256=757107ea0eb2509fc211221cce984b8a37570b6d7586c22c46f4379c8b043e17"
       "It's a Secret to Everybody" "Hello, world!"
     = Ok false
  /\ validateGitHubWebhookSignature256
       "757107ea0eb2509fc211221cce984b8a37570b6d7586c22c46f4379c8b043e17"
       "It's a Secret to Everybody" "Hello, World!"
     = Ok true
  /\ validateGitHubWebhookSignature256
       "sha256=sha256=757107ea0eb2509fc211221cce984b8a37570b6d7586c22c46f4379c8b043e17"
       "It's a Secret to Everybody" "Hello, World!"
     = Ok false.
Proof. repeat split; vm_compute; reflexivity. Qed.


(** ** SQL review: the goroutines and their shared map (claim C7) *)

Lemma reviewTasks_appendAt (k : Z) (x : fileInfo)
    (m : gmap Z (list fileInfo)) :
  reviewTasks (appendAt k x m) ≡ₚ (reviewTasks m ++ [x])%list.
Proof.
  unfold reviewTasks, appendAt.
  destruct (m !! k) as [y|] eqn:Hk; cbn [default].
  - rewrite <- (map_to_list_delete m k y Hk).
    rewrite <- insert_delete_eq.
    rewrite map_to_list_insert by apply lookup_delete_eq.
    cbn [List.map List.concat snd].
    rewrite <- !app_assoc. apply Permutation_app_head, Permutation_app_comm.
  - rewrite map_to_list_insert by exact Hk.
    cbn [List.map List.concat snd app]. apply Permutation_cons_append.
Qed.


Lemma reviewTasks_groupFileInfoByRepoLoop (s : Server)
    (files : list DistinctFileItem) (repositoryList : list Repository) :
  forall m,
    reviewTasks (groupFileInfoByRepoLoop (plugin s) files repositoryList m)
    ≡ₚ (reviewTasks m ++ omap (taskOf s repositoryList) files)%list.
Proof.
  induction files as [|file files IH]; intros m;
    cbn [groupFileInfoByRepoLoop omap list_omap].
  - now rewrite app_nil_r.
  - destruct (getFileInfo (plugin s) file repositoryList)
      as [[[mi ft] repo]|e] eqn:Hg.
    + assert (taskOf s repositoryList file
              = Some {| item := file; migrationInfo := mi; fType := ft;
                        repository := repo |}) as ->
        by (unfold taskOf; now rewrite Hg).
      rewrite IH, reviewTasks_appendAt, <- app_assoc. reflexivity.
    + assert (taskOf s repositoryList file = None) as ->
        by (unfold taskOf; now rewrite Hg).
      apply IH.
Qed.

(** The tasks started by the handler are those of the changed files that
    belong to exactly one repository link, in some order. *)
Lemma reviewTasks_groupFileInfoByRepo (s : Server)
    (files : list DistinctFileItem) (repositoryList : list Repository) :
  reviewTasks (groupFileInfoByRepo (plugin s) files repositoryList)
  ≡ₚ omap (taskOf s repositoryList) files.
Proof.
  unfold groupFileInfoByRepo.
  rewrite reviewTasks_groupFileInfoByRepoLoop. reflexivity.
Qed.

Lemma taskOf_Some (s : Server) (repositoryList : list Repository)
    (file : DistinctFileItem) (task : fileInfo) :
  taskOf s repositoryList file = Some task ->
  item task = file /\ repository task ∈ repositoryList.
Proof.
  unfold taskOf. rewrite getFileInfo_spec.
  destruct (existsb _ _); [discriminate|].
  destruct (List.filter _ _) as [|r [|r' l]] eqn:Hf; try discriminate.
  destruct (default _ _) as [mi ft]. intros [= <-]. split; [reflexivity|].
  apply list_elem_of_In.
  apply (proj1 (filter_In (matchesLink (plugin s) file) r repositoryList)).
  rewrite Hf. now left.
Qed.

(** A review panics only on a repository without VCS. *)
Lemma sqlAdviceForFile_returns (s : Server) (task : fileInfo) :
  RepoVCS (repository task) <> None ->
  exists r, sqlAdviceForFile s task = Returns r.
Proof.
  intros Hv. unfold sqlAdviceForFile, vcsTypeOf.
  destruct (RepoVCS (repository task)) as [v|]; [|congruence].
  destruct (bool_decide _); [eauto|].
  destruct (findProjectDatabases _ _ _ _); [|eauto].
  destruct (ReadFileContent _ _ _ _ _); eauto.
Qed.

(** A provider read error is a failure of the review of the file. *)
Lemma sqlAdviceForFile_read_error (s : Server) (task : fileInfo)
    (v : VCS) (e : error) :
  RepoVCS (repository task) = Some v ->
  ReadFileContent (provider s) (VCSKind v) (ExternalID (repository task))
    (FileName (item task)) (CommitID (item task)) = Err e ->
  TenantMode (RepoProject (repository task)) <> TenantModeTenant ->
  (exists e', sqlAdviceForFile s task = Returns (Err e'))
  /\ adviceOfTask s task = None.
Proof.
  intros Hv Hread Htenant. unfold adviceOfTask, sqlAdviceForFile, vcsTypeOf.
  rewrite Hv, bool_decide_eq_false_2 by exact Htenant.
  destruct (findProjectDatabases _ _ _ _); [|eauto].
  rewrite Hread. eauto.
Qed.

(** The assignments that the goroutines of [files] have to make, when they
    return: those of the files whose review gives an advice list. *)
Lemma pendingWrites_Returns (s : Server) (files : list fileInfo)
    (writes : list (string * list Advice)) :
  pendingWrites s files = Returns writes ->
  writes = omap (adviceOfTask s) files.
Proof.
  revert writes. induction files as [|file files IH]; intros writes;
    cbn [pendingWrites omap list_omap].
  - now intros [= <-].
  - unfold reviewFile, adviceOfTask.
    destruct (sqlAdviceForFile s file) as [[[l|]|e]|w]; try discriminate;
      destruct (pendingWrites s files) as [ws|w']; try discriminate;
      intros [= <-]; now rewrite (IH ws eq_refl).
Qed.

Lemma pendingWrites_run (s : Server) (files : list fileInfo) :
  Forall (fun task => RepoVCS (repository task) <> None) files ->
  pendingWrites s files = Returns (omap (adviceOfTask s) files).
Proof.
  induction 1 as [|task tasks Hv _ IH]; [reflexivity|].
  cbn [pendingWrites omap list_omap]. unfold reviewFile, adviceOfTask.
  destruct (sqlAdviceForFile_returns s task Hv) as [r Hr]. rewrite Hr, IH.
  destruct r as [[adviceList|]|e]; reflexivity.
Qed.

(** The shared map after the goroutines have finished one after the other,
    in the order of [batches]: a later write to a name replaces an earlier
    one. *)
Lemma reviewAll_run (s : Server) (batches : list (list fileInfo)) :
  Forall (fun batch => (length batch <= 1)%nat) batches ->
  Forall (fun task => RepoVCS (repository task) <> None)
    (List.concat batches) ->
  forall m,
    reviewAll s batches m
    = Returns
        (list_to_map (rev (omap (adviceOfTask s) (List.concat batches))) ∪ m).
Proof.
  induction 1 as [|batch batches Hone _ IH]; intros Hv m;
    cbn [reviewAll List.concat].
  - cbn. now rewrite (left_id ∅ (∪)).
  - cbn [List.concat] in Hv. apply Forall_app in Hv as [Hb Hrest].
    rewrite (pendingWrites_run _ _ Hb).
    rewrite omap_app, rev_app_distr, list_to_map_app, <- (assoc_L (∪)).
    destruct batch as [|task [|task' batch]]; cbn [length] in Hone; [| |lia].
    + cbn [omap list_omap writeTogether rev].
      rewrite (IH Hrest), list_to_map_nil. now rewrite (left_id ∅ (∪) m).
    + cbn [omap list_omap]. unfold writeTogether.
      destruct (adviceOfTask s task) as [[name adviceList]|].
      * rewrite (IH Hrest). cbn [rev app]. unfold assign. cbn [fst snd].
        rewrite list_to_map_cons, list_to_map_nil.
        now rewrite insert_empty, <- insert_union_singleton_l.
      * rewrite (IH Hrest). cbn [rev]. rewrite list_to_map_nil.
        now rewrite (left_id ∅ (∪) m).
Qed.

(** Two assignments made at once that the runtime notices end the run of
    the goroutines, whatever the other goroutines do. *)
Lemma reviewAll_clash (s : Server) (batches : list (list fileInfo))
    (batch : list fileInfo) :
  batch ∈ batches ->
  (2 <= length (omap (adviceOfTask s) batch))%nat ->
  Race (runtime s) (string * list Advice)%type (omap (adviceOfTask s) batch)
  = None ->
  forall m, exists what, reviewAll s batches m = Panics what.
Proof.
  intros Hin Htwo Hrace. induction batches as [|b bs IH]; intros m.
  - now apply elem_of_nil in Hin.
  - cbn [reviewAll].
    destruct (pendingWrites s b) as [writes|what] eqn:Hp; [|eauto].
    apply elem_of_cons in Hin as [<-|Hin].
    + apply pendingWrites_Returns in Hp. subst writes.
      revert Htwo Hrace.
      destruct (omap (adviceOfTask s) batch) as [|kv [|kv' ws]];
        cbn [length]; intros Htwo Hrace; [lia | lia |].
      cbn [writeTogether]. rewrite Hrace. eauto.
    + destruct (writeTogether (runtime s) writes m) as [m'|what];
        [exact (IH Hin m') | eauto].
Qed.


Lemma omap_taskOf_adviceOfTask (s : Server) (repositoryList : list Repository)
    (files : list DistinctFileItem) :
  omap (adviceOfTask s) (omap (taskOf s repositoryList) files)
  = reviewed s repositoryList files.
Proof.
  unfold reviewed, reviewOf.
  induction files as [|file files IH]; [reflexivity|].
  cbn [omap list_omap].
  destruct (taskOf s repositoryList file) as [task|]; cbn [mbind option_bind];
    [|exact IH].
  cbn [omap list_omap]. now rewrite IH.
Qed.

Lemma reviewOf_Some (s : Server) (repositoryList : list Repository)
    (file : DistinctFileItem) (name : string) (adviceList : list Advice) :
  reviewOf s repositoryList file = Some (name, adviceList) ->
  name = FileName file.
Proof.
  unfold reviewOf.
  destruct (taskOf s repositoryList file) as [task|] eqn:Ht; [|discriminate].
  apply taskOf_Some in Ht as [<- _]. cbn [mbind option_bind].
  unfold adviceOfTask. destruct (sqlAdviceForFile s task) as [[[l|]|e]|w];
    try discriminate.
  now intros [= <- _].
Qed.

Lemma reviewed_names (s : Server) (repositoryList : list Repository)
    (files : list DistinctFileItem) :
  (reviewed s repositoryList files).*1 `sublist_of` FileName <$> files.
Proof.
  unfold reviewed. induction files as [|file files IH]; [constructor|].
  cbn [omap list_omap].
  destruct (reviewOf s repositoryList file) as [[name l]|] eqn:Hr.
  - apply reviewOf_Some in Hr as ->. cbn. now constructor.
  - cbn. now constructor.
Qed.

Lemma length_reviewed (s : Server) (repositoryList : list Repository)
    (files : list DistinctFileItem) :
  (length (reviewed s repositoryList files)
   + length (failed s repositoryList files))%nat
  = length files.
Proof.
  unfold reviewed, failed. induction files as [|file files IH]; [reflexivity|].
  cbn [omap list_omap List.filter].
  destruct (reviewOf s repositoryList file) as [r|].
  - rewrite bool_decide_eq_false_2 by discriminate. cbn [length]. lia.
  - rewrite bool_decide_eq_true_2 by reflexivity. cbn [length]. lia.
Qed.


(** Every repository that passes [filterRepository] has a VCS. *)
Lemma filterRepositoryLoop_VCS (pushEventRepositoryID : string)
    (filter : repositoryFilter) (repos : list Repository) :
  forall filteredRepos out,
    filterRepositoryLoop pushEventRepositoryID filter repos filteredRepos
    = Ok out ->
    Forall (fun r => RepoVCS r <> None) filteredRepos ->
    Forall (fun r => RepoVCS r <> None) out.
Proof.
  induction repos as [|repo repos IH]; intros acc out;
    cbn [filterRepositoryLoop].
  - now intros [= <-].
  - destruct (bool_decide (ProjectRowStatus _ = _)); [apply IH|].
    case_bool_decide as Hv; cbn [negb]; [|apply IH].
    destruct (negb (String.eqb _ _)); [apply IH|].
    destruct (filter repo) as [[|]|e]; [| apply IH | discriminate].
    intros Hrun Hacc. apply (IH _ _ Hrun).
    apply Forall_app. split; [exact Hacc|].
    constructor; [|constructor]. destruct Hv as [v ->]. discriminate.
Qed.

Lemma filterRepository_VCS (s : Server) (webhookEndpointID : string)
    (pushEventRepositoryID : string) (filter : repositoryFilter)
    (out : list Repository) :
  filterRepository s webhookEndpointID pushEventRepositoryID filter = Ok out ->
  Forall (fun r => RepoVCS r <> None) out.
Proof.
  unfold filterRepository.
  destruct (FindRepository (store s) webhookEndpointID) as [[|r repos]|e];
    try discriminate.
  intros Hrun. apply (filterRepositoryLoop_VCS _ _ _ _ _ Hrun). constructor.
Qed.

(** When the goroutines reach the shared map one after the other, the
    answer of the SQL-review endpoint to a request that is decoded, passes
    the repository filter and has its pull-request files listed is HTTP 200
    whatever happens to the single files: the advice map handed to the
    formatter has an entry for exactly the changed (non-deleted) files whose
    per-file review succeeded, so for N changed files of which M failed it
    has N - M entries, and when none succeeded the report is the one of the
    empty map, of status success. *)
Lemma sqlReviewWebhook_partial_failures
    (s : Server) (c : Request) (eff : Effects) (body : string)
    (request : VCSSQLReviewRequest) (repo : Repository)
    (repos : list Repository) (v : VCS) (prFiles : list PullRequestFile) :
  schedulesAll (runtime s) ->
  oneAtATime (runtime s) ->
  ReadBody c = Ok body ->
  UnmarshalSQLReviewRequest (codec s) body = Ok request ->
  filterRepository s (ParamID c) (ReqRepositoryID request)
    (sqlReviewFilter s c request) = Ok (repo :: repos) ->
  RepoVCS repo = Some v ->
  ListPullRequestFile (provider s) (VCSKind v) (ReqRepositoryID request)
    (ReqPullRequestID request) = Ok prFiles ->
  let files := reviewFileList prFiles in
  NoDup (FileName <$> files) ->
  let sqlCheckAdvice : gmap string (list Advice) :=
    list_to_map (reviewed s (repo :: repos) files) in
  let report := formatterOf (VCSKind v) sqlCheckAdvice in
  sqlReviewWebhook s c eff
  = (Returns (Ok {| StatusCode := StatusOK; Body := BodyJSON report |}), eff)
  /\ (forall file,
         file ∈ files ->
         sqlCheckAdvice !! FileName file
         = snd <$> reviewOf s (repo :: repos) file)
  /\ (forall name,
         is_Some (sqlCheckAdvice !! name) ->
         exists file, file ∈ files /\ FileName file = name)
  /\ size sqlCheckAdvice
     = (length files - length (failed s (repo :: repos) files))%nat
  /\ (length (failed s (repo :: repos) files) = length files ->
      ResultStatus report = Success
      /\ ResultContent report
         = match VCSKind v with
           | GitHubCom => []
           | GitLabSelfHost => [gitlabReport []]
           end).
Proof.
  intros Hsched Hone Hbody Hreq Hfilter Hv Hlist files Hnodup sqlCheckAdvice
    report.
  pose proof (filterRepository_VCS _ _ _ _ _ Hfilter) as Hvcs.
  assert (Hnames : NoDup (reviewed s (repo :: repos) files).*1)
    by (eapply sublist_NoDup; [exact Hnodup | apply reviewed_names]).
  split; [|split; [|split; [|split]]].
  - unfold sqlReviewWebhook. rewrite Hbody, Hreq, Hfilter.
    unfold bind at 1, lift at 1, vcsTypeOf. rewrite Hv, Hlist.
    fold files. unfold bind, lift.
    set (batches := Schedule (runtime s) fileInfo _).
    assert (Htasks : List.concat batches
                     ≡ₚ omap (taskOf s (repo :: repos)) files).
    { unfold batches. etransitivity; [apply Hsched|].
      apply reviewTasks_groupFileInfoByRepo. }
    rewrite reviewAll_run.
    2:{ apply Hone. }
    2:{ rewrite Htasks. apply Forall_forall. intros task Ht.
        apply list_elem_of_omap in Ht as (file & _ & Ht).
        apply taskOf_Some in Ht as [_ Hin].
        exact (proj1 (Forall_forall _ _) Hvcs _ Hin). }
    rewrite (right_id_L ∅ (∪)).
    assert (Hmap : list_to_map
                     (rev (omap (adviceOfTask s) (List.concat batches)))
                   = sqlCheckAdvice).
    { symmetry. apply list_to_map_proper; [exact Hnames|].
      rewrite <- Permutation_rev, Htasks.
      now rewrite omap_taskOf_adviceOfTask. }
    rewrite Hmap. unfold ret. subst report.
    destruct (VCSKind v); reflexivity.
  - intros file Hfile.
    destruct (reviewOf s (repo :: repos) file) as [[name l]|] eqn:Hr.
    + pose proof (reviewOf_Some _ _ _ _ _ Hr) as ->. cbn [fmap option_fmap option_map snd].
      apply elem_of_list_to_map; [exact Hnames|].
      apply list_elem_of_omap. eauto.
    + cbn. apply not_elem_of_list_to_map_1.
      intros Hin. apply list_elem_of_fmap in Hin as ([name l] & Hname & Hin).
      cbn in Hname. subst name.
      apply list_elem_of_omap in Hin as (file' & Hfile' & Hr').
      pose proof (reviewOf_Some _ _ _ _ _ Hr') as Hsame.
      assert (file' = file) as ->; [|congruence].
      clear - Hnodup Hfile Hfile' Hsame.
      induction files as [|f fs IH]; [now apply elem_of_nil in Hfile|].
      cbn in Hnodup. apply NoDup_cons in Hnodup as [Hf Hfs].
      apply elem_of_cons in Hfile as [->|Hfile];
        apply elem_of_cons in Hfile' as [->|Hfile']; auto.
      * exfalso. apply Hf. rewrite Hsame.
        apply list_elem_of_fmap. eauto.
      * exfalso. apply Hf. rewrite <- Hsame.
        apply list_elem_of_fmap. eauto.
  - intros name [l Hl].
    apply elem_of_list_to_map in Hl; [|exact Hnames].
    apply list_elem_of_omap in Hl as (file & Hfile & Hr).
    apply reviewOf_Some in Hr. eauto.
  - subst sqlCheckAdvice. rewrite map_size_list_to_map by exact Hnames.
    pose proof (length_reviewed s (repo :: repos) files). lia.
  - intros Hall.
    pose proof (length_reviewed s (repo :: repos) files) as Hlen.
    assert (Hnone : reviewed s (repo :: repos) files = [])
      by (apply length_zero_iff_nil; lia).
    subst report sqlCheckAdvice. rewrite Hnone, list_to_map_nil.
    destruct (VCSKind v); split; reflexivity.
Qed.

Lemma plainRuntime_schedulesAll : schedulesAll plainRuntime.
Proof.
  intros A l. cbn. induction l as [|x l IH]; [reflexivity|].
  cbn. now rewrite IH.
Qed.

Lemma plainRuntime_oneAtATime : oneAtATime plainRuntime.
Proof.
  intros A l. cbn. induction l as [|x l IH]; constructor; [cbn; lia | exact IH].
Qed.

(** The pull request of [reviewServer]: of its three changed files one
    cannot be read and one belongs to no repository link; the report is the
    one of the third alone. *)
Example sqlReviewWebhook_partial_failures_scenario :
  let report :=
    formatterOf GitHubCom
      (list_to_map
         (reviewed reviewServer [alphaRepository]
            (reviewFileList pullRequestFiles))) in
  sqlReviewWebhook reviewServer reviewRequest noEffects
  = (Returns (Ok {| StatusCode := 200; Body := BodyJSON report |}), noEffects)
  /\ length (reviewFileList pullRequestFiles) = 3%nat
  /\ length (failed reviewServer [alphaRepository]
               (reviewFileList pullRequestFiles)) = 2%nat.
Proof.
  intros report. split; [|split; reflexivity].
  apply (sqlReviewWebhook_partial_failures reviewServer reviewRequest
           noEffects "{}"
           {| ReqRepositoryID := "octo/shop"; ReqPullRequestID := "1";
              ReqWebURL := "https://github.com" |}
           alphaRepository [] githubVCS pullRequestFiles).
  - apply plainRuntime_schedulesAll.
  - apply plainRuntime_oneAtATime.
  - reflexivity.
  - reflexivity.
  - reflexivity.
  - reflexivity.
  - reflexivity.
  - vm_compute. repeat constructor; compute_done.
Qed.

(** C7.  The goroutines of the SQL-review endpoint assign to one map without
    a lock.  When the request is decoded, passes the repository filter and
    has its pull-request files listed, and two goroutines whose reviews have
    succeeded reach their assignment at the same time, a runtime that
    notices it ends the process: the endpoint does not answer, although no
    review has failed for that. *)
Theorem sqlReviewWebhook_concurrent_map_writes
    (s : Server) (c : Request) (eff : Effects) (body : string)
    (request : VCSSQLReviewRequest) (repo : Repository)
    (repos : list Repository) (v : VCS) (prFiles : list PullRequestFile)
    (batch : list fileInfo) :
  ReadBody c = Ok body ->
  UnmarshalSQLReviewRequest (codec s) body = Ok request ->
  filterRepository s (ParamID c) (ReqRepositoryID request)
    (sqlReviewFilter s c request) = Ok (repo :: repos) ->
  RepoVCS repo = Some v ->
  ListPullRequestFile (provider s) (VCSKind v) (ReqRepositoryID request)
    (ReqPullRequestID request) = Ok prFiles ->
  batch ∈ Schedule (runtime s) fileInfo
            (reviewTasks
               (groupFileInfoByRepo (plugin s) (reviewFileList prFiles)
                  (repo :: repos))) ->
  (2 <= length (omap (adviceOfTask s) batch))%nat ->
  Race (runtime s) (string * list Advice)%type (omap (adviceOfTask s) batch)
  = None ->
  exists what, sqlReviewWebhook s c eff = (Panics what, eff).
Proof.
  intros Hbody Hreq Hfilter Hv Hlist Hbatch Htwo Hrace.
  unfold sqlReviewWebhook. rewrite Hbody, Hreq, Hfilter.
  unfold bind at 1, lift at 1, vcsTypeOf. rewrite Hv, Hlist.
  unfold bind, lift.
  destruct (reviewAll_clash s _ batch Hbatch Htwo Hrace ∅) as [what Hrun].
  rewrite Hrun. eauto.
Qed.

Lemma sqlReviewWebhook_concurrent_map_writes_witness :
  exists what,
    sqlReviewWebhook (withRuntime twoReviewsServer racingRuntime)
      reviewRequest noEffects
    = (Panics what, noEffects).
Proof.
  apply (sqlReviewWebhook_concurrent_map_writes
           (withRuntime twoReviewsServer racingRuntime) reviewRequest
           noEffects "{}"
           {| ReqRepositoryID := "octo/shop"; ReqPullRequestID := "1";
              ReqWebURL := "https://github.com" |}
           alphaRepository [] githubVCS twoReviewFiles twoReviewTasks).
  - reflexivity.
  - reflexivity.
  - reflexivity.
  - reflexivity.
  - reflexivity.
  - apply list_elem_of_here.
  - vm_compute. lia.
  - reflexivity.
Defined.

(** The two files of that pull request, on the three runtimes of the
    scenarios.  When the goroutines write one after the other, the advice
    of both reaches the formatter.  When they write at once, the process
    ends with the fatal error of the runtime, or, if the runtime does not
    notice, the advice of the second file is lost and the report is the one
    of the first file alone. *)
Example sqlReviewWebhook_two_files :
  sqlReviewWebhook twoReviewsServer reviewRequest noEffects
  = (Returns
       (Ok {| StatusCode := 200;
              Body :=
                BodyJSON
                  (convertSQLAdiceToGitHubActionResult
                     (<[ "db/beta/v1__shop.sql" := [policyNotFoundAdvice] ]>
                        (<[ "db/v2__shop.sql" := [policyNotFoundAdvice] ]>
                           ∅))) |}),
     noEffects)
  /\ sqlReviewWebhook (withRuntime twoReviewsServer racingRuntime)
       reviewRequest noEffects
     = (Panics "fatal error: concurrent map writes", noEffects)
  /\ sqlReviewWebhook (withRuntime twoReviewsServer lossyRuntime)
       reviewRequest noEffects
     = (Returns
          (Ok {| StatusCode := 200;
                 Body :=
                   BodyJSON
                     (convertSQLAdiceToGitHubActionResult
                        {[ "db/beta/v1__shop.sql"
                           := [policyNotFoundAdvice] ]}) |}),
        noEffects).
Proof. repeat split; vm_compute; reflexivity. Qed.


(** * Part III: further properties of the pipeline *)

(** ** Refs and repository filters *)

Lemma parseBranchNameFromRefs_Ok (ref branch : string) :
  parseBranchNameFromRefs ref = Ok branch
  <-> ref = expectedPrefix ++ branch /\ branch <> "".
Proof.
  split.
  - unfold parseBranchNameFromRefs, HasPrefix.
    destruct (String.prefix expectedPrefix ref) eqn:Hp; [|discriminate].
    cbn [negb orb].
    destruct (String.length expectedPrefix =? String.length ref)%nat eqn:Hl;
      [discriminate|].
    apply prefix_dropString in Hp.
    set (b := dropString (String.length expectedPrefix) ref) in *.
    intros [= <-]. split; [exact Hp|].
    intros Hempty. rewrite Hempty, append_nil_r in Hp.
    rewrite <- Hp in Hl. now rewrite Nat.eqb_refl in Hl.
  - intros [-> Hne]. now apply parseBranchNameFromRefs_heads.
Qed.

(** X1.  [parseBranchNameFromRefs] inverts the prefixing of a branch name:
    it returns [branch] exactly for the ref [refs/heads/<branch>] with a
    non-empty branch, and fails on every other ref. *)
Theorem parseBranchNameFromRefs_inverts (ref branch : string) :
  (parseBranchNameFromRefs ref = Ok branch
   <-> ref = expectedPrefix ++ branch /\ branch <> "")
  /\ (is_Ok (parseBranchNameFromRefs ref) = false
      <-> forall b, b <> "" -> ref <> expectedPrefix ++ b).
Proof.
  split; [apply parseBranchNameFromRefs_Ok|]. split.
  - intros Hfail b Hb ->.
    now rewrite (proj2 (parseBranchNameFromRefs_Ok _ b)) in Hfail.
  - intros Hnot. destruct (parseBranchNameFromRefs ref) as [b|e] eqn:Hp;
      [|reflexivity].
    apply parseBranchNameFromRefs_Ok in Hp as [-> Hb]. now destruct (Hnot b Hb).
Qed.

Lemma filterRepositoryLoop_Ok (pushEventRepositoryID : string)
    (filter : repositoryFilter) (repos : list Repository) :
  forall filteredRepos out,
    filterRepositoryLoop pushEventRepositoryID filter repos filteredRepos
    = Ok out ->
    out = (filteredRepos
           ++ List.filter
                (fun r => eligible pushEventRepositoryID r && accepts filter r)
                repos)%list
    /\ Forall (fun r => eligible pushEventRepositoryID r = true ->
                        exists b, filter r = Ok b) repos.
Proof.
  induction repos as [|repo repos IH]; intros acc out;
    cbn [filterRepositoryLoop List.filter].
  - intros [= <-]. now rewrite app_nil_r.
  - assert (Hskip :
              eligible pushEventRepositoryID repo = false ->
              filterRepositoryLoop pushEventRepositoryID filter repos acc
              = Ok out ->
              out = (acc ++ List.filter
                              (fun r => eligible pushEventRepositoryID r
                                        && accepts filter r) repos)%list
              /\ Forall (fun r => eligible pushEventRepositoryID r = true ->
                                  exists b, filter r = Ok b) (repo :: repos)).
    { intros Hel H. apply IH in H as [-> HF]. split; [reflexivity|].
      constructor; [congruence | exact HF]. }
    destruct (eligible pushEventRepositoryID repo) eqn:Hel; cbn [andb].
    + unfold eligible in Hel.
      apply andb_true_iff in Hel as [Hel He].
      apply andb_true_iff in Hel as [Ha Hv].
      apply negb_true_iff in Ha. rewrite Ha, Hv, He. cbn [negb].
      unfold accepts at 1.
      destruct (filter repo) as [[|]|e] eqn:Hf; [| |discriminate].
      * intros H. apply IH in H as [-> HF]. rewrite <- app_assoc.
        split; [reflexivity|]. constructor; [eauto | exact HF].
      * intros H. apply IH in H as [-> HF].
        split; [reflexivity|]. constructor; [eauto | exact HF].
    + specialize (Hskip eq_refl). unfold eligible in Hel.
      destruct (bool_decide (ProjectRowStatus _ = _)); [exact Hskip|].
      destruct (bool_decide (is_Some _)); cbn [negb]; [|exact Hskip].
      cbn [negb andb] in Hel. rewrite Hel. exact Hskip.
Qed.

(** X2.  When [filterRepository] returns a list, it is the list of the
    repositories of the endpoint, in the order of the store, that are
    eligible (project not archived, VCS present, external ID of the event)
    and accepted by the filter; the store then has a repository for the
    endpoint and the filter failed on no eligible repository. *)
Theorem filterRepository_returns (s : Server) (webhookEndpointID : string)
    (pushEventRepositoryID : string) (filter : repositoryFilter)
    (out : list Repository) :
  filterRepository s webhookEndpointID pushEventRepositoryID filter = Ok out ->
  exists repos,
    FindRepository (store s) webhookEndpointID = Ok repos
    /\ repos <> []
    /\ out = List.filter
               (fun r => eligible pushEventRepositoryID r && accepts filter r)
               repos
    /\ (forall r, r ∈ repos -> eligible pushEventRepositoryID r = true ->
                  exists b, filter r = Ok b).
Proof.
  unfold filterRepository.
  destruct (FindRepository (store s) webhookEndpointID) as [[|r repos]|e];
    try discriminate.
  intros H. apply filterRepositoryLoop_Ok in H as [-> HF].
  exists (r :: repos). split; [reflexivity|]. split; [discriminate|].
  split; [reflexivity|]. exact (proj1 (Forall_forall _ _) HF).
Qed.


Lemma filterRepository_returns_witness :
  exists repos,
    FindRepository (store alphaServer) "endpoint-1" = Ok repos
    /\ repos <> []
    /\ [alphaRepository]
       = List.filter
           (fun r =>
              eligible "octo/shop" r
              && accepts (fun r => Ok (String.eqb "token" (WebhookSecretToken r)))
                   r)
           repos
    /\ (forall r, r ∈ repos -> eligible "octo/shop" r = true ->
                  exists b,
                    Ok (String.eqb "token" (WebhookSecretToken r)) = Ok b).
Proof.
  apply (filterRepository_returns alphaServer "endpoint-1" "octo/shop"
           (fun r => Ok (String.eqb "token" (WebhookSecretToken r)))
           [alphaRepository]).
  reflexivity.
Defined.

Lemma filterRepositoryLoop_none (pushEventRepositoryID : string)
    (filter : repositoryFilter) (repos : list Repository) :
  (forall r, r ∈ repos -> filter r = Ok false) ->
  forall filteredRepos,
    filterRepositoryLoop pushEventRepositoryID filter repos filteredRepos
    = Ok filteredRepos.
Proof.
  induction repos as [|repo repos IH]; intros Hf acc;
    cbn [filterRepositoryLoop]; [reflexivity|].
  rewrite (Hf repo) by apply list_elem_of_here.
  assert (IH' := IH (fun r Hr => Hf r (list_elem_of_further _ _ _ Hr)) acc).
  destruct (bool_decide (ProjectRowStatus _ = _)); [exact IH'|].
  destruct (negb (bool_decide (is_Some _))); [exact IH'|].
  destruct (negb (String.eqb _ _)); exact IH'.
Qed.

Lemma filterRepository_none (s : Server) (webhookEndpointID : string)
    (pushEventRepositoryID : string) (filter : repositoryFilter)
    (repos : list Repository) :
  FindRepository (store s) webhookEndpointID = Ok repos ->
  repos <> [] ->
  (forall r, r ∈ repos -> filter r = Ok false) ->
  filterRepository s webhookEndpointID pushEventRepositoryID filter = Ok [].
Proof.
  intros Hfind Hne Hf. unfold filterRepository. rewrite Hfind.
  destruct repos as [|r repos]; [congruence|].
  now apply filterRepositoryLoop_none.
Qed.

(** X3.  A push to an endpoint that has at least one repository, whose
    secret fits none of the repositories of the endpoint, is acknowledged
    and dropped: when the GitLab token equals the secret token of none of
    them, or the GitHub signature is the HMAC-SHA256 of the body under the
    secret token of none of them, the answer is 200 "OK" and nothing is
    created, recorded or patched. *)
Theorem push_webhook_secret_mismatch (s : Server) (c : Request)
    (eff : Effects) (body : string) (repos : list Repository) :
  ReadBody c = Ok body ->
  FindRepository (store s) (ParamID c) = Ok repos ->
  repos <> [] ->
  (forall pushEvent,
      UnmarshalGitLabPushEvent (codec s) body = Ok pushEvent ->
      ObjectKind pushEvent = GitLabWebhookPush ->
      (forall r, r ∈ repos ->
                 Header c "X-Gitlab-Token" <> WebhookSecretToken r) ->
      gitlabWebhook s c eff
      = (Returns (Ok {| StatusCode := StatusOK; Body := BodyString "OK" |}),
         eff))
  /\ (forall pushEvent,
         Header c "X-GitHub-Event" = GitHubWebhookPush ->
         UnmarshalGitHubPushEvent (codec s) body = Ok pushEvent ->
         (forall r, r ∈ repos ->
                    TrimPrefix (Header c "X-Hub-Signature-256") "sha256="
                    <> EncodeToString
                         (HMACSHA256 (WebhookSecretToken r) body)) ->
         githubWebhook s c eff
         = (Returns (Ok {| StatusCode := StatusOK; Body := BodyString "OK" |}),
            eff)).
Proof.
  intros Hbody Hfind Hne. split.
  - intros pushEvent Hdec Hkind Htoken. unfold gitlabWebhook.
    rewrite Hbody, Hdec, Hkind. cbn [negb String.eqb].
    rewrite String.eqb_refl. cbn [negb].
    rewrite (filterRepository_none _ _ _ _ repos Hfind Hne); [reflexivity|].
    intros r Hr. apply Htoken, String.eqb_neq in Hr. now rewrite Hr.
  - intros pushEvent Hevent Hdec Hsig. unfold githubWebhook.
    cbv zeta. rewrite Hevent.
    replace (String.eqb GitHubWebhookPush GitHubWebhookPing) with false
      by reflexivity.
    rewrite String.eqb_refl. cbn [negb]. rewrite Hbody, Hdec.
    rewrite (filterRepository_none _ _ _ _ repos Hfind Hne); [reflexivity|].
    intros r Hr. rewrite validateGitHubWebhookSignature256_spec.
    now rewrite bool_decide_eq_false_2 by (apply Hsig, Hr).
Qed.


Lemma push_webhook_secret_mismatch_witness :
  gitlabWebhook pushServer (requestOf "{}" "X-GitHub-Event" "push") noEffects
  = (Returns (Ok {| StatusCode := 200; Body := BodyString "OK" |}), noEffects)
  /\ githubWebhook pushServer (requestOf "{}" "X-GitHub-Event" "push")
       noEffects
     = (Returns (Ok {| StatusCode := 200; Body := BodyString "OK" |}),
        noEffects).
Proof.
  destruct (push_webhook_secret_mismatch pushServer
              (requestOf "{}" "X-GitHub-Event" "push") noEffects "{}"
              [alphaRepository] eq_refl eq_refl ltac:(discriminate))
    as [Hgitlab Hgithub].
  split.
  - eapply Hgitlab; [reflexivity | reflexivity |].
    intros r Hr. apply list_elem_of_singleton in Hr as ->. discriminate.
  - eapply Hgithub; [reflexivity | reflexivity |].
    intros r Hr. apply list_elem_of_singleton in Hr as ->.
    vm_compute. discriminate.
Defined.


(** X4.  A SQL-review request to an endpoint that has at least one
    repository, and that fits none of the repositories of the endpoint, is
    answered 200 with status success and no content, without any file being
    listed or reviewed: this happens when, for every repository, the review
    CI is disabled, or the web URL of the request is no prefix of the
    repository's, or the token is not the repository's secret token (nor,
    in dev mode, the workspace ID). *)
Theorem sqlReviewWebhook_no_repository (s : Server) (c : Request)
    (eff : Effects) (body : string) (request : VCSSQLReviewRequest)
    (repos : list Repository) :
  ReadBody c = Ok body ->
  UnmarshalSQLReviewRequest (codec s) body = Ok request ->
  FindRepository (store s) (ParamID c) = Ok repos ->
  repos <> [] ->
  (forall r,
      r ∈ repos ->
      EnableSQLReviewCI r = false
      \/ HasPrefix (WebURL r) (ReqWebURL request) = false
      \/ (Header c "X-SQL-Review-Token" <> WebhookSecretToken r
          /\ (Header c "X-SQL-Review-Token" <> workspaceID s
              \/ ModeIsDev s = false))) ->
  sqlReviewWebhook s c eff
  = (Returns (Ok {| StatusCode := StatusOK;
                    Body := BodyJSON {| ResultStatus := Success;
                                        ResultContent := [] |} |}),
     eff).
Proof.
  intros Hbody Hreq Hfind Hne Hno. unfold sqlReviewWebhook.
  rewrite Hbody, Hreq.
  rewrite (filterRepository_none _ _ _ _ repos Hfind Hne); [reflexivity|].
  intros r Hr. unfold sqlReviewFilter.
  destruct (Hno r Hr) as [Hci | [Hurl | [Htoken Hdev]]].
  - now rewrite Hci.
  - rewrite Hurl. now destruct (EnableSQLReviewCI r).
  - destruct (negb (EnableSQLReviewCI r)); [reflexivity|].
    destruct (negb (HasPrefix _ _)); [reflexivity|]. cbv zeta.
    apply String.eqb_neq in Htoken. rewrite Htoken.
    destruct Hdev as [Hw | Hm].
    + apply String.eqb_neq in Hw. now rewrite Hw.
    + rewrite Hm. now rewrite andb_false_r.
Qed.

Lemma sqlReviewWebhook_no_repository_witness :
  sqlReviewWebhook reviewServer
    (requestOf "{}" "X-SQL-Review-Token" "guess") noEffects
  = (Returns (Ok {| StatusCode := 200;
                    Body := BodyJSON {| ResultStatus := Success;
                                        ResultContent := [] |} |}),
     noEffects).
Proof.
  apply (sqlReviewWebhook_no_repository reviewServer
           (requestOf "{}" "X-SQL-Review-Token" "guess") noEffects "{}"
           {| ReqRepositoryID := "octo/shop"; ReqPullRequestID := "1";
              ReqWebURL := "https://github.com" |}
           [alphaRepository]); try reflexivity; [discriminate|].
  intros r Hr. apply list_elem_of_singleton in Hr as ->.
  right. right. split; [discriminate | now right].
Defined.

Lemma filterRepositoryLoop_fails (pushEventRepositoryID : string)
    (filter : repositoryFilter) (e : error) (repos : list Repository) :
  (forall r, r ∈ repos -> filter r = Ok false \/ filter r = Err e) ->
  (exists r, r ∈ repos /\ eligible pushEventRepositoryID r = true
             /\ filter r = Err e) ->
  forall filteredRepos,
    filterRepositoryLoop pushEventRepositoryID filter repos filteredRepos
    = Err e.
Proof.
  induction repos as [|repo repos IH]; intros Hf (r & Hr & Hel & He) acc.
  { now apply elem_of_nil in Hr. }
  cbn [filterRepositoryLoop].
  apply elem_of_cons in Hr as [->|Hr].
  - unfold eligible in Hel.
    apply andb_true_iff in Hel as [Hel Hid].
    apply andb_true_iff in Hel as [Ha Hv].
    apply negb_true_iff in Ha. rewrite Ha, Hv, Hid, He. reflexivity.
  - assert (IH' : filterRepositoryLoop pushEventRepositoryID filter repos acc
                  = Err e).
    { apply IH; [|eauto].
      intros r' Hr'. apply Hf. now apply list_elem_of_further. }
    destruct (bool_decide (ProjectRowStatus _ = _)); [exact IH'|].
    destruct (negb (bool_decide (is_Some _))); [exact IH'|].
    destruct (negb (String.eqb _ _)); [exact IH'|].
    destruct (Hf repo (list_elem_of_here _ _)) as [-> | ->];
      [exact IH' | reflexivity].
Qed.

(** X5.  A push to a ref that is not a branch (for example a tag) is
    rejected with status 400 and without effect as soon as one repository of
    the endpoint is eligible and knows the secret, whatever the branch
    filters are; this holds on the GitLab endpoint (token) and on the GitHub
    endpoint (signature). *)
Theorem push_webhook_not_a_branch (s : Server) (c : Request)
    (eff : Effects) (body : string) (repos : list Repository)
    (repo : Repository) :
  ReadBody c = Ok body ->
  FindRepository (store s) (ParamID c) = Ok repos ->
  repo ∈ repos ->
  (forall pushEvent,
      UnmarshalGitLabPushEvent (codec s) body = Ok pushEvent ->
      ObjectKind pushEvent = GitLabWebhookPush ->
      (forall branch, branch <> "" ->
                      GitLabRef pushEvent <> expectedPrefix ++ branch) ->
      eligible (Itoa (GitLabProjectID pushEvent)) repo = true ->
      Header c "X-Gitlab-Token" = WebhookSecretToken repo ->
      exists err,
        gitlabWebhook s c eff = (Returns (Err err), eff)
        /\ errorStatus err = StatusBadRequest)
  /\ (forall pushEvent,
         Header c "X-GitHub-Event" = GitHubWebhookPush ->
         UnmarshalGitHubPushEvent (codec s) body = Ok pushEvent ->
         (forall branch, branch <> "" ->
                         GitHubRef pushEvent <> expectedPrefix ++ branch) ->
         eligible (RepositoryFullName pushEvent) repo = true ->
         TrimPrefix (Header c "X-Hub-Signature-256") "sha256="
         = EncodeToString (HMACSHA256 (WebhookSecretToken repo) body) ->
         exists err,
           githubWebhook s c eff = (Returns (Err err), eff)
           /\ errorStatus err = StatusBadRequest).
Proof.
  intros Hbody Hfind Hrepo.
  assert (Hbad : forall ref filter,
             (forall branch, branch <> "" -> ref <> expectedPrefix ++ branch) ->
             isWebhookEventBranch ref filter
             = Err (ErrHTTPInternal StatusBadRequest "Invalid ref: %s"
                      (ErrUnexpectedRef ref expectedPrefix))).
  { intros ref filter Hnot. unfold isWebhookEventBranch.
    destruct (parseBranchNameFromRefs ref) as [branch|e] eqn:Hp.
    - apply parseBranchNameFromRefs_Ok in Hp as [-> Hne].
      now destruct (Hnot branch Hne).
    - unfold parseBranchNameFromRefs in Hp.
      destruct (_ || _); [|discriminate]. now injection Hp as <-. }
  assert (Hne : repos <> []) by (intros ->; now apply elem_of_nil in Hrepo).
  split.
  - intros pushEvent Hdec Hkind Hnot Hel Htoken.
    exists (ErrHTTPInternal StatusBadRequest "Invalid ref: %s"
              (ErrUnexpectedRef (GitLabRef pushEvent) expectedPrefix)).
    unfold gitlabWebhook. rewrite Hbody, Hdec, Hkind.
    rewrite String.eqb_refl. cbn [negb]. unfold filterRepository.
    rewrite Hfind. destruct repos as [|r0 repos0]; [congruence|].
    rewrite (filterRepositoryLoop_fails _ _
               (ErrHTTPInternal StatusBadRequest "Invalid ref: %s"
                  (ErrUnexpectedRef (GitLabRef pushEvent) expectedPrefix)));
      [split; reflexivity | |].
    + intros r _. destruct (negb (String.eqb _ _)); [now left|].
      right. now apply Hbad.
    + exists repo. split; [exact Hrepo|]. split; [exact Hel|].
      rewrite Htoken, String.eqb_refl. cbn [negb]. now apply Hbad.
  - intros pushEvent Hevent Hdec Hnot Hel Hsig.
    exists (ErrHTTPInternal StatusBadRequest "Invalid ref: %s"
              (ErrUnexpectedRef (GitHubRef pushEvent) expectedPrefix)).
    unfold githubWebhook. cbv zeta. rewrite Hevent.
    replace (String.eqb GitHubWebhookPush GitHubWebhookPing) with false
      by reflexivity.
    rewrite String.eqb_refl. cbn [negb]. rewrite Hbody, Hdec.
    unfold filterRepository.
    rewrite Hfind. destruct repos as [|r0 repos0]; [congruence|].
    rewrite (filterRepositoryLoop_fails _ _
               (ErrHTTPInternal StatusBadRequest "Invalid ref: %s"
                  (ErrUnexpectedRef (GitHubRef pushEvent) expectedPrefix)));
      [split; reflexivity | |].
    + intros r _. rewrite validateGitHubWebhookSignature256_spec.
      destruct (bool_decide _); [|now left]. right. now apply Hbad.
    + exists repo. split; [exact Hrepo|]. split; [exact Hel|].
      rewrite validateGitHubWebhookSignature256_spec.
      rewrite bool_decide_eq_true_2 by exact Hsig. now apply Hbad.
Qed.


Lemma push_webhook_not_a_branch_witness :
  (exists err,
      gitlabWebhook tagServer signedPush noEffects
      = (Returns (Err err), noEffects)
      /\ errorStatus err = 400)
  /\ (exists err,
         githubWebhook tagServer signedPush noEffects
         = (Returns (Err err), noEffects)
         /\ errorStatus err = 400).
Proof.
  split.
  - eapply (proj1 (push_webhook_not_a_branch tagServer signedPush noEffects
                     "{}" [gitlabRepository; alphaRepository]
                     gitlabRepository eq_refl eq_refl
                     (list_elem_of_here _ _)));
      try reflexivity.
    intros branch _ H. vm_compute in H. discriminate H.
  - eapply (proj2 (push_webhook_not_a_branch tagServer signedPush noEffects
                     "{}" [gitlabRepository; alphaRepository]
                     alphaRepository eq_refl eq_refl
                     (list_elem_of_further _ _ _ (list_elem_of_here _ _))));
      try reflexivity.
    intros branch _ H. vm_compute in H. discriminate H.
Defined.


(** X6.  A request to an endpoint for which the store has no repository is
    answered 404 without effect, on the GitLab and GitHub endpoints (for a
    push event that can be decoded) and on the SQL-review endpoint (for a
    request that can be decoded). *)
Theorem webhook_unknown_endpoint (s : Server) (c : Request) (eff : Effects)
    (body : string) :
  ReadBody c = Ok body ->
  FindRepository (store s) (ParamID c) = Ok [] ->
  (forall pushEvent,
      UnmarshalGitLabPushEvent (codec s) body = Ok pushEvent ->
      ObjectKind pushEvent = GitLabWebhookPush ->
      exists err,
        gitlabWebhook s c eff = (Returns (Err err), eff)
        /\ errorStatus err = StatusNotFound)
  /\ (forall pushEvent,
         Header c "X-GitHub-Event" = GitHubWebhookPush ->
         UnmarshalGitHubPushEvent (codec s) body = Ok pushEvent ->
         exists err,
           githubWebhook s c eff = (Returns (Err err), eff)
           /\ errorStatus err = StatusNotFound)
  /\ (forall request,
         UnmarshalSQLReviewRequest (codec s) body = Ok request ->
         exists err,
           sqlReviewWebhook s c eff = (Returns (Err err), eff)
           /\ errorStatus err = StatusNotFound).
Proof.
  intros Hbody Hfind. split; [|split].
  - intros pushEvent Hdec Hkind. eexists. unfold gitlabWebhook.
    rewrite Hbody, Hdec, Hkind, String.eqb_refl. cbn [negb].
    unfold filterRepository. rewrite Hfind. split; reflexivity.
  - intros pushEvent Hevent Hdec. eexists. unfold githubWebhook. cbv zeta.
    rewrite Hevent.
    replace (String.eqb GitHubWebhookPush GitHubWebhookPing) with false
      by reflexivity.
    rewrite String.eqb_refl. cbn [negb]. rewrite Hbody, Hdec.
    unfold filterRepository. rewrite Hfind. split; reflexivity.
  - intros request Hdec. eexists. unfold sqlReviewWebhook.
    rewrite Hbody, Hdec. unfold filterRepository. rewrite Hfind.
    split; reflexivity.
Qed.

Lemma webhook_unknown_endpoint_witness :
  (exists err,
      gitlabWebhook
        (serverOf (storeOf [] []) (providerOf "" []) (tablePlugin [] [])
           (pushCodecOf []))
        (requestOf "{}" "X-Gitlab-Token" "token") noEffects
      = (Returns (Err err), noEffects)
      /\ errorStatus err = 404)
  /\ (exists err,
         sqlReviewWebhook
           (serverOf (storeOf [] []) flakyProvider overlapPlugin reviewCodec)
           (requestOf "{}" "X-SQL-Review-Token" "token") noEffects
         = (Returns (Err err), noEffects)
         /\ errorStatus err = 404).
Proof.
  split.
  - eapply (proj1 (webhook_unknown_endpoint
                     (serverOf (storeOf [] []) (providerOf "" [])
                        (tablePlugin [] []) (pushCodecOf []))
                     (requestOf "{}" "X-Gitlab-Token" "token") noEffects "{}"
                     eq_refl eq_refl)); reflexivity.
  - eapply (proj2 (proj2 (webhook_unknown_endpoint
                            (serverOf (storeOf [] []) flakyProvider
                               overlapPlugin reviewCodec)
                            (requestOf "{}" "X-SQL-Review-Token" "token")
                            noEffects "{}" eq_refl eq_refl))); reflexivity.
Defined.


(** ** Grouping of the changed files *)

Lemma lookup_appendAt `{Countable K} {A} (k k' : K) (x : A)
    (m : gmap K (list A)) :
  appendAt k x m !! k'
  = if decide (k = k') then Some (default [] (m !! k) ++ [x])%list
    else m !! k'.
Proof.
  unfold appendAt. destruct (decide (k = k')) as [->|Hne].
  - apply lookup_insert_eq.
  - now apply lookup_insert_ne.
Qed.

Lemma groupFileInfoByDatabase_fold (l : list fileInfo) (db : string) :
  forall m : gmap string (list fileInfo),
    m !! db <> Some [] ->
    fold_left
      (fun m fileInfo => appendAt (miDatabase (migrationInfo fileInfo)) fileInfo m)
      l m !! db
    = match (default [] (m !! db)
             ++ List.filter
                  (fun f => String.eqb (miDatabase (migrationInfo f)) db) l)%list
      with
      | [] => None
      | g => Some g
      end.
Proof.
  induction l as [|f l IH]; intros m Hm; cbn [fold_left List.filter].
  - rewrite app_nil_r. destruct (m !! db) as [[|x g]|]; cbn; congruence.
  - rewrite IH; rewrite lookup_appendAt.
    + destruct (decide (miDatabase (migrationInfo f) = db)) as [Hdb|Hdb].
      * rewrite (proj2 (String.eqb_eq _ _) Hdb), Hdb. cbn [default id].
        now rewrite <- app_assoc.
      * now rewrite (proj2 (String.eqb_neq _ _) Hdb).
    + destruct (decide _); [|exact Hm].
      intros [= Habs]. now apply app_eq_nil in Habs as [_ Habs].
Qed.

(** X7.  [groupFileInfoByDatabase] files every file under its database name
    and keeps the order: the group of a database is the list of the files of
    that database, in the order of the input, and a database without file
    has no group (so no group is empty, and all files of a group have the
    same database name). *)
Theorem groupFileInfoByDatabase_groups (fileInfoList : list fileInfo)
    (db : string) :
  groupFileInfoByDatabase fileInfoList !! db
  = match List.filter
            (fun f => String.eqb (miDatabase (migrationInfo f)) db)
            fileInfoList
    with
    | [] => None
    | g => Some g
    end.
Proof.
  unfold groupFileInfoByDatabase.
  rewrite groupFileInfoByDatabase_fold by (rewrite lookup_empty; discriminate).
  now rewrite lookup_empty.
Qed.

Lemma groupFileInfoByRepoLoop_lookup (s : Server)
    (files : list DistinctFileItem) (repositoryList : list Repository)
    (repoID : Z) :
  forall m : gmap Z (list fileInfo),
    m !! repoID <> Some [] ->
    groupFileInfoByRepoLoop (plugin s) files repositoryList m !! repoID
    = match (default [] (m !! repoID)
             ++ List.filter (fun t => RepoID (repository t) =? repoID)
                  (omap (taskOf s repositoryList) files))%list
      with
      | [] => None
      | g => Some g
      end.
Proof.
  induction files as [|file files IH]; intros m Hm;
    cbn [groupFileInfoByRepoLoop omap list_omap List.filter].
  - rewrite app_nil_r. destruct (m !! repoID) as [[|x g]|]; cbn; congruence.
  - destruct (getFileInfo (plugin s) file repositoryList)
      as [[[mi ft] repo]|e] eqn:Hg.
    + assert (taskOf s repositoryList file
              = Some {| item := file; migrationInfo := mi; fType := ft;
                        repository := repo |}) as ->
        by (unfold taskOf; now rewrite Hg).
      cbn [List.filter repository].
      rewrite IH; rewrite lookup_appendAt.
      * destruct (decide (RepoID repo = repoID)) as [Hid|Hid].
        -- rewrite (proj2 (Z.eqb_eq _ _) Hid), Hid. cbn [default id].
           now rewrite <- app_assoc.
        -- now rewrite (proj2 (Z.eqb_neq _ _) Hid).
      * destruct (decide _); [|exact Hm].
        intros [= Habs]. now apply app_eq_nil in Habs as [_ Habs].
    + assert (taskOf s repositoryList file = None) as ->
        by (unfold taskOf; now rewrite Hg).
      now apply IH.
Qed.

(** X8.  [groupFileInfoByRepo] files every changed file that belongs to
    exactly one repository link under the ID of that repository and keeps
    the order: the group of a repository ID is the list of these files, in
    the order of the push event; a file that [getFileInfo] rejects is in no
    group, and no group is empty. *)
Theorem groupFileInfoByRepo_groups (s : Server)
    (distinctFileList : list DistinctFileItem)
    (repositoryList : list Repository) (repoID : Z) :
  groupFileInfoByRepo (plugin s) distinctFileList repositoryList !! repoID
  = match List.filter (fun t => RepoID (repository t) =? repoID)
            (omap (taskOf s repositoryList) distinctFileList)
    with
    | [] => None
    | g => Some g
    end.
Proof.
  unfold groupFileInfoByRepo.
  rewrite groupFileInfoByRepoLoop_lookup by (rewrite lookup_empty; discriminate).
  now rewrite lookup_empty.
Qed.


(** X9.  A file that [getFileInfo] accepts belongs to the repository it
    returns and to no other one of the list: the repository is in the list,
    the file lies under its base directory and is classified by its
    templates as a migration or a schema file (never as unknown), no other
    repository of the list classifies the file, and a YAML file that is
    accepted as a migration file is a data change. *)
Theorem getFileInfo_accepts (p : DBPlugin) (fileItem : DistinctFileItem)
    (repositoryList : list Repository) (mi : MigrationInfo) (ft : fileType)
    (repo : Repository) :
  getFileInfo p fileItem repositoryList = Ok (mi, ft, repo) ->
  repo ∈ repositoryList
  /\ HasPrefix (FileName fileItem) (BaseDirectory repo) = true
  /\ classify p fileItem repo = Some (mi, ft)
  /\ ft <> unknownFileType
  /\ (forall r, r ∈ repositoryList -> is_Some (classify p fileItem r) ->
                r = repo)
  /\ (IsYAML fileItem = true -> ft = migrationFileType -> miType mi = Data).
Proof.
  rewrite getFileInfo_spec.
  destruct (existsb (yamlNotData p fileItem) repositoryList) eqn:Hyaml;
    [discriminate|].
  destruct (List.filter (matchesLink p fileItem) repositoryList)
    as [|r [|r' l]] eqn:Hf; try discriminate.
  assert (Hr : In r repositoryList /\ matchesLink p fileItem r = true).
  { apply filter_In. rewrite Hf. now left. }
  destruct Hr as [Hin Hm]. unfold matchesLink in Hm.
  apply bool_decide_eq_true_1 in Hm as [[mi' ft'] Hc].
  rewrite Hc. cbn [default]. intros [= -> -> ->].
  assert (Hnotyaml : yamlNotData p fileItem repo = false).
  { destruct (yamlNotData p fileItem repo) eqn:Hy; [|reflexivity].
    rewrite <- Hyaml. symmetry. apply existsb_exists. eauto. }
  split; [now apply list_elem_of_In|].
  split.
  { unfold classify in Hc.
    destruct (HasPrefix _ _); [reflexivity | discriminate]. }
  split; [exact Hc|].
  split.
  { unfold classify in Hc. destruct (negb _); [discriminate|].
    destruct (migrationTemplateOf _ _) as [t o].
    destruct (ParseMigrationInfo _ _ _ _) as [[m|]|e]; try congruence.
    destruct (ParseSchemaFileInfo _ _ _ _) as [[m|]|e]; congruence. }
  split.
  - intros r Hr Hsome.
    assert (Hrf : In r (List.filter (matchesLink p fileItem) repositoryList)).
    { apply filter_In. split; [now apply list_elem_of_In|].
      unfold matchesLink. now apply bool_decide_eq_true_2. }
    rewrite Hf in Hrf. destruct Hrf as [<-|[]]. reflexivity.
  - intros Hy ->. unfold yamlNotData in Hnotyaml. rewrite Hc, Hy in Hnotyaml.
    cbn [andb] in Hnotyaml. apply negb_false_iff in Hnotyaml.
    now apply bool_decide_eq_true_1 in Hnotyaml.
Qed.

Lemma getFileInfo_accepts_witness :
  alphaRepository ∈ [alphaRepository]
  /\ HasPrefix (FileName plainFile) (BaseDirectory alphaRepository) = true
  /\ classify overlapPlugin plainFile alphaRepository
     = Some (migrationOf "shop" "v2" Migrate, migrationFileType)
  /\ migrationFileType <> unknownFileType
  /\ (forall r, r ∈ [alphaRepository] ->
                is_Some (classify overlapPlugin plainFile r) ->
                r = alphaRepository)
  /\ (IsYAML plainFile = true -> migrationFileType = migrationFileType ->
      miType (migrationOf "shop" "v2" Migrate) = Data).
Proof.
  apply (getFileInfo_accepts overlapPlugin plainFile [alphaRepository]).
  reflexivity.
Defined.


(** ** Preparing the migration details of a file *)

Lemma withPatches_nil (eff : Effects) : withPatches eff [] = eff.
Proof. destruct eff. unfold withPatches. cbn. now rewrite app_nil_r. Qed.

Lemma withPatches_app (eff : Effects) (l1 l2 : list TaskPatch) :
  withPatches (withPatches eff l1) l2 = withPatches eff (l1 ++ l2).
Proof. unfold withPatches. cbn. now rewrite app_assoc. Qed.

Lemma tryUpdateTasksFromModifiedFile_run (s : Server)
    (databases : list Database) (fileName schemaVersion statement : string)
    (eff : Effects) :
  exists r patches,
    tryUpdateTasksFromModifiedFile s databases fileName schemaVersion
      statement eff
    = (Returns r, withPatches eff patches)
    /\ (length patches <= length databases)%nat
    /\ Forall
         (fun tp =>
            PatchStatement tp = statement
            /\ exists d task,
                 d ∈ databases
                 /\ FindTask (store s) (DatabaseID d) schemaVersion = Ok [task]
                 /\ PatchTaskID tp = TaskID task)
         patches
    /\ (forall e, r = Err e ->
                  exists d, d ∈ databases
                            /\ FindTask (store s) (DatabaseID d) schemaVersion
                               = Err e).
Proof.
  revert eff. induction databases as [|d databases IH]; intros eff;
    cbn [tryUpdateTasksFromModifiedFile].
  { exists (Ok tt), []. rewrite withPatches_nil.
    split; [reflexivity|]. split; [cbn; lia|].
    split; [constructor | discriminate]. }
  assert (Hstop : forall r0 : result unit,
             (forall e, r0 = Err e ->
                        FindTask (store s) (DatabaseID d) schemaVersion = Err e) ->
             exists r patches,
               (Returns r0, eff) = (Returns r, withPatches eff patches)
               /\ (length patches <= length (d :: databases))%nat
               /\ Forall
                    (fun tp =>
                       PatchStatement tp = statement
                       /\ exists d0 task,
                            d0 ∈ d :: databases
                            /\ FindTask (store s) (DatabaseID d0) schemaVersion
                               = Ok [task]
                            /\ PatchTaskID tp = TaskID task)
                    patches
               /\ (forall e, r = Err e ->
                             exists d0, d0 ∈ d :: databases
                                        /\ FindTask (store s) (DatabaseID d0)
                                             schemaVersion = Err e)).
  { intros r0 Hr0. exists r0, []. rewrite withPatches_nil.
    split; [reflexivity|]. split; [cbn; lia|]. split; [constructor|].
    intros e He. exists d. split; [apply list_elem_of_here | now apply Hr0]. }
  assert (Hgo : forall eff1 patch1,
             (length patch1 <= 1)%nat ->
             Forall
               (fun tp =>
                  PatchStatement tp = statement
                  /\ exists task,
                       FindTask (store s) (DatabaseID d) schemaVersion
                       = Ok [task]
                       /\ PatchTaskID tp = TaskID task)
               patch1 ->
             eff1 = withPatches eff patch1 ->
             exists r patches,
               tryUpdateTasksFromModifiedFile s databases fileName
                 schemaVersion statement eff1
               = (Returns r, withPatches eff patches)
               /\ (length patches <= length (d :: databases))%nat
               /\ Forall
                    (fun tp =>
                       PatchStatement tp = statement
                       /\ exists d0 task,
                            d0 ∈ d :: databases
                            /\ FindTask (store s) (DatabaseID d0) schemaVersion
                               = Ok [task]
                            /\ PatchTaskID tp = TaskID task)
                    patches
               /\ (forall e, r = Err e ->
                             exists d0, d0 ∈ d :: databases
                                        /\ FindTask (store s) (DatabaseID d0)
                                             schemaVersion = Err e)).
  { intros eff1 patch1 Hlen Hp1 ->.
    destruct (IH (withPatches eff patch1)) as (r & patches & Hrun & Hl & HF & He).
    exists r, (patch1 ++ patches)%list. rewrite Hrun, withPatches_app.
    split; [reflexivity|]. split; [rewrite length_app; cbn; lia|].
    split.
    - apply Forall_app. split.
      + eapply Forall_impl; [exact Hp1|].
        intros tp (Hst & task & Hfind & Hid). split; [exact Hst|].
        exists d, task. split; [apply list_elem_of_here | auto].
      + eapply Forall_impl; [exact HF|].
        intros tp (Hst & d0 & task & Hd0 & Hfind & Hid). split; [exact Hst|].
        exists d0, task. split; [now apply list_elem_of_further | auto].
    - intros e Hre. destruct (He e Hre) as (d0 & Hd0 & Hfind).
      exists d0. split; [now apply list_elem_of_further | exact Hfind]. }
  destruct (FindTask (store s) (DatabaseID d) schemaVersion)
    as [[|task [|task' tasks]]|e] eqn:Hfind.
  - apply (Hgo eff []); [cbn; lia | constructor |].
    now rewrite withPatches_nil.
  - destruct (GetIssueByPipelineID (store s) (PipelineID task))
      as [[issue|]|e]; try (apply Hstop; discriminate).
    unfold bind, doPatchTask.
    destruct (patchTask s task _ issue) as [u|e];
      [|apply Hstop; discriminate].
    apply (Hgo _ [{| PatchTaskID := TaskID task;
                     PatchStatement := statement |}]);
      [cbn; lia | | reflexivity].
    constructor; [|constructor]. split; [reflexivity|]. now exists task.
  - apply Hstop. discriminate.
  - apply Hstop. now intros e' [= ->].
Qed.

(** X10.  [tryUpdateTasksFromModifiedFile] only patches tasks: it never
    panics, creates no issue and records no activity; it patches at most one
    task per database, each patch sets the statement of the single task that
    the store finds for the database and the schema version, and the only
    error it returns is an error of the task lookup. *)
Theorem tryUpdateTasksFromModifiedFile_patches (s : Server)
    (databases : list Database) (fileName schemaVersion statement : string)
    (eff : Effects) :
  exists r patches,
    tryUpdateTasksFromModifiedFile s databases fileName schemaVersion
      statement eff
    = (Returns r, withPatches eff patches)
    /\ (length patches <= length databases)%nat
    /\ Forall
         (fun tp =>
            PatchStatement tp = statement
            /\ exists d task,
                 d ∈ databases
                 /\ FindTask (store s) (DatabaseID d) schemaVersion = Ok [task]
                 /\ PatchTaskID tp = TaskID task)
         patches
    /\ (forall e, r = Err e ->
                  exists d, d ∈ databases
                            /\ FindTask (store s) (DatabaseID d) schemaVersion
                               = Err e).
Proof. apply tryUpdateTasksFromModifiedFile_run. Qed.


Lemma yamlMigrationDetails_details (s : Server) (projectID : Z)
    (mi : MigrationInfo) (statement : string) (databases : list string) :
  forall acc details,
    Forall (fun d => mdMigrationType d = miType mi
                     /\ mdSchemaVersion d = miVersion mi
                     /\ mdStatement d = statement) acc ->
    yamlMigrationDetails s projectID mi statement databases acc = Ok details ->
    Forall (fun d => mdMigrationType d = miType mi
                     /\ mdSchemaVersion d = miVersion mi
                     /\ mdStatement d = statement) details.
Proof.
  induction databases as [|name databases IH]; intros acc details Hacc;
    cbn [yamlMigrationDetails].
  - now intros [= <-].
  - destruct (findProjectDatabases s projectID name "") as [dbList|e];
      [|discriminate].
    apply IH. apply Forall_app. split; [exact Hacc|].
    apply Forall_forall. intros d Hd. apply list_elem_of_In in Hd.
    apply in_map_iff in Hd as (x & <- & _). now cbn.
Qed.

Ltac prepared_without_patch :=
  split;
  [ exists (@nil TaskPatch);
    split; [now rewrite withPatches_nil | congruence] |];
  split; [first [now left | now right] |];
  split; [first [now left | right; eexists; reflexivity] |].

Lemma prepareIssueFromFile_run (s : Server) (repo : Repository)
    (pushEvent : PushEvent) (f : fileInfo) (eff eff' : Effects)
    (details : list MigrationDetail) (acts : list ActivityCreate) :
  prepareIssueFromFile s repo pushEvent f eff = (Returns (details, acts), eff') ->
  (exists patches,
      eff' = withPatches eff patches
      /\ (patches <> [] ->
          TenantMode (RepoProject repo) <> TenantModeTenant
          /\ ItemType (item f) <> FileItemTypeAdded))
  /\ (details = [] \/ acts = [])
  /\ (acts = []
      \/ exists err,
           acts = [getIgnoredFileActivityCreate (ProjectID repo) pushEvent
                     (FileName (item f)) err])
  /\ Forall (fun d => mdMigrationType d = miType (migrationInfo f)
                      /\ mdSchemaVersion d = miVersion (migrationInfo f))
       details
  /\ (TenantMode (RepoProject repo) <> TenantModeTenant ->
      ItemType (item f) <> FileItemTypeAdded -> details = []).
Proof.
  unfold prepareIssueFromFile, bind.
  pose proof (readFileContent_effects s pushEvent repo (FileName (item f)) eff)
    as Hread.
  destruct (readFileContent s pushEvent repo (FileName (item f)) eff)
    as [[[content|e]|w] eff1]; cbn in Hread; subst eff1; [| |discriminate].
  2:{ intros [= <- <- <-]. prepared_without_patch.
      split; [constructor | reflexivity]. }
  case_bool_decide as Htenant.
  - destruct (negb (IsYAML (item f))).
    + intros [= <- <- <-]. prepared_without_patch.
      split; [repeat constructor | congruence].
    + destruct (UnmarshalMigrationFileYAML (codec s) content) as [y|e].
      2:{ intros [= <- <- <-]. prepared_without_patch.
          split; [constructor | reflexivity]. }
      destruct (yamlMigrationDetails _ _ _ _ _ _) as [ds|e] eqn:Hy.
      2:{ intros [= <- <- <-]. prepared_without_patch.
          split; [constructor | reflexivity]. }
      intros [= <- <- <-]. prepared_without_patch.
      split; [|congruence].
      apply yamlMigrationDetails_details in Hy; [|constructor].
      eapply Forall_impl; [exact Hy|]. now intros d (? & ? & _).
  - destruct (findProjectDatabases s _ _ _) as [dbs|e].
    2:{ intros [= <- <- <-]. prepared_without_patch.
        split; [constructor | reflexivity]. }
    case_bool_decide as Hadded.
    + intros [= <- <- <-]. prepared_without_patch.
      split; [|congruence].
      apply Forall_forall. intros d Hd. apply list_elem_of_In in Hd.
      apply in_map_iff in Hd as (x & <- & _). now cbn.
    + destruct (tryUpdateTasksFromModifiedFile_run s dbs (FileName (item f))
                  (miVersion (migrationInfo f)) content eff)
        as (r & patches & -> & _).
      destruct r as [u|e]; intros [= <- <- <-].
      * split; [exists patches; auto|]. split; [now left|].
        split; [now left|]. split; [constructor | reflexivity].
      * split; [exists patches; auto|]. split; [now left|].
        split; [right; eauto|]. split; [constructor | reflexivity].
Qed.

(** X11.  Whenever [prepareIssueFromFile] returns, it has created no issue
    and recorded no activity, and it has patched tasks only for a file of a
    project without tenant mode that is not newly added.  It returns
    migration details or one warning activity for the ignored file, never
    both; every detail carries the migration type and the schema version
    parsed from the file path, and a file that is not newly added gives no
    detail in a project without tenant mode. *)
Theorem prepareIssueFromFile_returns (s : Server) (repo : Repository)
    (pushEvent : PushEvent) (f : fileInfo) (eff eff' : Effects)
    (details : list MigrationDetail) (acts : list ActivityCreate) :
  prepareIssueFromFile s repo pushEvent f eff = (Returns (details, acts), eff') ->
  (exists patches,
      eff' = withPatches eff patches
      /\ (patches <> [] ->
          TenantMode (RepoProject repo) <> TenantModeTenant
          /\ ItemType (item f) <> FileItemTypeAdded))
  /\ (details = [] \/ acts = [])
  /\ (acts = []
      \/ exists err,
           acts = [getIgnoredFileActivityCreate (ProjectID repo) pushEvent
                     (FileName (item f)) err])
  /\ Forall (fun d => mdMigrationType d = miType (migrationInfo f)
                      /\ mdSchemaVersion d = miVersion (migrationInfo f))
       details
  /\ (TenantMode (RepoProject repo) <> TenantModeTenant ->
      ItemType (item f) <> FileItemTypeAdded -> details = []).
Proof. apply prepareIssueFromFile_run. Qed.

Lemma prepareIssueFromFile_returns_witness :
  (exists patches,
      noEffects = withPatches noEffects patches
      /\ (patches <> [] ->
          TenantMode (RepoProject alphaRepository) <> TenantModeTenant
          /\ ItemType (item shopV2) <> FileItemTypeAdded))
  /\ (shopV2Details = [] \/ @nil ActivityCreate = [])
  /\ (@nil ActivityCreate = []
      \/ exists err,
           [] = [getIgnoredFileActivityCreate (ProjectID alphaRepository)
                   onePush (FileName (item shopV2)) err])
  /\ Forall (fun d => mdMigrationType d = miType (migrationInfo shopV2)
                      /\ mdSchemaVersion d = miVersion (migrationInfo shopV2))
       shopV2Details
  /\ (TenantMode (RepoProject alphaRepository) <> TenantModeTenant ->
      ItemType (item shopV2) <> FileItemTypeAdded -> shopV2Details = []).
Proof.
  apply (prepareIssueFromFile_returns alphaServer alphaRepository onePush
           shopV2 noEffects noEffects shopV2Details []).
  vm_compute. reflexivity.
Defined.


Lemma prepareIssueFromSDLFile_run (s : Server) (repo : Repository)
    (pushEvent : PushEvent) (schemaInfo : MigrationInfo) (file : string)
    (eff eff' : Effects) (details : list MigrationDetail)
    (acts : list ActivityCreate) :
  prepareIssueFromSDLFile s repo pushEvent schemaInfo file eff
  = (Returns (details, acts), eff') ->
  eff' = eff
  /\ (details = [] \/ acts = [])
  /\ (acts = []
      \/ exists err,
           acts = [getIgnoredFileActivityCreate (ProjectID repo) pushEvent
                     file err])
  /\ Forall (fun d => mdMigrationType d = MigrateSDL
                      /\ mdSchemaVersion d = "") details
  /\ (miDatabase schemaInfo = "" -> details = [] /\ acts = []).
Proof.
  unfold prepareIssueFromSDLFile.
  destruct (String.eqb_spec (miDatabase schemaInfo) "") as [Hdb|Hdb].
  { intros [= <- <- <-]. split; [reflexivity|]. split; [now left|].
    split; [now left|]. split; [constructor | now split]. }
  unfold bind.
  pose proof (readFileContent_effects s pushEvent repo file eff) as Hread.
  destruct (readFileContent s pushEvent repo file eff)
    as [[[sdl|e]|w] eff1]; cbn in Hread; subst eff1; [| |discriminate].
  2:{ intros [= <- <- <-]. split; [reflexivity|]. split; [now left|].
      split; [right; eauto|]. split; [constructor | congruence]. }
  destruct (bool_decide (TenantMode (RepoProject repo) = TenantModeTenant)).
  - intros [= <- <- <-]. split; [reflexivity|]. split; [now right|].
    split; [now left|]. split; [repeat constructor | congruence].
  - destruct (findProjectDatabases s _ _ _) as [dbs|e].
    + intros [= <- <- <-]. split; [reflexivity|]. split; [now right|].
      split; [now left|]. split; [|congruence].
      apply Forall_forall. intros d Hd. apply list_elem_of_In in Hd.
      apply in_map_iff in Hd as (x & <- & _). now cbn.
    + intros [= <- <- <-]. split; [reflexivity|]. split; [now left|].
      split; [right; eauto|]. split; [constructor | congruence].
Qed.

(** X12.  Whenever [prepareIssueFromSDLFile] returns, it has written
    nothing.  It returns migration details or one warning activity for the
    ignored file, never both, and neither for a schema file without database
    name; every detail is of kind [MigrateSDL] and has no schema version. *)
Theorem prepareIssueFromSDLFile_returns (s : Server) (repo : Repository)
    (pushEvent : PushEvent) (schemaInfo : MigrationInfo) (file : string)
    (eff eff' : Effects) (details : list MigrationDetail)
    (acts : list ActivityCreate) :
  prepareIssueFromSDLFile s repo pushEvent schemaInfo file eff
  = (Returns (details, acts), eff') ->
  eff' = eff
  /\ (details = [] \/ acts = [])
  /\ (acts = []
      \/ exists err,
           acts = [getIgnoredFileActivityCreate (ProjectID repo) pushEvent
                     file err])
  /\ Forall (fun d => mdMigrationType d = MigrateSDL
                      /\ mdSchemaVersion d = "") details
  /\ (miDatabase schemaInfo = "" -> details = [] /\ acts = []).
Proof. apply prepareIssueFromSDLFile_run. Qed.


Lemma prepareIssueFromSDLFile_returns_witness :
  noEffects = noEffects
  /\ (sdlDetails = [] \/ @nil ActivityCreate = [])
  /\ (@nil ActivityCreate = []
      \/ exists err,
           [] = [getIgnoredFileActivityCreate (ProjectID sdlRepository)
                   onePush "db/shop__LATEST.sql" err])
  /\ Forall (fun d => mdMigrationType d = MigrateSDL
                      /\ mdSchemaVersion d = "") sdlDetails
  /\ (miDatabase (migrationOf "shop" "" Migrate) = "" ->
      sdlDetails = [] /\ @nil ActivityCreate = []).
Proof.
  apply (prepareIssueFromSDLFile_returns sdlServer sdlRepository onePush
           (migrationOf "shop" "" Migrate) "db/shop__LATEST.sql"
           noEffects noEffects sdlDetails []).
  vm_compute. reflexivity.
Defined.


(** ** What a push writes *)

Lemma written_nil (eff : Effects) : written eff [] [] [] = eff.
Proof. destruct eff. unfold written. cbn. now rewrite !app_nil_r. Qed.

Lemma written_written (eff : Effects) (i1 i2 : list IssueCreate)
    (a1 a2 : list ActivityCreate) (p1 p2 : list TaskPatch) :
  written (written eff i1 a1 p1) i2 a2 p2
  = written eff (i1 ++ i2) (a1 ++ a2) (p1 ++ p2).
Proof. unfold written. cbn. now rewrite !app_assoc. Qed.

Lemma withPatches_written (eff : Effects) (patches : list TaskPatch) :
  withPatches eff patches = written eff [] [] patches.
Proof. unfold withPatches, written. now rewrite !app_nil_r. Qed.

Lemma createIssueFromMigrationDetailList_written (s : Server)
    (issueName issueDescription : string) (pushEvent : PushEvent)
    (creatorID projectID : Z) (details : list MigrationDetail)
    (eff : Effects) :
  let ic :=
    issueCreateOf issueName issueDescription pushEvent creatorID projectID
      details in
  exists r issues acts,
    createIssueFromMigrationDetailList s issueName issueDescription pushEvent
      creatorID projectID details eff
    = (Returns r, written eff issues acts [])
    /\ (issues = [] \/ issues = [ic])
    /\ (r = Ok tt -> issues = [ic] /\ length acts = 1%nat)
    /\ (forall e, r = Err e ->
                  acts = [] /\ errorStatus e = StatusInternalServerError)
    /\ Forall (fun a => Level a = ActivityInfo /\ ContainerID a = projectID)
         acts.
Proof.
  intros ic. unfold createIssueFromMigrationDetailList. fold ic.
  unfold bind, doCreateIssue.
  destruct (createIssue s ic) as [issue|e].
  - unfold doCreateActivity.
    destruct (CreateActivity s _) as [u|e].
    + exists (Ok tt), [ic], [{| ActivityCreatorID := creatorID;
                                ContainerID := projectID;
                                Level := ActivityInfo;
                                Comment := CommentCreatedIssue (IssueNameOf issue);
                                Payload := (pushEvent, Some issue) |}].
      split; [unfold written; cbn; now rewrite app_nil_r|].
      split; [now right|]. split; [now split|].
      split; [discriminate|]. now repeat constructor.
    + eexists (Err _), [ic], [].
      split; [unfold written; cbn; now rewrite !app_nil_r|].
      split; [now right|]. split; [discriminate|].
      split; [intros e' [= <-]; now split | constructor].
  - eexists (Err _), [], [].
    split; [now rewrite written_nil|].
    split; [now left|]. split; [discriminate|].
    split; [intros e' [= <-]; now split | constructor].
Qed.


Lemma issueCreateOf_issueOfPush (issueName issueDescription : string)
    (pushEvent : PushEvent) (creatorID projectID : Z)
    (details : list MigrationDetail) :
  details <> [] ->
  issueOfPush projectID creatorID pushEvent
    (issueCreateOf issueName issueDescription pushEvent creatorID projectID
       details).
Proof. intros Hd. now repeat split. Qed.

Lemma length_zero_nil {A} (l : list A) :
  negb (length l =? 0)%nat = true -> l <> [].
Proof. now destruct l. Qed.

Lemma processFilesLoop_written (s : Server) (pushEvent : PushEvent)
    (repo : Repository) (creatorID : Z) (files : list fileInfo) :
  forall st eff st' err eff',
    processFilesLoop s pushEvent repo creatorID files st eff
    = (Returns (st', err), eff') ->
    exists issues acts patches,
      eff' = written eff issues acts patches
      /\ Forall (issueOfPush (ProjectID repo) creatorID pushEvent) issues
      /\ (SchemaChangeType (RepoProject repo) <> ProjectSchemaChangeTypeSDL ->
          issues = [])
      /\ (length issues
          <= length (List.filter
                       (fun f => bool_decide (fType f = schemaFileType)) files))%nat
      /\ (err = None ->
          createdIssueList st'
          = (createdIssueList st ++ List.map IssueName issues)%list
          /\ length acts = length issues)
      /\ (forall e, err = Some e ->
                    errorStatus e = StatusInternalServerError).
Proof.
  induction files as [|f files IH]; intros st eff st' err eff';
    cbn [processFilesLoop List.filter].
  { intros [= <- <- <-]. exists [], [], []. rewrite written_nil.
    split; [reflexivity|]. split; [constructor|]. split; [reflexivity|].
    split; [cbn; lia|]. split; [|discriminate].
    intros _. now rewrite app_nil_r. }
  destruct (bool_decide (fType f = schemaFileType)).
  - case_bool_decide as Hsdl.
    + unfold bind at 1.
      destruct (prepareIssueFromSDLFile s repo pushEvent (migrationInfo f)
                  (FileName (item f)) eff) as [[[d a]|w] eff1] eqn:Hprep;
        [|discriminate].
      apply prepareIssueFromSDLFile_run in Hprep as [-> _].
      destruct (negb (length d =? 0)%nat) eqn:Hd.
      * apply length_zero_nil in Hd. unfold bind at 1.
        destruct (createIssueFromMigrationDetailList_written s
                    (issueNameOf (miDatabase (migrationInfo f)) "Alter schema")
                    ("Apply schema diff by file "
                     ++ TrimPrefix (FileName (item f))
                          (BaseDirectory repo ++ "/"))
                    pushEvent creatorID (ProjectID repo) d eff)
          as (r & issues1 & acts1 & -> & Hissues1 & Hok & Herr & _).
        assert (HP1 : Forall (issueOfPush (ProjectID repo) creatorID pushEvent)
                        issues1).
        { destruct Hissues1 as [-> | ->]; [constructor|].
          constructor; [|constructor].
          now apply issueCreateOf_issueOfPush. }
        assert (Hlen1 : (length issues1 <= 1)%nat)
          by (destruct Hissues1 as [-> | ->]; cbn; lia).
        destruct r as [[]|e].
        -- intros Hrun. apply IH in Hrun
             as (issues & acts & patches & -> & HP & _ & Hlen & Hnone & Hsome).
           destruct (Hok eq_refl) as [Hi1 Hacts1].
           exists (issues1 ++ issues)%list, (acts1 ++ acts)%list, patches.
           rewrite written_written. split; [reflexivity|].
           split; [now apply Forall_app|]. split; [congruence|].
           split; [rewrite length_app; cbn; lia|]. split; [|exact Hsome].
           intros ->. destruct (Hnone eq_refl) as [-> Hacts].
           rewrite Hi1. cbn.
           split; [now rewrite <- app_assoc|].
           rewrite length_app. lia.
        -- intros [= <- <- <-]. destruct (Herr e eq_refl) as [-> _].
           exists issues1, [], []. split; [reflexivity|].
           split; [exact HP1|]. split; [congruence|].
           split; [cbn; lia|]. split; [discriminate|].
           now intros e' [= <-].
      * intros Hrun. apply IH in Hrun
          as (issues & acts & patches & -> & HP & Hnosdl & Hlen & Hnone
              & Hsome).
        exists issues, acts, patches. split; [reflexivity|].
        split; [exact HP|]. split; [exact Hnosdl|].
        split; [cbn; lia|]. split; [exact Hnone | exact Hsome].
    + intros Hrun. apply IH in Hrun
        as (issues & acts & patches & -> & HP & Hnosdl & Hlen & Hnone & Hsome).
      exists issues, acts, patches. split; [reflexivity|].
      split; [exact HP|]. split; [exact Hnosdl|].
      split; [cbn; lia|]. split; [exact Hnone | exact Hsome].
  - unfold bind at 1.
    destruct (prepareIssueFromFile s repo pushEvent f eff)
      as [[[d a]|w] eff1] eqn:Hprep; [|discriminate].
    apply prepareIssueFromFile_run in Hprep as [(patches1 & -> & _) _].
    intros Hrun. apply IH in Hrun
      as (issues & acts & patches & -> & HP & Hnosdl & Hlen & Hnone & Hsome).
    exists issues, acts, (patches1 ++ patches)%list.
    rewrite withPatches_written, written_written.
    split; [reflexivity|]. split; [exact HP|]. split; [exact Hnosdl|].
    split; [exact Hlen|]. split; [exact Hnone | exact Hsome].
Qed.


Lemma processFilesInProject_written (s : Server) (pushEvent : PushEvent)
    (repo : Repository) (files : list fileInfo) (eff eff' : Effects)
    (names : list string) (created : bool) (acts : list ActivityCreate)
    (err : option error) :
  processFilesInProject s pushEvent repo files eff
  = (Returns (names, created, acts, err), eff') ->
  exists issues activities patches,
    eff' = written eff issues activities patches
    /\ Forall (issueOfPush (ProjectID repo) (creatorOf s pushEvent) pushEvent)
         issues
    /\ (length issues <= S (length (List.filter isSchemaFile files)))%nat
    /\ (SchemaChangeType (RepoProject repo) <> ProjectSchemaChangeTypeSDL ->
        (length issues <= 1)%nat)
    /\ (err = None ->
        (names = [] \/ names = List.map IssueName issues)
        /\ created = negb (length issues =? 0)%nat
        /\ length activities = length issues)
    /\ (forall e, err = Some e ->
                  names = []
                  /\ (errorStatus e = StatusInternalServerError
                      \/ errorStatus e = StatusForbidden /\ issues = [])).
Proof.
  unfold processFilesInProject.
  destruct (bool_decide _ && negb _).
  { intros [= <- <- <- <- <-]. exists [], [], []. rewrite written_nil.
    split; [reflexivity|]. split; [constructor|]. split; [cbn; lia|].
    split; [cbn; lia|]. split; [discriminate|].
    intros e [= <-]. split; [reflexivity|]. right. now split. }
  unfold creatorOf.
  destruct (CommitList pushEvent) as [|c commits]; [discriminate|].
  unfold bind at 1. cbn [lift first]. unfold bind at 1.
  destruct (processFilesLoop s pushEvent repo _ files noFiles eff)
    as [[[st lerr]|w] eff1] eqn:Hloop; [|discriminate].
  apply processFilesLoop_written in Hloop
    as (issues & activities & patches & -> & HP & Hnosdl & Hlen & Hnone
        & Hsome).
  fold (isSchemaFile) in Hlen.
  destruct lerr as [e|].
  { intros [= <- <- <- <- <-]. exists issues, activities, patches.
    split; [reflexivity|]. split; [exact HP|]. split; [lia|].
    split; [intros H; rewrite (Hnosdl H); cbn; lia|].
    split; [discriminate|]. intros e' [= <-].
    split; [reflexivity|]. left. now apply Hsome. }
  destruct (Hnone eq_refl) as [Hnames Hacts]. cbn [noFiles createdIssueList app] in Hnames.
  destruct (length (migrationDetailList st) =? 0)%nat eqn:Hd.
  { intros [= <- <- <- <- <-]. exists issues, activities, patches.
    split; [reflexivity|]. split; [exact HP|]. split; [lia|].
    split; [intros H; rewrite (Hnosdl H); cbn; lia|].
    split; [|discriminate]. intros _. split; [now left|]. rewrite Hnames.
    now rewrite length_map. }
  unfold mergeIntoIssue.
  destruct files as [|f0 files0]; [discriminate|].
  unfold bind at 1. cbn [lift first]. unfold bind at 1.
  destruct (createIssueFromMigrationDetailList_written s
              (issueNameOf (miDatabase (migrationInfo f0))
                 (migrateTypeLoop (migrationDetailList st)))
              (mergedIssueDescription (fileNameList st)) pushEvent
              (getIssueCreatorID s (AuthorEmail c)) (ProjectID repo)
              (migrationDetailList st)
              (written eff issues activities patches))
    as (r & issues1 & acts1 & -> & Hissues1 & Hok & Herr & _).
  assert (Hdne : migrationDetailList st <> [])
    by (destruct (migrationDetailList st); [discriminate | congruence]).
  assert (HP1 : Forall (issueOfPush (ProjectID repo)
                          (getIssueCreatorID s (AuthorEmail c)) pushEvent)
                  issues1).
  { destruct Hissues1 as [-> | ->]; [constructor|].
    constructor; [|constructor]. now apply issueCreateOf_issueOfPush. }
  assert (Hlen1 : (length issues1 <= 1)%nat)
    by (destruct Hissues1 as [-> | ->]; cbn; lia).
  rewrite written_written.
  destruct r as [[]|e]; intros [= <- <- <- <- <-].
  - destruct (Hok eq_refl) as [Hi1 Hacts1].
    exists (issues ++ issues1)%list, (activities ++ acts1)%list,
      (patches ++ [])%list.
    split; [reflexivity|]. split; [now apply Forall_app|].
    split; [rewrite length_app; lia|].
    split; [intros H; rewrite (Hnosdl H); cbn; lia|].
    split; [|discriminate]. intros _. rewrite Hnames, Hi1.
    rewrite map_app. cbn [List.map IssueName issueCreateOf].
    split; [now right|]. rewrite !length_app. cbn.
    split; [|lia]. now destruct (length issues + 1)%nat eqn:E; [lia|].
  - destruct (Herr e eq_refl) as [-> _].
    exists (issues ++ issues1)%list, (activities ++ [])%list,
      (patches ++ [])%list.
    split; [reflexivity|]. split; [now apply Forall_app|].
    split; [rewrite length_app; lia|].
    split; [intros H; rewrite (Hnosdl H); cbn; lia|].
    split; [discriminate|]. intros e' [= <-].
    split; [reflexivity|]. now left.
Qed.

(** X13.  Whatever [processFilesInProject] returns, it has only added to
    what was written before, and every issue it has created is an issue of
    the project of the repository, created by the author of the first commit
    of the push (the system bot if unknown), assigned to the system bot and
    holding at least one migration detail.  It creates at most one issue per
    schema file and one more, at most one when the project is not SDL.  When
    it returns no error, the created message lists the names of the created
    issues in order or is empty (it is empty when no migration file gave a
    detail, even if issues were created for schema files), [created] tells
    whether an issue was created, and one activity was recorded per issue;
    an error is a 500, or the 403 of the tenant guard with no issue
    created. *)
Theorem processFilesInProject_writes (s : Server) (pushEvent : PushEvent)
    (repo : Repository) (files : list fileInfo) (eff eff' : Effects)
    (names : list string) (created : bool) (acts : list ActivityCreate)
    (err : option error) :
  processFilesInProject s pushEvent repo files eff
  = (Returns (names, created, acts, err), eff') ->
  exists issues activities patches,
    eff' = written eff issues activities patches
    /\ Forall (issueOfPush (ProjectID repo) (creatorOf s pushEvent) pushEvent)
         issues
    /\ (length issues <= S (length (List.filter isSchemaFile files)))%nat
    /\ (SchemaChangeType (RepoProject repo) <> ProjectSchemaChangeTypeSDL ->
        (length issues <= 1)%nat)
    /\ (err = None ->
        (names = [] \/ names = List.map IssueName issues)
        /\ created = negb (length issues =? 0)%nat
        /\ length activities = length issues)
    /\ (forall e, err = Some e ->
                  names = []
                  /\ (errorStatus e = StatusInternalServerError
                      \/ errorStatus e = StatusForbidden /\ issues = [])).
Proof. apply processFilesInProject_written. Qed.


Lemma processFilesInProject_writes_witness :
  exists issues activities patches,
    snd (processFilesInProject alphaServer onePush alphaRepository
           [shopSchema; shopV2] noEffects)
    = written noEffects issues activities patches
    /\ Forall (issueOfPush (ProjectID alphaRepository)
                 (creatorOf alphaServer onePush) onePush) issues
    /\ (length issues
        <= S (length (List.filter isSchemaFile [shopSchema; shopV2])))%nat
    /\ (SchemaChangeType (RepoProject alphaRepository)
        <> ProjectSchemaChangeTypeSDL ->
        (length issues <= 1)%nat)
    /\ (@None error = None ->
        (["[shop] Alter schema"] = []
         \/ ["[shop] Alter schema"] = List.map IssueName issues)
        /\ true = negb (length issues =? 0)%nat
        /\ length activities = length issues)
    /\ (forall e, None = Some e ->
                  ["[shop] Alter schema"] = []
                  /\ (errorStatus e = StatusInternalServerError
                      \/ errorStatus e = StatusForbidden /\ issues = [])).
Proof.
  apply (processFilesInProject_writes alphaServer onePush alphaRepository
           [shopSchema; shopV2] noEffects _ _ _ []).
  vm_compute. reflexivity.
Defined.


Lemma createIssueFromMigrationDetailList_accepted (s : Server)
    (issueName issueDescription : string) (pushEvent : PushEvent)
    (creatorID projectID : Z) (details : list MigrationDetail)
    (eff : Effects) :
  acceptsAll s ->
  exists activity,
    createIssueFromMigrationDetailList s issueName issueDescription pushEvent
      creatorID projectID details eff
    = (Returns (Ok tt),
       written eff
         [issueCreateOf issueName issueDescription pushEvent creatorID
            projectID details]
         [activity] []).
Proof.
  intros [Hci Hca]. unfold createIssueFromMigrationDetailList, bind,
    doCreateIssue.
  destruct (Hci (issueCreateOf issueName issueDescription pushEvent creatorID
                   projectID details)) as [issue ->].
  unfold doCreateActivity. rewrite Hca. eexists.
  unfold written, ret. cbn. now rewrite app_nil_r.
Qed.

Lemma issueTypeLoop_sdl (details : list MigrationDetail) :
  Forall (fun d => mdMigrationType d = MigrateSDL /\ mdSchemaVersion d = "")
    details ->
  issueTypeLoop details IssueDatabaseDataUpdate = IssueDatabaseDataUpdate.
Proof.
  induction 1 as [|d details [Hd _] _ IH]; [reflexivity|].
  cbn [issueTypeLoop]. rewrite Hd.
  rewrite !bool_decide_eq_false_2 by discriminate. exact IH.
Qed.

(** X14.  In a project of schema change type SDL, a schema file and a
    migration file of one database give two issues, one per file, when the
    store accepts them: first the issue of the schema file, named
    "[<database>] Alter schema", described by the path of the file relative
    to the base directory, holding details of kind [MigrateSDL] only and so
    typed as a data update; then the merged issue of the migration file.
    The created message names both. *)
Theorem processFilesInProject_sdl (s : Server) (pushEvent : PushEvent)
    (repo : Repository) (schemaFile migrateFile : fileInfo) (eff : Effects)
    (sdlDetail details : list MigrationDetail)
    (acts1 acts2 : list ActivityCreate) :
  acceptsAll s ->
  (TenantMode (RepoProject repo) = TenantModeTenant ->
   MultiTenancyEnabled s = true) ->
  SchemaChangeType (RepoProject repo) = ProjectSchemaChangeTypeSDL ->
  CommitList pushEvent <> [] ->
  fType schemaFile = schemaFileType ->
  fType migrateFile <> schemaFileType ->
  (forall e,
      prepareIssueFromSDLFile s repo pushEvent (migrationInfo schemaFile)
        (FileName (item schemaFile)) e
      = (Returns (sdlDetail, acts1), e)) ->
  (forall e,
      prepareIssueFromFile s repo pushEvent migrateFile e
      = (Returns (details, acts2), e)) ->
  sdlDetail <> [] ->
  details <> [] ->
  let database := miDatabase (migrationInfo schemaFile) in
  let schemaIssue :=
    issueCreateOf (issueNameOf database "Alter schema")
      ("Apply schema diff by file "
       ++ TrimPrefix (FileName (item schemaFile)) (BaseDirectory repo ++ "/"))
      pushEvent (creatorOf s pushEvent) (ProjectID repo) sdlDetail in
  let mergedIssue :=
    issueCreateOf (issueNameOf database (migrateTypeLoop details))
      (mergedIssueDescription
         [TrimPrefix (FileName (item migrateFile)) (BaseDirectory repo ++ "/")])
      pushEvent (creatorOf s pushEvent) (ProjectID repo) details in
  let out :=
    processFilesInProject s pushEvent repo [schemaFile; migrateFile] eff in
  createdIssues (snd out)
  = (createdIssues eff ++ [schemaIssue; mergedIssue])%list
  /\ IssueKind schemaIssue = IssueDatabaseDataUpdate
  /\ fst out
     = Returns ([IssueName schemaIssue; IssueName mergedIssue], true,
                (acts1 ++ acts2)%list, None).
Proof.
  intros Hacc Hguard Hsdl Hcommits Hschema Hmig Hprep1 Hprep2 Hd1 Hd2
    database schemaIssue mergedIssue out.
  assert (Hkind : IssueKind schemaIssue = IssueDatabaseDataUpdate).
  { apply issueTypeLoop_sdl.
    exact (proj1 (proj2 (proj2 (proj2
             (prepareIssueFromSDLFile_run _ _ _ _ _ _ _ _ _
                (Hprep1 eff)))))). }
  assert (Hrun : exists activity1 activity2,
             out = (Returns ([IssueName schemaIssue; IssueName mergedIssue],
                             true, (acts1 ++ acts2)%list, None),
                    written eff [schemaIssue; mergedIssue]
                      [activity1; activity2] [])).
  { subst out schemaIssue mergedIssue database. clear Hkind.
    unfold processFilesInProject.
    assert (Hg : bool_decide (TenantMode (RepoProject repo) = TenantModeTenant)
                 && negb (MultiTenancyEnabled s) = false).
    { case_bool_decide as Ht; [|reflexivity]. now rewrite (Hguard Ht). }
    rewrite Hg. unfold creatorOf.
    destruct (CommitList pushEvent) as [|c commits]; [congruence|].
    unfold bind at 1. cbn [lift first]. unfold bind at 1.
    cbn [processFilesLoop].
    rewrite (bool_decide_eq_true_2 _ Hschema).
    rewrite (bool_decide_eq_true_2 _ Hsdl).
    rewrite (bool_decide_eq_false_2 _ Hmig).
    unfold bind at 1. rewrite Hprep1.
    destruct sdlDetail as [|d1 ds1]; [congruence|].
    cbn [length Nat.eqb negb].
    unfold bind at 1.
    destruct (createIssueFromMigrationDetailList_accepted s
                (issueNameOf (miDatabase (migrationInfo schemaFile))
                   "Alter schema")
                ("Apply schema diff by file "
                 ++ TrimPrefix (FileName (item schemaFile))
                      (BaseDirectory repo ++ "/"))
                pushEvent (getIssueCreatorID s (AuthorEmail c))
                (ProjectID repo) (d1 :: ds1) eff Hacc) as [activity1 ->].
    unfold bind at 1. rewrite Hprep2.
    destruct details as [|d2 ds2]; [congruence|].
    cbn [processFilesLoop ret noFiles migrationDetailList activityCreateList
         createdIssueList fileNameList app length Nat.eqb negb].
    unfold mergeIntoIssue. unfold bind at 1.
    cbn [lift first migrationDetailList activityCreateList createdIssueList
         fileNameList].
    unfold bind at 1.
    match goal with
    | |- context [createIssueFromMigrationDetailList s ?n ?d ?pe ?cr ?pid
                    ?ds ?e] =>
        destruct (createIssueFromMigrationDetailList_accepted s n d pe cr pid
                    ds e Hacc) as [activity2 ->]
    end.
    exists activity1, activity2. rewrite written_written. reflexivity. }
  destruct Hrun as (activity1 & activity2 & ->).
  cbn [fst snd written createdIssues].
  split; [reflexivity|]. split; [exact Hkind | reflexivity].
Qed.


Lemma processFilesInProject_sdl_witness :
  let out :=
    processFilesInProject sdlServer onePush sdlRepository [sdlSchema; shopV2]
      noEffects in
  List.map (fun ic => (IssueName ic, IssueKind ic, snd (CreateContext ic)))
    (createdIssues (snd out))
  = [ ("[shop] Alter schema", IssueDatabaseDataUpdate, sdlDetails);
      ("[shop] Alter schema", IssueDatabaseSchemaUpdate, shopV2Details) ]
  /\ fst out
     = Returns (["[shop] Alter schema"; "[shop] Alter schema"], true, [], None).
Proof.
  intros out.
  destruct (processFilesInProject_sdl sdlServer onePush sdlRepository
              sdlSchema shopV2 noEffects sdlDetails shopV2Details [] [])
    as (Hissues & Hkind & Hout).
  - split; [intros ic; eexists; reflexivity | reflexivity].
  - discriminate.
  - reflexivity.
  - discriminate.
  - reflexivity.
  - discriminate.
  - intros e. reflexivity.
  - intros e. reflexivity.
  - discriminate.
  - discriminate.
  - subst out. rewrite Hissues, Hout. split; reflexivity.
Defined.


(** ** Pushes that create nothing *)

Lemma findProjectDatabases_none (s : Server) (projectID : Z)
    (dbName envName : string) :
  FindDatabase (store s) projectID dbName = Ok [] ->
  findProjectDatabases s projectID dbName envName
  = Err (ErrProjectNoDatabase projectID dbName).
Proof. intros H. unfold findProjectDatabases. now rewrite H. Qed.

Section NoDatabase.

Context (s : Server) (pushEvent : PushEvent) (repo : Repository).
Hypothesis Htenant : TenantMode (RepoProject repo) = TenantModeDisabled.
Hypothesis Hnone :
  forall name, FindDatabase (store s) (ProjectID repo) name = Ok [].
Hypothesis Hread :
  forall file e,
    exists r, readFileContent s pushEvent repo file e = (Returns r, e).

Lemma prepareIssueFromFile_no_database (f : fileInfo) (eff : Effects) :
  exists a,
    ignores repo pushEvent f a
    /\ prepareIssueFromFile s repo pushEvent f eff = (Returns ([], [a]), eff).
Proof.
  unfold prepareIssueFromFile, bind.
  destruct (Hread (FileName (item f)) eff) as [r ->].
  destruct r as [content|e].
  - rewrite Htenant, bool_decide_eq_false_2 by discriminate.
    rewrite findProjectDatabases_none by apply Hnone.
    eexists. split; [eexists; reflexivity | reflexivity].
  - eexists. split; [eexists; reflexivity | reflexivity].
Qed.

Lemma prepareIssueFromSDLFile_no_database (f : fileInfo) (eff : Effects) :
  exists acts,
    prepareIssueFromSDLFile s repo pushEvent (migrationInfo f)
      (FileName (item f)) eff
    = (Returns ([], acts), eff)
    /\ if String.eqb (miDatabase (migrationInfo f)) "" then acts = []
       else exists a, ignores repo pushEvent f a /\ acts = [a].
Proof.
  unfold prepareIssueFromSDLFile.
  destruct (String.eqb (miDatabase (migrationInfo f)) "").
  { exists []. now split. }
  unfold bind.
  destruct (Hread (FileName (item f)) eff) as [r ->].
  destruct r as [sdl|e].
  - rewrite Htenant, bool_decide_eq_false_2 by discriminate.
    rewrite findProjectDatabases_none by apply Hnone.
    eexists. split; [reflexivity|]. eexists.
    split; [eexists; reflexivity | reflexivity].
  - eexists. split; [reflexivity|]. eexists.
    split; [eexists; reflexivity | reflexivity].
Qed.

Lemma processFilesLoop_no_database (creatorID : Z) (files : list fileInfo) :
  forall st eff,
    exists acts,
      processFilesLoop s pushEvent repo creatorID files st eff
      = (Returns ({| migrationDetailList := migrationDetailList st;
                     activityCreateList := (activityCreateList st ++ acts)%list;
                     createdIssueList := createdIssueList st;
                     fileNameList := fileNameList st |}, None), eff)
      /\ Forall2 (ignores repo pushEvent) (preparedFiles repo files) acts.
Proof.
  induction files as [|f files IH]; intros st eff;
    cbn [processFilesLoop preparedFiles List.filter].
  { exists []. rewrite app_nil_r. destruct st.
    split; [reflexivity | constructor]. }
  fold (preparedFiles repo files). unfold isSchemaFile at 1.
  destruct (bool_decide (fType f = schemaFileType)).
  - destruct (bool_decide (SchemaChangeType (RepoProject repo)
                           = ProjectSchemaChangeTypeSDL)); cbn [andb];
      [|apply IH].
    unfold bind at 1.
    destruct (prepareIssueFromSDLFile_no_database f eff) as (acts1 & -> & Hacts1).
    cbn [length Nat.eqb negb].
    match goal with
    | |- context [processFilesLoop _ _ _ _ files ?st1 eff] =>
        destruct (IH st1 eff) as (acts & -> & HF)
    end.
    cbn [migrationDetailList activityCreateList createdIssueList fileNameList].
    exists (acts1 ++ acts)%list. rewrite <- app_assoc.
    split; [reflexivity|].
    destruct (String.eqb (miDatabase (migrationInfo f)) ""); cbn [negb].
    + now subst acts1.
    + destruct Hacts1 as (a & Ha & ->). now constructor.
  - unfold bind at 1.
    destruct (prepareIssueFromFile_no_database f eff) as (a & Ha & ->).
    cbn [length Nat.eqb negb].
    match goal with
    | |- context [processFilesLoop _ _ _ _ files ?st1 eff] =>
        destruct (IH st1 eff) as (acts & -> & HF)
    end.
    cbn [migrationDetailList activityCreateList createdIssueList fileNameList].
    exists (a :: acts). rewrite app_nil_r, <- app_assoc.
    split; [reflexivity | now constructor].
Qed.

End NoDatabase.

(** X15.  In a project without tenant mode that has no database, a push
    creates nothing: if reading a file never panics and the push has a
    commit, [processFilesInProject] creates no issue, patches no task and
    records no activity itself; it returns [created = false], no error, and
    exactly one warning activity for each file it prepared (every migration
    file and, in an SDL project, every schema file that names a database),
    in the order of the files. *)
Theorem processFilesInProject_no_database (s : Server)
    (pushEvent : PushEvent) (repo : Repository) (files : list fileInfo)
    (eff : Effects) :
  TenantMode (RepoProject repo) = TenantModeDisabled ->
  CommitList pushEvent <> [] ->
  (forall name, FindDatabase (store s) (ProjectID repo) name = Ok []) ->
  (forall file e,
      exists r, readFileContent s pushEvent repo file e = (Returns r, e)) ->
  exists acts,
    processFilesInProject s pushEvent repo files eff
    = (Returns ([], false, acts, None), eff)
    /\ Forall2 (ignores repo pushEvent) (preparedFiles repo files) acts.
Proof.
  intros Htenant Hcommits Hnone Hread. unfold processFilesInProject.
  rewrite Htenant, bool_decide_eq_false_2 by discriminate. cbn [andb].
  destruct (CommitList pushEvent) as [|c commits]; [congruence|].
  unfold bind at 1. cbn [lift first]. unfold bind at 1.
  destruct (processFilesLoop_no_database s pushEvent repo Htenant Hnone Hread
              (getIssueCreatorID s (AuthorEmail c)) files noFiles eff)
    as (acts & -> & HF).
  exists acts. split; [reflexivity | exact HF].
Qed.

Lemma processFilesInProject_no_database_witness :
  exists acts,
    processFilesInProject emptyAlphaServer onePush alphaRepository
      [shopSchema; shopV2] noEffects
    = (Returns ([], false, acts, None), noEffects)
    /\ Forall2 (ignores alphaRepository onePush)
         (preparedFiles alphaRepository [shopSchema; shopV2]) acts.
Proof.
  apply (processFilesInProject_no_database emptyAlphaServer onePush
           alphaRepository [shopSchema; shopV2] noEffects).
  - reflexivity.
  - discriminate.
  - intros name. reflexivity.
  - intros file e. eexists. reflexivity.
Defined.


(** ** The groups of a push event *)

Lemma sortFilesBySchemaVersion_perm (rt : GoRuntime) (l : list fileInfo) :
  sortsSlices (SortSlice rt) -> sortFilesBySchemaVersion rt l ≡ₚ l.
Proof.
  intros Hsort. unfold sortFilesBySchemaVersion.
  destruct lessBySchemaVersion_strict_weak_order as (H1 & H2 & H3).
  exact (proj1 (Hsort fileInfo lessBySchemaVersion l H1 H2 H3)).
Qed.

Lemma databaseGroups_elem (m : gmap Z (list fileInfo)) (g : list fileInfo) :
  g ∈ databaseGroups m
  <-> exists repoID fs db,
        m !! repoID = Some fs /\ groupFileInfoByDatabase fs !! db = Some g.
Proof.
  unfold databaseGroups. rewrite list_elem_of_In, in_concat. split.
  - intros (gs & Hgs & Hg). apply in_map_iff in Hgs as ([repoID fs] & <- & Hkv).
    apply in_map_iff in Hg as ([db g'] & <- & Hdb).
    apply list_elem_of_In, elem_of_map_to_list in Hkv.
    apply list_elem_of_In, elem_of_map_to_list in Hdb.
    now exists repoID, fs, db.
  - intros (repoID & fs & db & Hm & Hg).
    exists (List.map snd (map_to_list (groupFileInfoByDatabase fs))). split.
    + apply in_map_iff. exists (repoID, fs). split; [reflexivity|].
      now apply list_elem_of_In, elem_of_map_to_list.
    + apply in_map_iff. exists (db, g). split; [reflexivity|].
      now apply list_elem_of_In, elem_of_map_to_list.
Qed.

Lemma groupFileInfoByDatabase_lookup (l : list fileInfo) (db : string) :
  groupFileInfoByDatabase l !! db
  = match List.filter
            (fun f => String.eqb (miDatabase (migrationInfo f)) db) l
    with
    | [] => None
    | g => Some g
    end.
Proof.
  unfold groupFileInfoByDatabase.
  rewrite groupFileInfoByDatabase_fold by (rewrite lookup_empty; discriminate).
  now rewrite lookup_empty.
Qed.

Lemma groupFileInfoByRepo_lookup (s : Server)
    (files : list DistinctFileItem) (repositoryList : list Repository)
    (repoID : Z) :
  groupFileInfoByRepo (plugin s) files repositoryList !! repoID
  = match List.filter (fun t => RepoID (repository t) =? repoID)
            (omap (taskOf s repositoryList) files)
    with
    | [] => None
    | g => Some g
    end.
Proof.
  unfold groupFileInfoByRepo.
  rewrite groupFileInfoByRepoLoop_lookup by (rewrite lookup_empty; discriminate).
  now rewrite lookup_empty.
Qed.

(** Every group that [processPushEvent] visits is a non-empty list of
    accepted files of one database. *)
Lemma databaseGroups_groupFileInfoByRepo (s : Server)
    (files : list DistinctFileItem) (repositoryList : list Repository)
    (g : list fileInfo) :
  g ∈ databaseGroups (groupFileInfoByRepo (plugin s) files repositoryList) ->
  g <> []
  /\ Forall (fun f => exists file, file ∈ files
                                   /\ taskOf s repositoryList file = Some f) g.
Proof.
  intros Hg. apply databaseGroups_elem in Hg as (repoID & fs & db & Hm & Hdb).
  rewrite groupFileInfoByRepo_lookup in Hm.
  rewrite groupFileInfoByDatabase_lookup in Hdb.
  destruct (List.filter _ fs) as [|f1 g1] eqn:Hg1; [discriminate|].
  injection Hdb as <-. split; [discriminate|].
  destruct (List.filter _ (omap _ _)) as [|f2 g2] eqn:Hg2; [discriminate|].
  injection Hm as <-.
  apply Forall_forall. intros f Hf. rewrite <- Hg1 in Hf.
  apply list_elem_of_In, filter_In in Hf as [Hf _].
  rewrite <- Hg2 in Hf. apply filter_In in Hf as [Hf _].
  apply list_elem_of_In, list_elem_of_omap in Hf. exact Hf.
Qed.

Lemma databaseGroups_nil (s : Server) (files : list DistinctFileItem)
    (repositoryList : list Repository) :
  databaseGroups (groupFileInfoByRepo (plugin s) files repositoryList) = []
  <-> omap (taskOf s repositoryList) files = [].
Proof.
  split.
  - intros Hnil.
    destruct (omap (taskOf s repositoryList) files) as [|t ts] eqn:Ht;
      [reflexivity|].
    exfalso.
    assert (Hin : exists g,
               g ∈ databaseGroups
                     (groupFileInfoByRepo (plugin s) files repositoryList)).
    { pose proof (groupFileInfoByRepo_lookup s files repositoryList
                    (RepoID (repository t))) as Hm.
      rewrite Ht in Hm. cbn [List.filter] in Hm.
      rewrite Z.eqb_refl in Hm.
      pose proof (groupFileInfoByDatabase_lookup
                    (t :: List.filter
                            (fun t0 => RepoID (repository t0)
                                       =? RepoID (repository t)) ts)
                    (miDatabase (migrationInfo t))) as Hdb.
      cbn [List.filter] in Hdb. rewrite String.eqb_refl in Hdb.
      eexists. apply databaseGroups_elem. eauto. }
    destruct Hin as [g Hg]. rewrite Hnil in Hg. now apply elem_of_nil in Hg.
  - intros Hnone.
    destruct (databaseGroups _) as [|g gs] eqn:Hgs; [reflexivity|].
    exfalso.
    assert (Hg : g ∈ databaseGroups
                       (groupFileInfoByRepo (plugin s) files repositoryList))
      by (rewrite Hgs; apply list_elem_of_here).
    apply databaseGroups_groupFileInfoByRepo in Hg as [Hne HF].
    destruct g as [|f g]; [congruence|].
    apply Forall_inv in HF as (file & Hfile & Htask).
    assert (Hin : f ∈ omap (taskOf s repositoryList) files)
      by (apply list_elem_of_omap; eauto).
    rewrite Hnone in Hin. now apply elem_of_nil in Hin.
Qed.


Lemma processGroups_tenant_guard (s : Server) (baseVCSPushEvent : PushEvent)
    (g : list fileInfo) (rest : list (list fileInfo))
    (createdMessageList : list (list string)) (eff : Effects) :
  sortsSlices (SortSlice (runtime s)) ->
  MultiTenancyEnabled s = false ->
  g <> [] ->
  Forall (fun f => TenantMode (RepoProject (repository f)) = TenantModeTenant
                   /\ RepoVCS (repository f) <> None) g ->
  processGroups s baseVCSPushEvent (g :: rest) createdMessageList eff
  = (Returns (Err (ErrHTTP StatusForbidden (MultiTenancyAccessErrorMessage s))),
     eff).
Proof.
  intros Hsort Hoff Hne Hg. cbn [processGroups].
  pose proof (sortFilesBySchemaVersion_perm (runtime s) g Hsort) as Hperm.
  destruct (sortFilesBySchemaVersion (runtime s) g) as [|f sorted] eqn:Hs.
  { apply Permutation_nil_l in Hperm. congruence. }
  assert (Hf : f ∈ g) by (rewrite <- Hperm; apply list_elem_of_here).
  destruct (proj1 (Forall_forall _ _) Hg f Hf) as [Htenant Hvcs].
  unfold bind at 1. cbn [lift first]. unfold bind at 1, vcsTypeOf.
  destruct (RepoVCS (repository f)) as [v|]; [|congruence].
  cbn [lift]. unfold bind at 1, processFilesInProject.
  rewrite Htenant, Hoff, bool_decide_eq_true_2 by reflexivity.
  reflexivity.
Qed.

(** X16.  When the multi-tenancy feature is off and all repositories of a
    push are tenant-mode projects (with a VCS), the push creates nothing:
    if the diff between the two commits can be listed, [processPushEvent]
    fails with 403 as soon as one changed file of the diff belongs to one of
    the repositories, and returns no message otherwise; in both cases
    nothing is created, recorded or patched. *)
Theorem processPushEvent_tenant_guard (s : Server) (repo : Repository)
    (repos : list Repository) (baseVCSPushEvent : PushEvent) (v : VCS)
    (diff : list string) (eff : Effects) :
  sortsSlices (SortSlice (runtime s)) ->
  MultiTenancyEnabled s = false ->
  Forall (fun r => TenantMode (RepoProject r) = TenantModeTenant
                   /\ RepoVCS r <> None) (repo :: repos) ->
  RepoVCS repo = Some v ->
  GetDiffFileList (provider s) (VCSKind v) (ExternalID repo)
    (Before baseVCSPushEvent) (After baseVCSPushEvent) = Ok diff ->
  let changed :=
    List.filter
      (fun file => existsb (fun d => String.eqb (FileName file) d) diff)
      (GetDistinctFileList (codec s) baseVCSPushEvent) in
  processPushEvent s (repo :: repos) baseVCSPushEvent eff
  = (Returns
       match omap (taskOf s (repo :: repos)) changed with
       | [] => Ok []
       | _ =>
           Err (ErrHTTP StatusForbidden (MultiTenancyAccessErrorMessage s))
       end,
     eff).
Proof.
  intros Hsort Hoff Hall Hv Hdiff changed. unfold processPushEvent.
  destruct (length (GetDistinctFileList (codec s) baseVCSPushEvent) =? 0)%nat
    eqn:Hlen.
  { subst changed.
    destruct (GetDistinctFileList (codec s) baseVCSPushEvent);
      [reflexivity | discriminate]. }
  unfold bind at 1, filterFilesByCommitsDiff, bind at 1, vcsTypeOf.
  rewrite Hv. cbn [lift]. rewrite Hdiff. cbn [ret]. fold changed.
  destruct (databaseGroups
              (groupFileInfoByRepo (plugin s) changed (repo :: repos)))
    as [|g groups] eqn:Hgroups.
  - apply databaseGroups_nil in Hgroups. now rewrite Hgroups.
  - assert (Hg : g ∈ databaseGroups
                         (groupFileInfoByRepo (plugin s) changed
                            (repo :: repos)))
      by (rewrite Hgroups; apply list_elem_of_here).
    apply databaseGroups_groupFileInfoByRepo in Hg as [Hne HF].
    destruct (omap (taskOf s (repo :: repos)) changed) as [|t ts] eqn:Htasks.
    { apply databaseGroups_nil in Htasks. congruence. }
    apply processGroups_tenant_guard; [exact Hsort | exact Hoff | exact Hne |].
    eapply Forall_impl; [exact HF|].
    intros f (file & _ & Htask). apply taskOf_Some in Htask as [_ Hin].
    exact (proj1 (Forall_forall _ _) Hall _ Hin).
Qed.


Lemma processPushEvent_tenant_guard_witness :
  processPushEvent tenantServer [sqlDirectoryRepository] onePush noEffects
  = (Returns (Err (ErrHTTP 403 "multi-tenancy is not enabled")), noEffects).
Proof.
  apply (processPushEvent_tenant_guard tenantServer sqlDirectoryRepository []
           onePush githubVCS ["bytebase.sql/prod/shop##v1.sql"] noEffects).
  - apply insertionSort_sortsSlices.
  - reflexivity.
  - constructor; [|constructor]. split; [reflexivity | discriminate].
  - reflexivity.
  - reflexivity.
Defined.


Lemma recordIgnoredActivities_written (s : Server)
    (activityCreateList : list ActivityCreate) :
  forall eff,
    exists recorded,
      recordIgnoredActivities s activityCreateList eff
      = (Returns tt, written eff [] recorded [])
      /\ recorded `sublist_of` activityCreateList.
Proof.
  induction activityCreateList as [|a l IH]; intros eff;
    cbn [recordIgnoredActivities].
  { exists []. now rewrite written_nil. }
  unfold bind at 1, doCreateActivity.
  destruct (CreateActivity s a) as [u|e].
  - match goal with
    | |- context [recordIgnoredActivities s l ?e1] =>
        destruct (IH e1) as (recorded & -> & Hsub)
    end.
    exists (a :: recorded). split; [|now constructor].
    unfold written. cbn. now rewrite !app_nil_r, <- app_assoc.
  - destruct (IH eff) as (recorded & -> & Hsub).
    exists recorded. split; [reflexivity | now constructor].
Qed.

Lemma processGroups_written (s : Server) (baseVCSPushEvent : PushEvent)
    (repositoryList : list Repository) (groups : list (list fileInfo)) :
  sortsSlices (SortSlice (runtime s)) ->
  Forall (fun g => Forall (fun f => repository f ∈ repositoryList) g) groups ->
  forall createdMessageList eff r eff',
    processGroups s baseVCSPushEvent groups createdMessageList eff
    = (Returns r, eff') ->
    exists issues activities patches,
      eff' = written eff issues activities patches
      /\ Forall (issueOfPushIn s baseVCSPushEvent repositoryList) issues
      /\ (forall msgs,
             r = Ok msgs ->
             exists new,
               msgs = (createdMessageList ++ new)%list
               /\ List.concat new `sublist_of` List.map IssueName issues)
      /\ (forall e, r = Err e ->
                    errorStatus e = StatusInternalServerError
                    \/ errorStatus e = StatusForbidden).
Proof.
  intros Hsort. induction 1 as [|g groups Hg _ IH];
    intros acc eff r eff'; cbn [processGroups].
  { intros [= <- <-]. exists [], [], []. rewrite written_nil.
    split; [reflexivity|]. split; [constructor|]. split; [|discriminate].
    intros msgs [= <-]. exists []. rewrite app_nil_r.
    split; [reflexivity | constructor]. }
  pose proof (sortFilesBySchemaVersion_perm (runtime s) g Hsort) as Hperm.
  destruct (sortFilesBySchemaVersion (runtime s) g) as [|f sorted] eqn:Hs;
    [discriminate|].
  assert (Hf : repository f ∈ repositoryList).
  { apply (proj1 (Forall_forall _ _) Hg). rewrite <- Hperm.
    apply list_elem_of_here. }
  unfold bind at 1. cbn [lift first]. unfold bind at 1, vcsTypeOf.
  destruct (RepoVCS (repository f)) as [v|] eqn:Hv; [|discriminate].
  cbn [lift]. unfold bind at 1.
  fold (pushEventIn baseVCSPushEvent (VCSKind v) (repository f)).
  destruct (processFilesInProject s _ (repository f) (f :: sorted) eff)
    as [[[[[names created] acts] err]|w] eff1] eqn:Hrun; [|discriminate].
  apply processFilesInProject_written in Hrun
    as (issues1 & activities1 & patches1 & -> & HP1 & _ & _ & Hnone & Hsome).
  assert (HP1' : Forall (issueOfPushIn s baseVCSPushEvent repositoryList)
                   issues1).
  { eapply Forall_impl; [exact HP1|]. intros ic Hic.
    exists (repository f), v. split; [exact Hf|]. split; [exact Hv|].
    exact Hic. }
  destruct err as [e|].
  { intros [= <- <-]. exists issues1, activities1, patches1.
    split; [reflexivity|]. split; [exact HP1'|]. split; [discriminate|].
    intros e' [= <-]. destruct (Hsome e eq_refl) as [_ [H500 | [H403 _]]];
      auto. }
  destruct (Hnone eq_refl) as (Hnames & Hcreated & _).
  assert (Hsub : names `sublist_of` List.map IssueName issues1).
  { destruct Hnames as [-> | ->]; [apply sublist_nil_l | reflexivity]. }
  destruct created.
  - intros Hrest. apply IH in Hrest
      as (issues & activities & patches & -> & HP & Hok & Herr).
    exists (issues1 ++ issues)%list, (activities1 ++ activities)%list,
      (patches1 ++ patches)%list.
    rewrite written_written. split; [reflexivity|].
    split; [now apply Forall_app|]. split; [|exact Herr].
    intros msgs Hr. destruct (Hok msgs Hr) as (new & -> & Hnew).
    exists (names :: new). rewrite <- app_assoc. split; [reflexivity|].
    cbn [List.concat]. rewrite map_app. now apply sublist_app.
  - unfold bind at 1.
    destruct (recordIgnoredActivities_written s acts
                (written eff issues1 activities1 patches1))
      as (recorded & -> & _).
    intros Hrest. apply IH in Hrest
      as (issues & activities & patches & -> & HP & Hok & Herr).
    rewrite !written_written. cbn [app].
    exists (issues1 ++ issues)%list,
      (activities1 ++ recorded ++ activities)%list,
      (patches1 ++ patches)%list.
    split; [reflexivity|].
    split; [now apply Forall_app|]. split; [|exact Herr].
    intros msgs Hr. destruct (Hok msgs Hr) as (new & -> & Hnew).
    exists new. split; [reflexivity|]. rewrite map_app.
    now apply sublist_inserts_l.
Qed.


(** X17.  Whatever [processPushEvent] returns (with a [sort.Slice] that
    keeps its promise), it has only added to what was written before, and
    every issue it has created belongs to the project of one of the
    repositories it was given: the issue is created by the author of the
    first commit (the system bot if unknown), assigned to the system bot,
    holds at least one migration detail and carries the push event with the
    VCS type and the base directory of that repository.  The messages it
    returns name created issues only, in the order of creation. *)
Theorem processPushEvent_writes (s : Server)
    (repositoryList : list Repository) (baseVCSPushEvent : PushEvent)
    (eff eff' : Effects) (r : result (list (list string))) :
  sortsSlices (SortSlice (runtime s)) ->
  processPushEvent s repositoryList baseVCSPushEvent eff = (Returns r, eff') ->
  exists issues activities patches,
    eff' = written eff issues activities patches
    /\ Forall (issueOfPushIn s baseVCSPushEvent repositoryList) issues
    /\ (forall msgs,
           r = Ok msgs ->
           List.concat msgs `sublist_of` List.map IssueName issues).
Proof.
  intros Hsort. unfold processPushEvent.
  assert (Hnothing : forall r0 : result (list (list string)),
             (forall msgs, r0 = Ok msgs -> msgs = []) ->
             (Returns r0, eff) = (Returns r, eff') ->
             exists issues activities patches,
               eff' = written eff issues activities patches
               /\ Forall (issueOfPushIn s baseVCSPushEvent repositoryList)
                    issues
               /\ (forall msgs,
                      r = Ok msgs ->
                      List.concat msgs `sublist_of` List.map IssueName issues)).
  { intros r0 Hr0 [= <- <-]. exists [], [], []. rewrite written_nil.
    split; [reflexivity|]. split; [constructor|].
    intros msgs Hm. rewrite (Hr0 msgs Hm). constructor. }
  destruct repositoryList as [|repo repos]; [apply Hnothing; discriminate|].
  destruct (length _ =? 0)%nat;
    [apply Hnothing; now intros msgs [= <-]|].
  unfold bind at 1, filterFilesByCommitsDiff, bind at 1.
  destruct (vcsTypeOf repo) as [ty|w]; [|discriminate]. cbn [lift].
  destruct (GetDiffFileList _ _ _ _ _) as [diff|e];
    [|apply Hnothing; discriminate].
  cbn [ret]. intros Hrun.
  eapply processGroups_written in Hrun; [|exact Hsort|].
  - destruct Hrun as (issues & activities & patches & -> & HP & Hok & _).
    exists issues, activities, patches. split; [reflexivity|].
    split; [exact HP|]. intros msgs Hm.
    destruct (Hok msgs Hm) as (new & -> & Hnew). exact Hnew.
  - apply Forall_forall. intros g Hg.
    apply databaseGroups_groupFileInfoByRepo in Hg as [_ HF].
    eapply Forall_impl; [exact HF|].
    intros f (file & _ & Htask). now apply taskOf_Some in Htask as [_ Hin].
Qed.

Lemma processPushEvent_writes_witness :
  exists issues activities patches,
    snd (processPushEvent
           (serverOf (storeOf [alphaRepository] [shopDev; shopProd])
              (diffProvider ["db/v2__shop.sql"]) overlapPlugin
              (pushCodecOf [plainFile]))
           [alphaRepository] onePush noEffects)
    = written noEffects issues activities patches
    /\ Forall (issueOfPushIn
                 (serverOf (storeOf [alphaRepository] [shopDev; shopProd])
                    (diffProvider ["db/v2__shop.sql"]) overlapPlugin
                    (pushCodecOf [plainFile]))
                 onePush [alphaRepository]) issues
    /\ (forall msgs,
           Ok [["[shop] Alter schema"]] = Ok msgs ->
           List.concat msgs `sublist_of` List.map IssueName issues).
Proof.
  apply (processPushEvent_writes
           (serverOf (storeOf [alphaRepository] [shopDev; shopProd])
              (diffProvider ["db/v2__shop.sql"]) overlapPlugin
              (pushCodecOf [plainFile]))
           [alphaRepository] onePush noEffects).
  - apply insertionSort_sortsSlices.
  - vm_compute. reflexivity.
Defined.


(** ** The GitHub report *)

Lemma convertSQLAdiceToGitHubActionResult_spec
    (adviceMap : gmap string (list Advice)) :
  convertSQLAdiceToGitHubActionResult adviceMap
  = {| ResultStatus := worst (countedStatuses adviceMap);
       ResultContent :=
         List.concat
           (List.map (githubLines adviceMap) (sortedFileList adviceMap)) |}.
Proof.
  unfold convertSQLAdiceToGitHubActionResult.
  now rewrite githubFileLoop_spec.
Qed.

Lemma ContainsByte_app (s t : string) (c : ascii) :
  ContainsByte (s ++ t) c = ContainsByte s c || ContainsByte t c.
Proof.
  induction s as [|a s IH]; [reflexivity|].
  rewrite append_cons. cbn [ContainsByte]. now rewrite IH, orb_assoc.
Qed.

Lemma ReplaceNewlines_no_newline (s : string) :
  ContainsByte (ReplaceNewlines s) "010" = false.
Proof.
  induction s as [|c s IH]; [reflexivity|]. cbn [ReplaceNewlines].
  destruct (Ascii.eqb c "010") eqn:Hc.
  - rewrite ContainsByte_app, IH. reflexivity.
  - cbn [ContainsByte]. now rewrite Hc, IH.
Qed.

(** X18.  Every line of the GitHub report is a single line: no element of
    the content contains a newline character (the newlines of the advice
    contents are written as [%0A]). *)
Theorem convertSQLAdiceToGitHubActionResult_single_lines
    (adviceMap : gmap string (list Advice)) :
  Forall (fun line => ContainsByte line "010" = false)
    (ResultContent (convertSQLAdiceToGitHubActionResult adviceMap)).
Proof.
  rewrite convertSQLAdiceToGitHubActionResult_spec. cbn [ResultContent].
  apply Forall_forall. intros line Hline.
  apply list_elem_of_In, in_concat in Hline as (lines & Hlines & Hline).
  apply in_map_iff in Hlines as (filePath & <- & _).
  unfold githubLines in Hline.
  apply in_map_iff in Hline as (advice & <- & _).
  apply ReplaceNewlines_no_newline.
Qed.

Lemma worst_Success (l : list Status) :
  worst l = Success <-> Forall (fun s => s = Success) l.
Proof.
  destruct (worst_spec l) as [Hmax Hin]. split.
  - intros Hw. apply Forall_forall. intros s Hs.
    specialize (Hmax s Hs). rewrite Hw in Hmax.
    destruct s; cbn in Hmax; [reflexivity | lia | lia].
  - intros Hall. destruct Hin as [Hw|Hw]; [exact Hw|].
    exact (proj1 (Forall_forall _ _) Hall _ Hw).
Qed.

(** X19.  The status of the GitHub report is success exactly when the
    report has no line: each line stands for an advice with a non-zero code
    and a status other than success, and the status is the most severe one
    among the advices with a non-zero code. *)
Theorem convertSQLAdiceToGitHubActionResult_success
    (adviceMap : gmap string (list Advice)) :
  ResultStatus (convertSQLAdiceToGitHubActionResult adviceMap) = Success
  <-> ResultContent (convertSQLAdiceToGitHubActionResult adviceMap) = [].
Proof.
  rewrite convertSQLAdiceToGitHubActionResult_spec.
  cbn [ResultStatus ResultContent]. rewrite worst_Success.
  unfold countedStatuses.
  induction (sortedFileList adviceMap) as [|filePath files IH];
    cbn [List.map List.concat]; [split; [reflexivity | constructor]|].
  rewrite Forall_app, IH.
  assert (Hfile : Forall (fun s => s = Success)
                    (countedStatusesOf adviceMap filePath)
                  <-> githubLines adviceMap filePath = []).
  { unfold countedStatusesOf, githubLines.
    induction (default [] (adviceMap !! filePath)) as [|advice l IHl];
      cbn [List.filter List.map]; [split; [reflexivity | constructor]|].
    destruct (counted advice); cbn [andb List.map]; [|exact IHl].
    case_bool_decide as Hs; cbn [negb List.map].
    - rewrite Forall_cons. rewrite IHl. tauto.
    - split; [|discriminate]. intros H. apply Forall_inv in H. congruence. }
  rewrite Hfile. split.
  - now intros [-> ->].
  - intros H. now apply app_eq_nil in H.
Qed.


(** ** The review of one file *)

(** X20.  [sqlAdviceForFile] reviews a file against the first candidate
    database whose environment has a SQL-review policy: the databases before
    it, whose environments have none, and all the databases after it play no
    part.  When that database has a policy and its engine type, catalog,
    driver and connection are obtained, the result is what the review engine
    gives for the content of the file, the rules of that policy and that
    database: its advice list, or its error as the error of the SQL check of
    that database.  When no environment has a policy the review is no error
    but the single warning "SQL review policy not found". *)
Theorem reviewLoop_first_policy (s : Server) (fileContent : string)
    (pre post : list Database) (database : Database) :
  Forall (withoutPolicy s) pre ->
  (~ withoutPolicy s database ->
   reviewLoop s fileContent (pre ++ database :: post)
   = reviewLoop s fileContent [database])
  /\ (forall ruleList,
         GetNormalSQLReviewPolicy (store s) (envIDOf database)
         = PolicyFound ruleList ->
         is_Ok (ConvertToAdvisorDBType (engine s)
                  (Engine (DatabaseInstance database))) = true ->
         is_Ok (NewCatalog (store s) (DatabaseID database)
                  (Engine (DatabaseInstance database))) = true ->
         is_Ok (GetReadOnlyDatabaseDriver (engine s) database) = true ->
         is_Ok (GetDBConnection (engine s) database) = true ->
         reviewLoop s fileContent (pre ++ database :: post)
         = match SQLReviewCheck (engine s) fileContent ruleList database with
           | Ok adviceList => Ok adviceList
           | Err err => Err (ErrSQLCheck (DatabaseID database) err)
           end)
  /\ (exists advice,
         reviewLoop s fileContent pre = Ok (Some [advice])
         /\ AdviceStatus advice = Warn
         /\ AdviceCode advice = AdvisorNotFound
         /\ AdviceTitle advice = "SQL review policy not found").
Proof.
  intros Hpre. split; [|split].
  - intros Hd. induction Hpre as [|d0 pre [e He] _ IH].
    + cbn [app reviewLoop].
      destruct (GetNormalSQLReviewPolicy (store s) (envIDOf database))
        as [rules|e|e] eqn:Hp; [reflexivity | | reflexivity].
      destruct Hd. now exists e.
    + cbn [app reviewLoop]. now rewrite He.
  - intros ruleList Hpolicy Hty Hcatalog Hdriver Hconn.
    induction Hpre as [|d0 pre [e He] _ IH].
    + cbn [app reviewLoop]. rewrite Hpolicy.
      destruct (ConvertToAdvisorDBType _ _); [|discriminate].
      destruct (NewCatalog _ _ _); [|discriminate].
      destruct (GetReadOnlyDatabaseDriver _ _); [|discriminate].
      destruct (GetDBConnection _ _); [|discriminate].
      reflexivity.
    + cbn [app reviewLoop]. now rewrite He.
  - induction Hpre as [|d0 pre [e He] _ IH].
    + eexists. cbn [reviewLoop]. split; [reflexivity|]. now repeat split.
    + cbn [reviewLoop]. now rewrite He.
Qed.

Lemma reviewLoop_first_policy_witness :
  reviewLoop namingServer "CREATE TABLE t(a INT);"
    ([shopDev] ++ shopProd :: [shopDevCopy])
  = Ok (Some [codedWarning]).
Proof.
  apply (proj1 (proj2 (reviewLoop_first_policy namingServer
                         "CREATE TABLE t(a INT);" [shopDev] [shopDevCopy]
                         shopProd
                         ltac:(constructor;
                               [eexists; reflexivity | constructor])))
           ["naming.table"]);
    reflexivity.
Defined.


(** ** The GitHub signature *)

Lemma SHA256_round_length (st : list SHA256.word) (kw : SHA256.word * SHA256.word) :
  length (SHA256.round st kw) = length st.
Proof.
  unfold SHA256.round.
  destruct st as [|a [|b [|c [|d [|e [|f [|g [|h [|i st]]]]]]]]]; reflexivity.
Qed.

Lemma SHA256_compress_length (h block : list SHA256.word) :
  length (SHA256.compress h block) = length h.
Proof.
  unfold SHA256.compress. rewrite length_map, length_combine.
  assert (Hst : forall l st, length (fold_left SHA256.round l st) = length st).
  { induction l as [|kw l IH]; intros st; [reflexivity|].
    cbn [fold_left]. now rewrite IH, SHA256_round_length. }
  rewrite Hst. lia.
Qed.

Lemma SHA256_sum_length (msg : list N) : length (SHA256.sum msg) = 32%nat.
Proof.
  unfold SHA256.sum.
  set (bs := SHA256.blocks _ _).
  assert (Hh : forall bs h, length h = 8%nat ->
                            length (fold_left SHA256.compress bs h) = 8%nat).
  { clear. induction bs as [|b bs IH]; intros h Hh; [exact Hh|].
    cbn [fold_left]. apply IH. now rewrite SHA256_compress_length. }
  specialize (Hh bs SHA256.H0 eq_refl).
  destruct (fold_left SHA256.compress bs SHA256.H0)
    as [|a [|b [|c [|d [|e [|f [|g [|h [|i l]]]]]]]]]; try discriminate.
  reflexivity.
Qed.

Lemma HMACSHA256_length (key body : string) :
  String.length (HMACSHA256 key body) = 32%nat.
Proof.
  unfold HMACSHA256, SHA256.hmac, SHA256.stringOf.
  set (digest := SHA256.sum _).
  assert (Hlen : forall l, String.length (string_of_list_ascii l) = length l).
  { induction l as [|c l IH]; [reflexivity|]. cbn. now rewrite IH. }
  rewrite Hlen, length_map. apply SHA256_sum_length.
Qed.

Lemma EncodeToString_length (src : string) :
  String.length (EncodeToString src) = (2 * String.length src)%nat.
Proof.
  induction src as [|c src IH]; [reflexivity|].
  cbn [EncodeToString String.length]. rewrite IH. lia.
Qed.

Lemma hexDigit_lower (n : N) : isLowerHex (hexDigit n) = true.
Proof.
  destruct n as [|p]; [reflexivity|].
  do 4 (destruct p as [p|p|]; try reflexivity).
Qed.

Lemma EncodeToString_lower (src : string) :
  allLowerHex (EncodeToString src) = true.
Proof.
  induction src as [|c src IH]; [reflexivity|].
  cbn [EncodeToString allLowerHex]. now rewrite !hexDigit_lower, IH.
Qed.

(** X21.  A signature that [validateGitHubWebhookSignature256] accepts
    consists, after its optional prefix [sha256=], of exactly 64 lower-case
    hexadecimal digits: a truncated digest, or the right digest written in
    upper case, is refused. *)
Theorem validateGitHubWebhookSignature256_shape
    (signature key body : string) :
  validateGitHubWebhookSignature256 signature key body = Ok true ->
  String.length (TrimPrefix signature "sha256=") = 64%nat
  /\ allLowerHex (TrimPrefix signature "sha256=") = true.
Proof.
  rewrite validateGitHubWebhookSignature256_spec. intros [= Hv].
  apply bool_decide_eq_true_1 in Hv. rewrite Hv. split.
  - now rewrite EncodeToString_length, HMACSHA256_length.
  - apply EncodeToString_lower.
Qed.

Lemma validateGitHubWebhookSignature256_shape_witness :
  String.length
    (TrimPrefix
       "sha256=757107ea0eb2509fc211221cce984b8a37570b6d7586c22c46f4379c8b043e17"
       "sha256=") = 64%nat
  /\ allLowerHex
       (TrimPrefix
          "sha256=757107ea0eb2509fc211221cce984b8a37570b6d7586c22c46f4379c8b043e17"
          "sha256=") = true.
Proof.
  apply (validateGitHubWebhookSignature256_shape
           "sha256=757107ea0eb2509fc211221cce984b8a37570b6d7586c22c46f4379c8b043e17"
           "It's a Secret to Everybody" "Hello, World!").
  vm_compute. reflexivity.
Defined.


(** ** Malformed branch filters *)

Lemma matchChunkLoop_unfinished (p bad : string) :
  noMeta p = true ->
  bad = "\" \/ bad = "[" ->
  forall (fuel : nat) (s : string) (failed : bool),
    (String.length p + 1 < fuel)%nat ->
    matchChunkLoop fuel (p ++ bad) s failed = Some (Err ErrBadPattern).
Proof.
  intros Hp Hbad. induction p as [|c p IH]; intros fuel s failed Hf.
  - destruct fuel as [|[|fuel]]; [cbn in Hf; lia | cbn in Hf; lia |].
    destruct Hbad as [-> | ->].
    + reflexivity.
    + rewrite append_nil_l. cbn [matchChunkLoop].
      replace (Ascii.eqb "[" "[") with true by reflexivity.
      destruct (if failed || (String.length s =? 0)%nat
                then (0%N, s)
                else let '(r, n) := DecodeRuneInString s in
                     (r, dropString n s)) as [r s1].
      reflexivity.
  - apply noMeta_cons in Hp as [Hc Hp].
    apply isMeta_false in Hc as (Hs & Hq & Hb & He).
    destruct fuel as [|fuel]; [cbn in Hf; lia|].
    cbn [String.length] in Hf. rewrite append_cons.
    cbn [matchChunkLoop]. rewrite Hb, Hq, He.
    destruct s as [|a s].
    + apply IH; [exact Hp | lia].
    + destruct (failed || _); apply IH; solve [exact Hp | lia].
Qed.

Lemma scanLoop_unfinished (p bad : string) :
  noMeta p = true ->
  bad = "\" \/ bad = "[" ->
  scanLoop false (p ++ bad) = (p ++ bad, "").
Proof.
  intros Hp Hbad. induction p as [|c p IH].
  - destruct Hbad as [-> | ->]; reflexivity.
  - apply noMeta_cons in Hp as [Hc Hp].
    apply isMeta_false in Hc as (Hs & _ & Hb & He).
    rewrite append_cons. cbn [scanLoop]. rewrite He, Hb, Hs. cbn [andb].
    destruct (Ascii.eqb c "]"); now rewrite (IH Hp).
Qed.

Lemma Match_unfinished (p bad name : string) :
  noMeta p = true ->
  bad = "\" \/ bad = "[" ->
  Match (p ++ bad) name = Some (Err ErrBadPattern).
Proof.
  intros Hp Hbad. unfold Match. cbn [MatchLoop].
  assert (Hlen : String.length (p ++ bad) = S (String.length p))
    by (rewrite length_append; destruct Hbad as [-> | ->]; cbn; lia).
  rewrite Hlen. cbn [Nat.eqb].
  assert (Hstars : skipStars (p ++ bad) = (false, p ++ bad)).
  { destruct p as [|c p].
    - destruct Hbad as [-> | ->]; reflexivity.
    - apply noMeta_cons in Hp as [Hc _].
      apply isMeta_false in Hc as (Hs & _). rewrite append_cons.
      cbn [skipStars]. now rewrite Hs. }
  unfold scanChunk. rewrite Hstars, (scanLoop_unfinished _ _ Hp Hbad).
  cbn [andb]. unfold matchChunk.
  rewrite (matchChunkLoop_unfinished _ _ Hp Hbad) by lia.
  reflexivity.
Qed.

(** X22.  A branch filter that ends in an unfinished escape or character
    class (a plain text followed by a single backslash or an opening
    bracket) matches no branch and rejects none: for every branch ref
    [isWebhookEventBranch] fails with the bad-pattern error of
    [filepath.Match], which is no HTTP error and is therefore answered with
    status 500. *)
Theorem isWebhookEventBranch_malformed_filter (p bad branch : string) :
  noMeta p = true ->
  bad = "\" \/ bad = "[" ->
  branch <> "" ->
  isWebhookEventBranch (expectedPrefix ++ branch) (p ++ bad)
  = Err (ErrWrap ErrBadPattern "failed to match branch filter")
  /\ errorStatus (ErrWrap ErrBadPattern "failed to match branch filter")
     = StatusInternalServerError.
Proof.
  intros Hp Hbad Hbranch. split; [|reflexivity].
  unfold isWebhookEventBranch.
  rewrite (parseBranchNameFromRefs_heads _ Hbranch).
  unfold filepathMatch. now rewrite (Match_unfinished _ _ _ Hp Hbad).
Qed.

Lemma isWebhookEventBranch_malformed_filter_witness :
  isWebhookEventBranch "refs/heads/main" "release["
  = Err (ErrWrap ErrBadPattern "failed to match branch filter")
  /\ errorStatus (ErrWrap ErrBadPattern "failed to match branch filter") = 500.
Proof.
  apply (isWebhookEventBranch_malformed_filter "release" "[" "main");
    [reflexivity | now right | discriminate].
Defined.
